(* ===== verification/_CoqProject ===== *)
-Q . S2P
Prelude.v
Js.v
JsNumber.v
Url.v
Base64.v
Directory.v
Server.v
PushSender.v
LineSender.v
EmailSender.v
Dispatch.v
DashMachine.v
System.v
PushModule.v
Auth.v
OAuth.v
OAuthStart.v
Api.v
Site.v
Pages.v
View.v
Supabase.v
