(* ===== verification/Prelude.v ===== *)
(** * A verification development of the notification dashboard

    The program (under [src/src]) is a Next.js application with which an
    operator sends one message to selected users over three channels:
    e-mail through the Gmail API, LINE through the Messaging API's
    multicast, and browser push through the Web Push protocol.
    - [app/page.tsx] ([Home]) reads the [User] table newest first and
      hands a projection of the rows to the client component.
    - [components/DashboardClient.tsx] holds the form state (message,
      selection, channels, schedule, notification, logout modal), its
      event handlers, and [handleSubmit], which validates the form and
      then [fetch]es the three routes in turn: one LINE multicast, one
      e-mail request per e-mail target, one push request per push target.
    - [app/api/notifications/line/route.ts], [.../google/route.ts] and
      [.../subscribe/route.ts] are the three senders; the push sender
      deletes subscriptions the push service reports gone (404/410).
    - The registration page's [urlBase64ToUint8Array] decodes base64url,
      the format the Gmail route encodes its messages in.
    - Authentication: [middleware.ts] gates the pages on a [session]
      cookie; the login and register routes ([app/api/auth/...]) and the
      server actions ([app/actions/auth.ts]) manage credentials with
      bcrypt; the Google and LINE start routes send the browser to the
      providers with their options serialized by [URLSearchParams], and
      the callbacks, reading the [code] back from their query, link an
      OAuth identity to an existing row; the login and registration pages drive them, and the
      registration page also asks the browser for a push subscription.

    ** Files
    - [Prelude] (this file): the state-and-exception monad [StE] in which
      every [async] function that reads or writes shared state and may
      [throw] is written ([try]/[catch] keep the state changes made
      before the throw, as JavaScript does), its laws, the loop
      combinator [st_for] ([for (const x of xs) await body(x)]), the
      notations [throw e] and [try m catch h] ([js_scope]), hint
      databases and the list and string lemmas shared by the components;
      and the program logics over [StE]: [preserves R m] (the state
      moves along the preorder [R]), [post P m] (partial correctness),
      [outcome Q P m] (partial correctness with the raised errors in
      [Q]) and [returns P m] (total correctness: [m] returns, without
      raising, a value in [P]), each with its rules for [mret], [throw],
      bind and [try]/[catch].
    - [Js]: the JavaScript primitives the handlers call, on strings held
      as their UTF-8 bytes: truthiness, [||] defaults, [includes],
      [trim] (ASCII and Unicode white space), [toString] of an integer,
      and the digit readers of [parseInt] and [Number].
    - [JsNumber]: JavaScript numbers as IEEE 754 doubles ([Num]: NaN,
      infinities, signed zeros, finite [m * 2^e]) with rounding to
      nearest, ties to even, gradual underflow and overflow;
      [parseInt(userId)] of the e-mail route and [Number(userId)] of the
      push route (the whole StringToNumber grammar: white space,
      [Infinity], decimal literals with fraction and exponent, [0x],
      [0o], [0b]); Prisma's [Int] filter ([prisma_int]: an integral value
      in the 32-bit range, else the query throws).
    - [Url]: [URLSearchParams]' form-urlencoded serialization and the
      URL query parser behind [searchParams.get].
    - [Base64]: [Buffer.toString("base64")] (RFC 4648) on bytes, the
      base64url rewrite of the Gmail route, and [urlBase64ToUint8Array]
      with the WHATWG forgiving-base64 [atob]; the round trip theorem.
    - [Directory]: the [User] row (Prisma model), the page's projection
      [formatUser] and [Home], and the dashboard's channel filters and
      checkbox counts.
    - [Server]: the world the routes share ([World]: the [User] and
      [PushSubscription] tables as [gmap]s keyed by primary key, and the
      log of outbound calls in order), the request bodies, the JSON
      responses, and the deployment as the typeclass [Env] (environment
      variables and the three providers as functions of the request).
    - [PushSender], [LineSender], [EmailSender]: the three route
      handlers ([POST]) written over [Srv := StE World string], each
      with the lemma giving its result and effect on every branch.
    - [Dispatch]: the dashboard's state ([DashState], one field per
      [useState]), its event step [ui_step], [handleSubmit] written
      against the interface [Routes] (a typeclass of the three
      handlers) with the laws [RoutesLaws], and the state machine
      [reachable] of mounting, form events and submissions.
    - [DashMachine]: the dashboard while dispatches are in flight: form
      events go on (only the submit button is disabled), each dispatch
      works on the state its closure captured, and its settling applies
      its updates to the state as it is then; [handleSubmit] is the run
      with no event during the flight.
    - [System]: the instance of [Routes] by the three real handlers, the
      proof that it satisfies [RoutesLaws], and the end-to-end theorems
      of a dispatch.
    - [PushModule]: the push route's module, whose top level calls
      web-push's [setVapidDetails] (the class [WebPushVapid]) with the
      environment's VAPID variables; the route as loaded, and the
      dashboard wired to it ([deployed]).
    - [Auth]: the session gate ([middleware] and its [matcher]), the
      cookie operations a response carries, the server actions, bcrypt as
      the typeclass [Hasher] (its law: only the first 72 bytes of a
      password count), unique lookups ([find_unique]), the [create] of a
      registration with its unique constraint ([create_user]), and the
      login and register routes, the latter also as its two stages
      around the [await] of its check ([register_check],
      [register_finish]).
    - [OAuth]: the Google and LINE callbacks, with the providers' token
      and profile endpoints and the OAuth settings as the typeclass
      [OAuthEnv].
    - [OAuthStart]: the start routes [GET /api/auth/google] and
      [GET /api/auth/line], and the callbacks composed with the read of
      their [code] parameter.
    - [Site]: the registration and login pages, and [site_step], every
      way the state of the site (database, call log, browser cookie)
      changes: the pages, the actions, the callbacks, dispatches behind
      the gate, direct requests to the API (outside the gate), and
      cookies the browser sets itself; a registration (from the page or
      sent directly) takes two steps, check then create, so that
      concurrent registrations interleave, and [site_pending] holds
      those waiting ([register_page_steps]: without interleaving, the
      two steps are the page's [handleSubmit]).
    - [Api]: the typing discipline of the routes' JSON answers.
    - [Pages]: the React state of the registration page
      ([RegisterPage]: [formData], [loading], [error], [success] and
      where it sends the browser) and of the login page ([LoginPage]),
      each handler as the page's request ([Site.register_submit],
      [Site.login_submit]) composed with the state updates around it,
      what the pages render, and the registration page as an event
      machine over the controls it leaves enabled.
    - [View]: the dashboard's JSX as a function [render] of its state:
      banner, channel checkboxes with [disabled] flags and count badges,
      labels, counter, recipient rows and badges.
    - [Supabase]: [lib/supabase.ts], whose top level builds the anon and
      the service-role clients with supabase-js's [createClient] (the
      typeclass [SupabaseJs]), and Next.js's inlining of [process.env]
      into a browser bundle ([browser_env]).

    ** What the theorems show
    - Push sender: the result on every branch ([POST_spec]); deletion
      only of the requested user's active subscriptions that came back
      gone, and always of those; a user left without subscriptions gets
      404; the [Promise.allSettled] fan-out, written sequentially in
      [findMany] order, is refined by the event loop's interleavings:
      some schedule of the promises' steps ([task_step]) settles them
      all, and every one that does gives the same table, count and calls
      as the sequential run; the step relation is well founded
      ([task_step_wf]), so no schedule runs forever.
    - E-mail sender: the Gmail call carries the user's token and a raw
      message that decodes to the MIME text addressed to the user; the
      errors on every branch; the subject's encoded word decodes back.
    - Ids: the id the page prints with [toString()] and the dashboard
      posts is read back by the e-mail route's [parseInt] and the push
      route's [Number] as the row's id below 2^53 when it is a 32-bit
      integer, and as a value Prisma refuses otherwise (lemmas of
      [JsNumber]: the double read is the one nearest to the id, and an
      odd id above 2^53 is lost).  The two readers disagree on malformed
      ids.
    - Supabase: what the module evaluates to in a browser does not
      depend on the service-role key; with a library refusing a missing
      key, importing it in a browser throws.
    - Base64: [urlBase64ToUint8Array (base64url bs) = Some bs] for every
      byte string; the encodings of [n] bytes have [4 * ceil(n/3)]
      (padded) and [ceil(4n/3)] (base64url) characters.
    - Directory: the page lists every row once, newest first; the three
      channel filters are characterised on the rows.
    - Api: every JSON answer of the routes is well typed (a 2xx body has
      no [error] field, any other has one).
    - Dispatch (for every implementation of the routes): validation
      errors make no request; a valid dispatch whose LINE request
      succeeds makes exactly the planned requests whatever the other
      routes answer; a failed LINE request aborts the rest; the schedule
      controls change nothing; toggle and select-all; the selection
      invariant in every reachable state; whatever the routes answer, a
      submission ends with [loading] cleared and a notification shown.
    - DashMachine: in every state reached with form events interleaved
      with dispatches, the listing and the selections stay well formed,
      [loading] is set exactly while a dispatch is in flight and at most
      one is; edits made during a flight are not sent and are wiped by
      its success.
    - PushModule: a route module whose VAPID configuration throws
      answers every request with the error page, and a push-only
      dispatch through it still reports success, sending nothing.
    - System (the real routes): per-target isolation of e-mail; the push
      scenario of spec section 8; self-healing across two dispatches; an
      over-cap LINE selection rejected by the provider aborts the
      dispatch; a flagged user without an address is mailed "To: null";
      the dashboard's selection invariant from the page's own listing.
    - Pages: both pages' submit handlers settle, the registration
      page's when the browser's service worker, if any, becomes active:
      the form is enabled again with an error, or success comes with the
      session cookie (the registration page then goes to [/] while
      announcing the login page); in every reachable state of the
      registration page no two submissions are in flight and the two
      banners never show together; on a browser whose service worker
      never becomes active the registration page creates the user and
      then hangs with its form disabled, and a new attempt is refused
      as a taken username.
    - View: on the page's listing each channel's badge counts the
      recipients a submission addresses on it; the select-all label and
      the counter agree with the checked rows in every reachable state;
      a checked channel whose checkbox became disabled makes a
      submission that sends nothing report success.
    - Auth: anonymous page requests are sent to [/login]; the API is
      outside the gate; any cookie value passes; registration creates one
      row or is refused with 400; register-then-login succeeds exactly
      for passwords agreeing on their first 72 bytes; of two concurrent
      registrations of one name that both pass the check, the second is
      refused by the unique constraint with 500.
    - OAuth: the callbacks never create, delete or re-key users and touch
      only profile columns; a known identity signs in, an unknown one is
      sent to registration; the start routes ask for a [code] with the
      parameters the flows need (offline access, consent and the
      [gmail.send] scope for Google; an unset variable is sent as
      [undefined]), the LINE [state] is a constant that its callback
      never reads, so a forged state runs like the real one, and the
      Google callback exchanges the [code] the provider sent.
    - Site (rule induction over [site_step]): no subscription is ever
      created; no e-mail flag is ever switched on; the users table stays
      keyed, with unique usernames (interleaved registrations included),
      and loses no row; and the
      registration page loses the browser's subscription (it posts it to
      the sender route, which answers 404).

    ** Bounds and fuel
    Ids are [Z] in the tables.  Where a route reads one from the request
    it is a double ([JsNumber.Num], 53-bit significand, exponents
    -1074 to 971) and then a Prisma [Int], which the e-mail route's
    comment names: a 32-bit integer ([JsNumber.int32]); any other value
    makes the query throw.  The theorems about the real routes assume
    the ids they look up are in that range.  Decimal strings are read
    exactly and rounded once (V8 rounds correctly, as the standard
    allows), with cutoffs 10^309 (infinity) and 10^-324 (zero), beyond
    which every literal rounds the same way.
    The only fuel is that of [Js.digits_fuel] (printing a natural
    number): [S (N.size n)] steps, one per decimal digit at most, which
    [Js.digits_fuel_value] shows is enough.  Every other recursion is
    structural.  The event loop of [PushSender.task_step] terminates by
    the measure [task_weight] (two steps per pending promise, one per
    promise awaiting its delete).  The LINE cap of 500 ids is a constant
    ([LineSender.multicast_cap]) the code does not enforce; bcrypt's 72
    bytes are [Auth.bcrypt_max].  The providers (LINE, Gmail, web push,
    Google and LINE OAuth), the password hash and Prisma's error message
    are the typeclasses [Env], [Hasher] and [OAuthEnv]: every theorem
    holds for every instance, and the witnesses run the handlers in
    concrete ones ([Server.demo_env], [Auth.demo_hasher],
    [OAuth.demo_oauth]).  Prisma's [autoincrement] is [Auth.next_id]
    (one more than every id in use; rows are never deleted).

    ** Not modelled
    Styling, and the case mapping of the avatar placeholder's first
    character; [console] logging; the
    the OAuth client configuration and the signing of pushes with the
    VAPID keys (the providers are the fields of [Env] and [OAuthEnv]);
    web-push's own check of the VAPID details beyond its refusal of a
    missing key (the class [PushModule.WebPushVapid]); the clients supabase-js builds
    (never used: no file imports the module); [Number] of a JSON array
    or object sent as [userId] (the request bodies hold strings,
    integers, booleans and [null]);
    network timeouts; the service worker's own script ([/sw.js] is
    not in the repository): what the registration page's [useEffect]
    achieves is the parameter [Site.ServiceWorker] (none, active with
    or without a push subscription, never active).  Redirects keep the path and drop the origin of the request's
    URL.  Interleaving is modelled where a check and the write it guards
    are separated by an [await] (the register route, in [Site]) and
    within the push sender's fan-out ([PushSender.task_step]), and the
    dashboard's form events run during its dispatches
    ([DashMachine.dash_step]); every
    other request is one step of the site.  Their writes are keyed (the
    callbacks' [update] by the unique column just read, the push
    sender's [delete] by subscription id), and their interleaving with
    one another is not modelled. *)

From stdpp Require Export base list strings gmap.
From Stdlib Require Export ZArith String Ascii.

(** ** The state-and-exception monad

    A JavaScript [async] function that reads and writes shared state
    (the database, the log of outbound calls) and may [throw] is modelled
    as a function from the state before to the outcome (an exception
    value on the left, a result on the right) and the state after. *)

Definition StE (S E A : Type) : Type := S -> (E + A) * S.

#[export] Instance StE_ret {S E} : MRet (StE S E) := fun A x s => (inr x, s).
#[export] Instance StE_bind {S E} : MBind (StE S E) :=
  fun A B f m s =>
    match m s with
    | (inl e, s') => (inl e, s')
    | (inr x, s') => f x s'
    end.

Definition st_get {S E} : StE S E S := fun s => (inr s, s).
Definition st_put {S E} (s : S) : StE S E unit := fun _ => (inr tt, s).
Definition st_modify {S E} (f : S -> S) : StE S E unit := fun s => (inr tt, f s).
Definition st_raise {S E A} (e : E) : StE S E A := fun s => (inl e, s).

(** [try { m } catch (e) { h(e) }]: the state changes made by [m] before
    it threw are kept, as in JavaScript. *)
Definition st_catch {S E A} (m : StE S E A) (h : E -> StE S E A) : StE S E A :=
  fun s =>
    match m s with
    | (inl e, s') => h e s'
    | (inr x, s') => (inr x, s')
    end.

(** Sequential iteration of an [async] loop body over a list
    ([for (const x of xs) { await body(x) }]). *)
Fixpoint st_for {S E A} (xs : list A) (body : A -> StE S E unit) : StE S E unit :=
  match xs with
  | [] => mret tt
  | x :: xs' => body x ;; st_for xs' body
  end.

Declare Scope js_scope.
Delimit Scope js_scope with js.
Notation "'throw' e" := (st_raise e) (at level 10) : js_scope.
Notation "'try' m 'catch' h" := (st_catch m h) (at level 10, m at level 9) : js_scope.

(** ** Monad laws, as rewriting rules *)

Section StELaws.
Context {S E : Type}.

Lemma st_bind_ret_l {A B} (x : A) (f : A -> StE S E B) :
  (mret x ≫= f) = f x.
Proof. reflexivity. Qed.

Lemma st_bind_run {A B} (m : StE S E A) (f : A -> StE S E B) s :
  (m ≫= f) s = match m s with
               | (inl e, s') => (inl e, s')
               | (inr x, s') => f x s'
               end.
Proof. reflexivity. Qed.

Lemma st_bind_ok {A B} (m : StE S E A) (f : A -> StE S E B) s x s' :
  m s = (inr x, s') -> (m ≫= f) s = f x s'.
Proof. intros H. rewrite st_bind_run, H. reflexivity. Qed.

Lemma st_bind_err {A B} (m : StE S E A) (f : A -> StE S E B) s e s' :
  m s = (inl e, s') -> (m ≫= f) s = (inl e, s').
Proof. intros H. rewrite st_bind_run, H. reflexivity. Qed.

Lemma st_bind_assoc {A B C} (m : StE S E A) (f : A -> StE S E B)
      (g : B -> StE S E C) s :
  ((m ≫= f) ≫= g) s = (m ≫= (fun x => f x ≫= g)) s.
Proof. rewrite !st_bind_run. destruct (m s) as [[e|x] s']; reflexivity. Qed.

Lemma st_for_app {A} (xs ys : list A) (body : A -> StE S E unit) s :
  st_for (xs ++ ys) body s = (st_for xs body ;; st_for ys body) s.
Proof.
  revert s. induction xs as [|x xs IH]; intros s; [reflexivity|].
  cbn [app st_for]. rewrite st_bind_assoc, !st_bind_run.
  destruct (body x s) as [[e|[]] s']; [reflexivity|]. apply IH.
Qed.
End StELaws.

(** A loop body that never throws makes the loop never throw, and the
    loop's effect is the composition of the bodies' effects. *)
Section StFor.
Context {S E A : Type} (body : A -> StE S E unit) (f : A -> S -> S).
Hypothesis body_total : forall x s, body x s = (inr tt, f x s).

Lemma st_for_total xs s :
  st_for xs body s = (inr tt, fold_left (fun s x => f x s) xs s).
Proof.
  revert s. induction xs as [|x xs IH]; intros s; [reflexivity|].
  cbn [st_for fold_left]. rewrite (st_bind_ok _ _ _ tt (f x s)); auto.
Qed.
End StFor.


Create HintDb notif.
Create Rewrite HintDb notif_rw.
#[export] Hint Rewrite @st_bind_ret_l @st_bind_run : notif_rw.

(** ** Frame conditions

    A computation [preserves] a preorder [R] on states when every run,
    returning or throwing, ends in a state related to the one it started
    from.  The combinators of the monad preserve it compositionally. *)
Section Preserves.
Context {S E : Type} (R : S -> S -> Prop) `{!PreOrder R}.

Definition preserves {A} (m : StE S E A) : Prop := forall s, R s (snd (m s)).

Lemma preserves_ret {A} (x : A) : preserves (mret x).
Proof. intros s. simpl. reflexivity. Qed.

Lemma preserves_raise {A} (e : E) : preserves (A:=A) (st_raise e).
Proof. intros s. simpl. reflexivity. Qed.

Lemma preserves_get : preserves st_get.
Proof. intros s. simpl. reflexivity. Qed.

Lemma preserves_bind {A B} (m : StE S E A) (k : A -> StE S E B) :
  preserves m -> (forall x, preserves (k x)) -> preserves (m ≫= k).
Proof.
  intros Hm Hk s. rewrite st_bind_run. specialize (Hm s).
  destruct (m s) as [[e|x] s']; simpl in *; [done|]. etrans; [exact Hm|apply Hk].
Qed.

Lemma preserves_catch {A} (m : StE S E A) (h : E -> StE S E A) :
  preserves m -> (forall e, preserves (h e)) -> preserves (st_catch m h).
Proof.
  intros Hm Hh s. unfold st_catch. specialize (Hm s).
  destruct (m s) as [[e|x] s']; simpl in *; [|done]. etrans; [exact Hm|apply Hh].
Qed.

Lemma preserves_for {A} (xs : list A) (body : A -> StE S E unit) :
  (forall x, preserves (body x)) -> preserves (st_for xs body).
Proof.
  intros Hb. induction xs as [|x xs IH]; [apply preserves_ret|].
  apply preserves_bind; [apply Hb|intros _; exact IH].
Qed.

End Preserves.

#[export] Hint Resolve preserves_ret preserves_raise preserves_get preserves_bind preserves_catch
  preserves_for : notif.
#[export] Hint Extern 1 (PreOrder _) => exact _ : notif.

(** One step of a [preserves] proof: split a bind, a [try]/[catch], a
    [match] or an [if] of the program, or close a return or a throw. *)
Ltac preserves_step :=
  first
  [ apply preserves_ret; try exact _ | apply preserves_raise; try exact _
  | apply preserves_get; try exact _
  | apply preserves_bind; [exact _| |intros ?] | apply preserves_bind; [|intros ?]
  | apply preserves_catch; [exact _| |intros ?] | apply preserves_catch; [|intros ?]
  | match goal with |- preserves _ (match ?x with _ => _ end) => destruct x end
  | match goal with |- preserves _ (if ?b then _ else _) => destruct b end ].

(** ** Postconditions

    [post P m]: every run of [m] that returns, returns a value satisfying
    [P] (a run that throws is not constrained).  Like [preserves], it is
    proved step by step along the program. *)
Section Post.
Context {S E : Type}.

Definition post {A} (P : A -> Prop) (m : StE S E A) : Prop :=
  forall s, match fst (m s) with inr x => P x | inl _ => True end.

Lemma post_ret {A} (P : A -> Prop) (x : A) : P x -> post P (mret x).
Proof. intros Hx s. exact Hx. Qed.

Lemma post_true {A} (m : StE S E A) : post (fun _ => True) m.
Proof. intros s. by destruct (fst (m s)). Qed.

Lemma post_raise {A} (P : A -> Prop) (e : E) : post P (st_raise (A:=A) e).
Proof. intros s. exact I. Qed.

Lemma post_bind {A B} (P : B -> Prop) (m : StE S E A) (k : A -> StE S E B) :
  (forall x, post P (k x)) -> post P (m ≫= k).
Proof. intros Hk s. rewrite st_bind_run. destruct (m s) as [[e|x] s']; [exact I|apply Hk]. Qed.

Lemma post_bind_with {A B} (R : A -> Prop) (P : B -> Prop) (m : StE S E A) (k : A -> StE S E B) :
  post R m -> (forall x, R x -> post P (k x)) -> post P (m ≫= k).
Proof.
  intros Hm Hk s. rewrite st_bind_run. specialize (Hm s).
  destruct (m s) as [[e|x] s']; [exact I|by apply Hk].
Qed.

Lemma post_catch {A} (P : A -> Prop) (m : StE S E A) (h : E -> StE S E A) :
  post P m -> (forall e, post P (h e)) -> post P (st_catch m h).
Proof.
  intros Hm Hh s. unfold st_catch. specialize (Hm s).
  destruct (m s) as [[e|x] s']; [apply Hh|exact Hm].
Qed.

(** Total correctness: from every state [m] returns, without raising, a
    value that satisfies [P]. *)
Definition returns {A} (P : A -> Prop) (m : StE S E A) : Prop :=
  forall s, exists x s', m s = (inr x, s') /\ P x.

Lemma returns_ret {A} (P : A -> Prop) (x : A) : P x -> returns P (mret x).
Proof. intros Hx s. by exists x, s. Qed.

Lemma returns_bind {A B} (Q : A -> Prop) (P : B -> Prop) (m : StE S E A) (k : A -> StE S E B) :
  returns Q m -> (forall x, Q x -> returns P (k x)) -> returns P (m ≫= k).
Proof.
  intros Hm Hk s. destruct (Hm s) as (x & s1 & Hrun & Hx).
  rewrite st_bind_run, Hrun. by apply Hk.
Qed.

(** A [try] whose handler returns turns a partial result into a total one. *)
Lemma returns_catch {A} (P : A -> Prop) (m : StE S E A) (h : E -> StE S E A) :
  post P m -> (forall e, returns P (h e)) -> returns P (st_catch m h).
Proof.
  intros Hm Hh s. unfold st_catch. specialize (Hm s).
  destruct (m s) as [[e|x] s'] eqn:Hrun; [apply Hh|by exists x, s'].
Qed.

(** Partial correctness with exceptions: a returned value satisfies [P],
    a raised error satisfies [Q]. *)
Definition outcome {A} (Q : E -> Prop) (P : A -> Prop) (m : StE S E A) : Prop :=
  forall s, match fst (m s) with inr x => P x | inl e => Q e end.

Lemma outcome_ret {A} Q (P : A -> Prop) x : P x -> outcome Q P (mret x).
Proof. intros Hx s. exact Hx. Qed.

Lemma outcome_raise {A} (Q : E -> Prop) (P : A -> Prop) e : Q e -> outcome Q P (st_raise e).
Proof. intros He s. exact He. Qed.

Lemma outcome_bind {A B} Q (R : A -> Prop) (P : B -> Prop) (m : StE S E A) (k : A -> StE S E B) :
  outcome Q R m -> (forall x, R x -> outcome Q P (k x)) -> outcome Q P (m ≫= k).
Proof.
  intros Hm Hk s. rewrite st_bind_run. specialize (Hm s).
  destruct (m s) as [[e|x] s']; [exact Hm|by apply Hk].
Qed.

Lemma post_outcome {A} Q (P : A -> Prop) (m : StE S E A) : post P m -> (forall s e, fst (m s) = inl e -> Q e) -> outcome Q P m.
Proof. intros Hm HQ s. specialize (Hm s). specialize (HQ s). destruct (m s) as [[e|x] s']; [exact (HQ e eq_refl)|exact Hm]. Qed.

Lemma returns_outcome {A} Q (P : A -> Prop) (m : StE S E A) : returns P m -> outcome Q P m.
Proof. intros Hm s. destruct (Hm s) as (x & s' & -> & Hx). exact Hx. Qed.

Lemma returns_catch_outcome {A} Q (P : A -> Prop) (m : StE S E A) (h : E -> StE S E A) :
  outcome Q P m -> (forall e, Q e -> returns P (h e)) -> returns P (st_catch m h).
Proof.
  intros Hm Hh s. unfold st_catch. specialize (Hm s).
  destruct (m s) as [[e|x] s'] eqn:Hrun; [by apply Hh|by exists x, s'].
Qed.

Lemma returns_post {A} (P : A -> Prop) (m : StE S E A) : returns P m -> post P m.
Proof. intros Hm s. destruct (Hm s) as (x & s' & -> & Hx). exact Hx. Qed.

Lemma returns_weaken {A} (P Q : A -> Prop) (m : StE S E A) :
  (forall x, P x -> Q x) -> returns P m -> returns Q m.
Proof. intros HPQ Hm s. destruct (Hm s) as (x & s' & Hrun & Hx). eauto. Qed.

End Post.

(** One step of a [post] proof; the branch conditions are kept. *)
Ltac post_step :=
  first
  [ apply post_ret | apply post_raise | apply post_bind; intros ?
  | apply post_catch; [|intros ?]
  | match goal with |- post _ (match ?x with _ => _ end) => destruct x eqn:? end
  | match goal with |- post _ (if ?b then _ else _) => destruct b eqn:? end ].

(** The frame lemmas of the components, [preserves R (handler ...)]. *)
Create HintDb frame discriminated.

(** A [preserves] proof of a program: a component's frame lemma where
    one applies, otherwise one step of the program. *)
Ltac preserves_auto := repeat first [solve [eauto 3 with nocore frame] | preserves_step].

(** Unfold the monad's operations and simplify a concrete or symbolic run. *)
Ltac st_simpl :=
  repeat (unfold mbind, mret, StE_bind, StE_ret, st_get, st_put, st_modify,
                 st_raise, st_catch in *; simpl in *).

(** [lia] on goals with [n / k] and [n mod k] over [N] for a literal [k]:
    name the quotient and remainder and give [lia] the Euclidean facts. *)
Ltac ndiv_lia n k :=
  let q := fresh "q" in let r := fresh "r" in
  pose proof (N.div_mod n k ltac:(discriminate));
  pose proof (N.mod_lt n k ltac:(discriminate));
  set (q := (n / k)%N) in *; set (r := (n mod k)%N) in *;
  clearbody q r; lia.

(** [lia] on goals with [/] and [mod] over [Z] by constants. *)
Ltac zdiv_lia := Z.to_euclidean_division_equations; lia.

(** [lia] on goals with [mod] / [/] over [nat] by literals: name each
    remainder and quotient with its Euclidean equation. *)
Ltac nat_mod_lia :=
  repeat match goal with
  | |- context [(?a mod ?k)%nat] =>
      let r := fresh "r" in let q := fresh "q" in
      pose proof (Nat.div_mod_eq a k); pose proof (Nat.mod_upper_bound a k ltac:(discriminate));
      set (r := (a mod k)%nat) in *; set (q := (a / k)%nat) in *; clearbody r q
  | H : context [(?a mod ?k)%nat] |- _ =>
      let r := fresh "r" in let q := fresh "q" in
      pose proof (Nat.div_mod_eq a k); pose proof (Nat.mod_upper_bound a k ltac:(discriminate));
      set (r := (a mod k)%nat) in *; set (q := (a / k)%nat) in *; clearbody r q
  end; lia.

(** ** Shared list lemmas *)

Lemma filter_app_bool {A} (f : A -> bool) (l1 l2 : list A) :
  List.filter f (l1 ++ l2) = List.filter f l1 ++ List.filter f l2.
Proof. induction l1 as [|x l1 IH]; simpl; [done|]. destruct (f x); simpl; by rewrite IH. Qed.

Lemma filter_ext_bool {A} (f g : A -> bool) (l : list A) :
  (forall x, In x l -> f x = g x) -> List.filter f l = List.filter g l.
Proof.
  induction l as [|x l IH]; intros H; simpl; [done|].
  rewrite (H x (or_introl eq_refl)), IH; [done|]. intros y Hy. apply H. by right.
Qed.

Lemma filter_filter_bool {A} (f g : A -> bool) (l : list A) :
  List.filter g (List.filter f l) = List.filter (fun x => f x && g x) l.
Proof.
  induction l as [|x l IH]; [done|]. simpl.
  destruct (f x); simpl; [destruct (g x); simpl|]; by rewrite IH.
Qed.

(** Counting the elements a boolean test accepts does not depend on order. *)
Lemma filter_length_perm_bool {A} (f : A -> bool) (l l' : list A) :
  l ≡ₚ l' -> List.length (List.filter f l) = List.length (List.filter f l').
Proof.
  induction 1 as [|x l l' _ IH|x y l|l l' l'' _ IH1 _ IH2]; simpl.
  - done.
  - destruct (f x); simpl; lia.
  - destruct (f x), (f y); simpl; lia.
  - lia.
Qed.

Lemma fmap_list_map {A B} (f : A -> B) (l : list A) : f <$> l = map f l.
Proof.
  induction l as [|x l IH]; [done|]. change (f <$> (x :: l)) with (f x :: (f <$> l)). by rewrite IH.
Qed.

Lemma NoDup_map_injective {A B} (f : A -> B) (l : list A) :
  (forall x y, f x = f y -> x = y) -> List.NoDup l -> List.NoDup (map f l).
Proof.
  intros Hf. induction 1 as [|x l Hx _ IH]; [constructor|]. simpl. constructor; [|done].
  intros (y & E & Hy)%in_map_iff. apply Hf in E. by subst.
Qed.

Lemma existsb_perm {A} (f : A -> bool) (l l' : list A) :
  l ≡ₚ l' -> existsb f l = existsb f l'.
Proof.
  intros HP. apply Bool.eq_true_iff_eq. rewrite !existsb_exists.
  split; intros (x & Hx & Hf); exists x; split; auto;
    [eapply Permutation_in | eapply Permutation_in; [symmetry|]]; eauto.
Qed.

(** Induction taking three elements at a time (for codecs that work on
    groups of three). *)
Lemma list_ind3 {A} (P : list A -> Prop) :
  P [] -> (forall a, P [a]) -> (forall a b, P [a; b]) ->
  (forall a b c l, P l -> P (a :: b :: c :: l)) -> forall l, P l.
Proof.
  intros H0 H1 H2 H3 l. remember (List.length l) as n eqn:En.
  revert l En. induction n as [n IH] using lt_wf_ind. intros l En.
  destruct l as [|a [|b [|c l]]]; auto. apply H3, (IH (List.length l)); simpl in *; lia.
Qed.

#[export] Hint Resolve filter_ext_bool : notif.

(** Updating one element of a list, up to permutation: the new element
    next to the others. *)
Lemma list_delete_insert_same {A} (l : list A) i y : delete i (<[i:=y]> l) = delete i l.
Proof. revert i. induction l as [|x l IH]; intros [|i]; simpl; f_equal; auto. Qed.

Lemma insert_perm_delete {A} (l : list A) i x y :
  l !! i = Some x -> <[i:=y]> l ≡ₚ y :: delete i l.
Proof.
  intros Hi. rewrite <- (list_delete_insert_same l i y). apply delete_Permutation.
  apply list_lookup_insert_eq. by apply lookup_lt_Some in Hi.
Qed.

(** The count of a boolean filter after the update of one element. *)
Lemma filter_length_insert {A} (f : A -> bool) (l : list A) i x y :
  l !! i = Some x ->
  List.length (List.filter f (<[i:=y]> l)) + (if f x then 1 else 0) =
  List.length (List.filter f l) + (if f y then 1 else 0).
Proof.
  intros Hi. rewrite (filter_length_perm_bool f _ _ (insert_perm_delete l i x y Hi)),
    (filter_length_perm_bool f _ _ (delete_Permutation l i x Hi)). cbn.
  destruct (f x), (f y); cbn; lia.
Qed.

(** The same for [omap], up to permutation. *)
Lemma omap_insert_perm {A B} (f : A -> option B) (l : list A) i x y :
  l !! i = Some x ->
  omap f (<[i:=y]> l) ≡ₚ option_list (f y) ++ omap f (delete i l) /\
  omap f l ≡ₚ option_list (f x) ++ omap f (delete i l).
Proof.
  intros Hi. split.
  - rewrite (insert_perm_delete l i x y Hi). cbn. by destruct (f y).
  - rewrite (delete_Permutation l i x Hi) at 1. cbn. by destruct (f x).
Qed.

(** The values of a map, as [findMany] lists the rows of a table. *)
Lemma in_map_snd_map_to_list {K A} `{Countable K} (m : gmap K A) x :
  In x (map snd (map_to_list m)) <-> exists k, m !! k = Some x.
Proof.
  rewrite in_map_iff. split.
  - intros ([k y] & <- & Hin). exists k. by apply list_elem_of_In, elem_of_map_to_list in Hin.
  - intros [k Hk]. exists (k, x). split; [done|]. by apply list_elem_of_In, elem_of_map_to_list.
Qed.

(** ** Shared string lemmas *)

Lemma string_app_assoc (s t u : string) :
  String.append (String.append s t) u = String.append s (String.append t u).
Proof. induction s as [|a s IH]; [done|]. exact (f_equal (String a) IH). Qed.

Lemma string_app_nil_r (s : string) : String.append s EmptyString = s.
Proof. induction s as [|a s IH]; [done|]. exact (f_equal (String a) IH). Qed.

Lemma string_app_nil_l (s : string) : String.append EmptyString s = s.
Proof. reflexivity. Qed.

(** stdpp makes [String.append] [simpl never]; this is its cons step. *)
Lemma string_app_cons a (s t : string) :
  String.append (String a s) t = String a (String.append s t).
Proof. reflexivity. Qed.

Lemma list_ascii_of_string_app (s t : string) :
  list_ascii_of_string (String.append s t) = list_ascii_of_string s ++ list_ascii_of_string t.
Proof. induction s as [|a s IH]; [done|]. simpl. by rewrite IH. Qed.

Lemma string_of_list_ascii_app (l1 l2 : list ascii) :
  string_of_list_ascii (l1 ++ l2) =
  String.append (string_of_list_ascii l1) (string_of_list_ascii l2).
Proof. induction l1 as [|a l1 IH]; [done|]. simpl. by rewrite IH. Qed.

Lemma length_string_of_list_ascii (l : list ascii) :
  String.length (string_of_list_ascii l) = List.length l.
Proof. induction l as [|a l IH]; [done|]. simpl. by rewrite IH. Qed.

Lemma length_list_ascii_of_string (s : string) :
  List.length (list_ascii_of_string s) = String.length s.
Proof. induction s as [|a s IH]; [done|]. simpl. by rewrite IH. Qed.

#[export] Hint Rewrite string_app_assoc string_app_nil_r string_app_nil_l string_app_cons : notif_rw.
