(* ===== verification/Js.v ===== *)
(** * JavaScript primitives the source relies on

    A JavaScript string is represented by the Rocq [string] holding its
    UTF-8 bytes (a Rocq string literal such as the Thai error messages of
    the source is stored exactly so).  This file models the primitives the
    handlers apply to strings and ids: truthiness and [||] on strings,
    [Array.prototype.includes], [String.prototype.trim] (ECMAScript
    WhiteSpace and LineTerminator code points, recognised on their UTF-8
    encodings), [Number.prototype.toString] on integers, and the
    digit readers that [JsNumber]'s [parseInt] and [Number] use. *)

From S2P Require Import Prelude.

Open Scope string_scope.

Module Js.

(** ** Truthiness and defaults *)

(** [!!s] for a string: the empty string is the only falsy string. *)
Definition truthy (s : string) : bool := negb (String.eqb s EmptyString).

(** [!!x] for a nullable string ([string | null | undefined]). *)
Definition truthy_opt (o : option string) : bool :=
  match o with Some s => truthy s | None => false end.

(** [x || d] for a nullable string and a string default. *)
Definition or_default (o : option string) (d : string) : string :=
  match o with Some s => if truthy s then s else d | None => d end.

(** [arr.includes(x)] on an array of strings. *)
Definition includes (arr : list string) (x : string) : bool :=
  existsb (String.eqb x) arr.

(** ** Whitespace and [trim] *)

Definition byte_eq (a : ascii) (n : nat) : bool := Ascii.eqb a (ascii_of_nat n).

(** One-byte white space: TAB, LF, VT, FF, CR, SPACE. *)
Definition is_ws1 (a : ascii) : bool :=
  let n := nat_of_ascii a in ((9 <=? n)%nat && (n <=? 13)%nat) || (n =? 32)%nat.

(** U+00A0 NO-BREAK SPACE = C2 A0. *)
Definition is_ws2 (a b : ascii) : bool := byte_eq a 194 && byte_eq b 160.

(** Three-byte white space: U+1680 (E1 9A 80), U+2000..U+200A
    (E2 80 80..8A), U+2028 and U+2029 (E2 80 A8, A9), U+202F (E2 80 AF),
    U+205F (E2 81 9F), U+3000 (E3 80 80), U+FEFF (EF BB BF). *)
Definition is_ws3 (a b c : ascii) : bool :=
  let nc := nat_of_ascii c in
  (byte_eq a 225 && byte_eq b 154 && byte_eq c 128)
  || (byte_eq a 226 && byte_eq b 128
      && (((128 <=? nc)%nat && (nc <=? 138)%nat) || (nc =? 168)%nat || (nc =? 169)%nat
          || (nc =? 175)%nat))
  || (byte_eq a 226 && byte_eq b 129 && byte_eq c 159)
  || (byte_eq a 227 && byte_eq b 128 && byte_eq c 128)
  || (byte_eq a 239 && byte_eq b 187 && byte_eq c 191).

(** Drop the leading white-space code points. *)
Fixpoint trim_start (s : string) : string :=
  match s with
  | EmptyString => EmptyString
  | String a r1 =>
      if is_ws1 a then trim_start r1 else
      match r1 with
      | String b r2 =>
          if is_ws2 a b then trim_start r2 else
          match r2 with
          | String c r3 => if is_ws3 a b c then trim_start r3 else s
          | EmptyString => s
          end
      | EmptyString => s
      end
  end.

(** A string made of white space only (possibly empty). *)
Definition is_blank (s : string) : bool := String.eqb (trim_start s) EmptyString.

(** Drop the trailing white space: cut at the first position from which
    only white space remains (on well-formed UTF-8 a white-space sequence
    never starts inside a multi-byte code point). *)
Fixpoint trim_end (s : string) : string :=
  match s with
  | EmptyString => EmptyString
  | String a r => if is_blank s then EmptyString else String a (trim_end r)
  end.

Definition trim (s : string) : string := trim_end (trim_start s).

(** ** Decimal integers *)

Definition digit_char (d : N) : ascii := ascii_of_N (48 + d).

(** The value of a decimal digit character. *)
Definition dec_digit (a : ascii) : option N :=
  let n := N_of_ascii a in
  if (48 <=? n)%N && (n <=? 57)%N then Some (n - 48)%N else None.

(** Digits of [n], most significant first, prepended to [acc]; [fuel]
    bounds the number of digits. *)
Fixpoint digits_fuel (fuel : nat) (n : N) (acc : string) : string :=
  match fuel with
  | O => acc
  | S f =>
      let acc' := String (digit_char (n mod 10)) acc in
      if (n <? 10)%N then acc' else digits_fuel f (n / 10)%N acc'
  end.

(** [String(n)] / [n.toString()] for a natural number: [N.size n + 1]
    steps are enough since each step divides by ten (see
    [digits_fuel_value]). *)
Definition N_to_string (n : N) : string := digits_fuel (S (N.to_nat (N.size n))) n EmptyString.

(** [String(z)] / [z.toString()] for an integer. *)
Definition Z_to_string (z : Z) : string :=
  match z with
  | Zneg p => String "-" (N_to_string (Npos p))
  | _ => N_to_string (Z.to_N z)
  end.

(** The value of a hexadecimal digit character. *)
Definition hex_digit (a : ascii) : option N :=
  let n := N_of_ascii a in
  if (48 <=? n)%N && (n <=? 57)%N then Some (n - 48)%N
  else if (65 <=? n)%N && (n <=? 70)%N then Some (n - 55)%N
  else if (97 <=? n)%N && (n <=? 102)%N then Some (n - 87)%N
  else None.

(** The longest prefix of radix-[R] digits: its value, if non-empty. *)
Fixpoint radix_prefix (R : N) (dig : ascii -> option N) (s : string) (acc : option N)
  : option N :=
  match s with
  | EmptyString => acc
  | String a r =>
      match dig a with
      | Some d => radix_prefix R dig r (Some (R * default 0%N acc + d)%N)
      | None => acc
      end
  end.

(** Every character is a decimal digit. *)
Fixpoint all_digits (s : string) : bool :=
  match s with
  | EmptyString => true
  | String a r => match dec_digit a with Some _ => all_digits r | None => false end
  end.

(** Split off an optional sign: [-1] for ["-"], [1] otherwise. *)
Definition split_sign (s : string) : Z * string :=
  match s with
  | String a r =>
      if Ascii.eqb a "-" then (-1, r)%Z
      else if Ascii.eqb a "+" then (1, r)%Z
      else (1, s)%Z
  | EmptyString => (1, s)%Z
  end.

(** Strip a ["0x"] / ["0X"] prefix. *)
Definition strip_hex (s : string) : option string :=
  match s with
  | String a (String b r) =>
      if Ascii.eqb a "0" && (Ascii.eqb b "x" || Ascii.eqb b "X") then Some r else None
  | _ => None
  end.

(** A character that can start a number literal ([-], [.], [/] or a digit). *)
Definition plain (a : ascii) : bool := (45 <=? N_of_ascii a)%N && (N_of_ascii a <=? 57)%N.

Fixpoint all_plain (s : string) : bool :=
  match s with
  | EmptyString => true
  | String a r => plain a && all_plain r
  end.

(** [`${x}`] of a possibly [undefined] string. *)
Definition template_undefined (o : option string) : string :=
  match o with Some s => s | None => "undefined" end.

(** [process.env]: a variable's value, or [undefined]. *)
Definition ProcessEnv := string -> option string.

(** [s.length]: the number of UTF-16 code units of a string held as its
    UTF-8 bytes: continuation bytes ([0x80]-[0xBF]) count nothing, the
    lead byte of a four-byte sequence ([0xF0] and up) counts two (a
    surrogate pair), every other byte one. *)
Fixpoint utf16_length (s : string) : nat :=
  match s with
  | EmptyString => 0
  | String a r =>
      let n := N_of_ascii a in
      (if (128 <=? n)%N && (n <=? 191)%N then 0 else if (240 <=? n)%N then 2 else 1) + utf16_length r
  end.

(** ** Lemmas: decimal round trip *)

(** A [||] default that is truthy makes the whole expression truthy. *)
Lemma or_default_truthy o d : truthy d = true -> truthy (or_default o d) = true.
Proof. intros Hd. destruct o as [s|]; [|exact Hd]. cbn. by destruct (truthy s) eqn:E. Qed.

Lemma plain_not_ws a :
  plain a = true ->
  is_ws1 a = false /\ (forall b, is_ws2 a b = false) /\ (forall b c, is_ws3 a b c = false).
Proof. destruct a as [[] [] [] [] [] [] [] []]; vm_compute; try discriminate; auto. Qed.

Lemma trim_start_plain a r : plain a = true -> trim_start (String a r) = String a r.
Proof.
  intros Hp. destruct (plain_not_ws a Hp) as (H1 & H2 & H3).
  simpl. rewrite H1. destruct r as [|b [|c r]]; [done| |]; by rewrite ?H2, ?H3.
Qed.

Lemma dec_digit_plain a d : dec_digit a = Some d -> plain a = true.
Proof.
  unfold dec_digit, plain. destruct (N.leb_spec 48 (N_of_ascii a)),
    (N.leb_spec (N_of_ascii a) 57); simpl; try discriminate.
  intros _. apply andb_true_intro; split; try reflexivity; apply N.leb_le; lia.
Qed.

Lemma dec_digit_char d : (d < 10)%N -> dec_digit (digit_char d) = Some d.
Proof.
  intros Hd. unfold dec_digit, digit_char. rewrite N_ascii_embedding by lia.
  destruct (N.leb_spec 48 (48 + d)), (N.leb_spec (48 + d) 57); simpl; try lia.
  f_equal. lia.
Qed.

Lemma digits_fuel_S f n acc :
  digits_fuel (S f) n acc =
  if (n <? 10)%N then String (digit_char (n mod 10)) acc
  else digits_fuel f (n / 10)%N (String (digit_char (n mod 10)) acc).
Proof. reflexivity. Qed.

Lemma digits_fuel_app f n acc : digits_fuel f n acc = digits_fuel f n EmptyString ++ acc.
Proof.
  revert n acc. induction f as [|f IH]; intros n acc; [done|]. simpl.
  destruct (n <? 10)%N; [done|].
  rewrite (IH _ (String _ acc)), (IH _ (String _ EmptyString)), string_app_assoc. done.
Qed.

Lemma all_digits_app s t : all_digits (s ++ t) = all_digits s && all_digits t.
Proof.
  induction s as [|a s IH]; [done|]. rewrite string_app_cons. simpl. by destruct (dec_digit a).
Qed.

Lemma all_digits_digits_fuel f n : all_digits (digits_fuel f n EmptyString) = true.
Proof.
  revert n. induction f as [|f IH]; intros n; [done|]. cbn [digits_fuel].
  destruct (n <? 10)%N; [|rewrite digits_fuel_app, all_digits_app, IH];
    cbn [all_digits]; by rewrite dec_digit_char by (apply N.mod_lt; lia).
Qed.

Lemma radix_prefix_app s t o :
  all_digits s = true ->
  radix_prefix 10 dec_digit (s ++ t) o = radix_prefix 10 dec_digit t (radix_prefix 10 dec_digit s o).
Proof.
  revert o. induction s as [|a s IH]; intros o Hs; [done|].
  rewrite string_app_cons. simpl in *.
  destruct (dec_digit a); [by apply IH | done].
Qed.

(** With fuel [f + 1] and [n < 2^(f+1)], the digits read back as [n]. *)
Lemma digits_fuel_value f n :
  (n < 2 ^ N.of_nat (S f))%N ->
  radix_prefix 10 dec_digit (digits_fuel (S f) n EmptyString) None = Some n.
Proof.
  revert n. induction f as [|f IH]; intros n Hn.
  - assert (n < 2)%N by (simpl in Hn; lia). simpl.
    destruct (N.ltb_spec n 10); [|lia]. simpl.
    rewrite dec_digit_char by (apply N.mod_lt; lia). f_equal.
    rewrite N.mod_small; lia.
  - rewrite digits_fuel_S. destruct (N.ltb_spec n 10) as [Hlt|Hge].
    + simpl. rewrite dec_digit_char by (apply N.mod_lt; lia). f_equal.
      rewrite N.mod_small; lia.
    + rewrite digits_fuel_app, radix_prefix_app by apply all_digits_digits_fuel.
      rewrite IH.
      * simpl. rewrite dec_digit_char by (apply N.mod_lt; lia). f_equal.
        ndiv_lia n 10%N.
      * rewrite (Nat2N.inj_succ (S f)), N.pow_succ_r' in Hn.
        ndiv_lia n 10%N.
Qed.

Lemma N_to_string_digits n : all_digits (N_to_string n) = true.
Proof. apply all_digits_digits_fuel. Qed.

Lemma N_to_string_value n : radix_prefix 10 dec_digit (N_to_string n) None = Some n.
Proof.
  apply digits_fuel_value. rewrite Nat2N.inj_succ, N2Nat.id, N.pow_succ_r'.
  pose proof (N.size_gt n). lia.
Qed.

Lemma N_to_string_cons n : exists a r, N_to_string n = String a r /\ dec_digit a <> None.
Proof.
  unfold N_to_string. cbn [digits_fuel].
  destruct (n <? 10)%N.
  - eexists _, _. split; [done|]. by rewrite dec_digit_char by (apply N.mod_lt; lia).
  - rewrite digits_fuel_app.
    destruct (digits_fuel _ (n / 10)%N EmptyString) as [|a r] eqn:E; simpl.
    + eexists _, _. split; [done|]. by rewrite dec_digit_char by (apply N.mod_lt; lia).
    + eexists _, _. split; [done|]. pose proof (all_digits_digits_fuel (N.to_nat (N.size n)) (n / 10)) as Hd.
      rewrite E in Hd. simpl in Hd. by destruct (dec_digit a).
Qed.

Lemma all_digits_plain s : all_digits s = true -> all_plain s = true.
Proof.
  induction s as [|a s IH]; [done|]. simpl.
  destruct (dec_digit a) eqn:E; [|done]. intros H.
  by rewrite (dec_digit_plain _ _ E), IH.
Qed.

(** A string of number-literal characters is left alone by [trim]. *)
Lemma trim_all_plain s : all_plain s = true -> trim_start s = s /\ trim_end s = s.
Proof.
  induction s as [|a s IH]; [done|]. cbn [all_plain]. intros [Ha Hs]%andb_prop.
  rewrite trim_start_plain by done. split; [done|].
  cbn [trim_end]. unfold is_blank. rewrite trim_start_plain by done.
  by rewrite (proj2 (IH Hs)).
Qed.

Lemma digit_not_sign a : dec_digit a <> None ->
  Ascii.eqb a "-" = false /\ Ascii.eqb a "+" = false /\
  Ascii.eqb a "x" = false /\ Ascii.eqb a "X" = false.
Proof.
  intros H. repeat split; match goal with |- Ascii.eqb a ?c = false =>
    destruct (Ascii.eqb_spec a c); [subst; by vm_compute in H | done] end.
Qed.

Lemma strip_hex_digits s : all_digits s = true -> strip_hex s = None.
Proof.
  destruct s as [|a [|b r]]; [done..|]. simpl.
  destruct (dec_digit a); [|done]. destruct (dec_digit b) eqn:Eb; [|done]. intros _.
  destruct (digit_not_sign b) as (_ & _ & -> & ->); [by rewrite Eb|].
  by rewrite andb_false_r.
Qed.

Lemma split_sign_digits s : all_digits s = true -> s <> EmptyString -> split_sign s = (1%Z, s).
Proof.
  destruct s as [|a r]; [done|]. simpl. intros H _.
  destruct (dec_digit a) eqn:E; [|done].
  by destruct (digit_not_sign a) as (-> & -> & _); [rewrite E|].
Qed.

Lemma N_to_string_nonempty n : N_to_string n <> EmptyString.
Proof. by destruct (N_to_string_cons n) as (a & r & -> & _). Qed.

(** [toString] of an integer: its sign (if negative) and the digits of its
    absolute value. *)
Lemma Z_to_string_shape z :
  exists sign, Z_to_string z = (sign ++ N_to_string (Z.to_N (Z.abs z)))%string /\
  ((sign = EmptyString /\ 0 <= z)%Z \/ (sign = "-" /\ z < 0)%Z).
Proof.
  destruct z as [|p|p]; [exists EmptyString; split; [done|left; split; [done|lia]]..|].
  exists "-". split; [done|right; split; [done|lia]].
Qed.

Lemma Z_to_string_plain z : all_plain (Z_to_string z) = true.
Proof.
  destruct (Z_to_string_shape z) as (sign & -> & [[-> _]|[-> _]]);
    [|cbn [String.append all_plain]; apply andb_true_intro; split; [done|]];
    apply all_digits_plain, N_to_string_digits.
Qed.

End Js.
