(* ===== verification/JsNumber.v ===== *)
(** * JavaScript numbers: [parseInt], [Number] and Prisma's [Int]

    A JavaScript number is an IEEE 754 binary64 value.  [Num] holds it as
    NaN, a signed infinity, or a signed finite value [m * 2^e] with
    [0 <= m < 2^53] and [-1074 <= e <= 971]; [round_double] is the
    conversion of an exact rational to the nearest such value (ties to
    an even mantissa), with gradual underflow and overflow to infinity,
    which is what [parseInt] and [Number] do with the mathematical value
    they read.  [parseInt] (radix 10, or 16 after [0x]) and [Number]
    (the ECMAScript StringToNumber grammar: white space, [Infinity],
    decimal literals with fraction and exponent, and the [0x], [0o],
    [0b] integer literals) are written over the string helpers of
    [Js].  [prisma_int] is Prisma's check of a value given to an [Int]
    filter: an integral number in the 32-bit signed range, anything else
    makes the query throw. *)

From S2P Require Import Prelude Js.

Open Scope string_scope.
Local Open Scope Z_scope.

Module JsNumber.
Import Js.

(** ** Values *)

Inductive Num :=
| NaN
| Infinity (neg : bool)
| Finite (neg : bool) (m : Z) (e : Z).

(** The binary64 format: 53-bit mantissas, exponents of the last
    mantissa bit from [emin] (subnormals) to [emax]. *)
Definition prec : Z := 53.
Definition emin : Z := -1074.
Definition emax : Z := 971.

Definition zero (neg : bool) : Num := Finite neg 0 emin.

(** ** Rounding *)

(** [floor (log2 (p / q))] for [p, q > 0]: [Z.log2 p - Z.log2 q] or one less. *)
Definition flog2 (p q : Z) : Z :=
  let k := Z.log2 p - Z.log2 q in
  if (0 <=? k)%Z then (if (q * 2 ^ k <=? p)%Z then k else k - 1)
  else (if (q <=? p * 2 ^ (- k))%Z then k else k - 1).

(** [p / q] scaled by [2^-e], as a numerator and a denominator. *)
Definition scale (p q e : Z) : Z * Z :=
  if (0 <=? e)%Z then (p, q * 2 ^ e) else (p * 2 ^ (- e), q).

(** [n / d] rounded to the nearest integer, ties to even. *)
Definition round_ne (n d : Z) : Z :=
  let m := n / d in
  let r := n mod d in
  if (d <? 2 * r)%Z || ((2 * r =? d)%Z && Z.odd m) then m + 1 else m.

(** The number nearest to [p / q] ([p, q > 0]) with sign [neg]: the
    exponent that puts the mantissa in [2^52, 2^53) (or [emin] for a
    subnormal), the rounded mantissa, the carry of a mantissa rounded up
    to [2^53], and overflow. *)
Definition round_pos (neg : bool) (p q : Z) : Num :=
  let e := Z.max (flog2 p q - (prec - 1)) emin in
  let '(n, d) := scale p q e in
  let m := round_ne n d in
  let '(m, e) := if (m =? 2 ^ prec)%Z then (2 ^ (prec - 1), e + 1) else (m, e) in
  if (emax <? e)%Z then Infinity neg else Finite neg m e.

Definition round_double (neg : bool) (p q : Z) : Num :=
  if (p =? 0)%Z then zero neg else round_pos neg p q.

(** A mathematical integer as a number. *)
Definition of_Z (z : Z) : Num := round_double (z <? 0)%Z (Z.abs z) 1.

(** The integer a number is, if it is one. *)
Definition to_integer (x : Num) : option Z :=
  match x with
  | Finite neg m e =>
      let v := if (0 <=? e)%Z then Some (m * 2 ^ e)%Z
               else if (m mod 2 ^ (- e) =? 0)%Z then Some (m / 2 ^ (- e))%Z else None in
      option_map (fun v => if neg then (- v)%Z else v) v
  | _ => None
  end.

(** ** [parseInt] *)

(** Steps 1 to 5 of [parseInt(s)] with no radix argument: trim the start,
    take a sign, switch to radix 16 after a [0x] prefix, and read the
    longest digit prefix; [None] when there is none (the result is [NaN]). *)
Definition parseInt_digits (s : string) : option (bool * N) :=
  let '(sign, r) := split_sign (trim_start s) in
  let v := match strip_hex r with
           | Some h => radix_prefix 16 hex_digit h None
           | None => radix_prefix 10 dec_digit r None
           end in
  option_map (fun n => (Z.eqb sign (-1), n)) v.

(** [parseInt(s)]: the integer read, as a number; [-0] for ["-0"]. *)
Definition parseInt (s : string) : Num :=
  match parseInt_digits s with
  | Some (neg, n) => round_double neg (Z.of_N n) 1
  | None => NaN
  end.

(** ** [Number] on a string *)

(** The longest prefix of decimal digits, and the rest. *)
Fixpoint span_digits (s : string) : string * string :=
  match s with
  | String a r =>
      match dec_digit a with
      | Some _ => let '(d, t) := span_digits r in (String a d, t)
      | None => (EmptyString, s)
      end
  | EmptyString => (EmptyString, EmptyString)
  end.

(** The value of a string of digits in radix [R]. *)
Definition digits_value (R : N) (dig : ascii -> option N) (d : string) : N :=
  default 0%N (radix_prefix R dig d None).

(** An [ExponentPart] or nothing: its value. *)
Definition exponent (s : string) : option Z :=
  match s with
  | EmptyString => Some 0%Z
  | String a r =>
      if Ascii.eqb a "e" || Ascii.eqb a "E" then
        let '(sign, r') := split_sign r in
        let '(d, rest) := span_digits r' in
        if negb (String.eqb d EmptyString) && String.eqb rest EmptyString
        then Some (sign * Z.of_N (digits_value 10 dec_digit d))%Z else None
      else None
  end.

(** A [StrUnsignedDecimalLiteral] other than [Infinity]: digits, an
    optional fraction, an optional exponent, with a digit on one side of
    the point.  Its value is [n * 10^x], and [len] is the number of its
    digits. *)
Definition decimal_literal (s : string) : option (N * Z * Z) :=
  let '(d1, r1) := span_digits s in
  let '(d2, r2) := match r1 with
                   | String a r1' => if Ascii.eqb a "." then span_digits r1' else (EmptyString, r1)
                   | EmptyString => (EmptyString, r1)
                   end in
  let has_point := match r1 with String a _ => Ascii.eqb a "." | EmptyString => false end in
  let r2 := if has_point then r2 else r1 in
  if String.eqb d1 EmptyString && String.eqb d2 EmptyString then None else
  match exponent r2 with
  | Some x =>
      Some (digits_value 10 dec_digit (d1 ++ d2),
            Z.of_nat (String.length (d1 ++ d2)),
            x - Z.of_nat (String.length d2))%Z
  | None => None
  end.

(** [n * 10^x] as a number, [n] written with [len] digits.  A value of at
    least [10^309] overflows and one below [10^-324] underflows to zero,
    which the tests decide before any power of ten is built. *)
Definition decimal_to_num (neg : bool) (n : N) (len x : Z) : Num :=
  if (n =? 0)%N then zero neg
  else if (309 <=? x)%Z then Infinity neg
  else if (len + x <=? -324)%Z then zero neg
  else if (0 <=? x)%Z then round_double neg (Z.of_N n * 10 ^ x) 1
  else round_double neg (Z.of_N n) (10 ^ (- x)).

(** A [NonDecimalIntegerLiteral]: [0x], [0o] or [0b] and at least one
    digit of the radix, nothing else (no sign). *)
Definition oct_digit (a : ascii) : option N :=
  let n := N_of_ascii a in if (48 <=? n)%N && (n <=? 55)%N then Some (n - 48)%N else None.

Definition bin_digit (a : ascii) : option N :=
  let n := N_of_ascii a in if (48 <=? n)%N && (n <=? 49)%N then Some (n - 48)%N else None.

Fixpoint all_radix (dig : ascii -> option N) (s : string) : bool :=
  match s with
  | EmptyString => true
  | String a r => match dig a with Some _ => all_radix dig r | None => false end
  end.

Definition non_decimal (s : string) : option Num :=
  match s with
  | String z (String p r) =>
      if Ascii.eqb z "0" then
        let dig := if Ascii.eqb p "x" || Ascii.eqb p "X" then Some (16%N, hex_digit)
                   else if Ascii.eqb p "o" || Ascii.eqb p "O" then Some (8%N, oct_digit)
                   else if Ascii.eqb p "b" || Ascii.eqb p "B" then Some (2%N, bin_digit)
                   else None in
        match dig with
        | Some (R, d) =>
            if negb (String.eqb r EmptyString) && all_radix d r
            then Some (round_double false (Z.of_N (digits_value R d r)) 1) else Some NaN
        | None => None
        end
      else None
  | _ => None
  end.

(** [Number(s)] for a string: StringToNumber. *)
Definition Number (s : string) : Num :=
  let t := trim s in
  if String.eqb t EmptyString then zero false else
  match non_decimal t with
  | Some v => v
  | None =>
      let '(sign, r) := split_sign t in
      let neg := Z.eqb sign (-1) in
      if String.eqb r "Infinity" then Infinity neg else
      match decimal_literal r with
      | Some (n, len, x) => decimal_to_num neg n len x
      | None => NaN
      end
  end.

(** ** Prisma's [Int] *)

Definition int32 (z : Z) : bool := (- 2 ^ 31 <=? z)%Z && (z <? 2 ^ 31)%Z.

(** The value of an [Int] filter Prisma accepts: an integral number in
    the 32-bit range ([None]: the query throws). *)
Definition prisma_int (x : Num) : option Z :=
  match to_integer x with
  | Some z => if int32 z then Some z else None
  | None => None
  end.

(** ** Lemmas: rounding *)

Lemma flog2_int n : 0 < n -> flog2 n 1 = Z.log2 n.
Proof.
  intros Hn. unfold flog2. rewrite Z.log2_1, Z.sub_0_r.
  destruct (Z.log2_spec n Hn) as [Hlo _]. pose proof (Z.log2_nonneg n).
  rewrite (proj2 (Z.leb_le 0 _)) by lia. by rewrite Z.mul_1_l, (proj2 (Z.leb_le _ _) Hlo).
Qed.

Lemma scale_int p e : e <= 0 -> scale p 1 e = (p * 2 ^ (- e), 1).
Proof.
  intros He. unfold scale. destruct (Z.leb_spec 0 e); [|done].
  replace e with 0 by lia. cbn. f_equal. lia.
Qed.

Lemma round_ne_1 n : round_ne n 1 = n.
Proof. unfold round_ne. by rewrite Z.div_1_r, Z.mod_1_r. Qed.

(** Below [2^53] an integer is exact: mantissa [n * 2^(52 - log2 n)]. *)
Lemma round_pos_small neg n :
  0 < n < 2 ^ prec ->
  round_pos neg n 1 = Finite neg (n * 2 ^ (prec - 1 - Z.log2 n)) (Z.log2 n - (prec - 1)).
Proof.
  intros Hn. unfold round_pos. rewrite flog2_int by lia.
  destruct (Z.log2_spec n) as [Hlo Hhi]; [lia|].
  assert (HL : Z.log2 n < prec) by (apply Z.log2_lt_pow2; unfold prec in *; lia).
  pose proof (Z.log2_nonneg n).
  rewrite Z.max_l by (unfold emin, prec in *; lia).
  rewrite scale_int by lia. rewrite round_ne_1. replace (- (Z.log2 n - (prec - 1))) with (prec - 1 - Z.log2 n) by lia.
  assert (Hm : n * 2 ^ (prec - 1 - Z.log2 n) < 2 ^ prec).
  { replace (2 ^ prec) with (2 ^ (Z.log2 n + 1) * 2 ^ (prec - 1 - Z.log2 n))
      by (rewrite <- Z.pow_add_r by lia; f_equal; lia).
    apply Z.mul_lt_mono_pos_r; [apply Z.pow_pos_nonneg; lia|exact Hhi]. }
  rewrite (proj2 (Z.eqb_neq _ _)) by lia.
  by rewrite (proj2 (Z.ltb_ge _ _)) by (unfold emax, prec in *; lia).
Qed.

Lemma to_integer_small neg n :
  0 < n < 2 ^ prec ->
  to_integer (round_pos neg n 1) = Some (if neg then - n else n).
Proof.
  intros Hn. rewrite round_pos_small by done. cbn [to_integer].
  pose proof (Z.log2_nonneg n).
  assert (HL : Z.log2 n < prec) by (apply Z.log2_lt_pow2; unfold prec in *; lia).
  destruct (Z.leb_spec 0 (Z.log2 n - (prec - 1))) as [He|He].
  - replace (prec - 1 - Z.log2 n) with 0 by lia. replace (Z.log2 n - (prec - 1)) with 0 by lia.
    cbn. by rewrite !Z.mul_1_r.
  - replace (- (Z.log2 n - (prec - 1))) with (prec - 1 - Z.log2 n) by lia.
    assert (Hp : 2 ^ (prec - 1 - Z.log2 n) <> 0) by (apply Z.pow_nonzero; lia).
    rewrite Z.mod_mul, Z.div_mul by exact Hp. done.
Qed.

(** The exponent [round_pos] gives is at least the one it starts from. *)
Lemma round_pos_exp neg p q :
  round_pos neg p q = Infinity neg \/
  exists m e, round_pos neg p q = Finite neg m e /\ Z.max (flog2 p q - (prec - 1)) emin <= e.
Proof.
  unfold round_pos. destruct (scale _ _ _) as [n d].
  destruct (round_ne n d =? 2 ^ prec); destruct (emax <? _);
    first [left; reflexivity | right; eexists _, _; split; [reflexivity|lia]].
Qed.

(** A finite number whose last mantissa bit weighs 2 or more is even. *)
Lemma to_integer_even neg m e v : 1 <= e -> to_integer (Finite neg m e) = Some v -> Z.even v = true.
Proof.
  intros He. cbn [to_integer]. rewrite (proj2 (Z.leb_le 0 e)) by lia. cbn. intros [= <-].
  replace e with (1 + (e - 1)) by lia. rewrite Z.pow_add_r by lia.
  destruct neg; [rewrite Z.even_opp|]; rewrite Z.even_mul, Z.even_mul; cbn; by rewrite ?orb_true_r.
Qed.

(** Above [2^53] an odd integer is not a number: it is rounded to an even one. *)
Lemma to_integer_large_odd neg n :
  2 ^ prec < n -> Z.odd n = true -> to_integer (round_pos neg n 1) <> Some (if neg then - n else n).
Proof.
  intros Hn Ho E. destruct (round_pos_exp neg n 1) as [Hi|(m & e & Hf & He)]; [by rewrite Hi in E|].
  rewrite flog2_int in He by (unfold prec in *; lia).
  assert (HL : prec <= Z.log2 n) by (apply Z.log2_le_pow2; unfold prec in *; lia).
  rewrite Hf in E. apply to_integer_even in E; [|lia].
  rewrite <- Z.negb_odd in E. destruct neg; [rewrite Z.odd_opp in E|]; by rewrite Ho in E.
Qed.

Lemma to_integer_of_Z z : Z.abs z < 2 ^ prec -> to_integer (of_Z z) = Some z.
Proof.
  intros Hz. unfold of_Z, round_double. destruct (Z.eqb_spec (Z.abs z) 0) as [E|E].
  - assert (z = 0) by lia. subst z. reflexivity.
  - rewrite to_integer_small by lia. destruct (Z.ltb_spec z 0); f_equal; lia.
Qed.

(** Below [2^53] Prisma's [Int] filter takes an integer exactly when it
    is in the 32-bit range. *)
Lemma prisma_int_of_Z_safe z : Z.abs z < 2 ^ prec -> prisma_int (of_Z z) = if int32 z then Some z else None.
Proof. intros Hz. unfold prisma_int. by rewrite to_integer_of_Z. Qed.

Lemma prisma_int_of_Z z : int32 z = true -> prisma_int (of_Z z) = Some z.
Proof.
  intros Hz. unfold prisma_int. unfold int32 in Hz. apply andb_prop in Hz as [H1 H2].
  apply Z.leb_le in H1. apply Z.ltb_lt in H2.
  rewrite to_integer_of_Z by (unfold prec; lia). unfold int32.
  by rewrite (proj2 (Z.leb_le _ _) H1), (proj2 (Z.ltb_lt _ _) H2).
Qed.

(** ** Lemmas: reading back a printed integer *)

Lemma digit_not_prefix a : dec_digit a <> None ->
  Ascii.eqb a "x" = false /\ Ascii.eqb a "X" = false /\ Ascii.eqb a "o" = false /\
  Ascii.eqb a "O" = false /\ Ascii.eqb a "b" = false /\ Ascii.eqb a "B" = false.
Proof. destruct a as [[] [] [] [] [] [] [] []]; vm_compute; try (by intros []); intros _; repeat split. Qed.

Lemma non_decimal_digits s : all_digits s = true -> non_decimal s = None.
Proof.
  destruct s as [|a [|b r]]; [done|done|]. cbn [all_digits]. intros H.
  destruct (dec_digit a); [|done]. destruct (dec_digit b) eqn:Eb; [|done].
  destruct (digit_not_prefix b) as (Hx & HX & Ho & HO & Hb & HB); [by rewrite Eb|].
  unfold non_decimal. rewrite Hx, HX, Ho, HO, Hb, HB. cbn. by destruct (Ascii.eqb a "0").
Qed.

Lemma span_digits_all s : all_digits s = true -> span_digits s = (s, EmptyString).
Proof.
  induction s as [|a r IH]; [done|]. cbn. destruct (dec_digit a); [|done].
  intros H. by rewrite (IH H).
Qed.

Lemma decimal_literal_digits d :
  all_digits d = true -> d <> EmptyString ->
  decimal_literal d = Some (digits_value 10 dec_digit d, Z.of_nat (String.length d), 0).
Proof.
  intros Hd Hne. unfold decimal_literal. rewrite span_digits_all by done. cbn.
  rewrite (proj2 (String.eqb_neq _ _) Hne), string_app_nil_r. cbn. by rewrite Z.sub_0_r.
Qed.

Lemma decimal_to_num_int neg n len : 0 <= len ->
  decimal_to_num neg n len 0 = round_double neg (Z.of_N n) 1.
Proof.
  intros Hl. unfold decimal_to_num. destruct (N.eqb_spec n 0) as [->|Hn]; [done|].
  rewrite (proj2 (Z.leb_gt _ _)) by lia. rewrite (proj2 (Z.leb_gt _ _)) by lia. cbn. by rewrite Z.mul_1_r.
Qed.

Lemma not_Infinity_digits d : all_digits d = true -> String.eqb d "Infinity" = false.
Proof. intros H. apply String.eqb_neq. intros ->. discriminate H. Qed.

Lemma split_sign_neg d : split_sign ("-" ++ d) = ((-1)%Z, d).
Proof. reflexivity. Qed.

Lemma non_decimal_neg d : non_decimal ("-" ++ d) = None.
Proof. by destruct d. Qed.

(** [toString] of an integer, read by [parseInt]: its sign and magnitude. *)
Lemma parseInt_digits_Z_to_string z :
  parseInt_digits (Z_to_string z) = Some (z <? 0, Z.to_N (Z.abs z)).
Proof.
  unfold parseInt_digits. rewrite (proj1 (trim_all_plain _ (Z_to_string_plain z))).
  destruct (Z_to_string_shape z) as (sign & -> & [[-> Hz]|[-> Hz]]).
  - rewrite string_app_nil_l, split_sign_digits by auto using N_to_string_digits, N_to_string_nonempty.
    rewrite strip_hex_digits, N_to_string_value by apply N_to_string_digits. cbn.
    by rewrite (proj2 (Z.ltb_ge _ _) Hz).
  - rewrite split_sign_neg.
    rewrite strip_hex_digits, N_to_string_value by apply N_to_string_digits. cbn.
    by rewrite (proj2 (Z.ltb_lt _ _) Hz).
Qed.

Lemma Number_Z_to_string z : Number (Z_to_string z) = of_Z z.
Proof.
  unfold Number, trim. destruct (trim_all_plain _ (Z_to_string_plain z)) as [-> ->].
  set (d := N_to_string (Z.to_N (Z.abs z))).
  assert (Hd : all_digits d = true) by apply N_to_string_digits.
  assert (Hne : d <> EmptyString) by apply N_to_string_nonempty.
  unfold of_Z.
  destruct (Z_to_string_shape z) as (sign & Hs & [[-> Hz]|[-> Hz]]); rewrite Hs; fold d.
  - rewrite string_app_nil_l, (proj2 (String.eqb_neq _ _) Hne), non_decimal_digits by done.
    rewrite split_sign_digits, not_Infinity_digits, decimal_literal_digits by done.
    rewrite decimal_to_num_int by lia. unfold digits_value, d. rewrite N_to_string_value. cbn.
    by rewrite (proj2 (Z.ltb_ge _ _) Hz), Z2N.id by lia.
  - rewrite (proj2 (String.eqb_neq ("-" ++ d) EmptyString)) by discriminate.
    rewrite non_decimal_neg, split_sign_neg.
    rewrite not_Infinity_digits, decimal_literal_digits by done.
    rewrite decimal_to_num_int by lia. unfold digits_value, d. rewrite N_to_string_value. cbn.
    by rewrite (proj2 (Z.ltb_lt _ _) Hz), Z2N.id by lia.
Qed.

(** The two routes read [userId] differently: [parseInt] takes the
    leading digits and refuses an empty string, [Number] refuses trailing
    text and reads an empty or blank string as 0. *)
Example id_readers_differ :
  parseInt "12abc" = of_Z 12 /\ Number "12abc" = NaN /\
  parseInt EmptyString = NaN /\ Number " " = zero false /\
  parseInt "0x10" = of_Z 16 /\ Number "0x10" = of_Z 16 /\ Number "1e1" = of_Z 10 /\ parseInt "1e1" = of_Z 1.
Proof. vm_compute. repeat split. Qed.

(** ** Properties *)

(** The number a route reads back from the decimal string the dashboard
    printed: [parseInt] and [Number] of [String(z)] are the number nearest
    to [z]; below [2^53] that number is [z] itself, and Prisma's [Int]
    filter takes it exactly when [z] is in the 32-bit range; above [2^53]
    an odd id is lost, the number read being even. *)
Theorem id_conversion_bounds z :
  parseInt (Z_to_string z) = of_Z z /\ Number (Z_to_string z) = of_Z z /\
  (Z.abs z < 2 ^ prec -> to_integer (of_Z z) = Some z) /\
  (int32 z = true -> prisma_int (of_Z z) = Some z) /\
  (2 ^ prec < Z.abs z -> Z.odd z = true -> to_integer (of_Z z) <> Some z).
Proof.
  split; [unfold parseInt, of_Z; by rewrite parseInt_digits_Z_to_string, Z2N.id by lia|].
  split; [apply Number_Z_to_string|].
  split; [apply to_integer_of_Z|]. split; [apply prisma_int_of_Z|].
  intros Hz Ho E. unfold of_Z, round_double in E.
  rewrite (proj2 (Z.eqb_neq _ 0)) in E by (unfold prec in *; lia).
  apply (to_integer_large_odd (z <? 0) (Z.abs z) Hz).
  - destruct (Z.abs_spec z) as [[_ ->]|[_ ->]]; [done|by rewrite Z.odd_opp].
  - rewrite E. f_equal. destruct (Z.ltb_spec z 0); lia.
Qed.

End JsNumber.
