(* ===== verification/Url.v ===== *)
(** * Query strings: [URLSearchParams]

    The [application/x-www-form-urlencoded] serializer the OAuth start
    routes use ([src/src/app/api/auth/google/route.ts] and
    [src/src/app/api/auth/line/route.ts]: [new URLSearchParams(options)]
    and [.toString()]), and the parser behind [searchParams.get] that the
    callbacks read the authorization code with.  Strings are their UTF-8
    bytes, as everywhere in the development. *)

From S2P Require Import Prelude Js.

Open Scope string_scope.

Module Url.

(** ** Serializing *)

Definition in_range (lo hi : N) (a : ascii) : bool := (lo <=? N_of_ascii a)%N && (N_of_ascii a <=? hi)%N.

(** The bytes the serializer leaves as they are: [A-Z], [a-z], [0-9]
    and [*], [-], [.], [_]. *)
Definition unreserved (a : ascii) : bool :=
  in_range 65 90 a || in_range 97 122 a || in_range 48 57 a ||
  Ascii.eqb a "*" || Ascii.eqb a "-" || Ascii.eqb a "." || Ascii.eqb a "_".

(** An upper-case hexadecimal digit. *)
Definition hex_char (d : N) : ascii := if (d <? 10)%N then ascii_of_N (48 + d) else ascii_of_N (55 + d).

(** The form-urlencoded serialization of one string: unreserved bytes
    kept, a space as [+], every other byte as [%XY]. *)
Fixpoint form_encode (cs : list ascii) : list ascii :=
  match cs with
  | [] => []
  | a :: r =>
      (if unreserved a then [a]
       else if Ascii.eqb a " " then ["+"%char]
       else ["%"%char; hex_char (N_of_ascii a / 16); hex_char (N_of_ascii a mod 16)]) ++ form_encode r
  end.

(** Sequences joined with a separator byte, as [Array.prototype.join]. *)
Fixpoint join (sep : ascii) (segs : list (list ascii)) : list ascii :=
  match segs with
  | [] => []
  | [seg] => seg
  | seg :: rest => seg ++ sep :: join sep rest
  end.

(** One pair as [name=value]. *)
Definition encode_pair (p : string * string) : list ascii :=
  form_encode (list_ascii_of_string (fst p)) ++ "="%char :: form_encode (list_ascii_of_string (snd p)).

(** [params.toString()]: the pairs, in order, joined with [&]. *)
Definition serialize (ps : list (string * string)) : string :=
  string_of_list_ascii (join "&" (map encode_pair ps)).

(** ** Parsing *)

(** The value of a hexadecimal digit, either case. *)
Definition hex_value (a : ascii) : option N :=
  let n := N_of_ascii a in
  if in_range 48 57 a then Some (n - 48)%N
  else if in_range 65 70 a then Some (n - 55)%N
  else if in_range 97 102 a then Some (n - 87)%N
  else None.

(** Percent-decoding with [+] as a space; a [%] not followed by two hex
    digits stays as it is. *)
Fixpoint form_decode (cs : list ascii) : list ascii :=
  match cs with
  | [] => []
  | "+"%char :: r => " "%char :: form_decode r
  | "%"%char :: r =>
      match r with
      | h1 :: h2 :: r' =>
          match hex_value h1, hex_value h2 with
          | Some x, Some y => ascii_of_N (16 * x + y) :: form_decode r'
          | _, _ => "%"%char :: form_decode r
          end
      | _ => "%"%char :: form_decode r
      end
  | a :: r => a :: form_decode r
  end.

(** Splitting on a separator byte. *)
Fixpoint split_on (sep : ascii) (cs : list ascii) : list (list ascii) :=
  match cs with
  | [] => [[]]
  | a :: r =>
      if Ascii.eqb a sep then [] :: split_on sep r
      else match split_on sep r with
           | seg :: segs => (a :: seg) :: segs
           | [] => [[a]]
           end
  end.

(** A sequence cut at its first [=]: name and value (an empty value when
    there is no [=]). *)
Fixpoint split_eq (cs : list ascii) : list ascii * list ascii :=
  match cs with
  | [] => ([], [])
  | a :: r => if Ascii.eqb a "=" then ([], r) else let '(k, v) := split_eq r in (a :: k, v)
  end.

(** The URL parser's list of pairs: the non-empty sequences between [&],
    each cut at its first [=], both sides decoded. *)
Definition parse_query (s : string) : list (string * string) :=
  map (fun seg => let '(k, v) := split_eq seg in
                  (string_of_list_ascii (form_decode k), string_of_list_ascii (form_decode v)))
      (List.filter (fun seg => negb (bool_decide (seg = []))) (split_on "&" (list_ascii_of_string s))).

(** [searchParams.get(name)]: the value of the first pair with that
    name, [null] when there is none. *)
Definition get (name : string) (ps : list (string * string)) : option string :=
  option_map snd (List.find (fun p => String.eqb (fst p) name) ps).

(** [new URL(url).search] without its [?]: what follows the first [?],
    up to a [#]. *)
Fixpoint after_question (cs : list ascii) : list ascii :=
  match cs with
  | [] => []
  | a :: r => if Ascii.eqb a "?" then r else after_question r
  end.

Fixpoint before_hash (cs : list ascii) : list ascii :=
  match cs with
  | [] => []
  | a :: r => if Ascii.eqb a "#" then [] else a :: before_hash r
  end.

Definition search (url : string) : string :=
  string_of_list_ascii (before_hash (after_question (list_ascii_of_string url))).

(** [new URL(url).searchParams.get(name)]. *)
Definition searchParams_get (url name : string) : option string :=
  get name (parse_query (search url)).

(** ** Decoding undoes encoding *)

(** The bytes the serializer can emit. *)
Definition emitted (a : ascii) : bool := unreserved a || Ascii.eqb a "+" || Ascii.eqb a "%".

Lemma N_lt_16_cases (d : N) : (d < 16)%N ->
  d = 0%N \/ d = 1%N \/ d = 2%N \/ d = 3%N \/ d = 4%N \/ d = 5%N \/ d = 6%N \/ d = 7%N \/
  d = 8%N \/ d = 9%N \/ d = 10%N \/ d = 11%N \/ d = 12%N \/ d = 13%N \/ d = 14%N \/ d = 15%N.
Proof. lia. Qed.

Lemma hex_char_value (d : N) : (d < 16)%N -> hex_value (hex_char d) = Some d /\ unreserved (hex_char d) = true.
Proof. intros H; apply N_lt_16_cases in H; decompose [or] H; subst; split; reflexivity. Qed.

Lemma hex_digits (a : ascii) : (N_of_ascii a / 16 < 16)%N /\ (N_of_ascii a mod 16 < 16)%N.
Proof. pose proof (N_ascii_bounded a). split; [apply N.Div0.div_lt_upper_bound; lia | apply N.mod_lt; lia]. Qed.

(** A byte other than [+] and [%] decodes to itself. *)
Lemma form_decode_plain (a : ascii) (r : list ascii) :
  a <> "+"%char -> a <> "%"%char -> form_decode (a :: r) = a :: form_decode r.
Proof. destruct a as [[] [] [] [] [] [] [] []]; intros; first [reflexivity | congruence]. Qed.

Lemma unreserved_plain (a : ascii) : unreserved a = true -> a <> "+"%char /\ a <> "%"%char.
Proof. intros H; split; intros ->; discriminate H. Qed.

Lemma form_decode_encode (cs : list ascii) : form_decode (form_encode cs) = cs.
Proof.
  induction cs as [|a r IH]; [reflexivity|]; cbn [form_encode].
  destruct (unreserved a) eqn:Hu.
  - destruct (unreserved_plain a Hu). cbn [app]. rewrite form_decode_plain by assumption. congruence.
  - destruct (Ascii.eqb_spec a " ").
    + subst. cbn. congruence.
    + destruct (hex_digits a) as [H1 H2].
      destruct (hex_char_value _ H1) as [V1 _], (hex_char_value _ H2) as [V2 _].
      cbn [app form_decode]. rewrite V1, V2, IH.
      rewrite <- (N.div_mod' (N_of_ascii a) 16), ascii_N_embedding. reflexivity.
Qed.

Lemma form_encode_emitted (cs : list ascii) (c : ascii) : In c (form_encode cs) -> emitted c = true.
Proof.
  unfold emitted. induction cs as [|a r IH]; cbn [form_encode]; [contradiction|].
  intros [H|H]%in_app_or; [|auto].
  destruct (unreserved a) eqn:Hu; [destruct H as [<-|[]]; rewrite Hu; reflexivity|].
  destruct (Ascii.eqb a " "); [destruct H as [<-|[]]; apply orb_true_iff; left; apply orb_true_iff; right; reflexivity|].
  destruct (hex_digits a) as [H1 H2].
  destruct H as [<-|[<-|[<-|[]]]]; [reflexivity| |].
  - rewrite (proj2 (hex_char_value _ H1)); reflexivity.
  - rewrite (proj2 (hex_char_value _ H2)); reflexivity.
Qed.

Lemma form_encode_not_in (cs : list ascii) (c : ascii) : emitted c = false -> ~ In c (form_encode cs).
Proof. intros Hc Hin; rewrite (form_encode_emitted cs c Hin) in Hc; discriminate. Qed.

(** ** Splitting what was joined *)

Lemma split_on_free (sep : ascii) (s : list ascii) :
  ~ In sep s -> split_on sep s = [s].
Proof.
  induction s as [|a r IH]; intros Hn; [reflexivity|]; cbn.
  destruct (Ascii.eqb_spec a sep); [subst; destruct Hn; left; reflexivity|].
  rewrite IH by (intros H; apply Hn; right; exact H). reflexivity.
Qed.

Lemma split_on_app (sep : ascii) (s t : list ascii) :
  ~ In sep s -> split_on sep (s ++ sep :: t) = s :: split_on sep t.
Proof.
  induction s as [|a r IH]; intros Hn; cbn.
  - rewrite Ascii.eqb_refl. reflexivity.
  - destruct (Ascii.eqb_spec a sep); [subst; destruct Hn; left; reflexivity|].
    rewrite IH by (intros H; apply Hn; right; exact H). reflexivity.
Qed.

Lemma split_on_join (sep : ascii) (segs : list (list ascii)) :
  segs <> [] -> Forall (fun s => ~ In sep s) segs -> split_on sep (join sep segs) = segs.
Proof.
  induction segs as [|s [|s' rest] IH]; intros Hne Hf; [congruence| |].
  - inversion Hf; subst. apply split_on_free. assumption.
  - inversion Hf; subst. change (split_on sep (s ++ sep :: join sep (s' :: rest)) = s :: s' :: rest).
    rewrite split_on_app by assumption. f_equal. apply IH; [discriminate|assumption].
Qed.

Lemma split_eq_app (k v : list ascii) : ~ In "="%char k -> split_eq (k ++ "="%char :: v) = (k, v).
Proof.
  induction k as [|a r IH]; intros Hn; [reflexivity|]; cbn.
  destruct (Ascii.eqb_spec a "="); [subst; destruct Hn; left; reflexivity|].
  rewrite IH by (intros H; apply Hn; right; exact H). reflexivity.
Qed.

Lemma split_eq_encode_pair (p : string * string) :
  split_eq (encode_pair p) = (form_encode (list_ascii_of_string (fst p)), form_encode (list_ascii_of_string (snd p))).
Proof. apply split_eq_app, form_encode_not_in. reflexivity. Qed.

Lemma encode_pair_no_amp (p : string * string) : ~ In "&"%char (encode_pair p).
Proof.
  unfold encode_pair. intros [H|[H|H]]%in_app_or; [| discriminate H |];
    revert H; apply form_encode_not_in; reflexivity.
Qed.

Lemma string_decode_encode (s : string) :
  string_of_list_ascii (form_decode (form_encode (list_ascii_of_string s))) = s.
Proof. rewrite form_decode_encode. apply string_of_list_ascii_of_string. Qed.

(** ** Properties *)

(** Round trip of [URLSearchParams]: parsing the serialization of any
    list of name/value pairs gives back the same pairs, in the same order,
    whatever bytes the names and values hold (spaces, [&], [=], [%], [+],
    non-ASCII). *)
Theorem parse_query_serialize (ps : list (string * string)) :
  parse_query (serialize ps) = ps.
Proof.
  unfold parse_query, serialize. rewrite list_ascii_of_string_of_list_ascii.
  destruct ps as [|p ps]; [reflexivity|].
  rewrite split_on_join by (discriminate || apply List.Forall_forall; intros s (q & <- & _)%in_map_iff; apply encode_pair_no_amp).
  rewrite forallb_filter_id.
  - rewrite map_map. erewrite map_ext; [apply map_id|]. intros [k v].
    rewrite split_eq_encode_pair. cbn [fst snd]. rewrite !string_decode_encode. reflexivity.
  - apply forallb_forall. intros s (q & <- & _)%in_map_iff.
    unfold encode_pair. destruct (form_encode _); reflexivity.
Qed.

Lemma before_hash_free (cs : list ascii) : ~ In "#"%char cs -> before_hash cs = cs.
Proof.
  induction cs as [|a r IH]; intros Hn; [reflexivity|]; cbn.
  destruct (Ascii.eqb_spec a "#"); [subst; destruct Hn; left; reflexivity|].
  rewrite IH by (intros H; apply Hn; right; exact H). reflexivity.
Qed.

Lemma after_question_app (base q : list ascii) : ~ In "?"%char base -> after_question (base ++ "?"%char :: q) = q.
Proof.
  induction base as [|a r IH]; intros Hn; cbn; [reflexivity|].
  destruct (Ascii.eqb_spec a "?"); [subst; destruct Hn; left; reflexivity|].
  apply IH. intros H; apply Hn; right; exact H.
Qed.

Lemma join_in (sep c : ascii) (segs : list (list ascii)) :
  In c (join sep segs) -> c = sep \/ exists s, In s segs /\ In c s.
Proof.
  induction segs as [|s [|s' rest] IH]; cbn [join]; [contradiction| |].
  - intros H; right; exists s; split; [left|]; auto.
  - intros [H|[H|H]]%in_app_or; [right; exists s; split; [left|]; auto|left; auto|].
    destruct (IH H) as [?|(t & Ht & Hc)]; [left; auto|right; exists t; split; [right|]; auto].
Qed.

(** The query of a serialization holds neither [#] nor [?]. *)
Lemma serialize_free (ps : list (string * string)) (c : ascii) :
  emitted c = false -> c <> "&"%char -> c <> "="%char -> ~ In c (list_ascii_of_string (serialize ps)).
Proof.
  intros He Ha Hq. unfold serialize. rewrite list_ascii_of_string_of_list_ascii.
  intros [->|(s & (p & <- & _)%in_map_iff & Hin)]%join_in; [congruence|].
  unfold encode_pair in Hin. apply in_app_or in Hin as [Hin|[<-|Hin]]; [| congruence |];
    revert Hin; apply form_encode_not_in; exact He.
Qed.

(** The query of [base + "?" + params] parses back to the parameters,
    when the base has no [?]. *)
Lemma search_serialize (base : string) (ps : list (string * string)) :
  ~ In "?"%char (list_ascii_of_string base) ->
  parse_query (search (base ++ "?" ++ serialize ps)) = ps.
Proof.
  intros Hb. unfold search.
  rewrite list_ascii_of_string_app.
  change (list_ascii_of_string ("?" ++ serialize ps)) with ("?"%char :: list_ascii_of_string (serialize ps)).
  rewrite after_question_app by exact Hb.
  rewrite before_hash_free by (apply serialize_free; [reflexivity|discriminate|discriminate]).
  rewrite string_of_list_ascii_of_string. apply parse_query_serialize.
Qed.

(** [new URL(base + "?" + params).searchParams.get(name)] reads what the
    parameters hold. *)
Lemma searchParams_get_serialize (base name : string) (ps : list (string * string)) :
  ~ In "?"%char (list_ascii_of_string base) ->
  searchParams_get (base ++ "?" ++ serialize ps) name = get name ps.
Proof. intros Hb. unfold searchParams_get. rewrite search_serialize by exact Hb. reflexivity. Qed.

End Url.
