(* ===== verification/Base64.v ===== *)
(** * Base64 and base64url

    The encodings of the Gmail route and of the registration page:
    - [Buffer.from(s).toString("base64")] (RFC 4648 section 4, as Node's
      [Buffer] applies it to the UTF-8 bytes of a string), and the
      base64url rewrite of [src/src/app/api/notifications/google/route.ts]
      lines 47-51 ([+] to [-], [/] to [_], trailing [=] removed);
    - [urlBase64ToUint8Array] of [src/src/app/register/page.tsx] lines
      6-15: re-padding, the inverse rewrite, and [window.atob] (the
      WHATWG forgiving-base64 decode, [None] when it throws).
    The main theorem is the round trip: the registration page's decoder
    inverts the Gmail route's encoder on every byte string. *)

From S2P Require Import Prelude.

Open Scope Z_scope.

Module Base64.

(** ** Characters *)

Definition code (a : ascii) : Z := Z.of_N (N_of_ascii a).
Definition chr (n : Z) : ascii := ascii_of_N (Z.to_N n).

(** The alphabet: [A-Z], [a-z], [0-9], [+], [/]. *)
Definition b64_char (v : Z) : ascii :=
  if v <? 26 then chr (65 + v)
  else if v <? 52 then chr (71 + v)
  else if v <? 62 then chr (v - 4)
  else if v =? 62 then "+"%char
  else "/"%char.

(** The value of an alphabet character. *)
Definition b64_value (a : ascii) : option Z :=
  let n := code a in
  if (65 <=? n) && (n <=? 90) then Some (n - 65)
  else if (97 <=? n) && (n <=? 122) then Some (n - 71)
  else if (48 <=? n) && (n <=? 57) then Some (n + 4)
  else if n =? 43 then Some 62
  else if n =? 47 then Some 63
  else None.

(** ** Encoding *)

(** [Buffer.from(s)]: the UTF-8 bytes of the string. *)
Definition bytes_of_string (s : string) : list Z := map code (list_ascii_of_string s).

(** The six bits of [n] from bit [k] up. *)
Definition sextet (n k : Z) : Z := Z.land (Z.shiftr n k) 63.

(** The 6-bit groups of a byte sequence, three bytes to four groups; a
    final one or two bytes give two or three groups, zero-filled. *)
Fixpoint sextets (bs : list Z) : list Z :=
  match bs with
  | b0 :: b1 :: b2 :: rest =>
      let n := Z.lor (Z.lor (Z.shiftl b0 16) (Z.shiftl b1 8)) b2 in
      [sextet n 18; sextet n 12; sextet n 6; sextet n 0] ++ sextets rest
  | [b0; b1] =>
      let n := Z.lor (Z.shiftl b0 16) (Z.shiftl b1 8) in
      [sextet n 18; sextet n 12; sextet n 6]
  | [b0] => let n := Z.shiftl b0 16 in [sextet n 18; sextet n 12]
  | [] => []
  end.

(** The [=] padding after a final partial group. *)
Definition padding_of (len : nat) : list ascii :=
  match (len mod 3)%nat with 1%nat => ["="; "="]%char | 2%nat => ["="%char] | _ => [] end.

(** [buf.toString("base64")]. *)
Definition encode (bs : list Z) : string :=
  string_of_list_ascii (map b64_char (sextets bs) ++ padding_of (List.length bs)).

(** [str.replace(/c/g, d)] for a one-character pattern. *)
Definition replace_char (c d : ascii) (s : string) : string :=
  string_of_list_ascii (map (fun a => if Ascii.eqb a c then d else a) (list_ascii_of_string s)).

(** [str.replace(/=+$/, ...)] with the empty string, on a list of characters. *)
Fixpoint strip_trailing_eq (cs : list ascii) : list ascii :=
  match cs with
  | [] => []
  | a :: r =>
      let r' := strip_trailing_eq r in
      if Ascii.eqb a "=" && bool_decide (r' = []) then [] else a :: r'
  end.

(** The [encodedMessage] of the Gmail route, from the bytes. *)
Definition base64url (bs : list Z) : string :=
  let s := replace_char "/" "_" (replace_char "+" "-" (encode bs)) in
  string_of_list_ascii (strip_trailing_eq (list_ascii_of_string s)).

(** ** Decoding *)

Definition is_ascii_ws (a : ascii) : bool :=
  let n := code a in (n =? 9) || (n =? 10) || (n =? 12) || (n =? 13) || (n =? 32).

(** All values, or [None] at the first character outside the alphabet. *)
Fixpoint values (cs : list ascii) : option (list Z) :=
  match cs with
  | [] => Some []
  | a :: r =>
      match b64_value a, values r with
      | Some v, Some vs => Some (v :: vs)
      | _, _ => None
      end
  end.

(** The bytes of the 6-bit groups: a buffer of 24 bits gives three
    bytes; 18 leftover bits drop 2 and give two; 12 drop 4 and give one. *)
Fixpoint decode_groups (vs : list Z) : list Z :=
  match vs with
  | a :: b :: c :: d :: rest =>
      let buf := Z.lor (Z.lor (Z.lor (Z.shiftl a 18) (Z.shiftl b 12)) (Z.shiftl c 6)) d in
      [Z.shiftr buf 16; Z.land (Z.shiftr buf 8) 255; Z.land buf 255] ++ decode_groups rest
  | [a; b; c] =>
      let buf := Z.shiftr (Z.lor (Z.lor (Z.shiftl a 12) (Z.shiftl b 6)) c) 2 in
      [Z.shiftr buf 8; Z.land buf 255]
  | [a; b] => [Z.shiftr (Z.lor (Z.shiftl a 6) b) 4]
  | _ => []
  end.

(** Drop one or two final [=]. *)
Definition strip_pad (cs : list ascii) : list ascii :=
  match rev cs with
  | "="%char :: "="%char :: r => rev r
  | "="%char :: r => rev r
  | _ => cs
  end.

(** [window.atob(s)]: remove ASCII white space; when the length is a
    multiple of four drop one or two final [=]; a length of 1 modulo 4
    or a character outside the alphabet throws. *)
Definition atob (s : string) : option (list Z) :=
  let cs := List.filter (fun a => negb (is_ascii_ws a)) (list_ascii_of_string s) in
  let cs := if Nat.eqb (List.length cs mod 4) 0 then strip_pad cs else cs in
  if Nat.eqb (List.length cs mod 4) 1 then None
  else match values cs with Some vs => Some (decode_groups vs) | None => None end.

(** [urlBase64ToUint8Array(base64String)]. *)
Definition urlBase64ToUint8Array (s : string) : option (list Z) :=
  let padding := string_of_list_ascii
                   (repeat "="%char ((4 - String.length s mod 4) mod 4)) in
  let base64 := replace_char "_" "/" (replace_char "-" "+" (String.append s padding)) in
  atob base64.

(** ** Lemmas: bit operations as arithmetic *)

Lemma land_shiftl_low x b k :
  0 <= k -> x mod 2 ^ k = 0 -> 0 <= b < 2 ^ k -> Z.land x b = 0.
Proof.
  intros Hk Hx Hb. apply Z.bits_inj'. intros i Hi. rewrite Z.land_spec, Z.bits_0.
  destruct (Z.ltb_spec i k).
  - rewrite <- (Z.mod_pow2_bits_low x k i) by lia. by rewrite Hx, Z.bits_0.
  - rewrite <- (Z.mod_small b (2 ^ k)) by lia. rewrite Z.mod_pow2_bits_high by lia.
    apply andb_false_r.
Qed.

(** [x | b] is [x + b] when [b] fits below the zero low bits of [x]. *)
Lemma lor_low x b k :
  0 <= k -> x mod 2 ^ k = 0 -> 0 <= b < 2 ^ k -> Z.lor x b = x + b.
Proof.
  intros Hk Hx Hb. pose proof (Z.add_lor_land x b) as E.
  rewrite (land_shiftl_low x b k Hk Hx Hb) in E. lia.
Qed.

(** Evaluate the powers of two with literal exponents. *)
Ltac pow_consts :=
  repeat match goal with
         | |- context [2 ^ ?k] =>
             let v := eval compute in (2 ^ k) in change (2 ^ k) with v
         | H : context [2 ^ ?k] |- _ =>
             let v := eval compute in (2 ^ k) in change (2 ^ k) with v in H
         end.

Ltac bits_to_arith :=
  unfold sextet in *;
  rewrite ?Z.shiftl_mul_pow2, ?Z.shiftr_div_pow2 by lia;
  change 63 with (Z.ones 6); change 255 with (Z.ones 8);
  rewrite ?Z.land_ones by lia.

Lemma sextet_range n k : 0 <= k -> 0 <= sextet n k < 64.
Proof. intros Hk. bits_to_arith. apply Z.mod_pos_bound. lia. Qed.

(** A full group: three bytes, four sextets, the same three bytes. *)
Lemma group3 b0 b1 b2 :
  0 <= b0 < 256 -> 0 <= b1 < 256 -> 0 <= b2 < 256 ->
  let n := Z.lor (Z.lor (Z.shiftl b0 16) (Z.shiftl b1 8)) b2 in
  let buf := Z.lor (Z.lor (Z.lor (Z.shiftl (sextet n 18) 18) (Z.shiftl (sextet n 12) 12))
                          (Z.shiftl (sextet n 6) 6)) (sextet n 0) in
  Z.shiftr buf 16 = b0 /\ Z.land (Z.shiftr buf 8) 255 = b1 /\ Z.land buf 255 = b2.
Proof.
  intros H0 H1 H2 n buf.
  assert (En : n = b0 * 65536 + b1 * 256 + b2).
  { subst n. rewrite !Z.shiftl_mul_pow2 by lia. pow_consts.
    rewrite (lor_low (b0 * 65536) (b1 * 256) 16), (lor_low _ b2 8); pow_consts; zdiv_lia. }
  assert (Eb : buf = n).
  { subst buf. pose proof (sextet_range n 18) as R0. pose proof (sextet_range n 12) as R1.
    pose proof (sextet_range n 6) as R2. pose proof (sextet_range n 0) as R3.
    rewrite !Z.shiftl_mul_pow2 by lia. pow_consts.
    rewrite (lor_low (sextet n 18 * 262144) (sextet n 12 * 4096) 18),
            (lor_low _ (sextet n 6 * 64) 12), (lor_low _ (sextet n 0) 6); pow_consts; try zdiv_lia.
    rewrite En. bits_to_arith. pow_consts. zdiv_lia. }
  rewrite Eb, En. bits_to_arith. pow_consts. split; [|split]; zdiv_lia.
Qed.

(** A final group of two bytes: three sextets give the two bytes back. *)
Lemma group2 b0 b1 :
  0 <= b0 < 256 -> 0 <= b1 < 256 ->
  let n := Z.lor (Z.shiftl b0 16) (Z.shiftl b1 8) in
  let buf := Z.shiftr (Z.lor (Z.lor (Z.shiftl (sextet n 18) 12) (Z.shiftl (sextet n 12) 6))
                             (sextet n 6)) 2 in
  Z.shiftr buf 8 = b0 /\ Z.land buf 255 = b1.
Proof.
  intros H0 H1 n buf.
  assert (En : n = b0 * 65536 + b1 * 256).
  { subst n. rewrite !Z.shiftl_mul_pow2 by lia. pow_consts.
    rewrite (lor_low (b0 * 65536) (b1 * 256) 16); pow_consts; zdiv_lia. }
  assert (Eb : buf = b0 * 256 + b1).
  { subst buf. pose proof (sextet_range n 18) as R0. pose proof (sextet_range n 12) as R1.
    pose proof (sextet_range n 6) as R2.
    rewrite !Z.shiftl_mul_pow2, Z.shiftr_div_pow2 by lia. pow_consts.
    rewrite (lor_low (sextet n 18 * 4096) (sextet n 12 * 64) 12),
            (lor_low _ (sextet n 6) 6); pow_consts; try zdiv_lia.
    rewrite En. bits_to_arith. pow_consts. zdiv_lia. }
  rewrite Eb. bits_to_arith. pow_consts. split; zdiv_lia.
Qed.

(** A final single byte: two sextets give the byte back. *)
Lemma group1 b0 :
  0 <= b0 < 256 ->
  let n := Z.shiftl b0 16 in
  Z.shiftr (Z.lor (Z.shiftl (sextet n 18) 6) (sextet n 12)) 4 = b0.
Proof.
  intros H0 n. pose proof (sextet_range n 18) as R0. pose proof (sextet_range n 12) as R1.
  rewrite Z.shiftl_mul_pow2, Z.shiftr_div_pow2 by lia. pow_consts.
  rewrite (lor_low (sextet n 18 * 64) (sextet n 12) 6); pow_consts; try zdiv_lia.
  subst n. bits_to_arith. pow_consts. zdiv_lia.
Qed.

Definition is_byte (b : Z) : Prop := 0 <= b < 256.

(** Decoding the 6-bit groups of a byte string gives it back. *)
Lemma decode_sextets bs : Forall is_byte bs -> decode_groups (sextets bs) = bs.
Proof.
  induction bs as [|a|a b|a b c l IH] using list_ind3; intros HF.
  - done.
  - inversion HF as [|? ? Ha _]; subst. cbn [sextets decode_groups].
    pose proof (group1 a Ha) as G. cbv zeta in G. by rewrite G.
  - inversion HF as [|? ? Ha HF']; subst. inversion HF' as [|? ? Hb _]; subst.
    cbn [sextets decode_groups]. pose proof (group2 a b Ha Hb) as G. cbv zeta in G.
    destruct G as [-> ->]. done.
  - inversion HF as [|? ? Ha HF1]; subst. inversion HF1 as [|? ? Hb HF2]; subst.
    inversion HF2 as [|? ? Hc HF3]; subst.
    cbn [sextets app decode_groups]. pose proof (group3 a b c Ha Hb Hc) as G. cbv zeta in G.
    destruct G as (-> & -> & ->). by rewrite IH.
Qed.

(** ** Lemmas: characters *)

Lemma code_chr n : 0 <= n < 256 -> code (chr n) = n.
Proof. intros Hn. unfold code, chr. rewrite N_ascii_embedding; lia. Qed.

Lemma b64_value_char v : 0 <= v < 64 -> b64_value (b64_char v) = Some v.
Proof.
  intros Hv. unfold b64_char.
  destruct (Z.ltb_spec v 26); [|destruct (Z.ltb_spec v 52); [|destruct (Z.ltb_spec v 62);
    [|destruct (Z.eqb_spec v 62)]]];
    try (subst; reflexivity);
    [| | |assert (v = 63) as -> by lia; reflexivity];
    unfold b64_value; rewrite code_chr by lia;
    repeat match goal with |- context [?a <=? ?b] =>
      destruct (Z.leb_spec a b); simpl; try lia end;
    repeat match goal with |- context [?a =? ?b] =>
      destruct (Z.eqb_spec a b); simpl; try lia end;
    f_equal; lia.
Qed.

(** A character outside the alphabet is no alphabet character. *)
Lemma b64_char_neq v c : 0 <= v < 64 -> b64_value c = None -> b64_char v <> c.
Proof. intros Hv Hc E. rewrite <- E, b64_value_char in Hc by done. discriminate. Qed.

Definition alphabet_char (a : ascii) : Prop := exists v, 0 <= v < 64 /\ a = b64_char v.

Lemma sextets_range bs : Forall (fun v => 0 <= v < 64) (sextets bs).
Proof.
  induction bs as [|a|a b|a b c l IH] using list_ind3; cbn [sextets];
    repeat constructor; auto using sextet_range with zarith;
    apply sextet_range; lia.
Qed.

Lemma values_chars vs :
  Forall (fun v => 0 <= v < 64) vs -> values (map b64_char vs) = Some vs.
Proof.
  induction 1 as [|v vs Hv _ IH]; [done|]. simpl. by rewrite b64_value_char, IH.
Qed.

(** ** Lemmas: lengths and padding *)

Lemma padding_of_S3 n : padding_of (S (S (S n))) = padding_of n.
Proof.
  unfold padding_of. replace (S (S (S n))) with (n + 1 * 3)%nat by lia.
  by rewrite Nat.Div0.mod_add.
Qed.

(** The groups and the padding fill whole quadruples, and the groups never
    leave a single character over. *)
Lemma sextets_length bs :
  ((List.length (sextets bs) + List.length (padding_of (List.length bs))) mod 4 = 0 /\
   List.length (sextets bs) mod 4 <> 1 /\ List.length (padding_of (List.length bs)) < 4)%nat.
Proof.
  induction bs as [|a|a b|a b c l IH] using list_ind3; [cbn; lia..|].
  cbn [List.length sextets]. rewrite padding_of_S3, length_app. cbn [List.length].
  destruct IH as (H1 & H2 & H3). split; [|split]; [nat_mod_lia..|done].
Qed.

Lemma padding_of_eqs n : padding_of n = repeat "="%char (List.length (padding_of n)).
Proof. unfold padding_of. by destruct (n mod 3)%nat as [|[|[|]]]. Qed.

(** ** Lemmas: the rewrites on characters *)

Definition swap (c d : ascii) (a : ascii) : ascii := if Ascii.eqb a c then d else a.

Lemma replace_char_list c d cs :
  list_ascii_of_string (replace_char c d (string_of_list_ascii cs)) = map (swap c d) cs.
Proof. unfold replace_char. by rewrite !list_ascii_of_string_of_list_ascii. Qed.

Lemma replace_char_string c d cs :
  replace_char c d (string_of_list_ascii cs) = string_of_list_ascii (map (swap c d) cs).
Proof. unfold replace_char. by rewrite list_ascii_of_string_of_list_ascii. Qed.

Lemma swap_other c d a : a <> c -> swap c d a = a.
Proof. intros H. unfold swap. by destruct (Ascii.eqb_spec a c). Qed.

Lemma map_swap_eqs c d n : c <> "="%char -> map (swap c d) (repeat "="%char n) = repeat "="%char n.
Proof. intros Hc. induction n as [|n IH]; [done|]. simpl. rewrite IH, swap_other; congruence. Qed.

(** base64url and back: [+]/[/] become [-]/[_] and return, on the
    alphabet. *)
Lemma swap_back v :
  0 <= v < 64 ->
  swap "_" "/" (swap "-" "+" (swap "/" "_" (swap "+" "-" (b64_char v)))) = b64_char v.
Proof.
  intros Hv. unfold swap.
  destruct (Ascii.eqb_spec (b64_char v) "+") as [E|N1]; [by rewrite E|].
  destruct (Ascii.eqb_spec (b64_char v) "/") as [E|N2]; [by rewrite E|].
  rewrite (proj2 (Ascii.eqb_neq _ _) (b64_char_neq v "-" Hv eq_refl)).
  by rewrite (proj2 (Ascii.eqb_neq _ _) (b64_char_neq v "_" Hv eq_refl)).
Qed.

Lemma url_chars_no_eq vs :
  Forall (fun v => 0 <= v < 64) vs ->
  Forall (fun a => a <> "="%char) (map (swap "/" "_") (map (swap "+" "-") (map b64_char vs))).
Proof.
  induction 1 as [|v vs Hv _ IH]; constructor; [|done]. unfold swap.
  destruct (Ascii.eqb _ "+"); [done|]. destruct (Ascii.eqb _ "/"); [done|].
  by apply b64_char_neq.
Qed.

Lemma strip_trailing_eq_app u n :
  Forall (fun a => a <> "="%char) u -> strip_trailing_eq (u ++ repeat "="%char n) = u.
Proof.
  induction 1 as [|a u Ha _ IH]; simpl.
  - induction n as [|n IHn]; [done|]. simpl. by rewrite IHn.
  - rewrite IH. destruct (Ascii.eqb_spec a "="); [done|]. done.
Qed.

(** The decode-side strip of the padding. *)
Lemma strip_pad_last (cs : list ascii) x r :
  rev cs = x :: r -> x <> "="%char -> strip_pad cs = cs.
Proof.
  intros E Hx. unfold strip_pad. rewrite E.
  destruct x as [[] [] [] [] [] [] [] []]; try reflexivity; by destruct Hx.
Qed.

Lemma strip_pad_padded (t : list ascii) n :
  (n < 3)%nat -> Forall (fun a => a <> "="%char) t -> strip_pad (t ++ repeat "="%char n) = t.
Proof.
  intros Hn Ht. assert (Hlast : forall x r, rev t = x :: r -> x <> "="%char).
  { intros x r E. apply (Forall_forall (fun a => a <> "="%char) t); [done|].
    apply list_elem_of_In, in_rev. rewrite E. by left. }
  destruct n as [|[|[|]]]; [| | |lia].
  - rewrite app_nil_r. destruct (rev t) as [|x r] eqn:E.
    + apply (f_equal (@rev ascii)) in E. rewrite rev_involutive in E. by subst.
    + exact (strip_pad_last t x r E (Hlast x r eq_refl)).
  - unfold strip_pad. rewrite rev_app_distr. simpl.
    destruct (rev t) as [|x r] eqn:E.
    + apply (f_equal (@rev ascii)) in E. rewrite rev_involutive in E. by subst.
    + specialize (Hlast x r eq_refl). rewrite <- E, rev_involutive.
      destruct x as [[] [] [] [] [] [] [] []]; try reflexivity; by destruct Hlast.
  - unfold strip_pad. rewrite rev_app_distr. simpl. by rewrite rev_involutive.
Qed.

Lemma padding_of_short m : (List.length (padding_of m) < 3)%nat.
Proof. unfold padding_of. destruct (m mod 3)%nat as [|[|[|]]]; simpl; lia. Qed.

Lemma alphabet_not_ws a : b64_value a <> None -> is_ascii_ws a = false.
Proof. destruct a as [[] [] [] [] [] [] [] []]; vm_compute; congruence. Qed.

Lemma filter_not_ws (cs : list ascii) :
  Forall (fun a => b64_value a <> None \/ a = "="%char) cs ->
  List.filter (fun a => negb (is_ascii_ws a)) cs = cs.
Proof.
  induction 1 as [|a cs Ha _ IH]; [done|]. simpl.
  destruct Ha as [Ha| ->]; [rewrite alphabet_not_ws by done|]; simpl; by rewrite IH.
Qed.

Lemma encode_list bs :
  list_ascii_of_string (encode bs) =
  map b64_char (sextets bs) ++ repeat "="%char (List.length (padding_of (List.length bs))).
Proof. unfold encode. rewrite list_ascii_of_string_of_list_ascii. by rewrite <- padding_of_eqs. Qed.

(** The Gmail route's [encodedMessage]: the alphabet characters rewritten,
    without padding. *)
Lemma base64url_list bs :
  base64url bs = string_of_list_ascii (map (swap "/" "_") (map (swap "+" "-") (map b64_char (sextets bs)))).
Proof.
  unfold base64url. rewrite <- (string_of_list_ascii_of_string (encode bs)), encode_list.
  rewrite !replace_char_string, list_ascii_of_string_of_list_ascii, !map_app,
    !map_swap_eqs by discriminate.
  f_equal. apply strip_trailing_eq_app, url_chars_no_eq, sextets_range.
Qed.

(** ** Lemmas: lengths *)

(** Four characters for three bytes: [ceil(4n / 3)] groups. *)
Lemma length_sextets bs : List.length (sextets bs) = ((4 * List.length bs + 2) / 3)%nat.
Proof.
  induction bs as [|a|a b|a b c l IH] using list_ind3; [reflexivity..|].
  cbn [sextets List.length]. rewrite length_app, IH. cbn [List.length].
  replace (4 * S (S (S (List.length l))) + 2)%nat with (4 * List.length l + 2 + 4 * 3)%nat by lia.
  rewrite Nat.div_add by discriminate. lia.
Qed.

(** The padding completes the last quadruple. *)
Lemma length_padding_of n :
  ((4 * n + 2) / 3 + List.length (padding_of n) = 4 * ((n + 2) / 3))%nat.
Proof.
  pose proof (Nat.div_mod_eq n 3) as E. pose proof (Nat.mod_upper_bound n 3 ltac:(discriminate)).
  unfold padding_of. remember (n mod 3)%nat as r eqn:Er. remember (n / 3)%nat as q eqn:Eq.
  rewrite E. clear Er Eq E.
  replace (3 * q + r + 2)%nat with (r + 2 + q * 3)%nat by lia.
  replace (4 * (3 * q + r) + 2)%nat with (4 * r + 2 + (4 * q) * 3)%nat by lia.
  rewrite !Nat.div_add by discriminate.
  destruct r as [|[|[|r]]]; cbn; lia.
Qed.

Lemma bytes_of_string_bytes s : Forall is_byte (bytes_of_string s).
Proof.
  apply Forall_map, Forall_forall. intros a _. unfold is_byte, code.
  pose proof (N_ascii_bounded a). lia.
Qed.

(** [atob] inverts the standard encoding ([Buffer.toString("base64")]). *)
Lemma atob_encode bs : Forall is_byte bs -> atob (encode bs) = Some bs.
Proof.
  intros Hb. pose proof (sextets_range bs) as Hr. pose proof (sextets_length bs) as (HL1 & HL2 & _).
  pose proof (padding_of_short (List.length bs)) as Hp.
  unfold atob. rewrite encode_list.
  set (vs := sextets bs) in *. set (n := List.length (padding_of (List.length bs))) in *.
  rewrite filter_not_ws.
  2: { apply Forall_app. split; [|apply Forall_forall; intros a Ha;
         apply list_elem_of_In, repeat_spec in Ha; by right].
       apply Forall_map. eapply Forall_impl; [exact Hr|]. intros v Hv. left.
       by rewrite b64_value_char. }
  rewrite length_app, repeat_length, length_map.
  replace (Nat.eqb ((List.length vs + n) mod 4) 0) with true by (symmetry; apply Nat.eqb_eq; done).
  assert (Hne : Forall (fun a => a <> "="%char) (map b64_char vs)).
  { apply Forall_map. eapply Forall_impl; [exact Hr|]. intros v Hv. by apply b64_char_neq. }
  rewrite strip_pad_padded by (done || lia).
  rewrite length_map. replace (Nat.eqb (List.length vs mod 4) 1) with false
    by (symmetry; apply Nat.eqb_neq; done).
  rewrite values_chars by done. f_equal. by apply decode_sextets.
Qed.

(** The decoder's re-padding and character swaps rebuild exactly the
    standard encoding. *)
Lemma urlBase64_unwrap bs :
  replace_char "_" "/" (replace_char "-" "+"
    (String.append (base64url bs)
       (string_of_list_ascii (repeat "="%char ((4 - String.length (base64url bs) mod 4) mod 4))))) =
  encode bs.
Proof.
  pose proof (sextets_range bs) as Hr. pose proof (sextets_length bs) as (HL1 & _ & _).
  pose proof (padding_of_short (List.length bs)) as Hp.
  rewrite base64url_list, length_string_of_list_ascii, !length_map.
  rewrite <- (string_of_list_ascii_of_string (encode bs)), encode_list.
  set (vs := sextets bs) in *. set (n := List.length (padding_of (List.length bs))) in *.
  replace ((4 - List.length vs mod 4) mod 4)%nat with n by nat_mod_lia.
  rewrite <- string_of_list_ascii_app, !replace_char_string, !map_app, !map_swap_eqs by discriminate.
  rewrite !map_map. f_equal. f_equal. apply map_ext_in. intros v Hv. apply swap_back.
  exact (proj1 (Forall_forall _ _) Hr v (proj2 (list_elem_of_In _ _) Hv)).
Qed.

(** C20: round trip: the registration page's [urlBase64ToUint8Array]
    decodes the Gmail route's base64url encoding of any byte string back
    to the same bytes. *)
Theorem urlBase64ToUint8Array_base64url bs :
  Forall is_byte bs -> urlBase64ToUint8Array (base64url bs) = Some bs.
Proof. intros Hb. unfold urlBase64ToUint8Array. cbv zeta. rewrite urlBase64_unwrap. by apply atob_encode. Qed.

(** Bounds: the Base64 text of [n] bytes has [4 * ceil(n / 3)]
    characters, and the [raw] message the Gmail route sends (base64url,
    padding removed) has [ceil(4n / 3)]: the route sends a third more
    than the MIME text, and never a partial quadruple plus padding. *)
Theorem encoded_length bs :
  String.length (encode bs) = (4 * ((List.length bs + 2) / 3))%nat /\
  String.length (base64url bs) = ((4 * List.length bs + 2) / 3)%nat.
Proof.
  split.
  - unfold encode. rewrite length_string_of_list_ascii, length_app, length_map,
      length_sextets. apply length_padding_of.
  - rewrite base64url_list, length_string_of_list_ascii, !length_map. apply length_sextets.
Qed.

Lemma urlBase64ToUint8Array_base64url_witness :
  Forall is_byte (bytes_of_string "hello world?>") /\
  urlBase64ToUint8Array (base64url (bytes_of_string "hello world?>")) =
    Some (bytes_of_string "hello world?>").
Proof.
  assert (H : Forall is_byte (bytes_of_string "hello world?>")).
  { vm_compute. repeat constructor; discriminate. }
  exact (conj H (urlBase64ToUint8Array_base64url _ H)).
Defined.

End Base64.
