(* ===== verification/Directory.v ===== *)
(** * The recipient directory and the channel-eligibility filters

    The [User] table row (the Prisma model read by every route), the
    dashboard page's projection of rows to the client's [User]
    interface ([src/src/app/page.tsx]), and the three target filters of
    [handleSubmit] ([src/src/components/DashboardClient.tsx], lines
    70-73, 86-88 and 115-117) with the per-channel counts that enable the
    channel checkboxes (lines 236-247). *)

From S2P Require Import Prelude Js.
From stdpp Require Import sorting.

Open Scope string_scope.

Module Directory.

(** ** Data *)

(** The [login_provider] column. *)
Inductive LoginProvider := CREDENTIALS | GOOGLE | LINE.

#[export] Instance LoginProvider_eq_dec : EqDecision LoginProvider.
Proof. solve_decision. Qed.

(** A row of the [User] table.  Nullable columns are [option]s. *)
Record DbUser := mkDbUser {
  id : Z;
  username : option string;
  email : option string;
  line_user_id : option string;
  line_display_name : option string;
  line_picture_url : option string;
  login_provider : option LoginProvider;
  password_hash : option string;
  google_refresh_token : option string;
  can_receive_email : bool;
  can_receive_line : bool;
  can_receive_push : bool;
  created_at : Z;
}.

(** The client-side [User] interface of the dashboard. *)
Record User := mkUser {
  u_id : string;
  u_name : option string;
  u_image : option string;
  u_email : option string;
  u_lineUserId : option string;
  u_canReceiveEmail : bool;
  u_canReceiveLine : bool;
  u_canReceivePush : bool;
}.

(** ** The dashboard page ([Home]) *)

(** The [formattedUsers] map of [page.tsx]. *)
Definition formatUser (user : DbUser) : User := {|
  u_id := Js.Z_to_string (id user);
  u_name := Some (Js.or_default (line_display_name user) "No Name");
  u_image := line_picture_url user;
  u_email := Some (Js.or_default (email user) EmptyString);
  u_lineUserId := line_user_id user;
  u_canReceiveEmail := can_receive_email user;
  u_canReceiveLine := Js.truthy_opt (line_user_id user);
  u_canReceivePush := can_receive_push user;
|}.

(** [orderBy: { created_at: 'desc' }]: newest first. *)
Definition newer_first (a b : DbUser) : Prop := (created_at b <= created_at a)%Z.

#[export] Instance newer_first_dec : RelDecision newer_first.
Proof. intros a b. unfold newer_first. apply _. Defined.

(** [findMany({ orderBy: { created_at: 'desc' } })] followed by the
    projection; the table is given as the list of its rows. *)
Definition Home (rows : list DbUser) : list User :=
  map formatUser (merge_sort newer_first rows).

(** ** The target filters of [handleSubmit] *)

Section Targets.
Variable users : list User.
Variable selectedUsers : list string.

Definition selected (u : User) : bool := Js.includes selectedUsers (u_id u).

(** [.filter((id): id is string => !!id)]: keep the truthy ids,
    narrowed to [string]. *)
Definition truthy_id (id : option string) : option string :=
  match id with Some s => if Js.truthy s then Some s else None | None => None end.

(** [targetLineIds]: selected users with [canReceiveLine], their
    [lineUserId], keeping the truthy ones. *)
Definition targetLineIds : list string :=
  omap truthy_id
    (map u_lineUserId (List.filter (fun u => selected u && u_canReceiveLine u) users)).

(** [targetGoogleUsers]. *)
Definition targetGoogleUsers : list User :=
  List.filter (fun u => selected u && u_canReceiveEmail u) users.

(** [targetPushUsers]. *)
Definition targetPushUsers : list User :=
  List.filter (fun u => selected u && u_canReceivePush u) users.

(** The counts that enable the channel checkboxes. *)
Definition selectedUsersList : list User := List.filter selected users.
Definition emailCount : nat := length (List.filter u_canReceiveEmail selectedUsersList).
Definition lineCount : nat := length (List.filter u_canReceiveLine selectedUsersList).
Definition pushCount : nat := length (List.filter u_canReceivePush selectedUsersList).
End Targets.

(** ** Lemmas *)

Lemma newer_first_total : Total newer_first.
Proof. intros a b. unfold newer_first. lia. Qed.

Lemma in_omap_iff {A B} (f : A -> option B) (l : list A) y :
  In y (omap f l) <-> exists x, In x l /\ f x = Some y.
Proof. rewrite <- list_elem_of_In, list_elem_of_omap. setoid_rewrite list_elem_of_In. done. Qed.

Lemma selected_formatUser sel u :
  selected sel (formatUser u) = Js.includes sel (Js.Z_to_string (id u)).
Proof. reflexivity. Qed.

(** The page lists every row once, newest first. *)
Theorem Home_sorted rows :
  exists l, Home rows = map formatUser l /\ l ≡ₚ rows /\ Sorted newer_first l.
Proof.
  exists (merge_sort newer_first rows). split; [done|]. split.
  - apply merge_sort_Permutation.
  - apply Sorted_merge_sort, newer_first_total.
Qed.

(** LINE eligibility at dispatch is "selected and has a non-empty LINE id";
    the stored [can_receive_line] column is not consulted. *)
Lemma targetLineIds_spec rows sel l :
  In l (targetLineIds (map formatUser rows) sel) <->
  exists u, In u rows /\ Js.includes sel (Js.Z_to_string (id u)) = true /\
            line_user_id u = Some l /\ Js.truthy l = true.
Proof.
  unfold targetLineIds. rewrite in_omap_iff. split.
  - intros (o & Ho & Ht). apply in_map_iff in Ho as (v & <- & Hv).
    apply filter_In in Hv as [Hv Hsel]. apply in_map_iff in Hv as (u & <- & Hu).
    apply andb_prop in Hsel as [Hs _]. change (u_lineUserId (formatUser u)) with (line_user_id u) in Ht.
    destruct (line_user_id u) as [s|] eqn:E; [|discriminate]. unfold truthy_id in Ht.
    destruct (Js.truthy s) eqn:T; [|discriminate]. injection Ht as <-. by exists u.
  - intros (u & Hu & Hs & Hl & Ht). exists (Some l). split.
    + apply in_map_iff. exists (formatUser u). split; [done|].
      apply filter_In. split; [by apply in_map|].
      by rewrite selected_formatUser, Hs; simpl; rewrite Hl.
    + simpl. by rewrite Ht.
Qed.

(** Email eligibility at dispatch is "selected and [can_receive_email]":
    the e-mail address itself is not checked. *)
Lemma targetGoogleUsers_spec rows sel v :
  In v (targetGoogleUsers (map formatUser rows) sel) <->
  exists u, In u rows /\ v = formatUser u /\
            Js.includes sel (Js.Z_to_string (id u)) = true /\ can_receive_email u = true.
Proof.
  unfold targetGoogleUsers. rewrite filter_In, in_map_iff. split.
  - intros [(u & <- & Hu) Hs]. apply andb_prop in Hs as [Hs He]. by exists u.
  - intros (u & Hu & -> & Hs & He). split; [by exists u|].
    by rewrite selected_formatUser, Hs.
Qed.

(** Push eligibility at dispatch is "selected and [can_receive_push]";
    whether the user has a subscription is decided by the push route. *)
Lemma targetPushUsers_spec rows sel v :
  In v (targetPushUsers (map formatUser rows) sel) <->
  exists u, In u rows /\ v = formatUser u /\
            Js.includes sel (Js.Z_to_string (id u)) = true /\ can_receive_push u = true.
Proof.
  unfold targetPushUsers. rewrite filter_In, in_map_iff. split.
  - intros [(u & <- & Hu) Hs]. apply andb_prop in Hs as [Hs He]. by exists u.
  - intros (u & Hu & -> & Hs & He). split; [by exists u|].
    by rewrite selected_formatUser, Hs.
Qed.

(** C34: the three recipient lists of a dispatch, over the page's formatted
    rows: LINE goes to the selected users with a non-empty LINE id (the
    stored [can_receive_line] column is not consulted), e-mail to the
    selected users with [can_receive_email] (the address itself is not
    checked), push to the selected users with [can_receive_push] (whether
    the user has a subscription is decided by the push route). *)
Theorem targets_spec rows sel :
  (forall l, In l (targetLineIds (map formatUser rows) sel) <->
     exists u, In u rows /\ Js.includes sel (Js.Z_to_string (id u)) = true /\
               line_user_id u = Some l /\ Js.truthy l = true) /\
  (forall v, In v (targetGoogleUsers (map formatUser rows) sel) <->
     exists u, In u rows /\ v = formatUser u /\
               Js.includes sel (Js.Z_to_string (id u)) = true /\ can_receive_email u = true) /\
  (forall v, In v (targetPushUsers (map formatUser rows) sel) <->
     exists u, In u rows /\ v = formatUser u /\
               Js.includes sel (Js.Z_to_string (id u)) = true /\ can_receive_push u = true).
Proof.
  split; [|split]; intros.
  - apply targetLineIds_spec. - apply targetGoogleUsers_spec. - apply targetPushUsers_spec.
Qed.

(** The checkbox counts are the sizes of the email and push target lists. *)
Lemma emailCount_targets users sel : emailCount users sel = length (targetGoogleUsers users sel).
Proof. unfold emailCount, selectedUsersList, targetGoogleUsers. by rewrite filter_filter_bool. Qed.

Lemma pushCount_targets users sel : pushCount users sel = length (targetPushUsers users sel).
Proof. unfold pushCount, selectedUsersList, targetPushUsers. by rewrite filter_filter_bool. Qed.

End Directory.
