(* ===== verification/Server.v ===== *)
(** * The server-side world shared by the API routes

    The database tables the routes read and write ([User] and
    [PushSubscription], as finite maps from primary key to row), the log
    of outbound calls to the external providers, the deployment
    environment (the [process.env] values and the behaviour of the three
    providers, as the typeclass [Env]), and the JSON responses the routes
    return ([NextResponse.json] / [NextResponse.redirect]). *)

From S2P Require Import Prelude Js JsNumber Directory.

Open Scope string_scope.

Module Server.
Import Directory.

(** ** Data *)

(** A row of the [PushSubscription] table. *)
Record PushSubscription := mkSub {
  sub_id : Z;
  user_id : Z;
  endpoint : string;
  p256dh_key : string;
  auth_key : string;
  is_active : bool;
}.

(** The JSON payload of a web push ([title], [body], [url]; an
    [undefined] url is dropped by [JSON.stringify]). *)
Record PushPayload := mkPayload {
  pl_title : string;
  pl_body : string;
  pl_url : option string;
}.

(** The settled outcome of [webPush.sendNotification]: delivered, or
    rejected with the error's [statusCode] when it has one. *)
Inductive PushResult :=
| PushDelivered
| PushRejected (statusCode : option Z) (message : string).

(** The outcome of a [fetch] to an external HTTP API: the promise
    rejects (a network error, with its message) or resolves to a
    response with a status and a body text. *)
Inductive HttpOutcome :=
| NetworkError (message : string)
| HttpResponse (status : Z) (text : string).

(** ** The request bodies of the notification routes

    The contract between the dashboard and the routes: what
    [JSON.stringify] sends and the route destructures. *)

(** [POST /api/notifications/line]: [{ userIds, message }]. *)
Record LineRequest := mkLineRequest { lr_userIds : list string; lr_message : string }.

(** [POST /api/notifications/google]: [{ userId, message, subject }]. *)
Record GoogleRequest := mkGoogleRequest {
  gr_userId : string; gr_message : string; gr_subject : option string }.

(** The [userId] field of the JSON body: a string (the dashboard), an
    integer number (the registration page), [null], a boolean, or
    absent.  Arrays and objects are not modelled. *)
Inductive JsId := IdString (s : string) | IdNumber (z : Z) | IdNull | IdBool (b : bool) | IdUndefined.

(** [Number(userId)] as the value of Prisma's [Int] filter [user_id]:
    [None] when Prisma refuses it ([NaN], a fraction, a value outside the
    32-bit range) and the query throws. *)
Definition Number_of (v : JsId) : option Z :=
  JsNumber.prisma_int
    match v with
    | IdString s => JsNumber.Number s
    | IdNumber z => JsNumber.of_Z z
    | IdNull => JsNumber.zero false
    | IdBool b => JsNumber.of_Z (if b then 1 else 0)%Z
    | IdUndefined => JsNumber.NaN
    end.

(** The destructured request body [{ userId, title, message, url }]. *)
Record PushRequest := mkPushRequest {
  userId : JsId;
  title : option string;
  message : option string;
  url : option string;
}.

(** Requests that leave the process, in the order they are made: the
    dashboard's [fetch]es of the API routes, and the routes' calls to
    the providers. *)
Inductive Call :=
| FetchLine (req : LineRequest)
| FetchGoogle (req : GoogleRequest)
| FetchSubscribe (req : PushRequest)
| LineMulticast (to : list string) (text : string)
| GmailSend (refresh_token : string) (raw : string)
| WebPush (endpoint p256dh auth : string) (payload : PushPayload).

(** The server state: the two tables and the outbound-call log. *)
Record World := mkWorld {
  users : gmap Z DbUser;
  subs : gmap Z PushSubscription;
  calls : list Call;
}.

(** A route handler: reads and writes the world, may throw an [Error]
    (whose [message] is the exception value). *)
Abbreviation Srv := (StE World string).

(** The deployment: [process.env] values and the external providers.
    Provider results are functions of the request. *)
Class Env := {
  NEXT_PUBLIC_BASE_URL : option string;
  (** The LINE multicast endpoint. *)
  line_multicast : list string -> string -> HttpOutcome;
  (** The Gmail API through the OAuth2 client: [None] on success, else
      the message of the error thrown (token refresh or send failure). *)
  gmail_send : string -> string -> option string;
  (** The push service. *)
  web_push : PushSubscription -> PushPayload -> PushResult;
  (** The message of the error Prisma throws on an invalid argument
      (e.g. a [NaN] id). *)
  prisma_invalid : string;
  (** The message of the error Prisma throws when a [create] breaks a
      unique constraint (P2002). *)
  prisma_unique : string;
}.

(** The fields of a JSON response body; absent fields are [None]. *)
Record Body := mkBody {
  b_success : option bool;
  b_sentCount : option nat;
  b_error : option string;
  b_message : option string;
  b_userId : option Z;
  b_details : option string;
}.

Definition empty_body : Body := mkBody None None None None None None.
Definition success_body : Body := mkBody (Some true) None None None None None.
Definition error_body (e : string) : Body := mkBody None None (Some e) None None None.

(** What a route answers: a JSON response, a redirect, or the HTML
    error page Next.js serves (status 500) when a handler throws. *)
Inductive Response :=
| Json (status : Z) (body : Body)
| Redirect (url : string)
| ServerError.

(** [response.ok]: a status in 200..299.  A redirect is followed by
    [fetch] to a page that loads. *)
(** The schema the clients read a JSON answer with: an answer with an
    [ok] status has no [error] field, any other has one. *)
Definition body_typed (r : Response) : Prop :=
  match r with
  | Json st b => if (200 <=? st)%Z && (st <? 300)%Z then b_error b = None else is_Some (b_error b)
  | _ => True
  end.

Definition ok (r : Response) : bool :=
  match r with
  | Json st _ => (200 <=? st)%Z && (st <? 300)%Z
  | Redirect _ => true
  | ServerError => false
  end.

(** A call made by the dashboard (as opposed to one made by a route). *)
Definition is_fetch (c : Call) : bool :=
  match c with FetchLine _ | FetchGoogle _ | FetchSubscribe _ => true | _ => false end.

(** The users table is keyed by the rows' ids. *)
Definition users_wf (m : gmap Z DbUser) : Prop := map_Forall (fun k r => id r = k) m.

#[export] Instance users_wf_dec m : Decision (users_wf m).
Proof. unfold users_wf. apply map_Forall_dec. intros k r. apply _. Defined.

(** ** World updates *)

Definition log_call (c : Call) : Srv unit :=
  st_modify (fun w => mkWorld (users w) (subs w) (calls w ++ [c])).

Definition delete_sub (k : Z) : Srv unit :=
  st_modify (fun w => mkWorld (users w) (delete k (subs w)) (calls w)).

Definition set_users (m : gmap Z DbUser) : Srv unit :=
  st_modify (fun w => mkWorld m (subs w) (calls w)).

(** ** A concrete deployment, used to run the handlers in examples

    Every provider accepts, except the push service, which answers 410
    Gone for the endpoint [demo_gone_endpoint]. *)

Definition demo_gone_endpoint : string := "https://push.example/gone".

#[local] Instance demo_env : Env := {|
  NEXT_PUBLIC_BASE_URL := Some "https://notify.example";
  line_multicast := fun _ _ => HttpResponse 200 "{}";
  gmail_send := fun _ _ => None;
  web_push := fun s _ =>
    if String.eqb (endpoint s) demo_gone_endpoint then PushRejected (Some 410%Z) "Gone"
    else PushDelivered;
  prisma_invalid := "Invalid value provided";
  prisma_unique := "Unique constraint failed on the fields: (`username`)";
|}.

Definition demo_user (i : Z) (line : option string) (mail push : bool) : DbUser := {|
  id := i; username := None; email := Some "user@example.com"; line_user_id := line;
  line_display_name := Some "User"; line_picture_url := None; login_provider := None;
  password_hash := None; google_refresh_token := Some "refresh";
  can_receive_email := mail; can_receive_line := false; can_receive_push := push;
  created_at := i |}.

(** Users 1 (LINE, e-mail), 2 (push, with one gone and one live
    subscription) and 3 (push, no subscription). *)
Definition demo_world : World := {|
  users := list_to_map [(1, demo_user 1 (Some "U1") true false);
                        (2, demo_user 2 None false true);
                        (3, demo_user 3 None false true)]%Z;
  subs := list_to_map [(10, mkSub 10 2 demo_gone_endpoint "k" "a" true);
                       (11, mkSub 11 2 "https://push.example/live" "k" "a" true)]%Z;
  calls := [];
|}.

(** ** Lemmas *)

(** An [Int] id sent as a JSON number reaches the push route's filter. *)
Lemma Number_of_int z : JsNumber.int32 z = true -> Number_of (IdNumber z) = Some z.
Proof. apply JsNumber.prisma_int_of_Z. Qed.

End Server.
