(* ===== verification/PushSender.v ===== *)
(** * The push sender: [POST /api/notifications/subscribe]

    [src/src/app/api/notifications/subscribe/route.ts].  The route reads
    the active subscriptions of one user, sends the payload to each with
    [webPush.sendNotification] under [Promise.allSettled], deletes a
    subscription whose push is rejected with status 404 or 410, and
    answers with the number of fulfilled sends.  The per-subscription
    promises run concurrently: [POST] is written with the sequential
    [send_all] (in the order [findMany] returns the rows), and
    [task_step] is the event loop's view, one step of one promise at a
    time in any interleaving; [task_step_wf] shows that every schedule
    terminates and [allSettled_interleavings] that it agrees with
    [send_all]. *)

From S2P Require Import Prelude Js Directory Server.
From Stdlib Require Import Wellfounded.

Open Scope string_scope.
Open Scope js_scope.

Module PushSender.
Import Directory Server.

(** Well-formed table: each row is stored under its own id. *)
Definition subs_wf (m : gmap Z PushSubscription) : Prop :=
  map_Forall (fun k s => sub_id s = k) m.

#[export] Instance subs_wf_dec m : Decision (subs_wf m).
Proof. unfold subs_wf. apply map_Forall_dec. intros k s. apply _. Defined.

Section Route.
Context `{Env}.

(** The [where] clause: [{ user_id: Number(userId), is_active: true }]. *)
Definition is_target (uid : Z) (s : PushSubscription) : bool :=
  bool_decide (user_id s = uid) && is_active s.

(** [prisma.pushSubscription.findMany(...)]. *)
Definition findMany_active (uid : Z) (m : gmap Z PushSubscription) : list PushSubscription :=
  List.filter (is_target uid) (map snd (map_to_list m)).

(** The [payload] of step 3 (before [JSON.stringify]). *)
Definition payload_of (req : PushRequest) : PushPayload :=
  mkPayload (Js.or_default (title req) "แจ้งเตือนใหม่")
            (Js.or_default (message req) "คุณได้รับข้อความจากระบบ")
            NEXT_PUBLIC_BASE_URL.

(** [status === 404 || status === 410]. *)
Definition is_gone (status : Z) : bool := (status =? 404)%Z || (status =? 410)%Z.

(** One promise of the [Promise.allSettled]: [true] when it is
    fulfilled.  A rejection with status 404 or 410 first deletes the
    subscription (a [delete] of a row already gone only makes the same
    promise reject with Prisma's error, so the outcome is the same). *)
Definition send_one (payload : PushPayload) (sub : PushSubscription) : Srv bool :=
  log_call (WebPush (endpoint sub) (p256dh_key sub) (auth_key sub) payload) ;;
  match web_push sub payload with
  | PushDelivered => mret true
  | PushRejected (Some status) _ =>
      (if is_gone status then delete_sub (sub_id sub) else mret tt) ;; mret false
  | PushRejected None _ => mret false
  end.

(** [Promise.allSettled(subscriptions.map(...))]. *)
Fixpoint send_all (payload : PushPayload) (l : list PushSubscription) : Srv (list bool) :=
  match l with
  | [] => mret []
  | s :: l' => r ← send_one payload s; rs ← send_all payload l'; mret (r :: rs)
  end.

(** [results.filter(r => r.status === 'fulfilled').length]. *)
Definition count_fulfilled (rs : list bool) : nat := List.length (List.filter (fun b => b) rs).

Definition no_subscription_error : string :=
  "User นี้ยังไม่ได้ลงทะเบียนเครื่องรับแจ้งเตือน".

(** The whole handler. *)
Definition POST (req : PushRequest) : Srv Response :=
  try (
    uid ← match Number_of (userId req) with
          | Some z => mret z
          | None => throw prisma_invalid
          end;
    w ← st_get;
    match findMany_active uid (subs w) with
    | [] => mret (Json 404 (error_body no_subscription_error))
    | subscriptions =>
        results ← send_all (payload_of req) subscriptions;
        mret (Json 200 (mkBody (Some true) (Some (count_fulfilled results)) None None None None))
    end)
  catch (fun msg => mret (Json 500 (error_body msg))).

(** ** The route's effect, stated without the monad *)

Definition delivered (payload : PushPayload) (s : PushSubscription) : bool :=
  match web_push s payload with PushDelivered => true | _ => false end.

Definition gone (payload : PushPayload) (s : PushSubscription) : bool :=
  match web_push s payload with PushRejected (Some st) _ => is_gone st | _ => false end.

Definition push_call (payload : PushPayload) (s : PushSubscription) : Call :=
  WebPush (endpoint s) (p256dh_key s) (auth_key s) payload.

(** The subscription table after the gone ones of [l] are deleted. *)
Definition prune (payload : PushPayload) (l : list PushSubscription)
    (m : gmap Z PushSubscription) : gmap Z PushSubscription :=
  fold_left (fun m s => if gone payload s then delete (sub_id s) m else m) l m.


(** ** [Promise.allSettled] as the event loop runs it

    Each promise of the fan-out runs [sendNotification] to its await,
    then, after a rejection with 404 or 410, the [delete] to its await,
    and settles.  The event loop runs the steps of the promises in any
    interleaving; [task_step] is one step of one promise. *)

Inductive Task :=
| TaskPending (s : PushSubscription)
| TaskDeleting (s : PushSubscription)
| TaskSettled (fulfilled : bool).

(** A promise once its push has returned: fulfilled, rejected, or on
    its way to delete a gone subscription. *)
Definition after_push (payload : PushPayload) (s : PushSubscription) : Task :=
  match web_push s payload with
  | PushDelivered => TaskSettled true
  | PushRejected (Some status) _ => if is_gone status then TaskDeleting s else TaskSettled false
  | PushRejected None _ => TaskSettled false
  end.

Inductive task_step (payload : PushPayload) : World * list Task -> World * list Task -> Prop :=
| task_push w ts i s :
    ts !! i = Some (TaskPending s) ->
    task_step payload (w, ts)
      (mkWorld (users w) (subs w) (calls w ++ [push_call payload s]), <[i := after_push payload s]> ts)
| task_delete w ts i s :
    ts !! i = Some (TaskDeleting s) ->
    task_step payload (w, ts)
      (mkWorld (users w) (delete (sub_id s) (subs w)) (calls w), <[i := TaskSettled false]> ts).

Definition settled (t : Task) : bool := match t with TaskSettled _ => true | _ => false end.

(** [r.status === 'fulfilled'] of a settled promise. *)
Definition fulfilled (t : Task) : bool := match t with TaskSettled b => b | _ => false end.

(** What a promise has still to do: the row it will delete, the push it
    will make, whether it will be fulfilled; and its remaining steps. *)
Definition task_deletes (payload : PushPayload) (t : Task) : option Z :=
  match t with
  | TaskPending s => if gone payload s then Some (sub_id s) else None
  | TaskDeleting s => Some (sub_id s)
  | TaskSettled _ => None
  end.

Definition task_call (payload : PushPayload) (t : Task) : option Call :=
  match t with TaskPending s => Some (push_call payload s) | _ => None end.

Definition task_counts (payload : PushPayload) (t : Task) : bool :=
  match t with TaskPending s => delivered payload s | TaskDeleting _ => false | TaskSettled b => b end.

Definition is_pending (t : Task) : bool := match t with TaskPending _ => true | _ => false end.
Definition is_deleting (t : Task) : bool := match t with TaskDeleting _ => true | _ => false end.

Definition task_weight (ts : list Task) : nat :=
  2 * List.length (List.filter is_pending ts) + List.length (List.filter is_deleting ts).

(** The table once every promise has settled: the current one without
    the rows still to be deleted. *)
Definition eventual_subs (payload : PushPayload) (w : World) (ts : list Task) : gmap Z PushSubscription :=
  filter (fun kv => kv.1 ∉ omap (task_deletes payload) ts) (subs w).

(** ** Lemmas *)

Lemma send_one_run p s w :
  send_one p s w =
  (inr (delivered p s),
   mkWorld (users w) (if gone p s then delete (sub_id s) (subs w) else subs w)
           (calls w ++ [push_call p s])).
Proof.
  unfold send_one, log_call, delete_sub, delivered, gone, push_call. st_simpl.
  destruct (web_push s p) as [|[st|] msg]; [done| |done].
  by destruct (is_gone st).
Qed.

Lemma send_all_run p l w :
  send_all p l w =
  (inr (map (delivered p) l),
   mkWorld (users w) (prune p l (subs w)) (calls w ++ map (push_call p) l)).
Proof.
  revert w. induction l as [|s l IH]; intros [us ss cs].
  - cbn. by rewrite app_nil_r.
  - cbn [send_all]. rewrite (st_bind_ok _ _ _ _ _ (send_one_run p s _)), st_bind_run, IH.
    cbn. by rewrite <- app_assoc.
Qed.

Lemma count_fulfilled_map p l :
  count_fulfilled (map (delivered p) l) = List.length (List.filter (delivered p) l).
Proof.
  induction l as [|s l IH]; [done|]. unfold count_fulfilled in *. simpl.
  destruct (delivered p s); simpl; lia.
Qed.

(** A row is gone after [prune] exactly when a gone subscription of the
    list carries its id. *)
Lemma prune_lookup p l m k :
  prune p l m !! k =
  if existsb (fun s => gone p s && bool_decide (sub_id s = k)) l then None else m !! k.
Proof.
  revert m. induction l as [|s l IH]; intros m; [done|].
  change (prune p (s :: l) m) with (prune p l (if gone p s then delete (sub_id s) m else m)).
  rewrite IH. cbn [existsb].
  destruct (existsb _ l); [by rewrite orb_true_r|]. rewrite orb_false_r.
  destruct (gone p s); cbn [andb]; [|done].
  case_bool_decide; subst; [by rewrite lookup_delete_eq | by rewrite lookup_delete_ne].
Qed.

Lemma prune_removes_gone p l m s :
  In s l -> gone p s = true -> prune p l m !! sub_id s = None.
Proof.
  intros Hin Hg. rewrite prune_lookup. replace (existsb _ _) with true; [done|].
  symmetry. apply existsb_exists. exists s. split; [done|].
  by rewrite Hg, bool_decide_eq_true_2.
Qed.

(** The order of the deletions does not matter: [prune] respects
    permutations of the list. *)
#[export] Instance prune_perm p : Proper ((≡ₚ) ==> eq ==> eq) (prune p).
Proof.
  intros l l' HP m ? <-. apply map_eq. intros k. rewrite !prune_lookup.
  by rewrite (existsb_perm _ _ _ HP).
Qed.

(** *** The promises of [Promise.allSettled] *)

Lemma after_push_spec p s :
  task_deletes p (after_push p s) = task_deletes p (TaskPending s) /\
  task_counts p (after_push p s) = task_counts p (TaskPending s) /\
  task_call p (after_push p s) = None /\ is_pending (after_push p s) = false.
Proof.
  unfold after_push. cbn [task_deletes task_counts task_call is_pending]. unfold gone, delivered.
  destruct (web_push s p) as [|[st|] msg]; cbn; [| destruct (is_gone st) |]; repeat split.
Qed.

(** Every step leaves one step less to do for one promise. *)
Lemma task_step_weight p st st' : task_step p st st' -> task_weight st'.2 < task_weight st.2.
Proof.
  destruct 1 as [w ts i s Hi|w ts i s Hi]; cbn [fst snd]; unfold task_weight.
  - pose proof (filter_length_insert is_pending ts i _ (after_push p s) Hi).
    pose proof (filter_length_insert is_deleting ts i _ (after_push p s) Hi).
    destruct (after_push_spec p s) as (_ & _ & _ & Hp). rewrite Hp in *. cbn in *.
    destruct (is_deleting (after_push p s)); lia.
  - pose proof (filter_length_insert is_pending ts i _ (TaskSettled false) Hi).
    pose proof (filter_length_insert is_deleting ts i _ (TaskSettled false) Hi). cbn in *. lia.
Qed.

(** No schedule of the event loop runs forever. *)
Lemma task_step_acc p st : Acc (fun st' st => task_step p st st') st.
Proof.
  remember (task_weight st.2) as n eqn:En. revert st En.
  induction n as [n IH] using lt_wf_ind. intros st ->. constructor. intros st' Hs.
  exact (IH _ (task_step_weight p st st' Hs) st' eq_refl).
Qed.

(** A promise that has not settled can always take a step. *)
Lemma task_progress p w ts : forallb settled ts = false -> exists st', task_step p (w, ts) st'.
Proof.
  intros Hf. destruct (list_find (fun t => settled t = false) ts) as [[i t]|] eqn:E.
  - apply list_find_Some in E as (Hi & Ht & _). destruct t as [s|s|b]; [| |discriminate].
    + eexists. exact (task_push p w ts i s Hi).
    + eexists. exact (task_delete p w ts i s Hi).
  - apply list_find_None in E. rewrite List.Forall_forall in E.
    assert (forallb settled ts = true); [|congruence].
    apply forallb_forall. intros t Ht. specialize (E t Ht). cbn in E. by destruct (settled t).
Qed.

Lemma task_settles p st : exists st', rtc (task_step p) st st' /\ forallb settled st'.2 = true.
Proof.
  induction (task_step_acc p st) as [[w ts] _ IH].
  destruct (forallb settled ts) eqn:E; [exists (w, ts); split; [reflexivity|done]|].
  destruct (task_progress p w ts E) as [st' Hs]. destruct (IH st' Hs) as (st'' & Hr & Hset).
  exists st''. split; [eapply rtc_l; eauto|done].
Qed.

(** What the promises will still do, together with what they have
    done, does not change along a step. *)
Lemma task_step_invariant p w ts w' ts' :
  task_step p (w, ts) (w', ts') ->
  users w' = users w /\ eventual_subs p w' ts' = eventual_subs p w ts /\
  calls w' ++ omap (task_call p) ts' ≡ₚ calls w ++ omap (task_call p) ts /\
  List.length (List.filter (task_counts p) ts') = List.length (List.filter (task_counts p) ts).
Proof.
  inversion 1 as [? ? i s Hi|? ? i s Hi]; subst; cbn [users subs calls]; (split; [done|]).
  - destruct (after_push_spec p s) as (Hd & Hc & Hcall & _).
    destruct (omap_insert_perm (task_deletes p) ts i _ (after_push p s) Hi) as [D1 D2].
    destruct (omap_insert_perm (task_call p) ts i _ (after_push p s) Hi) as [C1 C2].
    pose proof (filter_length_insert (task_counts p) ts i _ (after_push p s) Hi) as N.
    rewrite Hd in D1. rewrite Hc in N. split; [|split].
    + unfold eventual_subs. cbn [subs]. apply map_filter_ext. intros k x _. by rewrite D1, D2.
    + rewrite C1, C2, Hcall. cbn. by rewrite <- app_assoc.
    + destruct (task_counts p (TaskPending s)); lia.
  - destruct (omap_insert_perm (task_deletes p) ts i _ (TaskSettled false) Hi) as [D1 D2].
    destruct (omap_insert_perm (task_call p) ts i _ (TaskSettled false) Hi) as [C1 C2].
    pose proof (filter_length_insert (task_counts p) ts i _ (TaskSettled false) Hi) as N.
    cbn in D1, D2, C1, C2, N. split; [|split].
    + unfold eventual_subs. cbn [subs]. apply map_filter_strong_ext_1. intros k x.
      rewrite D1, D2, lookup_delete_Some, elem_of_cons. cbn. naive_solver.
    + by rewrite C1, C2.
    + lia.
Qed.

Lemma task_rtc_invariant p w ts w' ts' :
  rtc (task_step p) (w, ts) (w', ts') ->
  users w' = users w /\ eventual_subs p w' ts' = eventual_subs p w ts /\
  calls w' ++ omap (task_call p) ts' ≡ₚ calls w ++ omap (task_call p) ts /\
  List.length (List.filter (task_counts p) ts') = List.length (List.filter (task_counts p) ts).
Proof.
  remember (w, ts) as st eqn:Est. remember (w', ts') as st' eqn:Est'.
  intros Hr. revert w ts w' ts' Est Est'.
  induction Hr as [st|st1 [w2 ts2] st3 H12 _ IH]; intros w ts w' ts' -> E.
  - injection E as -> ->. split; [done|]. split; [done|]. split; [done|done].
  - subst st3. destruct (IH w2 ts2 w' ts' eq_refl eq_refl) as (U2 & S2 & C2 & N2).
    destruct (task_step_invariant p w ts w2 ts2 H12) as (U1 & S1 & C1 & N1).
    split; [congruence|]. split; [congruence|]. split; [by rewrite C2|congruence].
Qed.

(** At the start every promise is pending; at the end every one has settled. *)
Lemma eventual_subs_start p w l : eventual_subs p w (map TaskPending l) = prune p l (subs w).
Proof.
  apply map_eq. intros k. rewrite prune_lookup. unfold eventual_subs. rewrite map_lookup_filter.
  destruct (subs w !! k) as [x|]; cbn; [|by destruct (existsb _ l)].
  case_guard as Hc; cbn in Hc |- *; destruct (existsb _ l) eqn:E; [exfalso|done|done|exfalso].
  - apply existsb_exists in E as (s & Hin & Hs). apply andb_true_iff in Hs as [Hg Hk].
    apply bool_decide_eq_true in Hk. apply Hc, list_elem_of_omap.
    exists (TaskPending s). split; [apply list_elem_of_In, in_map, Hin|]. cbn. by rewrite Hg, Hk.
  - apply list_elem_of_omap in Hc as (t & (s & <- & Hin)%list_elem_of_In%in_map_iff & Hs).
    cbn in Hs. destruct (gone p s) eqn:Hg; [|discriminate]. injection Hs as Hk.
    assert (existsb (fun s => gone p s && bool_decide (sub_id s = k)) l = true); [|congruence].
    apply existsb_exists. exists s. split; [done|]. by rewrite Hg, bool_decide_eq_true_2.
Qed.

Lemma settled_done p ts :
  forallb settled ts = true ->
  omap (task_deletes p) ts = [] /\ omap (task_call p) ts = [] /\
  List.filter (task_counts p) ts = List.filter fulfilled ts.
Proof.
  induction ts as [|t ts IH]; [done|]. cbn. intros (Ht & Hts)%andb_true_iff.
  destruct t as [s|s|b]; try discriminate. cbn. destruct (IH Hts) as (-> & -> & ->). done.
Qed.

Lemma task_counts_start p l :
  List.filter (task_counts p) (map TaskPending l) = map TaskPending (List.filter (delivered p) l).
Proof. induction l as [|s l IH]; [done|]. cbn. destruct (delivered p s); cbn; by rewrite IH. Qed.

Lemma task_calls_start p l : omap (task_call p) (map TaskPending l) = map (push_call p) l.
Proof. induction l as [|s l IH]; [done|]. cbn. by rewrite IH. Qed.

Lemma in_findMany uid m s :
  In s (findMany_active uid m) <->
  (exists k, m !! k = Some s) /\ user_id s = uid /\ is_active s = true.
Proof.
  unfold findMany_active, is_target.
  by rewrite filter_In, andb_true_iff, bool_decide_eq_true, in_map_snd_map_to_list.
Qed.

Lemma subs_wf_lookup m k s : subs_wf m -> m !! k = Some s -> sub_id s = k.
Proof. intros Hwf Hs. exact (map_Forall_lookup_1 _ _ _ _ Hwf Hs). Qed.

(** The three outcomes of the handler, by case. *)
Lemma POST_cases req w :
  (Number_of (userId req) = None /\ POST req w = (inr (Json 500 (error_body prisma_invalid)), w))
  \/ (exists uid, Number_of (userId req) = Some uid /\ findMany_active uid (subs w) = [] /\
        POST req w = (inr (Json 404 (error_body no_subscription_error)), w))
  \/ (exists uid, Number_of (userId req) = Some uid /\ findMany_active uid (subs w) <> [] /\
        POST req w =
        (inr (Json 200 (mkBody (Some true)
                (Some (List.length (List.filter (delivered (payload_of req))
                                      (findMany_active uid (subs w))))) None None None None)),
         mkWorld (users w) (prune (payload_of req) (findMany_active uid (subs w)) (subs w))
           (calls w ++ map (push_call (payload_of req)) (findMany_active uid (subs w))))).
Proof.
  unfold POST, st_catch. destruct (Number_of (userId req)) as [uid|] eqn:Hn.
  2: { left. split; [done|]. reflexivity. }
  right. unfold mbind, StE_bind, mret, StE_ret, st_get. cbn -[send_all findMany_active].
  destruct (findMany_active uid (subs w)) as [|s l] eqn:Hl; [left; by exists uid|right].
  exists uid. split; [done|]. split; [congruence|]. rewrite <- Hl, send_all_run.
  cbn -[count_fulfilled findMany_active prune]. by rewrite count_fulfilled_map.
Qed.

(** After a request with a valid id, the table is the pruned one. *)
Lemma POST_after req w r w' uid :
  Number_of (userId req) = Some uid -> POST req w = (r, w') ->
  subs w' = prune (payload_of req) (findMany_active uid (subs w)) (subs w).
Proof.
  intros Hn E.
  destruct (POST_cases req w) as [[Hn' _]|[(u & Hn' & Hl & E')|(u & Hn' & _ & E')]];
    rewrite Hn in Hn'; [done|..]; injection Hn' as <-; rewrite E' in E;
    injection E as _ <-; [by rewrite Hl|done].
Qed.

(** The route only ever removes rows of the subscription table. *)
Lemma POST_subs_shrink req w r w' k s :
  POST req w = (r, w') -> subs w' !! k = Some s -> subs w !! k = Some s.
Proof.
  intros E Hs. destruct (POST_cases req w) as [[_ E']|[(? & _ & _ & E')|(? & _ & _ & E')]];
    rewrite E' in E; injection E as _ <-; [done..|].
  simpl in Hs. rewrite prune_lookup in Hs. by destruct (existsb _ _).
Qed.

(** C1: the handler answers on every branch and its effect is exactly:
    no change on an invalid id (500) or when the user has no active
    subscription (404); otherwise one push call per active subscription,
    in order, the gone ones deleted, and [sentCount] the number of
    delivered pushes (200). *)
Theorem POST_spec req w :
  POST req w =
  match Number_of (userId req) with
  | None => (inr (Json 500 (error_body prisma_invalid)), w)
  | Some uid =>
      match findMany_active uid (subs w) with
      | [] => (inr (Json 404 (error_body no_subscription_error)), w)
      | l => (inr (Json 200 (mkBody (Some true)
                    (Some (List.length (List.filter (delivered (payload_of req)) l)))
                    None None None None)),
              mkWorld (users w) (prune (payload_of req) l (subs w))
                      (calls w ++ map (push_call (payload_of req)) l))
      end
  end.
Proof.
  destruct (POST_cases req w) as [[Hn E]|[(uid & Hn & Hl & E)|(uid & Hn & Hl & E)]];
    rewrite E, Hn; [done|by rewrite Hl|].
  by destruct (findMany_active uid (subs w)).
Qed.

(** C2: a subscription is deleted only if it belongs to the requested
    user, is active, and its push was rejected with 404 or 410. *)
Theorem POST_deletes_only_gone req w r w' k :
  subs_wf (subs w) -> POST req w = (r, w') ->
  subs w' !! k = subs w !! k \/
  exists uid s, Number_of (userId req) = Some uid /\ subs w !! k = Some s /\
    user_id s = uid /\ is_active s = true /\ gone (payload_of req) s = true /\
    subs w' !! k = None.
Proof.
  intros Hwf E. destruct (POST_cases req w) as [[_ E']|[(? & _ & _ & E')|(uid & Hn & _ & E')]];
    rewrite E' in E; injection E as _ <-; [by left..|]. simpl. rewrite prune_lookup.
  destruct (existsb _ _) eqn:Ex; [right|by left].
  apply existsb_exists in Ex as (s & Hin & Hg). apply andb_prop in Hg as [Hg Hk].
  apply bool_decide_eq_true in Hk as <-.
  apply in_findMany in Hin as ([k Hk] & Hu & Ha). pose proof (subs_wf_lookup _ _ _ Hwf Hk) as Hid. subst k.
  by exists uid, s.
Qed.

(** Self-healing: an active subscription of the user whose push is
    rejected with 404 or 410 is no longer in the table afterwards. *)
Theorem POST_gone_removed req w r w' uid s :
  Number_of (userId req) = Some uid ->
  In s (findMany_active uid (subs w)) -> gone (payload_of req) s = true ->
  POST req w = (r, w') -> subs w' !! sub_id s = None.
Proof.
  intros Hn Hin Hg E. rewrite (POST_after req w r w' uid Hn E).
  by apply prune_removes_gone.
Qed.

(** The subscription table stays well-formed. *)
Lemma POST_preserves_wf req w r w' :
  subs_wf (subs w) -> POST req w = (r, w') -> subs_wf (subs w').
Proof.
  intros Hwf E. apply map_Forall_lookup_2. intros k s Hs.
  eapply subs_wf_lookup; [done|]. by eapply POST_subs_shrink.
Qed.

(** When every active subscription of the user is gone, the next
    request for that user finds none: it answers 404 and makes no call. *)
Theorem POST_all_gone_then_404 req req' w r w' uid :
  subs_wf (subs w) -> Number_of (userId req) = Some uid ->
  Forall (fun s => gone (payload_of req) s = true) (findMany_active uid (subs w)) ->
  POST req w = (r, w') -> Number_of (userId req') = Some uid ->
  POST req' w' = (inr (Json 404 (error_body no_subscription_error)), w').
Proof.
  intros Hwf Hn Hall E Hn'.
  destruct (POST_cases req' w') as [[Hn'' _]|[(u & Hn'' & Hl & E')|(u & Hn'' & Hl & _)]];
    rewrite Hn' in Hn''; [done|by injection Hn'' as <-|]. injection Hn'' as <-. exfalso.
  destruct (findMany_active uid (subs w')) as [|s l] eqn:Hl'; [done|].
  assert (Hin' : In s (findMany_active uid (subs w'))) by (rewrite Hl'; left; done).
  apply in_findMany in Hin' as ([k Hk] & Hu & Ha).
  pose proof (POST_subs_shrink _ _ _ _ _ _ E Hk) as Hk0.
  assert (Hin : In s (findMany_active uid (subs w))) by (apply in_findMany; eauto).
  pose proof (subs_wf_lookup _ _ _ Hwf Hk0) as Hid. subst k.
  assert (Hg : gone (payload_of req) s = true) by (rewrite Forall_forall in Hall; apply Hall; by apply list_elem_of_In).
  rewrite (POST_after req w r w' uid Hn E) in Hk.
  by rewrite prune_removes_gone in Hk.
Qed.

(** The sends of [Promise.allSettled] are independent: running them
    in any order leaves the same subscription table and the same number
    of fulfilled sends, and makes the same calls. *)
Theorem send_all_order_independent p l l' w rs rs' w1 w2 :
  l ≡ₚ l' -> send_all p l w = (inr rs, w1) -> send_all p l' w = (inr rs', w2) ->
  subs w1 = subs w2 /\ count_fulfilled rs = count_fulfilled rs' /\ calls w1 ≡ₚ calls w2.
Proof.
  intros HP E1 E2. rewrite send_all_run in E1, E2.
  injection E1 as <- <-. injection E2 as <- <-. simpl.
  rewrite !count_fulfilled_map. split; [by rewrite HP|]. split.
  - by apply filter_length_perm_bool.
  - apply Permutation_app_head. by apply Permutation_map.
Qed.

(** C31: termination: the event loop of the fan-out cannot run forever:
    whatever the push service answers, every schedule of the promises'
    steps is finite, since each step leaves one step less to one promise
    ([task_weight]: two for a pending promise, one for a promise awaiting
    its [delete]). *)
Theorem task_step_wf p : well_founded (fun st' st => task_step p st st').
Proof.
  apply (wf_incl _ _ (fun st' st => task_weight st'.2 < task_weight st.2)).
  - intros st' st. apply task_step_weight.
  - apply (wf_inverse_image _ _ lt (fun st => task_weight st.2)), lt_wf.
Qed.

(** C30: [Promise.allSettled] under any interleaving: some schedule of
    the event loop over the promises of the fan-out settles them all,
    and every schedule that settles them all
    leaves the same users, the same subscription table, the same push
    calls (in some order) and the same number of fulfilled promises as
    the sequential [send_all] with which [POST] is written. *)
Theorem allSettled_interleavings p l w rs w_seq :
  send_all p l w = (inr rs, w_seq) ->
  (exists st', rtc (task_step p) (w, map TaskPending l) st' /\ forallb settled st'.2 = true) /\
  (forall w' ts', rtc (task_step p) (w, map TaskPending l) (w', ts') -> forallb settled ts' = true ->
     users w' = users w_seq /\ subs w' = subs w_seq /\ calls w' ≡ₚ calls w_seq /\
     List.length (List.filter fulfilled ts') = count_fulfilled rs).
Proof.
  intros E. rewrite send_all_run in E. injection E as <- <-.
  split; [apply task_settles|].
  intros w' ts' Hr Hs. destruct (task_rtc_invariant p w _ w' ts' Hr) as (U & S & C & N).
  destruct (settled_done p ts' Hs) as (D & Cn & F). cbn [users subs calls].
  split; [done|]. split; [|split].
  - rewrite <- eventual_subs_start, <- S. unfold eventual_subs. rewrite D.
    symmetry. apply map_filter_id. intros k x _. cbn. apply not_elem_of_nil.
  - rewrite Cn, app_nil_r, task_calls_start in C. exact C.
  - rewrite F, task_counts_start, length_map in N. by rewrite N, count_fulfilled_map.
Qed.

End Route.

(** ** Runs on the concrete deployment *)

#[local] Existing Instance demo_env.

(** The dashboard's request for user 2, who has one gone and one live
    subscription. *)
Definition demo_push_req : PushRequest :=
  mkPushRequest (IdString "2") (Some "แจ้งเตือนจากระบบ") (Some "hello") (Some "/").

Definition demo_gone_sub : PushSubscription := mkSub 10 2 demo_gone_endpoint "k" "a" true.

Example POST_demo_run :
  fst (@POST demo_env demo_push_req demo_world) =
  inr (Json 200 (mkBody (Some true) (Some 1%nat) None None None None)).
Proof. reflexivity. Qed.

Lemma POST_deletes_only_gone_witness :
  subs_wf (subs demo_world) /\
  (subs (snd (@POST demo_env demo_push_req demo_world)) !! 10%Z = subs demo_world !! 10%Z \/
   exists uid s, Number_of (userId demo_push_req) = Some uid /\ subs demo_world !! 10%Z = Some s /\
     user_id s = uid /\ is_active s = true /\ @gone demo_env (payload_of demo_push_req) s = true /\
     subs (snd (@POST demo_env demo_push_req demo_world)) !! 10%Z = None).
Proof.
  assert (Hwf : subs_wf (subs demo_world))
    by (apply (bool_decide_unpack (subs_wf (subs demo_world))); vm_compute; exact I).
  split; [exact Hwf|].
  apply (@POST_deletes_only_gone demo_env demo_push_req demo_world
           (fst (POST demo_push_req demo_world)) (snd (POST demo_push_req demo_world)) 10 Hwf).
  apply surjective_pairing.
Defined.

Lemma POST_gone_removed_witness :
  Number_of (userId demo_push_req) = Some 2%Z /\
  In demo_gone_sub (@findMany_active 2 (subs demo_world)) /\
  @gone demo_env (payload_of demo_push_req) demo_gone_sub = true /\
  subs (snd (@POST demo_env demo_push_req demo_world)) !! sub_id demo_gone_sub = None.
Proof.
  assert (Hn : Number_of (userId demo_push_req) = Some 2%Z) by reflexivity.
  assert (Hin : In demo_gone_sub (@findMany_active 2 (subs demo_world))) by (vm_compute; auto).
  assert (Hg : @gone demo_env (payload_of demo_push_req) demo_gone_sub = true) by reflexivity.
  split; [exact Hn|]. split; [exact Hin|]. split; [exact Hg|].
  exact (@POST_gone_removed demo_env demo_push_req demo_world _ _ 2 demo_gone_sub Hn Hin Hg
           (surjective_pairing _)).
Defined.

Definition demo_live_sub : PushSubscription :=
  mkSub 11 2 "https://push.example/live" "k" "a" true.

(** User 2 with only the gone subscription left. *)
Definition demo_world_gone : World :=
  mkWorld (users demo_world) (list_to_map [(10%Z, demo_gone_sub)]) [].

Lemma POST_all_gone_then_404_witness :
  subs_wf (subs demo_world_gone) /\
  Forall (fun s => gone (payload_of demo_push_req) s = true)
         (findMany_active 2 (subs demo_world_gone)) /\
  POST demo_push_req (snd (POST demo_push_req demo_world_gone)) =
  (inr (Json 404 (error_body no_subscription_error)), snd (POST demo_push_req demo_world_gone)).
Proof.
  assert (Hwf : subs_wf (subs demo_world_gone))
    by (apply (bool_decide_unpack (subs_wf (subs demo_world_gone))); vm_compute; exact I).
  assert (Hall : Forall (fun s => gone (payload_of demo_push_req) s = true)
                   (findMany_active 2 (subs demo_world_gone)))
    by (vm_compute; repeat constructor).
  split; [exact Hwf|]. split; [exact Hall|].
  exact (POST_all_gone_then_404 demo_push_req demo_push_req demo_world_gone _ _ 2 Hwf
           eq_refl Hall (surjective_pairing _) eq_refl).
Defined.

(** The gone and the live subscription of user 2, pushed concurrently. *)
Lemma allSettled_interleavings_witness :
  let p := @payload_of demo_env demo_push_req in
  let l := [demo_gone_sub; demo_live_sub] in
  @send_all demo_env p l demo_world = (inr [false; true], snd (send_all p l demo_world)) /\
  exists st', rtc (task_step p) (demo_world, map TaskPending l) st' /\ forallb settled st'.2 = true.
Proof.
  intros p l.
  assert (E : send_all p l demo_world = (inr [false; true], snd (send_all p l demo_world)))
    by (vm_compute; reflexivity).
  split; [exact E|]. exact (proj1 (allSettled_interleavings p l demo_world _ _ E)).
Defined.

End PushSender.
