(* ===== verification/LineSender.v ===== *)
(** * The LINE sender: [POST /api/notifications/line]

    [src/src/app/api/notifications/line/route.ts].  One multicast call to
    the LINE Messaging API carries every target id; the route passes the
    provider's status through when it is not ok, and answers 500 when the
    [fetch] itself rejects.  There is no splitting into batches of the
    provider's documented maximum of 500 ids. *)

From S2P Require Import Prelude Js Directory Server.

Open Scope string_scope.
Open Scope js_scope.

Module LineSender.
Import Server.

(** The LINE API's documented maximum of recipients per multicast
    (quoted in the comment of the route). *)
Definition multicast_cap : nat := 500.

Section Route.
Context `{Env}.

(** The whole handler. *)
Definition POST (req : LineRequest) : Srv Response :=
  try (
    log_call (LineMulticast (lr_userIds req) (lr_message req)) ;;
    match line_multicast (lr_userIds req) (lr_message req) with
    | NetworkError msg => throw msg
    | HttpResponse status text =>
        if (200 <=? status)%Z && (status <? 300)%Z
        then mret (Json 200 success_body)
        else mret (Json status (error_body text))
    end)
  catch (fun msg => mret (Json 500 (error_body msg))).

(** ** Lemmas *)

(** The handler on every branch: one multicast call with all the ids,
    then 200, the provider's own status and text, or 500. *)
Lemma POST_line_run req w :
  POST req w =
  (inr match line_multicast (lr_userIds req) (lr_message req) with
       | NetworkError msg => Json 500 (error_body msg)
       | HttpResponse status text =>
           if (200 <=? status)%Z && (status <? 300)%Z then Json 200 success_body
           else Json status (error_body text)
       end,
   mkWorld (users w) (subs w) (calls w ++ [LineMulticast (lr_userIds req) (lr_message req)])).
Proof.
  unfold POST, log_call. st_simpl.
  destruct (line_multicast _ _) as [msg|st text]; [done|].
  by destruct (_ && _).
Qed.

End Route.
End LineSender.
