(* ===== verification/EmailSender.v ===== *)
(** * The e-mail sender: [POST /api/notifications/google]

    [src/src/app/api/notifications/google/route.ts].  The route looks up
    the user by [parseInt(userId)], refuses a user without a Google
    refresh token, builds a MIME message (recipient, UTF-8 subject as an
    RFC 2047 encoded word, HTML body), encodes it as base64url and sends
    it through the Gmail API with the user's own refresh token.  Every
    error is caught and answered with status 500 and its message.

    The theorems give the route's result on every branch, and show that
    the [raw] message handed to Gmail decodes (with the registration
    page's own decoder) to the MIME text the route built. *)

From S2P Require Import Prelude Js JsNumber Directory Server Base64.

Open Scope string_scope.
Open Scope js_scope.

Module EmailSender.
Import Directory Server.

(** The default subject, [subject || "แจ้งเตือนใหม่"]. *)
Definition default_subject : string := "แจ้งเตือนใหม่".

(** The message of the [Error] thrown for a user without a token. *)
Definition no_token_error : string :=
  "ผู้ใช้นี้ยังไม่ได้เชื่อมต่อ Google หรือไม่มีสิทธิ์ส่งเมล".

(** A template literal's rendering of a nullable string: [null] prints
    as ["null"]. *)
Definition template_nullable (o : option string) : string :=
  match o with Some s => s | None => "null" end.

(** The line separator of [join("\n")]. *)
Definition nl : string := String "010"%char EmptyString.

(** [utf8Subject]: [=?utf-8?B?<base64 of the UTF-8 subject>?=]. *)
Definition utf8Subject (subject : option string) : string :=
  "=?utf-8?B?" ++ Base64.encode (Base64.bytes_of_string (Js.or_default subject default_subject))
  ++ "?=".

(** [emailContent]: the six lines joined with ["\n"]. *)
Definition emailContent (email : option string) (subject : option string) (message : string)
    : string :=
  String.concat nl
    ["To: " ++ template_nullable email;
     "Content-Type: text/html; charset=utf-8";
     "MIME-Version: 1.0";
     "Subject: " ++ utf8Subject subject;
     EmptyString;
     message].

(** [encodedMessage]: [Buffer.from(emailContent).toString("base64")]
    with the base64url rewrite. *)
Definition encodedMessage (content : string) : string :=
  Base64.base64url (Base64.bytes_of_string content).

(** [user?.google_refresh_token] of the [findUnique] result. *)
Definition refresh_token (user : option DbUser) : option string :=
  user ≫= google_refresh_token.

Section Route.
Context `{Env}.

(** [parseInt(userId)] as the value of Prisma's [Int] filter [id]:
    [None] when Prisma refuses it ([NaN], or outside the 32-bit range). *)
Definition user_key (userId : string) : option Z := JsNumber.prisma_int (JsNumber.parseInt userId).

(** [prisma.user.findUnique({ where: { id: parseInt(userId) } })]; the
    query throws on a value Prisma refuses. *)
Definition find_user (userId : string) : Srv (option DbUser) :=
  match user_key userId with
  | Some i => w ← st_get; mret (users w !! i)
  | None => throw prisma_invalid
  end.

(** The Gmail call with the user's token; a rejection of the send (or of
    the token refresh it triggers) is thrown. *)
Definition send_mail (token raw : string) : Srv Response :=
  log_call (GmailSend token raw) ;;
  match gmail_send token raw with
  | Some err => throw err
  | None => mret (Json 200 success_body)
  end.

(** The whole handler. *)
Definition POST (req : GoogleRequest) : Srv Response :=
  try (
    user ← find_user (gr_userId req);
    match refresh_token user with
    | Some token =>
        if Js.truthy token then
          send_mail token
            (encodedMessage (emailContent (user ≫= email) (gr_subject req) (gr_message req)))
        else throw no_token_error
    | None => throw no_token_error
    end)
  catch (fun msg => mret (Json 500 (error_body msg))).

(** ** Lemmas *)

(** The answer to a Gmail call. *)
Definition gmail_response (token raw : string) : Response :=
  match gmail_send token raw with
  | Some err => Json 500 (error_body err)
  | None => Json 200 success_body
  end.

(** The handler on every branch. *)
Lemma POST_google_run req w :
  POST req w =
  match user_key (gr_userId req) with
  | None => (inr (Json 500 (error_body prisma_invalid)), w)
  | Some i =>
      match refresh_token (users w !! i) with
      | Some token =>
          if Js.truthy token then
            let raw := encodedMessage
                         (emailContent (users w !! i ≫= email) (gr_subject req) (gr_message req)) in
            (inr (gmail_response token raw),
             mkWorld (users w) (subs w) (calls w ++ [GmailSend token raw]))
          else (inr (Json 500 (error_body no_token_error)), w)
      | None => (inr (Json 500 (error_body no_token_error)), w)
      end
  end.
Proof.
  unfold POST, find_user. destruct (user_key (gr_userId req)) as [i|]; [|reflexivity].
  unfold st_catch. rewrite (st_bind_ok _ _ w (users w !! i) w) by reflexivity.
  destruct (refresh_token (users w !! i)) as [token|]; [|reflexivity].
  destruct (Js.truthy token); [|reflexivity].
  unfold send_mail, gmail_response. by destruct (gmail_send _ _).
Qed.

(** The route reads back the decimal string of an integer below [2^53]
    as that integer, which Prisma takes when it is an [Int]. *)
Lemma user_key_printed z :
  Z.abs z < 2 ^ JsNumber.prec -> user_key (Js.Z_to_string z) = if JsNumber.int32 z then Some z else None.
Proof.
  intros Hz. unfold user_key, JsNumber.parseInt.
  rewrite JsNumber.parseInt_digits_Z_to_string, Z2N.id by lia. by apply JsNumber.prisma_int_of_Z_safe.
Qed.

(** The id the dashboard prints is read back, when it is an [Int]. *)
Lemma user_key_Z_to_string z : JsNumber.int32 z = true -> user_key (Js.Z_to_string z) = Some z.
Proof.
  intros Hz. rewrite user_key_printed, Hz; [done|].
  unfold JsNumber.int32 in Hz. apply andb_prop in Hz as [H1 H2].
  apply Z.leb_le in H1. apply Z.ltb_lt in H2. unfold JsNumber.prec. lia.
Qed.

(** ** Properties *)

(** C21: the ids the dashboard sends are the rows' ids, within Prisma's
    [Int]: the page prints a row's id with [toString()] ([formatUser]),
    the dashboard posts that string as [userId], and the e-mail route
    reads it with [parseInt] and the push route with [Number].  For an
    id below [2^53] both routes get the row's id back when it is a 32-bit
    integer, and a value Prisma refuses (the query throws) otherwise. *)
Theorem id_path_bounds r :
  Z.abs (id r) < 2 ^ JsNumber.prec ->
  user_key (u_id (formatUser r)) = (if JsNumber.int32 (id r) then Some (id r) else None) /\
  Number_of (IdString (u_id (formatUser r))) = (if JsNumber.int32 (id r) then Some (id r) else None).
Proof.
  intros Hz. split; [by apply user_key_printed|].
  unfold Number_of. cbn [u_id formatUser]. rewrite JsNumber.Number_Z_to_string.
  by apply JsNumber.prisma_int_of_Z_safe.
Qed.


(** C5: functional and round trip: for a parsable id naming a user with a
    non-empty refresh token, the route makes exactly one Gmail call, with
    that user's token and a [raw] message that the registration page's
    base64url decoder turns back into the UTF-8 bytes of the MIME text
    addressed to the user's e-mail; it answers 200 when Gmail accepts and
    500 with Gmail's error otherwise, and changes no table. *)
Theorem POST_sends_user_mail req w i u token :
  user_key (gr_userId req) = Some i -> users w !! i = Some u ->
  google_refresh_token u = Some token -> Js.truthy token = true ->
  exists raw,
    POST req w = (inr (gmail_response token raw),
                  mkWorld (users w) (subs w) (calls w ++ [GmailSend token raw])) /\
    Base64.urlBase64ToUint8Array raw =
      Some (Base64.bytes_of_string (emailContent (email u) (gr_subject req) (gr_message req))).
Proof.
  intros Hp Hu Ht Htr. rewrite POST_google_run, Hp. unfold refresh_token. rewrite Hu. cbn. rewrite Ht, Htr.
  eexists. split; [reflexivity|].
  apply Base64.urlBase64ToUint8Array_base64url, Base64.bytes_of_string_bytes.
Qed.

(** Error: a parsable id whose user is missing or has no (or an empty)
    refresh token is answered 500 with the route's own message, with no
    Gmail call and no change to the world. *)
Theorem POST_refuses_without_token req w i :
  user_key (gr_userId req) = Some i ->
  Js.truthy_opt (refresh_token (users w !! i)) = false ->
  POST req w = (inr (Json 500 (error_body no_token_error)), w).
Proof.
  intros Hp Ht. rewrite POST_google_run, Hp.
  destruct (refresh_token (users w !! i)) as [token|]; [|reflexivity].
  cbn in Ht. by rewrite Ht.
Qed.

End Route.

(** Round trip: the RFC 2047 encoded word of the [Subject:] header
    carries the base64 of the subject's UTF-8 bytes (the default subject
    when none or an empty one is given), which [atob] decodes back. *)
Theorem utf8Subject_decodes subject :
  exists payload,
    utf8Subject subject = "=?utf-8?B?" ++ payload ++ "?=" /\
    Base64.atob payload = Some (Base64.bytes_of_string (Js.or_default subject default_subject)).
Proof.
  eexists. split; [reflexivity|]. apply Base64.atob_encode, Base64.bytes_of_string_bytes.
Qed.

(** ** Witnesses, in the demonstration deployment *)

#[local] Existing Instance demo_env.

Definition demo_mail_req : GoogleRequest := mkGoogleRequest "1" "<p>hello</p>" (Some "Hello").

Lemma POST_sends_user_mail_witness :
  user_key (gr_userId demo_mail_req) = Some 1%Z /\
  users demo_world !! 1%Z = Some (demo_user 1 (Some "U1") true false) /\
  google_refresh_token (demo_user 1 (Some "U1") true false) = Some "refresh" /\
  Js.truthy "refresh" = true /\
  exists raw,
    POST demo_mail_req demo_world =
      (inr (gmail_response "refresh" raw),
       mkWorld (users demo_world) (subs demo_world) (calls demo_world ++ [GmailSend "refresh" raw])) /\
    Base64.urlBase64ToUint8Array raw =
      Some (Base64.bytes_of_string (emailContent (Some "user@example.com") (Some "Hello") "<p>hello</p>")).
Proof.
  assert (Hp : user_key (gr_userId demo_mail_req) = Some 1%Z) by reflexivity.
  assert (Hu : users demo_world !! 1%Z = Some (demo_user 1 (Some "U1") true false)) by reflexivity.
  assert (Ht : google_refresh_token (demo_user 1 (Some "U1") true false) = Some "refresh")
    by reflexivity.
  assert (Htr : Js.truthy "refresh" = true) by reflexivity.
  do 4 (split; [assumption|]).
  exact (POST_sends_user_mail demo_mail_req demo_world _ _ _ Hp Hu Ht Htr).
Defined.

Lemma POST_refuses_without_token_witness :
  user_key (gr_userId (mkGoogleRequest "4" "x" None)) = Some 4%Z /\
  Js.truthy_opt (refresh_token (users demo_world !! 4%Z)) = false /\
  POST (mkGoogleRequest "4" "x" None) demo_world =
    (inr (Json 500 (error_body no_token_error)), demo_world).
Proof.
  assert (Hp : user_key (gr_userId (mkGoogleRequest "4" "x" None)) = Some 4%Z) by reflexivity.
  assert (Ht : Js.truthy_opt (refresh_token (users demo_world !! 4%Z)) = false).
  by vm_compute.
  split; [exact Hp|]. split; [exact Ht|].
  exact (POST_refuses_without_token _ demo_world 4 Hp Ht).
Defined.

(** Ids 7 and [2^31] (the first beyond [Int]) through both routes. *)
Lemma id_path_bounds_witness :
  Z.abs (id (demo_user 7 None true true)) < 2 ^ JsNumber.prec /\
  user_key (u_id (formatUser (demo_user 7 None true true))) = Some 7%Z /\
  Z.abs (id (demo_user (2 ^ 31) None true true)) < 2 ^ JsNumber.prec /\
  Number_of (IdString (u_id (formatUser (demo_user (2 ^ 31) None true true)))) = None.
Proof.
  assert (H7 : Z.abs (id (demo_user 7 None true true)) < 2 ^ JsNumber.prec) by (vm_compute; reflexivity).
  assert (H31 : Z.abs (id (demo_user (2 ^ 31) None true true)) < 2 ^ JsNumber.prec)
    by (vm_compute; reflexivity).
  split; [exact H7|]. split; [exact (proj1 (id_path_bounds _ H7))|].
  split; [exact H31|]. exact (proj2 (id_path_bounds _ H31)).
Defined.

End EmailSender.
