(* ===== verification/Dispatch.v ===== *)
(** * The dispatch orchestrator: the dashboard client

    [src/src/components/DashboardClient.tsx].  The client state of the
    component ([useState] hooks), its event handlers (user toggle,
    select-all, the channel checkboxes that are disabled when no selected
    user can receive on the channel, the schedule controls), and
    [handleSubmit]: validation, then the LINE multicast, the per-user
    e-mail loop and the per-user push loop, each a [fetch] of an API
    route.

    The routes are reached through the interface [Routes] (a typeclass of
    three handlers); the theorems of this file hold for every
    implementation satisfying [RoutesLaws] (the LINE and e-mail routes
    answer JSON, whose body the dashboard may parse; the push route,
    whose answer it only logs, may answer anything; every route only
    appends provider calls to the log), and [System] instantiates it
    with the routes of this repository. *)

From S2P Require Import Prelude Js Directory Server.

Open Scope string_scope.
Open Scope js_scope.
Open Scope list_scope.

Module Dispatch.
Import Directory Server.

(** ** Client state *)

Record Channels := mkChannels { ch_email : bool; ch_line : bool; ch_push : bool }.

Definition no_channels : Channels := mkChannels false false false.

Inductive NoticeType := NoticeSuccess | NoticeError.

Record Notification := mkNotification { n_type : NoticeType; n_message : string }.

(** The component's [useState] hooks. *)
Record DashState := mkDash {
  d_users : list User;
  d_message : string;
  d_selectedUsers : list string;
  d_channels : Channels;
  d_sendAt : string;
  d_isScheduled : bool;
  d_loading : bool;
  d_notification : option Notification;
  d_showLogoutModal : bool;
}.

(** The state after mounting with [initialUsers]. *)
Definition initial (initialUsers : list User) : DashState :=
  mkDash initialUsers EmptyString [] no_channels EmptyString false false None false.

Definition set_selected (sel : list string) (s : DashState) : DashState :=
  mkDash (d_users s) (d_message s) sel (d_channels s) (d_sendAt s) (d_isScheduled s)
         (d_loading s) (d_notification s) (d_showLogoutModal s).

Definition set_channels (c : Channels) (s : DashState) : DashState :=
  mkDash (d_users s) (d_message s) (d_selectedUsers s) c (d_sendAt s) (d_isScheduled s)
         (d_loading s) (d_notification s) (d_showLogoutModal s).

(** ** Event handlers *)

(** [handleUserToggle]. *)
Definition handleUserToggle (userId : string) (s : DashState) : DashState :=
  let prev := d_selectedUsers s in
  set_selected (if Js.includes prev userId
                then List.filter (fun id => negb (String.eqb id userId)) prev
                else prev ++ [userId]) s.

(** [handleSelectAll]. *)
Definition handleSelectAll (s : DashState) : DashState :=
  if Nat.eqb (List.length (d_selectedUsers s)) (List.length (d_users s))
  then set_selected [] s
  else set_selected (map u_id (d_users s)) s.

(** The events the form produces ([onChange] / [onClick] handlers).  A
    disabled checkbox fires no [onChange]. *)
Inductive UiEvent :=
| TypeMessage (value : string)
| ToggleUser (userId : string)
| SelectAll
| CheckEmail (checked : bool)
| CheckLine (checked : bool)
| CheckPush (checked : bool)
| CheckScheduled (checked : bool)
| SetSendAt (value : string)
| OpenLogoutModal
| CloseLogoutModal.

Definition ui_step (e : UiEvent) (s : DashState) : DashState :=
  let users := d_users s in
  let sel := d_selectedUsers s in
  let c := d_channels s in
  match e with
  | TypeMessage v =>
      mkDash users v sel c (d_sendAt s) (d_isScheduled s) (d_loading s)
             (d_notification s) (d_showLogoutModal s)
  | ToggleUser id => handleUserToggle id s
  | SelectAll => handleSelectAll s
  | CheckEmail b =>
      if Nat.eqb (emailCount users sel) 0 then s
      else set_channels (mkChannels b (ch_line c) (ch_push c)) s
  | CheckLine b =>
      if Nat.eqb (lineCount users sel) 0 then s
      else set_channels (mkChannels (ch_email c) b (ch_push c)) s
  | CheckPush b =>
      if Nat.eqb (pushCount users sel) 0 then s
      else set_channels (mkChannels (ch_email c) (ch_line c) b) s
  | CheckScheduled b =>
      mkDash users (d_message s) sel c (d_sendAt s) b (d_loading s)
             (d_notification s) (d_showLogoutModal s)
  | SetSendAt v =>
      mkDash users (d_message s) sel c v (d_isScheduled s) (d_loading s)
             (d_notification s) (d_showLogoutModal s)
  | OpenLogoutModal =>
      mkDash users (d_message s) sel c (d_sendAt s) (d_isScheduled s) (d_loading s)
             (d_notification s) true
  | CloseLogoutModal =>
      mkDash users (d_message s) sel c (d_sendAt s) (d_isScheduled s) (d_loading s)
             (d_notification s) false
  end.

(** ** [handleSubmit] *)

Definition err_message : string := "กรุณาใส่ข้อความ".
Definition err_recipients : string := "กรุณาเลือกผู้รับอย่างน้อย 1 คน".
Definition err_channel : string := "กรุณาเลือกช่องทางการส่งอย่างน้อย 1 ช่องทาง".
Definition err_line : string := "ไม่สามารถส่ง LINE ได้".
Definition ok_scheduled : string := "จัดเวลาการแจ้งเตือนเรียบร้อยแล้ว".
Definition ok_sent : string := "ส่งการแจ้งเตือนเรียบร้อยแล้ว".
Definition subject : string := "แจ้งเตือนจากระบบ".

(** The message of the [SyntaxError] [response.json()] throws on a page
    that is not JSON. *)
Definition json_syntax_error : string := "Unexpected token '<' in JSON at position 0".

(** The three checks that throw before any request is made. *)
Definition validate (s : DashState) : option string :=
  if negb (Js.truthy (Js.trim (d_message s))) then Some err_message
  else if Nat.eqb (List.length (d_selectedUsers s)) 0 then Some err_recipients
  else if negb (ch_email (d_channels s)) && negb (ch_line (d_channels s))
          && negb (ch_push (d_channels s)) then Some err_channel
  else None.

(** The interface the dashboard uses: one handler per notification route. *)
Class Routes := {
  route_line : LineRequest -> Srv Response;
  route_google : GoogleRequest -> Srv Response;
  route_subscribe : PushRequest -> Srv Response;
}.

(** [await fetch(path, { body: JSON.stringify(req) })] of a route: the
    request is recorded, the handler runs, and an exception escaping the
    handler becomes Next.js's HTML error page. *)
Definition fetch_route {Req : Type} (mk : Req -> Call) (route : Req -> Srv Response)
    (req : Req) : Srv Response :=
  log_call (mk req) ;; st_catch (route req) (fun _ => mret ServerError).

(** [await response.json()]. *)
Definition response_json (r : Response) : Srv Body :=
  match r with Json _ b => mret b | _ => throw json_syntax_error end.

Section Submit.
Context `{Routes}.
Variable s : DashState.

Definition lineIds : list string := targetLineIds (d_users s) (d_selectedUsers s).

Definition line_request : LineRequest := mkLineRequest lineIds (d_message s).

(** The LINE part: one multicast request; a failed response throws. *)
Definition send_line : Srv unit :=
  if ch_line (d_channels s) && negb (Nat.eqb (List.length lineIds) 0) then
    response ← fetch_route FetchLine route_line line_request;
    if ok response then mret tt else throw err_line
  else mret tt.

Definition google_request (u : User) : GoogleRequest :=
  mkGoogleRequest (u_id u) (d_message s) (Some subject).

(** One iteration of the e-mail loop: a failed response is parsed and
    logged, and the loop goes on. *)
Definition send_email_one (u : User) : Srv unit :=
  response ← fetch_route FetchGoogle route_google (google_request u);
  if ok response then mret tt else (_ ← response_json response; mret tt).

Definition send_email : Srv unit :=
  if ch_email (d_channels s) then
    let targets := targetGoogleUsers (d_users s) (d_selectedUsers s) in
    if Nat.ltb 0 (List.length targets) then st_for targets send_email_one else mret tt
  else mret tt.

Definition push_request (u : User) : PushRequest :=
  mkPushRequest (IdString (u_id u)) (Some subject) (Some (d_message s)) (Some "/").

(** One iteration of the push loop: the response is only logged. *)
Definition send_push_one (u : User) : Srv unit :=
  _ ← fetch_route FetchSubscribe route_subscribe (push_request u); mret tt.

Definition send_push : Srv unit :=
  if ch_push (d_channels s) then
    let targets := targetPushUsers (d_users s) (d_selectedUsers s) in
    if Nat.ltb 0 (List.length targets) then st_for targets send_push_one else mret tt
  else mret tt.

(** The body of the [try] block. *)
Definition submit_try : Srv unit :=
  match validate s with
  | Some e => throw e
  | None => send_line ;; send_email ;; send_push
  end.

(** The state after the [try] block completes, and after [finally]. *)
Definition succeeded : DashState :=
  mkDash (d_users s) EmptyString [] no_channels (d_sendAt s) (d_isScheduled s) false
         (Some (mkNotification NoticeSuccess
                  (if d_isScheduled s then ok_scheduled else ok_sent)))
         (d_showLogoutModal s).

(** The state after the [catch] block, and after [finally]. *)
Definition failed (e : string) : DashState :=
  mkDash (d_users s) (d_message s) (d_selectedUsers s) (d_channels s) (d_sendAt s)
         (d_isScheduled s) false (Some (mkNotification NoticeError e))
         (d_showLogoutModal s).

End Submit.

(** [handleSubmit]. *)
Definition handleSubmit `{Routes} (s : DashState) : Srv DashState :=
  try (submit_try s ;; mret (succeeded s)) catch (fun e => mret (failed s e)).

(** ** The interface's laws and the requests a dispatch makes *)

(** The dashboard's requests in a call log. *)
Definition client_fetches (l : list Call) : list Call := List.filter is_fetch l.

(** A route that always answers with JSON and only appends provider
    calls to the log. *)
Definition json_route {Req : Type} (route : Req -> Srv Response) : Prop :=
  forall (req : Req) (w : World), exists (st : Z) (b : Body) (w' : World),
    route req w = (inr (Json st b), w') /\
    exists l : list Call, calls w' = (calls w ++ l)%list /\ client_fetches l = [].

(** A route whose answer, or exception, the client only logs: it only
    appends provider calls to the log. *)
Definition quiet_route {Req : Type} (route : Req -> Srv Response) : Prop :=
  forall (req : Req) (w : World), exists (o : string + Response) (w' : World),
    route req w = (o, w') /\
    exists l : list Call, calls w' = (calls w ++ l)%list /\ client_fetches l = [].

Class RoutesLaws `{Routes} := {
  line_json : json_route route_line;
  google_json : json_route route_google;
  subscribe_quiet : quiet_route route_subscribe;
}.

(** A step that never throws and makes exactly the requests [f]. *)
Definition appends (m : Srv unit) (f : list Call) : Prop :=
  forall w : World, exists w' : World, m w = (inr tt, w') /\
    client_fetches (calls w') = (client_fetches (calls w) ++ f)%list.

Section Planned.
Context `{Routes}.
Variable s : DashState.

(** The requests of a dispatch that passes validation and whose LINE
    request (if any) succeeds: the multicast, then one e-mail request per
    e-mail target, then one push request per push target. *)
Definition planned_fetches : list Call :=
  (if ch_line (d_channels s) && negb (Nat.eqb (List.length (lineIds s)) 0)
   then [FetchLine (line_request s)] else []) ++
  (if ch_email (d_channels s)
   then map (fun u => FetchGoogle (google_request s u))
            (targetGoogleUsers (d_users s) (d_selectedUsers s))
   else []) ++
  (if ch_push (d_channels s)
   then map (fun u => FetchSubscribe (push_request s u))
            (targetPushUsers (d_users s) (d_selectedUsers s))
   else []).

(** The LINE route answers [ok] to this dispatch's request. *)
Definition line_answers_ok : Prop :=
  forall w r w', route_line (line_request s) w = (inr r, w') -> ok r = true.

End Planned.

(** ** The selection invariant *)

(** The selected ids are distinct ids of listed users. *)
Definition sel_wf (s : DashState) : Prop :=
  List.NoDup (d_selectedUsers s) /\ incl (d_selectedUsers s) (map u_id (d_users s)).

(** The listed users have distinct ids. *)
Definition ids_distinct (s : DashState) : Prop := List.NoDup (map u_id (d_users s)).

(** Checkboxes exist only for listed users. *)
Definition event_ok (s : DashState) (e : UiEvent) : Prop :=
  match e with ToggleUser id => In id (map u_id (d_users s)) | _ => True end.

(** A sequence of form events, one after the other. *)
Fixpoint ui_run (evs : list UiEvent) (s : DashState) : DashState :=
  match evs with [] => s | e :: es => ui_run es (ui_step e s) end.

(** Each event of the sequence is one the page can produce then. *)
Fixpoint events_ok (evs : list UiEvent) (s : DashState) : Prop :=
  match evs with [] => True | e :: es => event_ok s e /\ events_ok es (ui_step e s) end.

(** The states the dashboard reaches from mounting with [users]: form
    events on listed users' checkboxes, and submissions answered by any
    implementation of the routes. *)
Inductive reachable (users : list User) : DashState -> Prop :=
| reach_initial : reachable users (initial users)
| reach_event s e : reachable users s -> event_ok s e -> reachable users (ui_step e s)
| reach_submit (R : Routes) s w s' w' :
    reachable users s -> @handleSubmit R s w = (inr s', w') -> reachable users s'.

(** ** Stub routes, to run the dashboard against the interface

    Every route answers JSON and changes nothing; the LINE route answers
    with the given status. *)
Definition stub_routes (line_status : Z) : Routes := {|
  route_line := fun _ w => (inr (Json line_status empty_body), w);
  route_google := fun _ w => (inr (Json 200 success_body), w);
  route_subscribe := fun _ w => (inr (Json 200 success_body), w);
|}.

(** Three listed users: 1 (LINE and e-mail), 2 and 3 (push). *)
Definition demo_users : list User :=
  map formatUser [demo_user 1 (Some "U1") true false; demo_user 2 None false true;
                  demo_user 3 None false true].

(** Users 1 and 2 selected, every channel enabled, a message typed. *)
Definition demo_dash : DashState :=
  mkDash demo_users "hello" ["1"; "2"] (mkChannels true true true) EmptyString false false None false.

(** ** Lemmas: requests made by the steps of [handleSubmit] *)

Lemma client_fetches_app l1 l2 :
  client_fetches (l1 ++ l2) = client_fetches l1 ++ client_fetches l2.
Proof. apply filter_app_bool. Qed.

Lemma appends_ret : appends (mret tt) [].
Proof. intros w. exists w. by rewrite app_nil_r. Qed.

Lemma appends_seq m k f g : appends m f -> appends k g -> appends (m ;; k) (f ++ g).
Proof.
  intros Hm Hk w. destruct (Hm w) as (w1 & E1 & F1). destruct (Hk w1) as (w2 & E2 & F2).
  exists w2. rewrite (st_bind_ok _ _ _ _ _ E1), E2. split; [done|].
  by rewrite F2, F1, app_assoc.
Qed.

Lemma appends_for {A} (xs : list A) (body : A -> Srv unit) (F : A -> list Call) :
  (forall x, In x xs -> appends (body x) (F x)) -> appends (st_for xs body) (flat_map F xs).
Proof.
  induction xs as [|x xs IH]; intros Hb; [apply appends_ret|]. cbn [st_for flat_map].
  apply appends_seq; [apply Hb; by left|]. apply IH. intros y Hy. apply Hb. by right.
Qed.

Lemma flat_map_single {A} (f : A -> Call) (xs : list A) :
  flat_map (fun x => [f x]) xs = map f xs.
Proof. induction xs as [|x xs IH]; [done|]. simpl. by rewrite IH. Qed.

(** A [fetch] of a JSON route records the request and answers JSON. *)
Lemma fetch_json {Req : Type} (mk : Req -> Call) (route : Req -> Srv Response) req w :
  json_route route -> is_fetch (mk req) = true ->
  exists st b w', fetch_route mk route req w = (inr (Json st b), w') /\
    client_fetches (calls w') = client_fetches (calls w) ++ [mk req].
Proof.
  intros Hr Hf. destruct (Hr req (mkWorld (users w) (subs w) (calls w ++ [mk req])))
    as (st & b & w' & E & l & Hl & Hc).
  exists st, b, w'. unfold fetch_route, log_call. split.
  - st_simpl. by rewrite E.
  - rewrite Hl. simpl. rewrite !client_fetches_app, Hc, app_nil_r. simpl. by rewrite Hf.
Qed.

Lemma json_quiet {Req : Type} (route : Req -> Srv Response) : json_route route -> quiet_route route.
Proof. intros Hr req w. destruct (Hr req w) as (st & b & w' & E & Hl). by exists (inr (Json st b)), w'. Qed.

(** A [fetch] of a quiet route records the request and answers. *)
Lemma fetch_quiet {Req : Type} (mk : Req -> Call) (route : Req -> Srv Response) req w :
  quiet_route route -> is_fetch (mk req) = true ->
  exists r w', fetch_route mk route req w = (inr r, w') /\
    client_fetches (calls w') = client_fetches (calls w) ++ [mk req].
Proof.
  intros Hr Hf. destruct (Hr req (mkWorld (users w) (subs w) (calls w ++ [mk req])))
    as ([e|r] & w' & E & l & Hl & Hc); unfold fetch_route, log_call;
    [exists ServerError, w'|exists r, w']; (split; [st_simpl; unfold st_catch; by rewrite E|]);
    rewrite Hl; simpl; rewrite !client_fetches_app, Hc, app_nil_r; simpl; by rewrite Hf.
Qed.

Section Steps.
Context `{RoutesLaws}.
Variable s : DashState.

Lemma send_email_one_appends u : appends (send_email_one s u) [FetchGoogle (google_request s u)].
Proof.
  intros w. destruct (fetch_json FetchGoogle route_google (google_request s u) w google_json eq_refl)
    as (st & b & w' & E & F).
  exists w'. unfold send_email_one. rewrite (st_bind_ok _ _ _ _ _ E). split; [|done].
  by destruct (ok (Json st b)).
Qed.

Lemma send_push_one_appends u : appends (send_push_one s u) [FetchSubscribe (push_request s u)].
Proof.
  intros w. destruct (fetch_quiet FetchSubscribe route_subscribe (push_request s u) w subscribe_quiet eq_refl)
    as (r & w' & E & F).
  exists w'. unfold send_push_one. by rewrite (st_bind_ok _ _ _ _ _ E).
Qed.

(** The loops never stop early: every target gets its request, whatever
    the routes answer. *)
Lemma send_email_appends :
  appends (send_email s)
    (if ch_email (d_channels s)
     then map (fun u => FetchGoogle (google_request s u))
              (targetGoogleUsers (d_users s) (d_selectedUsers s))
     else []).
Proof.
  unfold send_email. destruct (ch_email _); [|apply appends_ret]. cbv zeta.
  destruct (targetGoogleUsers _ _) as [|u us]; [apply appends_ret|].
  rewrite <- flat_map_single. apply appends_for. intros x _. apply send_email_one_appends.
Qed.

Lemma send_push_appends :
  appends (send_push s)
    (if ch_push (d_channels s)
     then map (fun u => FetchSubscribe (push_request s u))
              (targetPushUsers (d_users s) (d_selectedUsers s))
     else []).
Proof.
  unfold send_push. destruct (ch_push _); [|apply appends_ret]. cbv zeta.
  destruct (targetPushUsers _ _) as [|u us]; [apply appends_ret|].
  rewrite <- flat_map_single. apply appends_for. intros x _. apply send_push_one_appends.
Qed.

Lemma send_line_appends :
  line_answers_ok s ->
  appends (send_line s)
    (if ch_line (d_channels s) && negb (Nat.eqb (List.length (lineIds s)) 0)
     then [FetchLine (line_request s)] else []).
Proof.
  intros Hok. unfold send_line. destruct (_ && _); [|apply appends_ret]. intros w.
  destruct (fetch_json FetchLine route_line (line_request s) w line_json eq_refl)
    as (st & b & w' & E & F).
  exists w'. rewrite (st_bind_ok _ _ _ _ _ E). split; [|done].
  replace (ok (Json st b)) with true; [done|]. symmetry.
  unfold fetch_route, log_call in E. st_simpl.
  destruct (route_line (line_request s) _) as [[e|r] w''] eqn:Er; [discriminate|].
  injection E as -> _. exact (Hok _ _ _ Er).
Qed.

End Steps.

(** ** Theorems about [handleSubmit] *)

Lemma validate_None s :
  validate s = None <->
  Js.truthy (Js.trim (d_message s)) = true /\ d_selectedUsers s <> [] /\
  (ch_email (d_channels s) || ch_line (d_channels s) || ch_push (d_channels s)) = true.
Proof.
  unfold validate. destruct (Js.truthy _), (d_selectedUsers s) as [|x l],
    (d_channels s) as [[] [] []]; simpl; intuition congruence.
Qed.

(** C4: validation: a blank message, an empty selection or no channel is
    reported before any request: the world (tables and call log) is
    unchanged. *)
Theorem handleSubmit_invalid `{Routes} s w e :
  validate s = Some e -> handleSubmit s w = (inr (failed s e), w).
Proof. intros He. unfold handleSubmit, submit_try. rewrite He. reflexivity. Qed.

(** C3: a dispatch that passes validation, when the LINE request (if
    any) succeeds, reports success and makes exactly the planned
    requests: the multicast, then one e-mail request per e-mail target,
    then one push request per push target, whatever the e-mail and push
    routes answer. *)
Theorem handleSubmit_dispatches `{RoutesLaws} s w :
  validate s = None -> line_answers_ok s ->
  exists w', handleSubmit s w = (inr (succeeded s), w') /\
    client_fetches (calls w') = client_fetches (calls w) ++ planned_fetches s.
Proof.
  intros Hv Hok.
  destruct (appends_seq _ _ _ _ (send_line_appends s Hok)
              (appends_seq _ _ _ _ (send_email_appends s) (send_push_appends s)) w)
    as (w' & E & F).
  exists w'. unfold handleSubmit, submit_try, st_catch. rewrite Hv.
  rewrite (st_bind_ok _ _ _ _ _ E). split; [done|]. by rewrite F.
Qed.

(** A failed LINE request aborts the dispatch: the error is reported
    and neither the e-mail nor the push requests are made, although the
    channels are independent in the design. *)
Theorem handleSubmit_line_failure `{RoutesLaws} s w :
  validate s = None -> ch_line (d_channels s) = true -> lineIds s <> [] ->
  (forall w0 r w1, route_line (line_request s) w0 = (inr r, w1) -> ok r = false) ->
  exists w', handleSubmit s w = (inr (failed s err_line), w') /\
    client_fetches (calls w') = client_fetches (calls w) ++ [FetchLine (line_request s)].
Proof.
  intros Hv Hl Hne Hfail.
  destruct (fetch_json FetchLine route_line (line_request s) w line_json eq_refl)
    as (st & b & w' & E & F).
  assert (Hnok : ok (Json st b) = false).
  { unfold fetch_route, log_call in E. st_simpl.
    destruct (route_line (line_request s) _) as [[e|r] w''] eqn:Er; [discriminate|].
    injection E as -> _. exact (Hfail _ _ _ Er). }
  assert (Hline : send_line s w = (inl err_line, w')).
  { unfold send_line. rewrite Hl.
    replace (negb (Nat.eqb (List.length (lineIds s)) 0)) with true
      by (destruct (lineIds s); [contradiction|reflexivity]).
    cbn [andb]. rewrite (st_bind_ok _ _ _ _ _ E), Hnok. reflexivity. }
  exists w'. unfold handleSubmit, submit_try, st_catch. rewrite Hv.
  rewrite !st_bind_run, Hline. by split.
Qed.

(** C37: the schedule controls are dead: a dispatch makes the same
    requests and leaves the same world whatever [isScheduled] and
    [sendAt] hold; only the success text differs. *)
Theorem handleSubmit_schedule_ignored `{Routes} s w b v :
  let s' := mkDash (d_users s) (d_message s) (d_selectedUsers s) (d_channels s) v b
                   (d_loading s) (d_notification s) (d_showLogoutModal s) in
  snd (handleSubmit s' w) = snd (handleSubmit s w).
Proof.
  intros s'. unfold handleSubmit, st_catch.
  assert (E : submit_try s' w = submit_try s w) by (destruct s; reflexivity).
  rewrite !st_bind_run, E. by destruct (submit_try s w) as [[e|[]] w'].
Qed.

(** ** Theorems about the event handlers *)

Lemma includes_In l x : Js.includes l x = true <-> In x l.
Proof.
  unfold Js.includes. rewrite existsb_exists. split.
  - intros (y & Hy & E). apply String.eqb_eq in E. by subst.
  - intros Hx. exists x. split; [done|]. apply String.eqb_refl.
Qed.

Lemma in_remove_id l id x :
  In x (List.filter (fun y => negb (String.eqb y id)) l) <-> x <> id /\ In x l.
Proof.
  rewrite filter_In. destruct (String.eqb_spec x id); simpl; intuition congruence.
Qed.

(** [handleUserToggle] adds the id when it is not selected and
    removes it when it is; the other selections are unchanged. *)
Theorem handleUserToggle_spec id s x :
  In x (d_selectedUsers (handleUserToggle id s)) <->
  (x = id /\ ~ In id (d_selectedUsers s)) \/ (x <> id /\ In x (d_selectedUsers s)).
Proof.
  unfold handleUserToggle. simpl. destruct (Js.includes _ id) eqn:E.
  - apply includes_In in E. rewrite in_remove_id. intuition congruence.
  - assert (~ In id (d_selectedUsers s)) by (rewrite <- includes_In; congruence).
    rewrite in_app_iff. simpl. destruct (String.eq_dec x id); intuition congruence.
Qed.

Lemma toggle_sel_wf id s : event_ok s (ToggleUser id) -> sel_wf s -> sel_wf (handleUserToggle id s).
Proof.
  intros Hid [Hnd Hinc]. unfold handleUserToggle, sel_wf. simpl.
  destruct (Js.includes _ id) eqn:E; split.
  - by apply List.NoDup_filter.
  - intros x Hx. apply in_remove_id in Hx as [_ Hx]. by apply Hinc.
  - apply List.NoDup_app; [done|repeat constructor; intros []|].
    intros x Hx [<-|[]]. apply includes_In in Hx. congruence.
  - intros x [Hx|[<-|[]]]%in_app_iff; [by apply Hinc|done].
Qed.

(** With the invariant, "as many selected as listed" means "all selected". *)
Lemma all_selected_length s :
  ids_distinct s -> sel_wf s ->
  List.length (d_selectedUsers s) = List.length (d_users s) <->
  incl (map u_id (d_users s)) (d_selectedUsers s).
Proof.
  intros Hd [Hnd Hinc]. rewrite <- (length_map u_id (d_users s)). split.
  - intros Hlen. apply NoDup_length_incl; [done|lia|done].
  - intros Hall. apply Nat.le_antisymm; apply NoDup_incl_length; done.
Qed.

(** [handleSelectAll] clears the selection when every listed user is
    selected, and selects every listed user otherwise. *)
Theorem handleSelectAll_spec s :
  ids_distinct s -> sel_wf s ->
  d_selectedUsers (handleSelectAll s) =
  if forallb (Js.includes (d_selectedUsers s)) (map u_id (d_users s))
  then [] else map u_id (d_users s).
Proof.
  intros Hd Hw. unfold handleSelectAll.
  pose proof (all_selected_length s Hd Hw) as Hl.
  assert (Hf : forallb (Js.includes (d_selectedUsers s)) (map u_id (d_users s)) = true <->
               incl (map u_id (d_users s)) (d_selectedUsers s)).
  { rewrite forallb_forall. setoid_rewrite includes_In. done. }
  destruct (Nat.eqb_spec (List.length (d_selectedUsers s)) (List.length (d_users s))) as [E|E],
    (forallb _ _); simpl; [done| |exfalso; intuition congruence|done].
  exfalso. apply Hl in E. apply Hf in E. discriminate.
Qed.

(** Every form event keeps the selection a duplicate-free list of
    listed users' ids. *)
Lemma ui_step_preserves_sel_wf e s :
  ids_distinct s -> event_ok s e -> sel_wf s -> sel_wf (ui_step e s).
Proof.
  intros Hd He Hw. destruct e; simpl; try done.
  - by apply toggle_sel_wf.
  - unfold handleSelectAll. destruct (Nat.eqb _ _); split; simpl;
      [constructor | intros ? [] | done | apply incl_refl].
  - by destruct (Nat.eqb _ _).
  - by destruct (Nat.eqb _ _).
  - by destruct (Nat.eqb _ _).
Qed.

Lemma ui_step_users e s : d_users (ui_step e s) = d_users s.
Proof.
  destruct e; simpl; try reflexivity;
    [unfold handleSelectAll; by destruct (Nat.eqb _ _)|by destruct (Nat.eqb _ _)..].
Qed.

(** [handleSubmit] ends in the success state or in the error state. *)
Lemma handleSubmit_outcome `{Routes} s w s' w' :
  handleSubmit s w = (inr s', w') -> s' = succeeded s \/ exists e, s' = failed s e.
Proof.
  unfold handleSubmit, st_catch. rewrite st_bind_run.
  destruct (submit_try s w) as [[e|[]] w1]; intros E; injection E as <- _; [right; by exists e|by left].
Qed.

(** The selection invariant holds in every reachable state: when the
    listed users have distinct ids, the selection is always a
    duplicate-free list of listed ids, through any sequence of form
    events and submissions. *)
Lemma reachable_sel_wf users s :
  List.NoDup (map u_id users) -> reachable users s -> d_users s = users /\ sel_wf s.
Proof.
  intros Hd. induction 1 as [|s e _ [Hu Hw] He|R s w s' w' _ [Hu Hw] E].
  - split; [done|]. split; [constructor|intros ? []].
  - rewrite ui_step_users. split; [done|]. apply ui_step_preserves_sel_wf; [unfold ids_distinct; by rewrite Hu|done..].
  - destruct (handleSubmit_outcome s w s' w' E) as [->|[e ->]]; (split; [done|]);
      [split; [constructor|intros ? []]|done].
Qed.

(** A relation on worlds that the call log and every route respect is
    respected by a whole dispatch. *)
Lemma handleSubmit_preserves `{Routes} (R : World -> World -> Prop) `{!PreOrder R} s :
  (forall c, preserves R (log_call c)) ->
  (forall req, preserves R (route_line req)) -> (forall req, preserves R (route_google req)) ->
  (forall req, preserves R (route_subscribe req)) ->
  preserves R (handleSubmit s).
Proof.
  intros Hlog Hl Hg Hp. unfold handleSubmit, submit_try, send_line, send_email, send_push,
    send_email_one, send_push_one, fetch_route, response_json.
  repeat first [ apply Hlog | apply Hl | apply Hg | apply Hp
               | apply preserves_for; [exact _|intros ?] | preserves_step ].
Qed.

(** C19: liveness (spec section 7: the operator is never left without a
    success or failure signal): whatever the routes answer or throw,
    [handleSubmit] returns with [loading] off and a notification, which
    when it is a success one says "scheduled" or "sent" as [isScheduled]
    is set. *)
Theorem handleSubmit_always_signals `{Routes} s w :
  exists s' w', handleSubmit s w = (inr s', w') /\ d_loading s' = false /\
    exists n, d_notification s' = Some n /\
      (n_type n = NoticeSuccess -> n_message n = if d_isScheduled s then ok_scheduled else ok_sent).
Proof.
  destruct (handleSubmit s w) as [[e|s'] w'] eqn:E.
  - exfalso. revert E. unfold handleSubmit, st_catch. rewrite st_bind_run.
    destruct (submit_try s w) as [[?|[]] ?]; discriminate.
  - exists s', w'. split; [done|]. destruct (handleSubmit_outcome s w s' w' E) as [->|[e ->]].
    + split; [done|]. by eexists.
    + split; [done|]. eexists. split; [reflexivity|]. discriminate.
Qed.

(** ** Witnesses, with the stub routes *)

Lemma handleSubmit_invalid_witness :
  validate (set_channels no_channels demo_dash) = Some err_channel /\
  @handleSubmit (stub_routes 200) (set_channels no_channels demo_dash) demo_world =
    (inr (failed (set_channels no_channels demo_dash) err_channel), demo_world).
Proof.
  assert (Hv : validate (set_channels no_channels demo_dash) = Some err_channel) by reflexivity.
  split; [exact Hv|]. exact (@handleSubmit_invalid (stub_routes 200) _ demo_world _ Hv).
Defined.

#[local] Instance stub_laws (st : Z) : @RoutesLaws (stub_routes st).
Proof.
  split; intros req w; [eexists _, _, w..|eexists _, w]; (split; [reflexivity|]); exists []; by rewrite app_nil_r.
Qed.

Lemma handleSubmit_dispatches_witness :
  validate demo_dash = None /\ @line_answers_ok (stub_routes 200) demo_dash /\
  exists w', @handleSubmit (stub_routes 200) demo_dash demo_world = (inr (succeeded demo_dash), w') /\
    client_fetches (calls w') =
      client_fetches (calls demo_world) ++ planned_fetches demo_dash.
Proof.
  assert (Hv : validate demo_dash = None) by reflexivity.
  assert (Hok : @line_answers_ok (stub_routes 200) demo_dash)
    by (intros w r w' E; injection E as <- _; reflexivity).
  split; [exact Hv|]. split; [exact Hok|].
  exact (@handleSubmit_dispatches (stub_routes 200) (stub_laws 200) demo_dash demo_world Hv Hok).
Defined.

Lemma handleSubmit_line_failure_witness :
  validate demo_dash = None /\ ch_line (d_channels demo_dash) = true /\ lineIds demo_dash <> [] /\
  (forall w0 r w1, @route_line (stub_routes 400) (line_request demo_dash) w0 = (inr r, w1) ->
     ok r = false) /\
  exists w', @handleSubmit (stub_routes 400) demo_dash demo_world =
      (inr (failed demo_dash err_line), w') /\
    client_fetches (calls w') = client_fetches (calls demo_world) ++ [FetchLine (line_request demo_dash)].
Proof.
  assert (Hv : validate demo_dash = None) by reflexivity.
  assert (Hl : ch_line (d_channels demo_dash) = true) by reflexivity.
  assert (Hne : lineIds demo_dash <> []) by (vm_compute; discriminate).
  assert (Hf : forall w0 r w1, @route_line (stub_routes 400) (line_request demo_dash) w0 = (inr r, w1) ->
                 ok r = false) by (intros w0 r w1 E; injection E as <- _; reflexivity).
  do 4 (split; [assumption|]).
  exact (@handleSubmit_line_failure (stub_routes 400) (stub_laws 400) demo_dash demo_world Hv Hl Hne Hf).
Defined.

Lemma handleSelectAll_spec_witness :
  ids_distinct demo_dash /\ sel_wf demo_dash /\
  d_selectedUsers (handleSelectAll demo_dash) =
    (if forallb (Js.includes (d_selectedUsers demo_dash)) (map u_id (d_users demo_dash))
     then [] else map u_id (d_users demo_dash)).
Proof.
  assert (Hd : ids_distinct demo_dash) by (vm_compute; repeat constructor; simpl; intuition discriminate).
  assert (Hw : sel_wf demo_dash).
  { split; [vm_compute; repeat constructor; simpl; intuition discriminate|].
    vm_compute. intros x [<-|[<-|[]]]; simpl; auto. }
  split; [exact Hd|]. split; [exact Hw|]. exact (handleSelectAll_spec demo_dash Hd Hw).
Defined.

End Dispatch.
