(* ===== verification/DashMachine.v ===== *)
(** * The dashboard while a dispatch is in flight

    [src/src/components/DashboardClient.tsx]: [handleSubmit] sets
    [loading] and clears the banner, then awaits its requests; meanwhile
    only the submit button is disabled ([disabled={loading}]), so the
    user may keep typing, selecting and ticking channels.  The dispatch
    itself works on the values its closure captured at the click, and
    when it settles React applies its [setX] calls to the state as it is
    then.  [dash_step] is the page as a machine: form events at any
    time, a submission when the button is enabled, and the settling of
    the one in flight, whose requests are [Dispatch.submit_try] on the
    captured state.  [Dispatch.handleSubmit] is this machine's run with
    no event during the flight ([handleSubmit_machine]). *)

From S2P Require Import Prelude Js Directory Server Dispatch.

Open Scope string_scope.
Open Scope js_scope.
Open Scope list_scope.

Module DashMachine.
Import Directory Server Dispatch.

(** The synchronous start of [handleSubmit]: [setLoading(true)],
    [setNotification(null)]. *)
Definition submit_begin (s : DashState) : DashState :=
  mkDash (d_users s) (d_message s) (d_selectedUsers s) (d_channels s) (d_sendAt s)
         (d_isScheduled s) true None (d_showLogoutModal s).

(** The updates after the dispatch of [s0] settles with [o], applied to
    the current state [cur]: on success the banner (its text from the
    [isScheduled] the closure captured), [setMessage("")],
    [setSelectedUsers([])] and [setChannels] all off; in the [catch] the
    error banner; and [setLoading(false)] in the [finally]. *)
Definition settle (s0 : DashState) (o : string + unit) (cur : DashState) : DashState :=
  match o with
  | inr _ =>
      mkDash (d_users cur) EmptyString [] no_channels (d_sendAt cur) (d_isScheduled cur) false
             (Some (mkNotification NoticeSuccess (if d_isScheduled s0 then ok_scheduled else ok_sent)))
             (d_showLogoutModal cur)
  | inl e =>
      mkDash (d_users cur) (d_message cur) (d_selectedUsers cur) (d_channels cur) (d_sendAt cur)
             (d_isScheduled cur) false (Some (mkNotification NoticeError e)) (d_showLogoutModal cur)
  end.

(** The page's state, the dispatches in flight (each the state its
    closure captured), and the world their requests act on. *)
Record Dash := mkMachine { m_state : DashState; m_pending : list DashState; m_world : World }.

(** A form event, a click on the enabled submit button, which starts a
    [handleSubmit] of its own, or the settling of one of the dispatches
    in flight. *)
Inductive dash_step `{Routes} : Dash -> Dash -> Prop :=
| ds_event cur p w e :
    event_ok cur e -> dash_step (mkMachine cur p w) (mkMachine (ui_step e cur) p w)
| ds_submit cur p w :
    d_loading cur = false -> dash_step (mkMachine cur p w) (mkMachine (submit_begin cur) (p ++ [cur]) w)
| ds_settle cur p i s0 w o w' :
    p !! i = Some s0 -> submit_try s0 w = (o, w') ->
    dash_step (mkMachine cur p w) (mkMachine (settle s0 o cur) (delete i p) w').

(** ** Lemmas *)

Lemma ui_step_loading e s : d_loading (ui_step e s) = d_loading s.
Proof.
  destruct e; unfold ui_step, handleUserToggle, handleSelectAll, set_selected, set_channels;
    repeat case_match; reflexivity.
Qed.

Lemma ui_run_state evs s :
  d_users (ui_run evs s) = d_users s /\ d_loading (ui_run evs s) = d_loading s.
Proof.
  revert s. induction evs as [|e evs IH]; intros s; [done|]. cbn [ui_run].
  destruct (IH (ui_step e s)) as [-> ->]. by rewrite ui_step_users, ui_step_loading.
Qed.

(** Form events during the flight are steps of the machine. *)
Lemma ui_run_steps `{Routes} evs cur p w :
  events_ok evs cur -> rtc dash_step (mkMachine cur p w) (mkMachine (ui_run evs cur) p w).
Proof.
  revert cur. induction evs as [|e evs IH]; intros cur Hok; [reflexivity|]. destruct Hok as [He Hok].
  eapply rtc_l; [by apply ds_event|]. exact (IH _ Hok).
Qed.

Lemma settle_begin s o :
  settle s o (submit_begin s) = match o with inr _ => succeeded s | inl e => failed s e end.
Proof. by destruct o. Qed.

(** [handleSubmit] is the machine's submission followed at once by its
    settling. *)
Lemma handleSubmit_machine `{Routes} s w s' w' :
  d_loading s = false -> handleSubmit s w = (inr s', w') ->
  rtc dash_step (mkMachine s [] w) (mkMachine s' [] w').
Proof.
  intros Hl. unfold handleSubmit, st_catch. rewrite st_bind_run.
  destruct (submit_try s w) as [o w1] eqn:E. intros Hs.
  assert (s' = settle s o (submit_begin s) /\ w' = w1) as [-> ->]
    by (rewrite settle_begin; destruct o as [e|[]]; by injection Hs as <- <-).
  eapply rtc_l; [by apply ds_submit|]. apply rtc_once. by apply (ds_settle _ [s] 0).
Qed.

Lemma submit_try_succeeded `{Routes} s w w' :
  handleSubmit s w = (inr (succeeded s), w') -> submit_try s w = (inr tt, w').
Proof.
  unfold handleSubmit, st_catch. rewrite st_bind_run.
  destruct (submit_try s w) as [[e|[]] w1]; intros E; [inversion E|by injection E as ->].
Qed.

(** The machine's invariant: the listed users never change, the page's
    selection and those in flight are well formed, [loading] is set
    exactly while a dispatch is in flight, and at most one is. *)
Definition dash_inv (users : list User) (m : Dash) : Prop :=
  d_users (m_state m) = users /\ sel_wf (m_state m) /\
  (d_loading (m_state m) = true <-> m_pending m <> []) /\ List.length (m_pending m) <= 1 /\
  Forall (fun s0 => d_users s0 = users /\ sel_wf s0) (m_pending m).

Lemma sel_wf_nil s : d_selectedUsers s = [] -> sel_wf s.
Proof. intros E. unfold sel_wf. rewrite E. split; [constructor|intros ? []]. Qed.

Lemma dash_step_inv `{Routes} users m m' :
  List.NoDup (map u_id users) -> dash_inv users m -> dash_step m m' -> dash_inv users m'.
Proof.
  intros Hd (Hu & Hw & Hl & Hn & Hp).
  destruct 1 as [cur p w e He|cur p w Hf|cur p i s0 w o w' Hi E]; unfold dash_inv; cbn [m_state m_pending] in *.
  - rewrite ui_step_users, ui_step_loading. split; [done|]. split; [|by split].
    apply ui_step_preserves_sel_wf; [unfold ids_distinct; by rewrite Hu|done..].
  - assert (p = []) as -> by (destruct p as [|s1 p]; [done|]; rewrite Hf in Hl; discriminate (proj2 Hl ltac:(discriminate))).
    split; [done|]. split; [done|]. split; [split; [by intros _|done]|]. split; [cbn; lia|]. cbn [app]. constructor; [done|constructor].
  - destruct p as [|s1 [|s2 p]]; [done| |cbn in Hn; lia].
    destruct i as [|i]; [|done]. injection Hi as <-. cbn [delete list_delete].
    split; [by destruct o|]. split; [destruct o; [done|first [by apply sel_wf_nil|done]]|].
    split; [destruct o; (split; [done|by intros []])|]. split; [cbn; lia|constructor].
Qed.

(** ** Properties *)

Section Claims.
Context `{Routes}.

(** C33: the dashboard machine's invariant: from the page mounted with a
    listing of distinct ids, in every state reached through form events,
    submissions and the settling of dispatches (whatever the routes
    answer), the listing is the one mounted, the selection shown and the
    one of the dispatch in flight are duplicate-free lists of listed ids,
    and [loading] is set exactly while a dispatch is in flight, so the
    button never starts a second one: at most one is in flight. *)
Theorem dash_machine_inv users w0 m :
  List.NoDup (map u_id users) ->
  rtc dash_step (mkMachine (initial users) [] w0) m ->
  d_users (m_state m) = users /\ sel_wf (m_state m) /\
  (d_loading (m_state m) = true <-> m_pending m <> []) /\ List.length (m_pending m) <= 1 /\
  Forall (fun s0 => d_users s0 = users /\ sel_wf s0) (m_pending m).
Proof.
  intros Hd. revert m. apply (rtc_ind_r (dash_inv users)).
  - split; [done|]. split; [by apply sel_wf_nil|]. split; [split; [done|by intros []]|]. split; [cbn; lia|constructor].
  - intros m1 m2 _ Hs IH. exact (dash_step_inv users m1 m2 Hd IH Hs).
Qed.

End Claims.

Section Inflight.
Context `{RoutesLaws}.

(** C8: edits made while a dispatch is in flight are lost: after any
    form events during the flight of a valid dispatch whose LINE request
    succeeds, the dispatch makes exactly the requests planned from the
    state captured at the click (its message, recipients and channels,
    not the ones typed since), and its success then empties the message,
    the selection and the channels the user had changed meanwhile, while
    the schedule fields and the modal keep their current values and the
    banner's text follows the captured schedule flag. *)
Theorem inflight_edits_lost cur s0 w evs :
  events_ok evs cur -> validate s0 = None -> line_answers_ok s0 ->
  exists w', rtc dash_step (mkMachine cur [s0] w)
    (mkMachine (mkDash (d_users cur) EmptyString [] no_channels (d_sendAt (ui_run evs cur))
                  (d_isScheduled (ui_run evs cur)) false
                  (Some (mkNotification NoticeSuccess (if d_isScheduled s0 then ok_scheduled else ok_sent)))
                  (d_showLogoutModal (ui_run evs cur))) [] w') /\
    client_fetches (calls w') = client_fetches (calls w) ++ planned_fetches s0.
Proof.
  intros Hok Hv Hline. destruct (handleSubmit_dispatches s0 w Hv Hline) as (w' & E & F).
  exists w'. split; [|exact F].
  etrans; [exact (ui_run_steps evs cur [s0] w Hok)|]. apply rtc_once.
  rewrite <- (proj1 (ui_run_state evs cur)).
  exact (ds_settle (ui_run evs cur) [s0] 0 s0 w (inr tt) w' eq_refl (submit_try_succeeded s0 w w' E)).
Qed.

End Inflight.

(** ** Witnesses, against stub routes *)

#[local] Existing Instance stub_laws.

(** During the flight of [demo_dash]'s dispatch the user types a new
    message and selects user 3. *)
Definition edits : list UiEvent := [TypeMessage "second message"; ToggleUser "3"].

Lemma dash_machine_inv_witness :
  List.NoDup (map u_id demo_users) /\
  rtc (@dash_step (stub_routes 200)) (mkMachine (initial demo_users) [] demo_world)
      (mkMachine (submit_begin (ui_run [ToggleUser "2"] (initial demo_users)))
                 [ui_run [ToggleUser "2"] (initial demo_users)] demo_world) /\
  sel_wf (ui_run [ToggleUser "2"] (initial demo_users)).
Proof.
  assert (Hd : List.NoDup (map u_id demo_users)) by (vm_compute; repeat constructor; cbn; intuition discriminate).
  assert (Hr : rtc (@dash_step (stub_routes 200)) (mkMachine (initial demo_users) [] demo_world)
      (mkMachine (submit_begin (ui_run [ToggleUser "2"] (initial demo_users)))
                 [ui_run [ToggleUser "2"] (initial demo_users)] demo_world)).
  { assert (Hok : events_ok [ToggleUser "2"] (initial demo_users)) by (vm_compute; auto 10).
    etrans; [exact (ui_run_steps _ _ [] demo_world Hok)|].
    apply rtc_once, ds_submit. reflexivity. }
  split; [exact Hd|]. split; [exact Hr|].
  destruct (dash_machine_inv demo_users demo_world _ Hd Hr) as (_ & _ & _ & _ & Hp).
  by inversion Hp as [|? ? [_ Hw]].
Defined.

Lemma inflight_edits_lost_witness :
  events_ok edits (submit_begin demo_dash) /\ validate demo_dash = None /\
  @line_answers_ok (stub_routes 200) demo_dash /\
  exists w', rtc (@dash_step (stub_routes 200)) (mkMachine (submit_begin demo_dash) [demo_dash] demo_world)
    (mkMachine (mkDash demo_users EmptyString [] no_channels EmptyString false false
                  (Some (mkNotification NoticeSuccess ok_sent)) false) [] w').
Proof.
  assert (Hok : events_ok edits (submit_begin demo_dash)) by (vm_compute; auto 10).
  assert (Hv : validate demo_dash = None) by reflexivity.
  assert (Hl : @line_answers_ok (stub_routes 200) demo_dash) by (intros w0 r w1 [= <- _]; reflexivity).
  split; [exact Hok|]. split; [exact Hv|]. split; [exact Hl|].
  destruct (@inflight_edits_lost (stub_routes 200) (stub_laws 200) _ demo_dash demo_world edits Hok Hv Hl)
    as (w' & Hr & _).
  exists w'. exact Hr.
Defined.

End DashMachine.
