(* ===== verification/System.v ===== *)
(** * The assembled system: the dashboard wired to the three routes

    [Dispatch] is written against the interface [Routes]; this file
    instantiates it with the handlers of this repository
    ([LineSender.POST], [EmailSender.POST], [PushSender.POST]), proves
    that they satisfy the interface's laws [RoutesLaws], and states the
    end-to-end behaviour of a dispatch: the requests of the dashboard
    together with the provider calls the routes make in answer. *)

From S2P Require Import Prelude Js JsNumber Base64 Directory Server PushSender LineSender EmailSender Dispatch.
From stdpp Require Import sorting.

Open Scope string_scope.
Open Scope js_scope.
Open Scope list_scope.

Module System.
Import Directory Server Dispatch.

(** The routes of [src/src/app/api/notifications/*/route.ts]. *)
#[export] Instance routes `{Env} : Routes := {|
  route_line := LineSender.POST;
  route_google := EmailSender.POST;
  route_subscribe := PushSender.POST;
|}.

(** ** The routes satisfy the interface's laws *)

Lemma client_fetches_nil l : Forall (fun c => is_fetch c = false) l -> client_fetches l = [].
Proof. induction 1 as [|c l Hc _ IH]; [done|]. unfold client_fetches in *. simpl. by rewrite Hc. Qed.

(** A route that answers without touching the world. *)
Ltac json_same_world := eexists _, _, _; split; [reflexivity|]; exists []; by rewrite app_nil_r.

Section Laws.
Context `{Env}.

Lemma line_route_json : json_route LineSender.POST.
Proof.
  intros req w. rewrite LineSender.POST_line_run.
  destruct (line_multicast _ _); [|destruct (_ && _)]; eexists _, _, _; (split; [reflexivity|]);
    (eexists; split; [reflexivity|]); by apply client_fetches_nil; repeat constructor.
Qed.

Lemma google_route_json : json_route EmailSender.POST.
Proof.
  intros req w. rewrite EmailSender.POST_google_run.
  destruct (EmailSender.user_key _) as [i|]; [|json_same_world].
  destruct (EmailSender.refresh_token _) as [token|]; [|json_same_world].
  destruct (Js.truthy token); [|json_same_world].
  unfold EmailSender.gmail_response. cbv zeta.
  destruct (gmail_send _ _); eexists _, _, _; (split; [reflexivity|]);
    (eexists; split; [reflexivity|]); by apply client_fetches_nil; repeat constructor.
Qed.

Lemma subscribe_route_json : json_route PushSender.POST.
Proof.
  intros req w.
  destruct (PushSender.POST_cases req w) as [[_ E]|[(? & _ & _ & E)|(? & _ & _ & E)]]; rewrite E;
    [json_same_world..|].
  eexists _, _, _. split; [reflexivity|]. eexists. split; [reflexivity|]. apply client_fetches_nil, Forall_map, Forall_true. done.
Qed.

#[export] Instance routes_laws : RoutesLaws := {|
  line_json := line_route_json;
  google_json := google_route_json;
  subscribe_quiet := json_quiet _ subscribe_route_json;
|}.

End Laws.

(** ** The dashboard loaded from the table *)

Lemma Z_to_string_inj a b : Js.Z_to_string a = Js.Z_to_string b -> a = b.
Proof.
  intros E. apply (f_equal JsNumber.parseInt_digits) in E.
  rewrite !JsNumber.parseInt_digits_Z_to_string in E. injection E as Hs Ha.
  apply (f_equal Z.of_N) in Ha. rewrite !Z2N.id in Ha by lia.
  destruct (Z.ltb_spec a 0), (Z.ltb_spec b 0); try discriminate; lia.
Qed.

(** The page lists the rows of the table under distinct ids. *)
Lemma Home_ids_distinct m :
  users_wf m -> List.NoDup (map u_id (Home (map snd (map_to_list m)))).
Proof.
  intros Hwf. unfold Home. rewrite map_map, <- (map_map id Js.Z_to_string).
  apply NoDup_map_injective; [exact Z_to_string_inj|].
  eapply Permutation_NoDup; [apply Permutation_map; symmetry; apply merge_sort_Permutation|].
  rewrite map_map. replace (map (fun x => id (snd x)) (map_to_list m)) with (map fst (map_to_list m)).
  - rewrite <- fmap_list_map. apply NoDup_ListNoDup, NoDup_fst_map_to_list.
  - apply map_ext_in. intros [k r] Hin. apply list_elem_of_In, elem_of_map_to_list in Hin.
    symmetry. exact (map_Forall_lookup_1 _ _ _ _ Hwf Hin).
Qed.

(** The dashboard's selection invariant, from mounting: for the page
    rendered from a well-keyed users table, every state the dashboard
    reaches through form events and submissions (against any routes)
    keeps the list of users it was mounted with, and its selection is a
    duplicate-free list of ids of listed users. *)
Theorem dashboard_selection_wf m s :
  users_wf m -> reachable (Home (map snd (map_to_list m))) s ->
  d_users s = Home (map snd (map_to_list m)) /\ sel_wf s.
Proof. intros Hwf Hr. exact (reachable_sel_wf _ _ (Home_ids_distinct m Hwf) Hr). Qed.

(** ** The e-mail channel end to end *)

Section Email.
Context `{Env}.

(** The Gmail calls the e-mail route makes for one request (none, or one
    with the user's token and the encoded MIME message). *)
Definition gmail_calls (req : GoogleRequest) (w : World) : list Call :=
  match EmailSender.user_key (gr_userId req) with
  | Some i =>
      match EmailSender.refresh_token (users w !! i) with
      | Some t =>
          if Js.truthy t then
            [GmailSend t (EmailSender.encodedMessage
                            (EmailSender.emailContent (users w !! i ≫= email)
                               (gr_subject req) (gr_message req)))]
          else []
      | None => []
      end
  | None => []
  end.

Lemma fetch_google_run req w :
  exists r, fetch_route FetchGoogle EmailSender.POST req w =
    (inr (Json (fst r) (snd r)),
     mkWorld (users w) (subs w) (calls w ++ FetchGoogle req :: gmail_calls req w)).
Proof.
  unfold fetch_route.
  rewrite (st_bind_ok (log_call _) _ w tt (mkWorld (users w) (subs w) (calls w ++ [FetchGoogle req])))
    by reflexivity.
  unfold st_catch. rewrite EmailSender.POST_google_run. unfold gmail_calls. cbn [users subs calls].
  destruct (EmailSender.user_key _) as [i|]; [|exists (500%Z, error_body prisma_invalid); reflexivity].
  destruct (EmailSender.refresh_token _) as [t|];
    [|exists (500%Z, error_body EmailSender.no_token_error); reflexivity].
  destruct (Js.truthy t); [|exists (500%Z, error_body EmailSender.no_token_error); reflexivity].
  unfold EmailSender.gmail_response. cbv zeta.
  destruct (gmail_send _ _); [eexists (_, _)|eexists (_, _)]; by rewrite <- app_assoc.
Qed.

(** One iteration of the dashboard's e-mail loop never throws, whatever
    the route answers. *)
Lemma send_email_one_run s u w :
  send_email_one s u w =
  (inr tt, mkWorld (users w) (subs w)
             (calls w ++ FetchGoogle (google_request s u) :: gmail_calls (google_request s u) w)).
Proof.
  unfold send_email_one. destruct (fetch_google_run (google_request s u) w) as [r E].
  cbn [route_google routes]. rewrite (st_bind_ok _ _ _ _ _ E). by destruct (ok _).
Qed.

Lemma send_email_loop s us w :
  st_for us (send_email_one s) w =
  (inr tt, mkWorld (users w) (subs w)
             (calls w ++ flat_map (fun u => FetchGoogle (google_request s u)
                                            :: gmail_calls (google_request s u) w) us)).
Proof.
  revert w. induction us as [|u us IH]; intros [us0 ss cs]; [cbn; by rewrite app_nil_r|].
  cbn [st_for flat_map]. rewrite (st_bind_ok _ _ _ _ _ (send_email_one_run s u _)), IH.
  cbn [users subs calls]. rewrite <- app_assoc. reflexivity.
Qed.

(** A dispatch on the e-mail channel alone: one request per e-mail
    target, each followed by the Gmail call its route makes. *)
Lemma handleSubmit_email_run s w :
  validate s = None -> d_channels s = mkChannels true false false ->
  handleSubmit s w =
  (inr (succeeded s),
   mkWorld (users w) (subs w)
     (calls w ++ flat_map (fun u => FetchGoogle (google_request s u)
                                    :: gmail_calls (google_request s u) w)
                          (targetGoogleUsers (d_users s) (d_selectedUsers s)))).
Proof.
  intros Hv Hc. unfold handleSubmit, submit_try, st_catch. rewrite Hv.
  unfold send_line, send_email, send_push. rewrite Hc. cbn [ch_line ch_email ch_push andb].
  rewrite st_bind_ret_l. cbv zeta.
  destruct (targetGoogleUsers _ _) as [|u us] eqn:Ht; cbn [List.length Nat.ltb Nat.leb].
  - destruct w. cbn. by rewrite app_nil_r.
  - rewrite (st_bind_assoc _ _ _ w), (st_bind_ok _ _ _ _ _ (send_email_loop s (u :: us) w)).
    reflexivity.
Qed.

(** The e-mail route finds the row of a target listed by the dashboard:
    [parseInt] of the printed id is the id. *)
Lemma gmail_calls_row s r w t :
  JsNumber.int32 (id r) = true -> users w !! id r = Some r -> google_refresh_token r = Some t -> Js.truthy t = true ->
  gmail_calls (google_request s (formatUser r)) w =
  [GmailSend t (EmailSender.encodedMessage
                  (EmailSender.emailContent (email r) (Some subject) (d_message s)))].
Proof.
  intros Hi Hr Ht Htr. unfold gmail_calls. cbn [google_request gr_userId formatUser u_id].
  rewrite EmailSender.user_key_Z_to_string, Hr by exact Hi. unfold EmailSender.refresh_token. cbn. by rewrite Ht, Htr.
Qed.

Lemma email_target_called s w r t :
  In (formatUser r) (targetGoogleUsers (d_users s) (d_selectedUsers s)) ->
  JsNumber.int32 (id r) = true -> users w !! id r = Some r -> google_refresh_token r = Some t -> Js.truthy t = true ->
  In (GmailSend t (EmailSender.encodedMessage
                     (EmailSender.emailContent (email r) (Some subject) (d_message s))))
     (flat_map (fun u => FetchGoogle (google_request s u) :: gmail_calls (google_request s u) w)
               (targetGoogleUsers (d_users s) (d_selectedUsers s))).
Proof.
  intros Hin Hi Hr Ht Htr. apply in_flat_map. exists (formatUser r). split; [done|].
  right. rewrite (gmail_calls_row s r w t Hi Hr Ht Htr). by left.
Qed.

(** C6: per-target isolation of the e-mail channel (spec section 8): in a
    dispatch on the e-mail channel, every e-mail target whose row has a
    refresh token gets its Gmail send, with its own token and the MIME
    message built from its row, whatever Gmail answered to the targets
    before it (the route finds the row by [parseInt] of the printed id,
    which Prisma's [Int] filter takes when the id is in the 32-bit
    range); the dispatch reports success and changes no table. *)
Theorem handleSubmit_email_isolated s w r t :
  validate s = None -> d_channels s = mkChannels true false false ->
  In (formatUser r) (targetGoogleUsers (d_users s) (d_selectedUsers s)) ->
  JsNumber.int32 (id r) = true -> users w !! id r = Some r ->
  google_refresh_token r = Some t -> Js.truthy t = true ->
  exists w', @handleSubmit routes s w = (inr (succeeded s), w') /\
    users w' = users w /\ subs w' = subs w /\
    In (GmailSend t (EmailSender.encodedMessage
                       (EmailSender.emailContent (email r) (Some subject) (d_message s))))
       (calls w').
Proof.
  intros Hv Hc Hin Hi Hr Ht Htr. rewrite (handleSubmit_email_run s w Hv Hc).
  eexists. split; [reflexivity|]. cbn [users subs calls]. split; [done|]. split; [done|].
  apply in_or_app. right. by apply email_target_called.
Qed.

(** C36: an e-mail target without an address is mailed to [null]: the
    dashboard selects e-mail targets by [can_receive_email] alone, and
    for such a row the Gmail route sends a message whose decoded text
    starts with the header [To: null]. *)
Theorem handleSubmit_email_to_null s w r t :
  validate s = None -> d_channels s = mkChannels true false false ->
  In (formatUser r) (targetGoogleUsers (d_users s) (d_selectedUsers s)) ->
  JsNumber.int32 (id r) = true -> users w !! id r = Some r -> email r = None ->
  google_refresh_token r = Some t -> Js.truthy t = true ->
  exists w' raw rest, @handleSubmit routes s w = (inr (succeeded s), w') /\
    In (GmailSend t raw) (calls w') /\
    Base64.urlBase64ToUint8Array raw =
      Some (Base64.bytes_of_string ("To: null" ++ EmailSender.nl ++ rest)).
Proof.
  intros Hv Hc Hin Hi Hr He Ht Htr. rewrite (handleSubmit_email_run s w Hv Hc).
  do 3 eexists. split; [reflexivity|]. split.
  - cbn [calls]. apply in_or_app. right. by apply email_target_called.
  - rewrite He. apply Base64.urlBase64ToUint8Array_base64url, Base64.bytes_of_string_bytes.
Qed.

End Email.

(** ** The LINE channel end to end *)

Section Line.
Context `{Env}.

(** The LINE route's answer to a multicast outcome. *)
Lemma fetch_line_run req w :
  fetch_route FetchLine LineSender.POST req w =
  (inr match line_multicast (lr_userIds req) (lr_message req) with
       | NetworkError msg => Json 500 (error_body msg)
       | HttpResponse status text =>
           if (200 <=? status)%Z && (status <? 300)%Z then Json 200 success_body
           else Json status (error_body text)
       end,
   mkWorld (users w) (subs w)
     (calls w ++ [FetchLine req; LineMulticast (lr_userIds req) (lr_message req)])).
Proof.
  unfold fetch_route.
  rewrite (st_bind_ok (log_call _) _ w tt (mkWorld (users w) (subs w) (calls w ++ [FetchLine req])))
    by reflexivity.
  unfold st_catch. rewrite LineSender.POST_line_run. cbn [users subs calls]. by rewrite <- app_assoc.
Qed.

(** C17: the LINE channel is not batched and not isolated: a dispatch
    with LINE targets makes a single multicast carrying every target id,
    however many there are (the provider documents a cap of
    [multicast_cap] = 500); when the provider does not accept it, the
    dispatch reports the LINE error and makes no e-mail or push request,
    although the other channels are enabled. *)
Theorem handleSubmit_line_rejected s w :
  validate s = None -> ch_line (d_channels s) = true -> lineIds s <> [] ->
  match line_multicast (lineIds s) (d_message s) with
  | NetworkError _ => True
  | HttpResponse status _ => (status < 200 \/ 300 <= status)%Z
  end ->
  @handleSubmit routes s w =
  (inr (failed s err_line),
   mkWorld (users w) (subs w)
     (calls w ++ [FetchLine (line_request s); LineMulticast (lineIds s) (d_message s)])).
Proof.
  intros Hv Hc Hne Hrej. unfold handleSubmit, submit_try, st_catch. rewrite Hv.
  unfold send_line. rewrite Hc.
  replace (negb (Nat.eqb (List.length (lineIds s)) 0)) with true
    by (destruct (lineIds s); [contradiction|reflexivity]).
  cbn [andb route_line routes]. rewrite !st_bind_run, fetch_line_run. cbn [lr_userIds lr_message line_request].
  destruct (line_multicast _ _) as [msg|status text]; [reflexivity|].
  replace ((200 <=? status)%Z && (status <? 300)%Z) with false by lia.
  cbn. replace ((200 <=? status)%Z && (status <? 300)%Z) with false by lia. reflexivity.
Qed.

End Line.

(** ** The push channel end to end *)

Section Push.
Context `{Env}.
Import PushSender.

Lemma fetch_push_run req w uid :
  Number_of (userId req) = Some uid ->
  exists r, fetch_route FetchSubscribe PushSender.POST req w =
    (inr r, mkWorld (users w) (prune (payload_of req) (findMany_active uid (subs w)) (subs w))
                    (calls w ++ FetchSubscribe req
                              :: map (push_call (payload_of req)) (findMany_active uid (subs w)))).
Proof.
  intros Hn. unfold fetch_route.
  rewrite (st_bind_ok (log_call _) _ w tt (mkWorld (users w) (subs w) (calls w ++ [FetchSubscribe req])))
    by reflexivity.
  unfold st_catch. cbn [users subs calls].
  destruct (POST_cases req (mkWorld (users w) (subs w) (calls w ++ [FetchSubscribe req])))
    as [[Hn' _]|[(u & Hn' & Hl & E)|(u & Hn' & _ & E)]]; rewrite Hn in Hn'; [done|..];
    injection Hn' as <-; rewrite E; eexists; cbn [users subs calls] in *.
  - rewrite Hl. cbn. reflexivity.
  - by rewrite <- app_assoc.
Qed.

Lemma send_push_one_run s u w uid :
  Number_of (userId (push_request s u)) = Some uid ->
  send_push_one s u w =
  (inr tt, mkWorld (users w)
             (prune (payload_of (push_request s u)) (findMany_active uid (subs w)) (subs w))
             (calls w ++ FetchSubscribe (push_request s u)
                       :: map (push_call (payload_of (push_request s u))) (findMany_active uid (subs w)))).
Proof.
  intros Hn. destruct (fetch_push_run (push_request s u) w uid Hn) as [r E].
  unfold send_push_one. cbn [route_subscribe routes]. by rewrite (st_bind_ok _ _ _ _ _ E).
Qed.

(** A dispatch on the push channel alone with a single push target. *)
Lemma handleSubmit_push_one_run s w b uid :
  validate s = None -> d_channels s = mkChannels false false true ->
  targetPushUsers (d_users s) (d_selectedUsers s) = [b] ->
  Number_of (userId (push_request s b)) = Some uid ->
  handleSubmit s w =
  (inr (succeeded s),
   mkWorld (users w)
     (prune (payload_of (push_request s b)) (findMany_active uid (subs w)) (subs w))
     (calls w ++ FetchSubscribe (push_request s b)
               :: map (push_call (payload_of (push_request s b))) (findMany_active uid (subs w)))).
Proof.
  intros Hv Hc Ht Hn. unfold handleSubmit, submit_try, st_catch. rewrite Hv.
  unfold send_line, send_email, send_push. rewrite Hc. cbn [ch_line ch_email ch_push andb].
  rewrite !st_bind_ret_l. cbv zeta. rewrite Ht. cbn [List.length Nat.ltb Nat.leb st_for].
  rewrite (st_bind_assoc _ _ _ w), (st_bind_ok _ _ _ _ _ (send_push_one_run s b w uid Hn)).
  reflexivity.
Qed.

(** After the only active subscription of a user is pruned as gone, the
    user has no active subscription left. *)
Lemma findMany_after_gone p uid sub m :
  subs_wf m -> findMany_active uid m = [sub] -> gone p sub = true ->
  findMany_active uid (prune p [sub] m) = [].
Proof.
  intros Hwf Hl Hg. destruct (findMany_active uid (prune p [sub] m)) as [|s l] eqn:E; [done|].
  exfalso. assert (Hin : In s (findMany_active uid (prune p [sub] m))) by (rewrite E; by left).
  apply in_findMany in Hin as ([k Hk] & Hu & Ha).
  assert (Hk0 : m !! k = Some s) by (rewrite prune_lookup in Hk; by destruct (existsb _ _)).
  assert (Hs : In s (findMany_active uid m)) by (apply in_findMany; eauto).
  rewrite Hl in Hs. destruct Hs as [<-|[]].
  rewrite <- (subs_wf_lookup _ _ _ Hwf Hk0) in Hk. rewrite prune_removes_gone in Hk; [done|by left|done].
Qed.

(** C7: the push scenario of spec section 8: three users are listed and
    selected, only one is push-eligible and has exactly one active
    subscription; a dispatch on the push channel alone makes exactly one
    request to the push route and exactly one push, and no e-mail or LINE
    call; it reports success. *)
Theorem handleSubmit_push_scenario s w b uid sub :
  validate s = None -> d_channels s = mkChannels false false true ->
  targetPushUsers (d_users s) (d_selectedUsers s) = [b] ->
  Number_of (userId (push_request s b)) = Some uid ->
  findMany_active uid (subs w) = [sub] ->
  exists w', @handleSubmit routes s w = (inr (succeeded s), w') /\
    calls w' = calls w ++ [FetchSubscribe (push_request s b);
                           push_call (payload_of (push_request s b)) sub].
Proof.
  intros Hv Hc Ht Hn Hs. rewrite (handleSubmit_push_one_run s w b uid Hv Hc Ht Hn), Hs.
  by eexists.
Qed.

(** C14: self-healing across dispatches (spec section 8): when the push of
    the user's only active subscription comes back gone, the subscription
    is deleted, and the same dispatch repeated afterwards still succeeds
    but makes no push at all (only the request to the push route). *)
Theorem handleSubmit_gone_then_silent s w b uid sub :
  subs_wf (subs w) ->
  validate s = None -> d_channels s = mkChannels false false true ->
  targetPushUsers (d_users s) (d_selectedUsers s) = [b] ->
  Number_of (userId (push_request s b)) = Some uid ->
  findMany_active uid (subs w) = [sub] -> gone (payload_of (push_request s b)) sub = true ->
  exists w1 w2,
    @handleSubmit routes s w = (inr (succeeded s), w1) /\ subs w1 !! sub_id sub = None /\
    @handleSubmit routes s w1 = (inr (succeeded s), w2) /\
    calls w2 = calls w1 ++ [FetchSubscribe (push_request s b)].
Proof.
  intros Hwf Hv Hc Ht Hn Hs Hg. rewrite (handleSubmit_push_one_run s w b uid Hv Hc Ht Hn).
  do 2 eexists. split; [reflexivity|]. cbn [subs calls]. rewrite Hs. split.
  - apply prune_removes_gone; [by left|done].
  - rewrite (handleSubmit_push_one_run s _ b uid Hv Hc Ht Hn). cbn [subs calls].
    rewrite (findMany_after_gone _ _ _ _ Hwf Hs Hg). split; [reflexivity|]. cbn. done.
Qed.

End Push.

(** ** Runs in the demonstration deployment *)

(** The scenario of spec section 8: user 1 (LINE and e-mail), user 2
    (push), user 3 (no channel). *)
Definition scenario_rows : list DbUser :=
  [demo_user 1 (Some "U1") true false; demo_user 2 None false true; demo_user 3 None false false].

Definition scenario_world (sub : PushSubscription) : World := {|
  users := list_to_map (map (fun r => (id r, r)) scenario_rows);
  subs := {[sub_id sub := sub]};
  calls := [];
|}.

(** All three users selected, the given channels enabled. *)
Definition scenario_dash (c : Channels) : DashState :=
  mkDash (map formatUser scenario_rows) "hello" ["1"; "2"; "3"] c EmptyString false false None false.

Definition live_sub : PushSubscription := mkSub 11 2 "https://push.example/live" "k" "a" true.
Definition gone_sub : PushSubscription := mkSub 10 2 demo_gone_endpoint "k" "a" true.

(** A row with the e-mail flag set and no address. *)
Definition no_address_row : DbUser :=
  mkDbUser 4 None None None None None None None (Some "refresh") true false false 4.

(** A deployment whose LINE provider rejects a multicast over the cap. *)
Definition line_cap_env : Env := {|
  NEXT_PUBLIC_BASE_URL := Some "https://notify.example";
  line_multicast := fun ids _ =>
    if Nat.ltb LineSender.multicast_cap (List.length ids)
    then HttpResponse 400 "The number of recipients exceeds the limit"
    else HttpResponse 200 "{}";
  gmail_send := fun _ _ => None;
  web_push := fun _ _ => PushDelivered;
  prisma_invalid := "Invalid value provided";
  prisma_unique := "Unique constraint failed on the fields: (`username`)";
|}.

(** 501 users with LINE ids, all selected, every channel enabled. *)
Definition crowd_rows : list DbUser :=
  map (fun n => demo_user (Z.of_nat n) (Some ("U" ++ Js.Z_to_string (Z.of_nat n))%string) false false)
      (seq 1 501).

Definition crowd_dash : DashState :=
  mkDash (map formatUser crowd_rows) "hello" (map (fun r => Js.Z_to_string (id r)) crowd_rows)
         (mkChannels true true true) EmptyString false false None false.

Lemma handleSubmit_email_isolated_witness :
  validate (scenario_dash (mkChannels true false false)) = None /\
  d_channels (scenario_dash (mkChannels true false false)) = mkChannels true false false /\
  In (formatUser (demo_user 1 (Some "U1") true false))
     (targetGoogleUsers (d_users (scenario_dash (mkChannels true false false)))
                        (d_selectedUsers (scenario_dash (mkChannels true false false)))) /\
  JsNumber.int32 (id (demo_user 1 (Some "U1") true false)) = true /\
  users (scenario_world live_sub) !! 1%Z = Some (demo_user 1 (Some "U1") true false) /\
  google_refresh_token (demo_user 1 (Some "U1") true false) = Some "refresh" /\
  Js.truthy "refresh" = true /\
  exists w', @handleSubmit (@routes demo_env) (scenario_dash (mkChannels true false false))
               (scenario_world live_sub) = (inr (succeeded (scenario_dash (mkChannels true false false))), w') /\
    users w' = users (scenario_world live_sub) /\ subs w' = subs (scenario_world live_sub) /\
    In (GmailSend "refresh" (EmailSender.encodedMessage
          (EmailSender.emailContent (email (demo_user 1 (Some "U1") true false)) (Some subject)
             (d_message (scenario_dash (mkChannels true false false)))))) (calls w').
Proof.
  assert (Hv : validate (scenario_dash (mkChannels true false false)) = None) by reflexivity.
  assert (Hc : d_channels (scenario_dash (mkChannels true false false)) = mkChannels true false false)
    by reflexivity.
  assert (Hin : In (formatUser (demo_user 1 (Some "U1") true false))
     (targetGoogleUsers (d_users (scenario_dash (mkChannels true false false)))
                        (d_selectedUsers (scenario_dash (mkChannels true false false)))))
    by (vm_compute; left; reflexivity).
  assert (Hi : JsNumber.int32 (id (demo_user 1 (Some "U1") true false)) = true) by reflexivity.
  assert (Hr : users (scenario_world live_sub) !! 1%Z = Some (demo_user 1 (Some "U1") true false))
    by reflexivity.
  assert (Ht : google_refresh_token (demo_user 1 (Some "U1") true false) = Some "refresh")
    by reflexivity.
  assert (Htr : Js.truthy "refresh" = true) by reflexivity.
  do 7 (split; [assumption|]).
  exact (@handleSubmit_email_isolated demo_env _ _ _ _ Hv Hc Hin Hi Hr Ht Htr).
Defined.

Lemma handleSubmit_email_to_null_witness :
  let s := mkDash [formatUser no_address_row] "hello" ["4"] (mkChannels true false false)
             EmptyString false false None false in
  let w := mkWorld {[4%Z := no_address_row]} ∅ [] in
  validate s = None /\ d_channels s = mkChannels true false false /\
  In (formatUser no_address_row) (targetGoogleUsers (d_users s) (d_selectedUsers s)) /\
  JsNumber.int32 (id no_address_row) = true /\
  users w !! id no_address_row = Some no_address_row /\ email no_address_row = None /\
  google_refresh_token no_address_row = Some "refresh" /\ Js.truthy "refresh" = true /\
  exists w' raw rest, @handleSubmit (@routes demo_env) s w = (inr (succeeded s), w') /\
    In (GmailSend "refresh" raw) (calls w') /\
    Base64.urlBase64ToUint8Array raw =
      Some (Base64.bytes_of_string ("To: null" ++ EmailSender.nl ++ rest)).
Proof.
  intros s w.
  assert (Hv : validate s = None) by reflexivity.
  assert (Hc : d_channels s = mkChannels true false false) by reflexivity.
  assert (Hin : In (formatUser no_address_row) (targetGoogleUsers (d_users s) (d_selectedUsers s)))
    by (vm_compute; left; reflexivity).
  assert (Hi : JsNumber.int32 (id no_address_row) = true) by reflexivity.
  assert (Hr : users w !! id no_address_row = Some no_address_row) by reflexivity.
  assert (He : email no_address_row = None) by reflexivity.
  assert (Ht : google_refresh_token no_address_row = Some "refresh") by reflexivity.
  assert (Htr : Js.truthy "refresh" = true) by reflexivity.
  do 8 (split; [assumption|]).
  exact (@handleSubmit_email_to_null demo_env s w _ _ Hv Hc Hin Hi Hr He Ht Htr).
Defined.

Lemma handleSubmit_push_scenario_witness :
  let s := scenario_dash (mkChannels false false true) in
  validate s = None /\ d_channels s = mkChannels false false true /\
  targetPushUsers (d_users s) (d_selectedUsers s) = [formatUser (demo_user 2 None false true)] /\
  Number_of (userId (push_request s (formatUser (demo_user 2 None false true)))) = Some 2%Z /\
  @PushSender.findMany_active 2 (subs (scenario_world live_sub)) = [live_sub] /\
  exists w', @handleSubmit (@routes demo_env) s (scenario_world live_sub) = (inr (succeeded s), w') /\
    calls w' = calls (scenario_world live_sub) ++
      [FetchSubscribe (push_request s (formatUser (demo_user 2 None false true)));
       PushSender.push_call
         (@PushSender.payload_of demo_env (push_request s (formatUser (demo_user 2 None false true))))
         live_sub].
Proof.
  intros s.
  assert (Hv : validate s = None) by reflexivity.
  assert (Hc : d_channels s = mkChannels false false true) by reflexivity.
  assert (Ht : targetPushUsers (d_users s) (d_selectedUsers s) = [formatUser (demo_user 2 None false true)])
    by reflexivity.
  assert (Hn : Number_of (userId (push_request s (formatUser (demo_user 2 None false true)))) = Some 2%Z)
    by reflexivity.
  assert (Hs : @PushSender.findMany_active 2 (subs (scenario_world live_sub)) = [live_sub])
    by reflexivity.
  do 5 (split; [assumption|]).
  exact (@handleSubmit_push_scenario demo_env s _ _ _ _ Hv Hc Ht Hn Hs).
Defined.

Lemma handleSubmit_gone_then_silent_witness :
  let s := scenario_dash (mkChannels false false true) in
  let b := formatUser (demo_user 2 None false true) in
  PushSender.subs_wf (subs (scenario_world gone_sub)) /\
  validate s = None /\ d_channels s = mkChannels false false true /\
  targetPushUsers (d_users s) (d_selectedUsers s) = [b] /\
  Number_of (userId (push_request s b)) = Some 2%Z /\
  @PushSender.findMany_active 2 (subs (scenario_world gone_sub)) = [gone_sub] /\
  @PushSender.gone demo_env (@PushSender.payload_of demo_env (push_request s b)) gone_sub = true /\
  exists w1 w2,
    @handleSubmit (@routes demo_env) s (scenario_world gone_sub) = (inr (succeeded s), w1) /\
    subs w1 !! sub_id gone_sub = None /\
    @handleSubmit (@routes demo_env) s w1 = (inr (succeeded s), w2) /\
    calls w2 = calls w1 ++ [FetchSubscribe (push_request s b)].
Proof.
  intros s b.
  assert (Hwf : PushSender.subs_wf (subs (scenario_world gone_sub)))
    by (apply (bool_decide_unpack (PushSender.subs_wf _)); vm_compute; exact I).
  assert (Hv : validate s = None) by reflexivity.
  assert (Hc : d_channels s = mkChannels false false true) by reflexivity.
  assert (Ht : targetPushUsers (d_users s) (d_selectedUsers s) = [b]) by reflexivity.
  assert (Hn : Number_of (userId (push_request s b)) = Some 2%Z) by reflexivity.
  assert (Hs : @PushSender.findMany_active 2 (subs (scenario_world gone_sub)) = [gone_sub])
    by reflexivity.
  assert (Hg : @PushSender.gone demo_env (@PushSender.payload_of demo_env (push_request s b)) gone_sub = true)
    by reflexivity.
  do 7 (split; [assumption|]).
  exact (@handleSubmit_gone_then_silent demo_env s _ _ _ _ Hwf Hv Hc Ht Hn Hs Hg).
Defined.

Lemma handleSubmit_line_rejected_witness :
  validate crowd_dash = None /\ ch_line (d_channels crowd_dash) = true /\ lineIds crowd_dash <> [] /\
  match @line_multicast line_cap_env (lineIds crowd_dash) (d_message crowd_dash) with
  | NetworkError _ => True
  | HttpResponse status _ => (status < 200 \/ 300 <= status)%Z
  end /\
  @handleSubmit (@routes line_cap_env) crowd_dash (mkWorld ∅ ∅ []) =
  (inr (failed crowd_dash err_line),
   mkWorld ∅ ∅ [FetchLine (line_request crowd_dash); LineMulticast (lineIds crowd_dash) "hello"]).
Proof.
  assert (Hv : validate crowd_dash = None) by reflexivity.
  assert (Hc : ch_line (d_channels crowd_dash) = true) by reflexivity.
  assert (Hne : lineIds crowd_dash <> []) by (vm_compute; discriminate).
  assert (E : @line_multicast line_cap_env (lineIds crowd_dash) (d_message crowd_dash) =
              HttpResponse 400 "The number of recipients exceeds the limit") by (vm_compute; reflexivity).
  assert (Hrej : match @line_multicast line_cap_env (lineIds crowd_dash) (d_message crowd_dash) with
                 | NetworkError _ => True
                 | HttpResponse status _ => (status < 200 \/ 300 <= status)%Z
                 end) by (rewrite E; lia).
  do 4 (split; [assumption|]).
  exact (@handleSubmit_line_rejected line_cap_env crowd_dash (mkWorld ∅ ∅ []) Hv Hc Hne Hrej).
Defined.

End System.
