(* ===== verification/PushModule.v ===== *)
(** * The push route's module and its VAPID configuration

    [src/src/app/api/notifications/subscribe/route.ts], lines 5-10: when
    the route's module is loaded it calls
    [webPush.setVapidDetails(`mailto:${process.env.VAPID_MAILTO}`,
    process.env.NEXT_PUBLIC_VAPID_PUBLIC_KEY!, process.env.VAPID_PRIVATE_KEY!)].
    web-push is a library the module only calls: its check of the
    details is the class [WebPushVapid], whose laws are its refusals of
    a missing key.  A throw at load time makes the module fail to load,
    and Next.js then answers every request to the route with its error
    page; otherwise the route is [PushSender.POST].  [deployed] wires the
    dashboard to the routes with this module, and the theorems show what
    a dispatch does when the module cannot load. *)

From S2P Require Import Prelude Js Directory Server PushSender LineSender EmailSender Dispatch System.

Open Scope string_scope.
Open Scope js_scope.
Open Scope list_scope.

Module PushModule.
Import Directory Server Dispatch.

(** web-push's [setVapidDetails(subject, publicKey, privateKey)]:
    [None], or the message of the error it throws. *)
Class WebPushVapid := {
  setVapidDetails : string -> option string -> option string -> option string;
  setVapidDetails_no_public : forall subject priv, setVapidDetails subject None priv <> None;
  setVapidDetails_no_private : forall subject pub, setVapidDetails subject pub None <> None;
}.

Definition VAPID_MAILTO : string := "VAPID_MAILTO".
Definition NEXT_PUBLIC_VAPID_PUBLIC_KEY : string := "NEXT_PUBLIC_VAPID_PUBLIC_KEY".
Definition VAPID_PRIVATE_KEY : string := "VAPID_PRIVATE_KEY".

(** [`mailto:${process.env.VAPID_MAILTO}`]. *)
Definition vapid_subject (env : Js.ProcessEnv) : string :=
  "mailto:" ++ Js.template_undefined (env VAPID_MAILTO).

Section Module.
Context `{Env} `{WebPushVapid}.

(** The module's top level: the error [setVapidDetails] throws, if
    any.  The non-null assertions [!] check nothing at run time. *)
Definition module_init (env : Js.ProcessEnv) : option string :=
  setVapidDetails (vapid_subject env) (env NEXT_PUBLIC_VAPID_PUBLIC_KEY) (env VAPID_PRIVATE_KEY).

(** A request to the route: Next.js's error page when the module failed
    to load, else the exported [POST]. *)
Definition route (env : Js.ProcessEnv) (req : PushRequest) : Srv Response :=
  match module_init env with
  | Some _ => mret ServerError
  | None => PushSender.POST req
  end.

(** The dashboard wired to the three routes, the push route as loaded
    under [env]. *)
Definition deployed (env : Js.ProcessEnv) : Routes := {|
  route_line := LineSender.POST;
  route_google := EmailSender.POST;
  route_subscribe := route env;
|}.

(** ** Lemmas *)

Lemma module_init_missing_key env :
  env NEXT_PUBLIC_VAPID_PUBLIC_KEY = None \/ env VAPID_PRIVATE_KEY = None -> module_init env <> None.
Proof.
  unfold module_init. intros [->| ->]; [apply setVapidDetails_no_public|apply setVapidDetails_no_private].
Qed.

(** A module that loads is the route's [POST]: every theorem about
    [PushSender.POST] is about the deployed route. *)
Lemma route_loaded env req : module_init env = None -> route env req = PushSender.POST req.
Proof. unfold route. by intros ->. Qed.

Lemma route_unloaded env req w : module_init env <> None -> route env req w = (inr ServerError, w).
Proof. unfold route. by destruct (module_init env). Qed.

Lemma route_quiet env : quiet_route (route env).
Proof.
  intros req w. unfold route. destruct (module_init env);
    first [exact (json_quiet _ System.subscribe_route_json req w)
          |exists (inr ServerError), w; split; [done|]; exists []; by rewrite app_nil_r].
Qed.

#[export] Instance deployed_laws env : @RoutesLaws (deployed env).
Proof. split; [exact System.line_route_json|exact System.google_route_json|exact (route_quiet env)]. Qed.

(** With the module unloaded, the push loop makes its requests, each
    answered by the error page, and changes nothing else. *)
Lemma push_loop_unloaded env s targets w :
  module_init env <> None ->
  st_for targets (@send_push_one (deployed env) s) w =
    (inr tt, mkWorld (users w) (subs w)
               (calls w ++ map (fun u => FetchSubscribe (@push_request s u)) targets)).
Proof.
  intros Hm. revert w. induction targets as [|u targets IH]; intros w.
  - cbn. rewrite app_nil_r. by destruct w.
  - cbn [st_for]. unfold send_push_one, fetch_route, log_call. st_simpl.
    cbn [route_subscribe deployed]. unfold st_catch. rewrite route_unloaded by exact Hm.
    st_simpl. rewrite IH. cbn [users subs calls map]. by rewrite <- app_assoc.
Qed.

End Module.

(** ** Properties *)

Section Claims.
Context `{Env} `{WebPushVapid}.

(** C18: a push route that cannot load makes push-only dispatches silent
    failures: when [setVapidDetails] throws at load time (as it does
    when a VAPID key is unset), a valid dispatch on the push channel
    alone still reports success; it makes its one request per push
    target, each answered by the error page, and no push is sent, no
    subscription is touched and no user changed. *)
Theorem unloadable_push_dispatch env s w :
  module_init env <> None -> validate s = None -> d_channels s = mkChannels false false true ->
  exists w', @handleSubmit (deployed env) s w = (inr (succeeded s), w') /\
    users w' = users w /\ subs w' = subs w /\
    calls w' = calls w ++ map (fun u => FetchSubscribe (push_request s u))
                              (targetPushUsers (d_users s) (d_selectedUsers s)).
Proof.
  intros Hm Hv Hc. unfold handleSubmit, submit_try, st_catch. rewrite Hv.
  unfold send_line, send_email, send_push. rewrite Hc. cbn [ch_line ch_email ch_push andb].
  st_simpl. destruct (Nat.ltb 0 _) eqn:Hl.
  - rewrite push_loop_unloaded by exact Hm. st_simpl. by eexists.
  - apply Nat.ltb_ge in Hl. destruct (targetPushUsers _ _); [|cbn in Hl; lia].
    cbn. rewrite app_nil_r. destruct w. by eexists.
Qed.

End Claims.

(** ** Witness: a deployment without its VAPID variables *)

#[local] Existing Instance demo_env.

(** A library refusing a missing or empty key, as web-push does. *)
Definition demo_setVapidDetails (subject : string) (pub priv : option string) : option string :=
  match pub, priv with
  | Some p, Some q => if Js.truthy p && Js.truthy q then None else Some "Vapid key is empty"
  | None, _ => Some "No key set vapidDetails.publicKey"
  | _, None => Some "No key set vapidDetails.privateKey"
  end.

#[local] Instance demo_vapid : WebPushVapid := {|
  setVapidDetails := demo_setVapidDetails;
  setVapidDetails_no_public subject priv := ltac:(discriminate);
  setVapidDetails_no_private subject pub := ltac:(destruct pub; discriminate);
|}.

Definition unset_env : Js.ProcessEnv := fun _ => None.

Definition push_only_dash : DashState := set_channels (mkChannels false false true) demo_dash.

Lemma unloadable_push_dispatch_witness :
  module_init unset_env <> None /\ validate push_only_dash = None /\
  d_channels push_only_dash = mkChannels false false true /\
  exists w', @handleSubmit (deployed unset_env) push_only_dash demo_world = (inr (succeeded push_only_dash), w') /\
    subs w' = subs demo_world.
Proof.
  assert (Hm : module_init unset_env <> None) by (apply module_init_missing_key; by left).
  assert (Hv : validate push_only_dash = None) by reflexivity.
  assert (Hc : d_channels push_only_dash = mkChannels false false true) by reflexivity.
  split; [exact Hm|]. split; [exact Hv|]. split; [exact Hc|].
  destruct (unloadable_push_dispatch unset_env push_only_dash demo_world Hm Hv Hc) as (w' & E & _ & Hs & _).
  exists w'. split; [exact E|exact Hs].
Defined.

End PushModule.
