(* ===== verification/Auth.v ===== *)
(** * Authentication: the session gate, the login and registration routes

    [src/src/middleware.ts] (the session gate and its [matcher]),
    [src/src/app/actions/auth.ts] (the server actions [loginAction] and
    [logoutAction]), [src/src/app/api/auth/login/route.ts] and
    [src/src/app/api/auth/register/route.ts].  The session is the cookie
    [session]; a route or action that sets or deletes it returns the
    cookie operation with its response.  Password hashing is the
    typeclass [Hasher] ([bcrypt.hash] / [bcrypt.compare]) with its law.
    [prisma.user.create] enforces the unique constraint on [username];
    the register handler is also given as its two stages around the
    [await] of its check, for the interleaving of concurrent requests. *)

From S2P Require Import Prelude Js Directory Server.

Open Scope string_scope.
Open Scope js_scope.

Module Auth.
Import Directory Server.

(** ** The session gate *)

(** What the middleware answers. *)
Inductive MwResult := MwNext | MwRedirect (path : string).

(** [middleware(request)], on the [session] cookie and the path. *)
Definition middleware (session : option string) (pathname : string) : MwResult :=
  if Js.truthy_opt session && (String.eqb pathname "/login" || String.eqb pathname "/register")
  then MwRedirect "/"
  else if negb (Js.truthy_opt session) && negb (String.eqb pathname "/login")
          && negb (String.eqb pathname "/register")
  then MwRedirect "/login"
  else MwNext.

(** A regular-expression literal of the [matcher] read as a prefix of
    the input: [.] matches any character. *)
Fixpoint re_prefix (pat s : list ascii) : bool :=
  match pat, s with
  | [], _ => true
  | p :: pat', c :: s' => (Ascii.eqb p "." || Ascii.eqb p c) && re_prefix pat' s'
  | _ :: _, [] => false
  end.

(** The alternatives of the negative lookahead. *)
Definition excluded : list string :=
  ["api"; "_next/static"; "_next/image"; "favicon.ico"; "sw.js"; "icon.png"].

(** [config.matcher]: a slash followed by any text that does not start
    with one of the [excluded] alternatives (the pattern is matched
    against the whole path). *)
Definition matcher (pathname : string) : bool :=
  match list_ascii_of_string pathname with
  | "/"%char :: rest =>
      negb (existsb (fun alt => re_prefix (list_ascii_of_string alt) rest) excluded)
  | _ => false
  end.

(** A request as Next.js routes it: the middleware runs on the paths the
    matcher selects. *)
Definition gate (session : option string) (pathname : string) : MwResult :=
  if matcher pathname then middleware session pathname else MwNext.

(** ** Cookies and server actions *)

(** What a response does to the browser's [session] cookie. *)
Inductive CookieOp := SetSession (value : string) | DeleteSession.

Definition apply_cookie (c : option string) (op : CookieOp) : option string :=
  match op with SetSession v => Some v | DeleteSession => None end.

Definition apply_cookies (c : option string) (ops : list CookieOp) : option string :=
  fold_left apply_cookie ops c.

(** The cookie every sign-in sets: [session=true] for seven days. *)
Definition session_cookie : CookieOp := SetSession "true".

(** The outcome of a server action: [redirect(path)], or a returned
    [{ error }]. *)
Inductive ActionResult := ActRedirect (path : string) | ActError (error : string).

Definition bad_login : string := "Username หรือ Password ไม่ถูกต้อง".

(** [loginAction(formData)]. *)
Definition loginAction (username password : string) : ActionResult * list CookieOp :=
  if String.eqb username "admin" && String.eqb password "123456"
  then (ActRedirect "/", [session_cookie])
  else (ActError bad_login, []).

(** [logoutAction()]. *)
Definition logoutAction : ActionResult * list CookieOp := (ActRedirect "/login", [DeleteSession]).

(** ** Password hashing

    [bcrypt.hash(password, 10)] and [bcrypt.compare(password, hash)].
    bcrypt reads at most the first 72 bytes of a password; the law says
    that a password matches a hash exactly when it agrees with the hashed
    password on those bytes (the salt is left out: it does not change the
    outcome of [compare]). *)
Definition bcrypt_max : nat := 72.

Class Hasher := {
  bcrypt_hash : string -> string;
  bcrypt_compare : string -> string -> bool;
  bcrypt_compare_spec : forall p q,
    bcrypt_compare q (bcrypt_hash p) = String.eqb (substring 0 bcrypt_max q) (substring 0 bcrypt_max p);
  (** A bcrypt hash is a non-empty (60-character) string. *)
  bcrypt_hash_truthy : forall p, Js.truthy (bcrypt_hash p) = true;
}.

(** The message of the error [bcrypt.compare] throws without a password. *)
Definition bcrypt_missing_arg : string := "data and hash arguments required".

(** ** Unique lookups in the [User] table *)

(** The next value of the [id] sequence ([autoincrement()]): one more
    than every id in use (rows are never deleted). *)
Definition next_id (m : gmap Z DbUser) : Z := map_fold (fun k _ acc => Z.max (k + 1) acc) 1%Z m.

(** The rows whose column holds the value ([where: { field: value }]),
    in the table's order. *)
Definition rows_with (field : DbUser -> option string) (v : string) (m : gmap Z DbUser) : list DbUser :=
  List.filter (fun r => bool_decide (field r = Some v)) (map snd (map_to_list m)).

(** Whether a row already holds the username. *)
Definition username_taken (u : string) (m : gmap Z DbUser) : bool :=
  bool_decide (rows_with username u m <> []).

(** The row [prisma.user.create] inserts for a registration. *)
Definition new_user (i : Z) (username hash : string) (now : Z) : DbUser :=
  mkDbUser i (Some username) None None (Some username) None (Some CREDENTIALS) (Some hash) None
           false false true now.

(** ** The login and registration routes *)

(** The body [{ username, password }]; a missing field is [None]. *)
Record Credentials := mkCredentials { cr_username : option string; cr_password : option string }.

Definition login_unknown : string := "ไม่พบชื่อผู้ใช้หรือรหัสผ่านไม่ถูกต้อง".
Definition login_wrong_password : string := "รหัสผ่านไม่ถูกต้อง".
Definition register_incomplete : string := "กรุณากรอกข้อมูลให้ครบ".
Definition register_taken : string := "Username นี้มีผู้ใช้งานแล้ว".
Definition register_done : string := "สมัครสมาชิกสำเร็จ".

Section Routes.
Context `{Env} `{Hasher}.

(** [prisma.user.findUnique({ where: { field: value } })] on a unique
    column: the row whose column holds the value.  An [undefined] value
    makes Prisma throw. *)
Definition find_unique (field : DbUser -> option string) (value : option string) : Srv (option DbUser) :=
  match value with
  | None => throw prisma_invalid
  | Some v =>
      w ← st_get;
      mret (head (rows_with field v (users w)))
  end.

(** [POST /api/auth/login]. *)
Definition login_POST (req : Credentials) : Srv (Response * list CookieOp) :=
  try (
    user ← find_unique username (cr_username req);
    match user ≫= password_hash with
    | Some h =>
        if Js.truthy h then
          match cr_password req with
          | None => throw bcrypt_missing_arg
          | Some p =>
              if bcrypt_compare p h then mret (Json 200 success_body, [session_cookie])
              else mret (Json 401 (error_body login_wrong_password), [])
          end
        else mret (Json 401 (error_body login_unknown), [])
    | None => mret (Json 401 (error_body login_unknown), [])
    end)
  catch (fun msg => mret (Json 500 (error_body msg), [])).

(** [prisma.user.create({ data })] of a registration, at time [now]
    (the [created_at] default): the row goes under the next id, unless
    the unique constraint on [username] (the column [findUnique] is
    keyed on, so [@unique] in the schema) rejects it. *)
Definition create_user (now : Z) (u hash : string) : Srv Z :=
  w ← st_get;
  if username_taken u (users w) then throw prisma_unique
  else
    let i := next_id (users w) in
    set_users (<[i := new_user i u hash now]> (users w)) ;;
    mret i.

(** [POST /api/auth/register], at time [now]. *)
Definition register_POST (now : Z) (req : Credentials) : Srv Response :=
  try (
    match cr_username req, cr_password req with
    | Some u, Some p =>
        if Js.truthy u && Js.truthy p then
          existing ← find_unique username (Some u);
          match existing with
          | Some _ => mret (Json 400 (error_body register_taken))
          | None =>
              i ← create_user now u (bcrypt_hash p);
              mret (Json 201 (mkBody None None None (Some register_done) (Some i) None))
          end
        else mret (Json 400 (error_body register_incomplete))
    | _, _ => mret (Json 400 (error_body register_incomplete))
    end)
  catch (fun msg => mret (Json 500 (error_body msg))).

(** ** The registration handler at its [await]

    Concurrent registrations interleave at the handler's [await]s: a
    request that has passed the [findUnique] check may be overtaken by
    another before it creates its row.  [register_check] is the handler
    up to the check, [register_finish] the rest, and
    [register_POST_stages] shows that they compose to [register_POST]. *)

(** Where a request stands after the check: answered, or about to hash
    the password and create the row. *)
Inductive RegStage := RegAnswer (r : Response) | RegCreate (u p : string).

Definition register_check (req : Credentials) : Srv RegStage :=
  match cr_username req, cr_password req with
  | Some u, Some p =>
      if Js.truthy u && Js.truthy p then
        existing ← find_unique username (Some u);
        match existing with
        | Some _ => mret (RegAnswer (Json 400 (error_body register_taken)))
        | None => mret (RegCreate u p)
        end
      else mret (RegAnswer (Json 400 (error_body register_incomplete)))
  | _, _ => mret (RegAnswer (Json 400 (error_body register_incomplete)))
  end.

Definition register_finish (now : Z) (stage : RegStage) : Srv Response :=
  match stage with
  | RegAnswer r => mret r
  | RegCreate u p =>
      i ← create_user now u (bcrypt_hash p);
      mret (Json 201 (mkBody None None None (Some register_done) (Some i) None))
  end.

(** The [catch] block. *)
Definition register_error (msg : string) : Srv Response := mret (Json 500 (error_body msg)).

(** The first stage under the [catch]: an exception there is the
    request's answer. *)
Definition check_stage (req : Credentials) : Srv RegStage :=
  st_catch (register_check req) (fun msg => mret (RegAnswer (Json 500 (error_body msg)))).

End Routes.

(** ** The session gate *)

(** The gate sends a request without a session cookie for any page the
    matcher selects, other than the login and registration pages, to
    [/login]. *)
Lemma gate_redirects_anonymous p :
  matcher p = true -> p <> "/login" -> p <> "/register" -> gate None p = MwRedirect "/login".
Proof.
  intros Hm Hl Hr. unfold gate, middleware. rewrite Hm. cbn [Js.truthy_opt andb negb].
  by rewrite (proj2 (String.eqb_neq _ _) Hl), (proj2 (String.eqb_neq _ _) Hr).
Qed.

(** The API is outside the gate: the matcher excludes every path
    under [/api], so a request without any session reaches the
    notification routes (spec section 6 says every request without the
    session flag is sent to the login surface). *)
Lemma gate_api_open session rest : gate session ("/api" ++ rest) = MwNext.
Proof. reflexivity. Qed.

(** The session check is the presence of a non-empty [session]
    cookie, whatever its value: no value is verified, so a cookie the
    browser sets itself opens every page. *)
Lemma gate_any_session v p :
  Js.truthy v = true -> gate (Some v) p = MwNext \/ gate (Some v) p = MwRedirect "/".
Proof.
  intros Hv. unfold gate, middleware. cbn [Js.truthy_opt]. rewrite Hv. cbn [andb negb].
  destruct (matcher p); [|by left]. destruct (String.eqb p "/login" || String.eqb p "/register");
    [by right|by left].
Qed.

(** C26: the session gate: a request without a session cookie for any page
    the matcher selects, other than the login and registration pages,
    is sent to [/login]; every path under [/api] is outside the gate, so
    the notification routes answer requests without a session (spec
    section 6 says every request without the session flag is sent to the
    login surface); and any non-empty cookie value, verified by nothing,
    opens every page. *)
Theorem gate_spec :
  (forall p, matcher p = true -> p <> "/login" -> p <> "/register" -> gate None p = MwRedirect "/login") /\
  (forall session rest, gate session ("/api" ++ rest) = MwNext) /\
  (forall v p, Js.truthy v = true -> gate (Some v) p = MwNext \/ gate (Some v) p = MwRedirect "/").
Proof.
  split; [exact gate_redirects_anonymous|]. split; [exact gate_api_open|exact gate_any_session].
Qed.

(** ** A concrete hasher and deployment, to run the routes in examples *)

(** A salted-hash stand-in: the prefix of a bcrypt hash followed by the
    password's first 72 bytes. *)
Definition demo_hash (p : string) : string := "$2b$10$" ++ substring 0 bcrypt_max p.

Lemma string_eqb_app_l (a x y : string) : String.eqb (a ++ x) (a ++ y) = String.eqb x y.
Proof.
  induction a as [|c a IH]; [done|]. rewrite !string_app_cons. cbn [String.eqb].
  by rewrite Ascii.eqb_refl.
Qed.

Definition demo_hasher : Hasher.
Proof.
  refine {| bcrypt_hash := demo_hash; bcrypt_compare := fun q h => String.eqb h (demo_hash q);
            bcrypt_compare_spec := _; bcrypt_hash_truthy := _ |}.
  - intros p q. unfold demo_hash. rewrite string_eqb_app_l. apply String.eqb_sym.
  - intros p. reflexivity.
Defined.

(** A column holds each value in at most one row (a [@unique] column). *)
Definition unique_col (field : DbUser -> option string) (m : gmap Z DbUser) : Prop :=
  forall k1 k2 r1 r2 v, m !! k1 = Some r1 -> m !! k2 = Some r2 ->
    field r1 = Some v -> field r2 = Some v -> k1 = k2.

(** ** Lemmas *)

Lemma next_id_above m k r : m !! k = Some r -> (k < next_id m)%Z.
Proof.
  unfold next_id. revert k r.
  apply (map_fold_weak_ind (fun acc m => forall k r, m !! k = Some r -> (k < acc)%Z)).
  - intros k r Hk. by rewrite lookup_empty in Hk.
  - intros i x m0 acc _ IH k r Hk. destruct (decide (k = i)) as [->|Hne]; [lia|].
    rewrite lookup_insert_ne in Hk by congruence. specialize (IH _ _ Hk). lia.
Qed.

Lemma next_id_fresh m : m !! next_id m = None.
Proof.
  destruct (m !! next_id m) as [r|] eqn:E; [|done].
  apply next_id_above in E. lia.
Qed.

Lemma rows_with_In field v m r :
  In r (rows_with field v m) <-> (exists k, m !! k = Some r) /\ field r = Some v.
Proof. unfold rows_with. by rewrite filter_In, in_map_snd_map_to_list, bool_decide_eq_true. Qed.

Lemma rows_with_nil field v m :
  rows_with field v m = [] <-> forall k r, m !! k = Some r -> field r <> Some v.
Proof.
  split.
  - intros E k r Hk Hf. assert (Hin : In r (rows_with field v m)) by (apply rows_with_In; eauto).
    by rewrite E in Hin.
  - intros Hno. destruct (rows_with field v m) as [|r l] eqn:E; [done|exfalso].
    assert (Hin : In r (rows_with field v m)) by (rewrite E; by left).
    apply rows_with_In in Hin as ([k Hk] & Hf). exact (Hno _ _ Hk Hf).
Qed.

Lemma username_taken_false u m :
  (forall k r, m !! k = Some r -> username r <> Some u) -> username_taken u m = false.
Proof. intros Hno. apply bool_decide_eq_false. intros Hn. by apply Hn, rows_with_nil. Qed.

Lemma username_taken_true u m k r :
  m !! k = Some r -> username r = Some u -> username_taken u m = true.
Proof.
  intros Hk Hr. apply bool_decide_eq_true. intros Hn. exact (proj1 (rows_with_nil _ _ _) Hn _ _ Hk Hr).
Qed.

Section Lookup.
Context `{Env}.

Lemma find_unique_run field v w :
  find_unique field (Some v) w =
  (inr (head (rows_with field v (users w))), w).
Proof. reflexivity. Qed.

(** The row of a unique column's value, when there is one. *)
Lemma find_unique_hit field v w k r :
  users_wf (users w) -> unique_col field (users w) -> users w !! k = Some r -> field r = Some v ->
  find_unique field (Some v) w = (inr (Some r), w).
Proof.
  intros Hwf Hu Hk Hf. rewrite find_unique_run. do 2 f_equal.
  destruct (rows_with field v (users w)) as [|r' l] eqn:E.
  - exfalso. by apply (proj1 (rows_with_nil field v (users w)) E k r).
  - assert (Hin : In r' (rows_with field v (users w))) by (rewrite E; by left).
    apply rows_with_In in Hin as ([k' Hk'] & Hf'). cbn.
    rewrite (Hu _ _ _ _ _ Hk' Hk Hf' Hf) in Hk'. congruence.
Qed.

(** No row holds the value. *)
Lemma find_unique_miss field v w :
  (forall k r, users w !! k = Some r -> field r <> Some v) ->
  find_unique field (Some v) w = (inr None, w).
Proof.
  intros Hno. rewrite find_unique_run. by rewrite (proj2 (rows_with_nil field v (users w)) Hno).
Qed.

(** A create for a free username inserts the row under the next id. *)
Lemma create_user_fresh now u hash w :
  username_taken u (users w) = false ->
  create_user now u hash w =
  (inr (next_id (users w)),
   mkWorld (<[next_id (users w) := new_user (next_id (users w)) u hash now]> (users w)) (subs w) (calls w)).
Proof. intros Hf. unfold create_user. rewrite st_bind_run. cbn [st_get]. by rewrite Hf. Qed.

(** A create for a taken username throws Prisma's unique-constraint
    error and changes nothing. *)
Lemma create_user_taken now u hash w :
  username_taken u (users w) = true -> create_user now u hash w = (inl prisma_unique, w).
Proof. intros Ht. unfold create_user. rewrite st_bind_run. cbn [st_get]. by rewrite Ht. Qed.

End Lookup.

(** The table after a registration of [u] with password [p]. *)
Definition registered `{Hasher} (now : Z) (u p : string) (m : gmap Z DbUser) : gmap Z DbUser :=
  <[next_id m := new_user (next_id m) u (bcrypt_hash p) now]> m.

Lemma registered_wf `{Hasher} now u p m : users_wf m -> users_wf (registered now u p m).
Proof. intros Hwf. apply map_Forall_insert_2; [reflexivity|exact Hwf]. Qed.

(** A free username stays unique when its row is inserted. *)
Lemma new_user_unique now u h m :
  unique_col username m -> (forall k r, m !! k = Some r -> username r <> Some u) ->
  unique_col username (<[next_id m := new_user (next_id m) u h now]> m).
Proof.
  intros Hu Hfresh k1 k2 r1 r2 v Hk1 Hk2 Hv1 Hv2.
  destruct (decide (k1 = next_id m)) as [->|N1], (decide (k2 = next_id m)) as [->|N2]; [done|..].
  - rewrite lookup_insert_eq in Hk1. rewrite lookup_insert_ne in Hk2 by congruence.
    injection Hk1 as <-. simpl in Hv1. injection Hv1 as <-. by destruct (Hfresh _ _ Hk2).
  - rewrite lookup_insert_eq in Hk2. rewrite lookup_insert_ne in Hk1 by congruence.
    injection Hk2 as <-. simpl in Hv2. injection Hv2 as <-. by destruct (Hfresh _ _ Hk1).
  - rewrite lookup_insert_ne in Hk1, Hk2 by congruence. exact (Hu _ _ _ _ _ Hk1 Hk2 Hv1 Hv2).
Qed.

Lemma registered_unique `{Hasher} now u p m :
  unique_col username m -> (forall k r, m !! k = Some r -> username r <> Some u) ->
  unique_col username (registered now u p m).
Proof. apply new_user_unique. Qed.

Lemma username_free u m :
  username_taken u m = false -> forall k r, m !! k = Some r -> username r <> Some u.
Proof. intros Ht k r Hk Hr. rewrite (username_taken_true u m k r Hk Hr) in Ht. discriminate. Qed.

Section Properties.
Context `{Env} `{Hasher}.

(** Registration of a fresh, non-empty username with a non-empty
    password inserts exactly one row under the next id (display name the
    username, provider [CREDENTIALS], the password's hash, push enabled,
    e-mail and LINE disabled), answers 201 with the new id, and changes
    nothing else. *)
Lemma register_POST_fresh now u p w :
  Js.truthy u = true -> Js.truthy p = true ->
  (forall k r, users w !! k = Some r -> username r <> Some u) ->
  register_POST now (mkCredentials (Some u) (Some p)) w =
  (inr (Json 201 (mkBody None None None (Some register_done) (Some (next_id (users w))) None)),
   mkWorld (registered now u p (users w)) (subs w) (calls w)).
Proof.
  intros Hu Hp Hfresh. unfold register_POST, st_catch. cbn [cr_username cr_password]. rewrite Hu, Hp.
  cbn [andb]. rewrite (st_bind_ok _ _ _ _ _ (find_unique_miss username u w Hfresh)).
  rewrite st_bind_run, (create_user_fresh now u _ w (username_taken_false u _ Hfresh)). reflexivity.
Qed.

(** The two stages compose, under the handler's [try], to the handler. *)
Lemma register_POST_stages now req w :
  register_POST now req w =
  st_catch (stage ← register_check req; register_finish now stage) register_error w.
Proof.
  unfold register_POST, register_check, register_error.
  destruct (cr_username req) as [u|], (cr_password req) as [p|]; try reflexivity.
  destruct (Js.truthy u && Js.truthy p); [|reflexivity].
  unfold st_catch. rewrite !st_bind_run, find_unique_run. by destruct (head _).
Qed.

(** The same, each stage under the [catch]: the form in which a request
    waits between its stages. *)
Lemma register_POST_staged now req w :
  register_POST now req w =
  (stage ← check_stage req; st_catch (register_finish now stage) register_error) w.
Proof.
  unfold register_POST, check_stage, register_check, register_error.
  destruct (cr_username req) as [u|], (cr_password req) as [p|]; try reflexivity.
  destruct (Js.truthy u && Js.truthy p); [|reflexivity].
  unfold st_catch. rewrite !st_bind_run, find_unique_run. by destruct (head _).
Qed.

(** C25: interleaving of two registrations: when two requests for the
    same free username both pass the [findUnique] check before either
    creates its row, the first to create is answered 201 with the next
    id, and the second is refused by the database's unique constraint
    with 500 and Prisma's message (not the route's 400 for a taken
    name); the table gains exactly the first row. *)
Theorem register_race now1 now2 u p1 p2 w :
  Js.truthy u = true -> Js.truthy p1 = true -> Js.truthy p2 = true ->
  (forall k r, users w !! k = Some r -> username r <> Some u) ->
  let w1 := mkWorld (registered now1 u p1 (users w)) (subs w) (calls w) in
  register_check (mkCredentials (Some u) (Some p1)) w = (inr (RegCreate u p1), w) /\
  register_check (mkCredentials (Some u) (Some p2)) w = (inr (RegCreate u p2), w) /\
  st_catch (register_finish now1 (RegCreate u p1)) register_error w =
    (inr (Json 201 (mkBody None None None (Some register_done) (Some (next_id (users w))) None)), w1) /\
  st_catch (register_finish now2 (RegCreate u p2)) register_error w1 =
    (inr (Json 500 (error_body prisma_unique)), w1).
Proof.
  intros Hu Hp1 Hp2 Hfresh w1.
  assert (Hcheck : forall p, Js.truthy p = true ->
            register_check (mkCredentials (Some u) (Some p)) w = (inr (RegCreate u p), w)).
  { intros p Hp. unfold register_check. cbn [cr_username cr_password]. rewrite Hu, Hp. cbn [andb].
    by rewrite st_bind_run, (find_unique_miss username u w Hfresh). }
  split; [by apply Hcheck|]. split; [by apply Hcheck|]. unfold st_catch, register_finish.
  rewrite !st_bind_run, (create_user_fresh now1 u _ w (username_taken_false u _ Hfresh)).
  split; [reflexivity|].
  rewrite (create_user_taken now2 u _ w1); [reflexivity|].
  apply (username_taken_true u _ (next_id (users w)) (new_user (next_id (users w)) u (bcrypt_hash p1) now1));
    [apply lookup_insert_eq|reflexivity].
Qed.

(** Registration is refused with 400 and no change when a field is
    missing or empty, or when the username is taken. *)
Theorem register_POST_rejects now req w :
  (negb (Js.truthy_opt (cr_username req)) || negb (Js.truthy_opt (cr_password req)) = true ->
   register_POST now req w = (inr (Json 400 (error_body register_incomplete)), w)) /\
  (forall k r, Js.truthy_opt (cr_password req) = true -> users w !! k = Some r ->
   cr_username req = username r -> Js.truthy_opt (username r) = true ->
   register_POST now req w = (inr (Json 400 (error_body register_taken)), w)).
Proof.
  split.
  - intros Hf. unfold register_POST, st_catch.
    destruct req as [[u|] [p|]]; cbn [cr_username cr_password Js.truthy_opt negb orb] in Hf |- *;
      try reflexivity.
    destruct (Js.truthy u), (Js.truthy p); try discriminate; reflexivity.
  - intros k r Hp Hk Hu Ht. rewrite <- Hu in Ht.
    destruct req as [[u|] [p|]]; cbn [cr_username cr_password Js.truthy_opt] in *; try discriminate.
    unfold register_POST, st_catch. cbn [cr_username cr_password]. rewrite Ht, Hp.
    cbn [andb]. rewrite st_bind_run, find_unique_run.
    destruct (rows_with username u (users w)) as [|r' l] eqn:E; [exfalso|reflexivity].
    by apply (proj1 (rows_with_nil username u (users w)) E k r).
Qed.

(** C9: round trip of the credential flow: after a successful
    registration of [u] with [p], a login as [u] with [q] succeeds and
    sets the session cookie exactly when [q] agrees with [p] on its first
    72 bytes (bcrypt ignores the rest), and is refused with 401
    otherwise; the login changes nothing in the tables. *)
Theorem register_then_login now u p q w r w' :
  users_wf (users w) -> unique_col username (users w) ->
  Js.truthy u = true -> Js.truthy p = true ->
  (forall k r, users w !! k = Some r -> username r <> Some u) ->
  register_POST now (mkCredentials (Some u) (Some p)) w = (inr r, w') ->
  login_POST (mkCredentials (Some u) (Some q)) w' =
  (inr (if String.eqb (substring 0 bcrypt_max q) (substring 0 bcrypt_max p)
        then (Json 200 success_body, [session_cookie])
        else (Json 401 (error_body login_wrong_password), [])), w').
Proof.
  intros Hwf Hu Htu Htp Hfresh E. rewrite (register_POST_fresh now u p w Htu Htp Hfresh) in E.
  injection E as _ <-. unfold login_POST, st_catch. cbn [cr_username cr_password].
  rewrite (st_bind_ok _ _ _ _ _ (find_unique_hit username u
             (mkWorld (registered now u p (users w)) (subs w) (calls w)) (next_id (users w))
             (new_user (next_id (users w)) u (bcrypt_hash p) now)
             (registered_wf now u p _ Hwf) (registered_unique now u p _ Hu Hfresh)
             (lookup_insert_eq _ _ _) eq_refl)).
  cbn [mbind option_bind password_hash new_user]. rewrite bcrypt_hash_truthy, bcrypt_compare_spec.
  by destruct (String.eqb _ _).
Qed.

End Properties.

(** ** Witnesses, with the concrete hasher and deployment *)

#[local] Existing Instance demo_hasher.
#[local] Existing Instance demo_env.

(** A database holding one registered user, [alice]. *)
Definition alice_world : World :=
  mkWorld {[1%Z := new_user 1 "alice" (demo_hash "secret1") 0]} ∅ [].

Definition empty_world : World := mkWorld ∅ ∅ [].

Lemma empty_world_wf : users_wf (users empty_world) /\ unique_col username (users empty_world).
Proof.
  split; [apply map_Forall_empty|]. intros k1 k2 r1 r2 v Hk1.
  change (users empty_world) with (∅ : gmap Z DbUser) in Hk1. by rewrite lookup_empty in Hk1.
Qed.

Lemma gate_redirects_anonymous_witness :
  matcher "/" = true /\ "/" <> "/login" /\ "/" <> "/register" /\ gate None "/" = MwRedirect "/login".
Proof.
  assert (Hm : matcher "/" = true) by reflexivity.
  assert (Hl : "/" <> "/login") by discriminate. assert (Hr : "/" <> "/register") by discriminate.
  split; [exact Hm|]. split; [exact Hl|]. split; [exact Hr|].
  exact (gate_redirects_anonymous "/" Hm Hl Hr).
Defined.

Lemma gate_spec_witness :
  gate None "/" = MwRedirect "/login" /\ gate None "/api/notifications/line" = MwNext /\
  gate (Some "forged") "/" = MwNext.
Proof.
  split; [apply (proj1 gate_spec); [reflexivity|discriminate|discriminate]|].
  split; [exact (proj1 (proj2 gate_spec) None "/notifications/line")|].
  destruct (proj2 (proj2 gate_spec) "forged" "/" eq_refl) as [E|E]; [exact E|discriminate E].
Defined.

Lemma gate_any_session_witness :
  Js.truthy "forged" = true /\
  (gate (Some "forged") "/" = MwNext \/ gate (Some "forged") "/" = MwRedirect "/").
Proof.
  assert (Hv : Js.truthy "forged" = true) by reflexivity.
  split; [exact Hv|]. exact (gate_any_session "forged" "/" Hv).
Defined.

Lemma register_POST_rejects_witness :
  Js.truthy_opt (Some "secret2") = true /\
  users alice_world !! 1%Z = Some (new_user 1 "alice" (demo_hash "secret1") 0) /\
  register_POST 5 (mkCredentials (Some "alice") (Some "secret2")) alice_world =
    (inr (Json 400 (error_body register_taken)), alice_world).
Proof.
  assert (Hp : Js.truthy_opt (Some "secret2") = true) by reflexivity.
  assert (Hk : users alice_world !! 1%Z = Some (new_user 1 "alice" (demo_hash "secret1") 0))
    by reflexivity.
  split; [exact Hp|]. split; [exact Hk|].
  exact (proj2 (register_POST_rejects 5 (mkCredentials (Some "alice") (Some "secret2")) alice_world)
           1%Z _ Hp Hk eq_refl eq_refl).
Defined.

Lemma register_race_witness :
  Js.truthy "alice" = true /\ Js.truthy "secret1" = true /\ Js.truthy "secret2" = true /\
  st_catch (register_finish 2 (RegCreate "alice" "secret2")) register_error
    (mkWorld (registered 1 "alice" "secret1" (users empty_world)) ∅ []) =
    (inr (Json 500 (error_body prisma_unique)), mkWorld (registered 1 "alice" "secret1" (users empty_world)) ∅ []).
Proof.
  assert (Ha : Js.truthy "alice" = true) by reflexivity.
  assert (H1 : Js.truthy "secret1" = true) by reflexivity.
  assert (H2 : Js.truthy "secret2" = true) by reflexivity.
  assert (Hfresh : forall k r, users empty_world !! k = Some r -> username r <> Some "alice")
    by (intros k r Hk; change (users empty_world) with (∅ : gmap Z DbUser) in Hk;
        by rewrite lookup_empty in Hk).
  do 3 (split; [assumption|]).
  exact (proj2 (proj2 (proj2 (register_race 1 2 "alice" "secret1" "secret2" empty_world Ha H1 H2 Hfresh)))).
Defined.

Lemma register_then_login_witness :
  let run := register_POST 0 (mkCredentials (Some "alice") (Some "secret1")) empty_world in
  users_wf (users empty_world) /\ unique_col username (users empty_world) /\
  Js.truthy "alice" = true /\ Js.truthy "secret1" = true /\
  login_POST (mkCredentials (Some "alice") (Some "secret1")) (snd run) =
    (inr (Json 200 success_body, [session_cookie]), snd run).
Proof.
  intros run. destruct empty_world_wf as [Hwf Hu].
  assert (Ha : Js.truthy "alice" = true) by reflexivity.
  assert (Hs : Js.truthy "secret1" = true) by reflexivity.
  assert (Hfresh : forall k r, users empty_world !! k = Some r -> username r <> Some "alice")
    by (intros k r Hk; change (users empty_world) with (∅ : gmap Z DbUser) in Hk;
        by rewrite lookup_empty in Hk).
  assert (Hrun : run = (inr (Json 201 (mkBody None None None (Some register_done)
                                   (Some (next_id (users empty_world))) None)), snd run)).
  { unfold run. rewrite (register_POST_fresh 0 "alice" "secret1" empty_world Ha Hs Hfresh). reflexivity. }
  do 4 (split; [assumption|]).
  exact (register_then_login 0 "alice" "secret1" "secret1" empty_world _ _ Hwf Hu Ha Hs Hfresh Hrun).
Defined.

End Auth.
