(* ===== verification/OAuth.v ===== *)
(** * OAuth linking: the Google and LINE sign-in callbacks

    [src/src/app/api/auth/google/callback/route.ts] and
    [src/src/app/api/auth/line/callback/route.ts].  Each callback
    exchanges the authorization code for tokens, reads the provider's
    profile, looks the user up by the provider's natural key (e-mail for
    Google, LINE user id for LINE), sends an unknown identity to the
    registration page, and otherwise updates the row and opens a session.
    The providers' token and profile endpoints are the typeclass
    [OAuthEnv]; a [fetch] or [.json()] that throws is a [inl] result. *)

From S2P Require Import Prelude Js Directory Server Auth.

Open Scope string_scope.
Open Scope js_scope.

Module OAuth.
Import Directory Server Auth.

(** ** Provider data *)

(** The JSON of a token endpoint; absent fields are [None]. *)
Record TokenJson := mkTokens {
  access_token : option string;
  refresh_token : option string;
  tk_error : option string;
  tk_error_description : option string;
}.

(** [GET https://www.googleapis.com/oauth2/v1/userinfo]. *)
Record GoogleProfile := mkGoogleProfile {
  g_email : option string; g_name : option string; g_picture : option string }.

(** [GET https://api.line.me/v2/profile]. *)
Record LineProfile := mkLineProfile {
  l_userId : option string; l_displayName : option string; l_pictureUrl : option string }.

(** The providers, as functions of the request: the code for the token
    endpoints, the access token (absent when the exchange failed) for
    the profile endpoints; and the deployment's OAuth settings
    ([process.env]), [None] when unset. *)
Class OAuthEnv := {
  google_token : string -> string + TokenJson;
  google_userinfo : option string -> string + GoogleProfile;
  line_token : string -> string + TokenJson;
  line_profile : option string -> string + LineProfile;
  NEXTAUTH_URL : option string;
  GOOGLE_REDIRECT_URI : option string;
  GOOGLE_CLIENT_ID : option string;
  LINE_CLIENT_ID : option string;
}.

Definition no_code : string := "No code provided".
Definition internal_error : string := "Internal Server Error".
Definition login_failed : string := "Login failed".

(** [new Error(x).message] for a possibly [undefined] [x]. *)
Definition error_message (o : option string) : string :=
  match o with Some s => s | None => EmptyString end.

(** A field of Prisma's [data]: an [undefined] value leaves the column
    as it is. *)
Definition set_if (o : option string) (old : option string) : option string :=
  match o with Some v => Some v | None => old end.

(** The Google callback's [updateData]: display name, picture, provider,
    and the refresh token when one was issued. *)
Definition google_update (g : GoogleProfile) (t : TokenJson) (r : DbUser) : DbUser :=
  mkDbUser (id r) (username r) (email r) (line_user_id r)
           (set_if (g_name g) (line_display_name r)) (set_if (g_picture g) (line_picture_url r))
           (Some GOOGLE) (password_hash r)
           (if Js.truthy_opt (refresh_token t) then refresh_token t else google_refresh_token r)
           (can_receive_email r) (can_receive_line r) (can_receive_push r) (created_at r).

(** The LINE callback's update: display name, picture, provider, and
    [can_receive_line: true]. *)
Definition line_update (p : LineProfile) (r : DbUser) : DbUser :=
  mkDbUser (id r) (username r) (email r) (line_user_id r)
           (set_if (l_displayName p) (line_display_name r)) (set_if (l_pictureUrl p) (line_picture_url r))
           (Some LINE) (password_hash r) (google_refresh_token r)
           (can_receive_email r) true (can_receive_push r) (created_at r).

Section Callbacks.
Context `{Env} `{OAuthEnv}.

(** [await fetch(...)] followed by [.json()]: an [inl] throws. *)
Definition lift {A} (r : string + A) : Srv A :=
  match r with inl e => throw e | inr a => mret a end.

(** [prisma.user.update({ where: { field: value }, data })]: the row
    holding the value is replaced by [f row]; Prisma throws when there is
    none. *)
Definition update_unique (field : DbUser -> option string) (value : option string)
    (f : DbUser -> DbUser) : Srv unit :=
  row ← find_unique field value;
  match row with
  | Some r => w ← st_get; set_users (<[id r := f r]> (users w))
  | None => throw prisma_invalid
  end.

(** [GET /api/auth/google/callback?code=...]. *)
Definition google_callback (code : option string) : Srv (Response * list CookieOp) :=
  match code with
  | Some c =>
      if Js.truthy c then
        try (
          tokens ← lift (google_token c);
          googleUser ← lift (google_userinfo (access_token tokens));
          existingUser ← find_unique email (g_email googleUser);
          match existingUser with
          | None => mret (Redirect "/register?error=account_not_found", [])
          | Some _ =>
              update_unique email (g_email googleUser) (google_update googleUser tokens) ;;
              mret (Redirect "/", [session_cookie])
          end)
        catch (fun _ => mret (Json 500 (error_body internal_error), []))
      else mret (Json 400 (error_body no_code), [])
  | None => mret (Json 400 (error_body no_code), [])
  end.

(** [GET /api/auth/line/callback?code=...]. *)
Definition line_callback (code : option string) : Srv (Response * list CookieOp) :=
  match code with
  | Some c =>
      if Js.truthy c then
        try (
          tokens ← lift (line_token c);
          (if Js.truthy_opt (tk_error tokens)
           then throw (error_message (tk_error_description tokens)) else mret tt) ;;
          profile ← lift (line_profile (access_token tokens));
          existingUser ← find_unique line_user_id (l_userId profile);
          match existingUser with
          | None => mret (Redirect "/register?error=line_not_linked", [])
          | Some _ =>
              update_unique line_user_id (l_userId profile) (line_update profile) ;;
              mret (Redirect (Js.template_undefined NEXTAUTH_URL), [session_cookie])
          end)
        catch (fun msg => mret (Json 500 (mkBody None None (Some login_failed) None None (Some msg)), []))
      else mret (Json 400 (error_body no_code), [])
  | None => mret (Json 400 (error_body no_code), [])
  end.

End Callbacks.

(** ** What a sign-in may change *)

(** The columns a sign-in leaves alone: all but the display name, the
    picture, the provider, the refresh token and the LINE flag. *)
Definition profile_update (r r' : DbUser) : Prop :=
  id r' = id r /\ username r' = username r /\ email r' = email r /\
  line_user_id r' = line_user_id r /\ password_hash r' = password_hash r /\
  can_receive_email r' = can_receive_email r /\ can_receive_push r' = can_receive_push r /\
  created_at r' = created_at r.

(** From a well-keyed table, the step keeps the table well keyed, adds and
    removes no row, changes rows only by [profile_update], and leaves the
    subscriptions and the call log alone. *)
Definition links_only (w w' : World) : Prop :=
  users_wf (users w) ->
  users_wf (users w') /\ subs w' = subs w /\ calls w' = calls w /\
  (forall k, users w' !! k = None <-> users w !! k = None) /\
  (forall k r', users w' !! k = Some r' -> exists r, users w !! k = Some r /\ profile_update r r').

#[export] Instance profile_update_preorder : PreOrder profile_update.
Proof.
  split; [intros r; repeat split|].
  intros r1 r2 r3 (?&?&?&?&?&?&?&?) (?&?&?&?&?&?&?&?); repeat split; congruence.
Qed.

#[export] Instance links_only_preorder : PreOrder links_only.
Proof.
  split.
  - intros w Hwf. repeat split; [done..|]. intros k r' Hk. exists r'. split; [done|reflexivity].
  - intros w1 w2 w3 H12 H23 Hwf. destruct (H12 Hwf) as (Hwf2 & S12 & C12 & D12 & R12).
    destruct (H23 Hwf2) as (Hwf3 & S23 & C23 & D23 & R23). repeat split; [done|congruence|congruence|..].
    + intros Hk. by apply D12, D23.
    + intros Hk. by apply D23, D12.
    + intros k r3 Hk3. destruct (R23 _ _ Hk3) as (r2 & Hk2 & P23). destruct (R12 _ _ Hk2) as (r1 & Hk1 & P12).
      exists r1. split; [done|by etrans].
Qed.

Lemma google_update_profile g t r : profile_update r (google_update g t r).
Proof. repeat split. Qed.

Lemma line_update_profile p r : profile_update r (line_update p r).
Proof. repeat split. Qed.

Section Frame.
Context `{Env} `{OAuthEnv}.

Lemma lift_links {A} (r : string + A) : preserves links_only (lift r).
Proof. destruct r; simpl; eauto with notif. Qed.

Lemma find_unique_links field v : preserves links_only (find_unique field v).
Proof. destruct v; simpl; eauto with notif. Qed.

(** The update touches only the row it found, under its own key. *)
Lemma update_unique_links field v f :
  (forall r, profile_update r (f r)) -> preserves links_only (update_unique field v f).
Proof.
  intros Hf w Hwf. unfold update_unique. destruct v as [v|]; [|by apply links_only_preorder].
  rewrite st_bind_run, find_unique_run.
  destruct (rows_with field v (users w)) as [|r0 l] eqn:E; [by apply links_only_preorder|].
  assert (Hin : In r0 (rows_with field v (users w))) by (rewrite E; by left).
  apply rows_with_In in Hin as ([k Hk] & _). cbn.
  pose proof (map_Forall_lookup_1 _ _ _ _ Hwf Hk) as Hid. cbn in Hid. rewrite Hid.
  change (snd ((st_get ≫= (fun w0 => set_users (<[k:=f r0]> (users w0)))) w))
    with (mkWorld (<[k:=f r0]> (users w)) (subs w) (calls w)).
  cbn [users subs calls]. destruct (Hf r0) as (Hi & _). split; [|split; [done|split; [done|split]]].
  - apply map_Forall_insert_2; [cbn; congruence|exact Hwf].
  - intros k'. destruct (decide (k' = k)) as [->|Hne].
    + rewrite lookup_insert_eq, Hk. split; discriminate.
    + by rewrite lookup_insert_ne by congruence.
  - intros k' r' Hk'. destruct (decide (k' = k)) as [->|Hne].
    + rewrite lookup_insert_eq in Hk'. injection Hk' as <-. exists r0. split; [done|apply Hf].
    + rewrite lookup_insert_ne in Hk' by congruence. exists r'. split; [done|reflexivity].
Qed.

(** The update of the row holding a unique column's value. *)
Lemma update_unique_hit field v f w k r :
  users_wf (users w) -> unique_col field (users w) -> users w !! k = Some r -> field r = Some v ->
  update_unique field (Some v) f w = (inr tt, mkWorld (<[k := f r]> (users w)) (subs w) (calls w)).
Proof.
  intros Hwf Hu Hk Hf. unfold update_unique.
  rewrite (st_bind_ok _ _ _ _ _ (find_unique_hit field v w k r Hwf Hu Hk Hf)).
  pose proof (map_Forall_lookup_1 _ _ _ _ Hwf Hk) as Hid. cbn in Hid. by rewrite Hid.
Qed.

End Frame.

#[export] Hint Resolve lift_links find_unique_links update_unique_links
  google_update_profile line_update_profile : notif frame.

Section Properties.
Context `{Env} `{OAuthEnv}.

(** Both callbacks respect [links_only], step by step. *)
Lemma callbacks_preserve_links code :
  preserves links_only (google_callback code) /\ preserves links_only (line_callback code).
Proof.
  split; [unfold google_callback|unfold line_callback]; preserves_auto.
Qed.

(** C22: the OAuth callbacks never create or delete a user, never touch
    the subscriptions, and change a row only in its display name,
    picture, provider, refresh token and LINE flag: in particular never
    its e-mail or push eligibility (spec section 3: OAuth flows never
    create users). *)
Theorem callbacks_link_only code w :
  links_only w (snd (google_callback code w)) /\ links_only w (snd (line_callback code w)).
Proof. split; apply callbacks_preserve_links. Qed.

(** C28: a Google sign-in of a known e-mail address updates that user's
    row (name and picture when the profile has them, provider [GOOGLE],
    the refresh token when one was issued), sets the session cookie and
    redirects to the dashboard. *)
Theorem google_callback_signs_in c t g e w k r :
  Js.truthy c = true -> google_token c = inr t -> google_userinfo (access_token t) = inr g ->
  g_email g = Some e -> users_wf (users w) -> unique_col email (users w) ->
  users w !! k = Some r -> email r = Some e ->
  google_callback (Some c) w =
  (inr (Redirect "/", [session_cookie]),
   mkWorld (<[k := google_update g t r]> (users w)) (subs w) (calls w)).
Proof.
  intros Hc Ht Hg He Hwf Hu Hk Hr. unfold google_callback, st_catch. rewrite Hc, Ht.
  cbn [lift]. rewrite st_bind_ret_l, Hg. cbn [lift]. rewrite st_bind_ret_l, He, (st_bind_ok _ _ _ _ _ (find_unique_hit email e w k r Hwf Hu Hk Hr)).
  by rewrite (st_bind_ok _ _ _ _ _ (update_unique_hit email e _ w k r Hwf Hu Hk Hr)).
Qed.

(** A Google identity whose e-mail address no user has is sent to the
    registration page: no row is created or changed and no session is
    opened. *)
Theorem google_callback_unknown c t g e w :
  Js.truthy c = true -> google_token c = inr t -> google_userinfo (access_token t) = inr g ->
  g_email g = Some e -> (forall k r, users w !! k = Some r -> email r <> Some e) ->
  google_callback (Some c) w = (inr (Redirect "/register?error=account_not_found", []), w).
Proof.
  intros Hc Ht Hg He Hno. unfold google_callback, st_catch. rewrite Hc, Ht.
  cbn [lift]. rewrite st_bind_ret_l, Hg. cbn [lift]. rewrite st_bind_ret_l, He. by rewrite (st_bind_ok _ _ _ _ _ (find_unique_miss email e w Hno)).
Qed.

(** C29: a LINE sign-in of a linked LINE id updates that user's row (name
    and picture when present, provider [LINE]) and enables the LINE
    channel, opens the session and redirects to [NEXTAUTH_URL]; a token
    response carrying an error is answered 500 with its description
    instead, changing nothing. *)
Theorem line_callback_signs_in c t p l w k r :
  Js.truthy c = true -> line_token c = inr t ->
  (Js.truthy_opt (tk_error t) = true ->
   line_callback (Some c) w =
   (inr (Json 500 (mkBody None None (Some login_failed) None None
                          (Some (error_message (tk_error_description t)))), []), w)) /\
  (Js.truthy_opt (tk_error t) = false -> line_profile (access_token t) = inr p ->
   l_userId p = Some l -> users_wf (users w) -> unique_col line_user_id (users w) ->
   users w !! k = Some r -> line_user_id r = Some l ->
   line_callback (Some c) w =
   (inr (Redirect (Js.template_undefined NEXTAUTH_URL), [session_cookie]),
    mkWorld (<[k := line_update p r]> (users w)) (subs w) (calls w))).
Proof.
  intros Hc Ht. unfold line_callback, st_catch. rewrite Hc, Ht. cbn [lift]. rewrite !st_bind_ret_l.
  split; intros He; rewrite He; [reflexivity|].
  intros Hp Hl Hwf Hu Hk Hr. rewrite st_bind_ret_l, Hp. cbn [lift]. rewrite st_bind_ret_l, Hl.
  rewrite (st_bind_ok _ _ _ _ _ (find_unique_hit line_user_id l w k r Hwf Hu Hk Hr)).
  by rewrite (st_bind_ok _ _ _ _ _ (update_unique_hit line_user_id l _ w k r Hwf Hu Hk Hr)).
Qed.

End Properties.

(** ** Witnesses, in a concrete deployment *)

(** Google issues tokens and the profile of [user@example.com]; LINE
    answers with the profile of [U1]. *)
Definition demo_oauth : OAuthEnv := {|
  google_token := fun _ => inr (mkTokens (Some "access") (Some "refresh2") None None);
  google_userinfo := fun _ => inr (mkGoogleProfile (Some "user@example.com") (Some "Alice") None);
  line_token := fun _ => inr (mkTokens (Some "access") None None None);
  line_profile := fun _ => inr (mkLineProfile (Some "U1") (Some "Alice") None);
  NEXTAUTH_URL := Some "https://notify.example";
  GOOGLE_REDIRECT_URI := Some "https://notify.example/api/auth/google/callback";
  GOOGLE_CLIENT_ID := Some "client.apps.googleusercontent.com";
  LINE_CLIENT_ID := None;
|}.

#[local] Existing Instance demo_oauth.
#[local] Existing Instance demo_env.

(** One user, with an e-mail address and a LINE id. *)
Definition oauth_world : World := mkWorld {[1%Z := demo_user 1 (Some "U1") true false]} ∅ [].

Lemma unique_col_singleton field k r : unique_col field {[k := r]}.
Proof.
  intros k1 k2 r1 r2 v H1 H2 _ _.
  apply lookup_singleton_Some in H1 as [<- _]. by apply lookup_singleton_Some in H2 as [<- _].
Qed.

Lemma oauth_world_wf : users_wf (users oauth_world).
Proof. apply (bool_decide_unpack (users_wf (users oauth_world))). vm_compute. exact I. Qed.

Lemma google_callback_signs_in_witness :
  let t := mkTokens (Some "access") (Some "refresh2") None None in
  let g := mkGoogleProfile (Some "user@example.com") (Some "Alice") None in
  Js.truthy "code" = true /\ google_token "code" = inr t /\ google_userinfo (access_token t) = inr g /\
  g_email g = Some "user@example.com" /\ users_wf (users oauth_world) /\
  unique_col email (users oauth_world) /\
  users oauth_world !! 1%Z = Some (demo_user 1 (Some "U1") true false) /\
  email (demo_user 1 (Some "U1") true false) = Some "user@example.com" /\
  google_callback (Some "code") oauth_world =
  (inr (Redirect "/", [session_cookie]),
   mkWorld (<[1%Z := google_update g t (demo_user 1 (Some "U1") true false)]> (users oauth_world))
           (subs oauth_world) (calls oauth_world)).
Proof.
  intros t g.
  assert (Hc : Js.truthy "code" = true) by reflexivity.
  assert (Ht : google_token "code" = inr t) by reflexivity.
  assert (Hg : google_userinfo (access_token t) = inr g) by reflexivity.
  assert (He : g_email g = Some "user@example.com") by reflexivity.
  pose proof oauth_world_wf as Hwf.
  pose proof (unique_col_singleton email 1%Z (demo_user 1 (Some "U1") true false)) as Hu.
  assert (Hk : users oauth_world !! 1%Z = Some (demo_user 1 (Some "U1") true false)) by reflexivity.
  assert (Hr : email (demo_user 1 (Some "U1") true false) = Some "user@example.com") by reflexivity.
  do 8 (split; [assumption|]).
  exact (google_callback_signs_in "code" t g "user@example.com" oauth_world 1%Z _ Hc Ht Hg He Hwf Hu Hk Hr).
Defined.

Lemma google_callback_unknown_witness :
  let t := mkTokens (Some "access") (Some "refresh2") None None in
  let g := mkGoogleProfile (Some "user@example.com") (Some "Alice") None in
  Js.truthy "code" = true /\ google_token "code" = inr t /\ google_userinfo (access_token t) = inr g /\
  g_email g = Some "user@example.com" /\
  (forall k r, users empty_world !! k = Some r -> email r <> Some "user@example.com") /\
  google_callback (Some "code") empty_world =
    (inr (Redirect "/register?error=account_not_found", []), empty_world).
Proof.
  intros t g.
  assert (Hc : Js.truthy "code" = true) by reflexivity.
  assert (Ht : google_token "code" = inr t) by reflexivity.
  assert (Hg : google_userinfo (access_token t) = inr g) by reflexivity.
  assert (He : g_email g = Some "user@example.com") by reflexivity.
  assert (Hno : forall k r, users empty_world !! k = Some r -> email r <> Some "user@example.com").
  { intros k r Hk. change (users empty_world) with (∅ : gmap Z DbUser) in Hk. by rewrite lookup_empty in Hk. }
  do 5 (split; [assumption|]).
  exact (google_callback_unknown "code" t g "user@example.com" empty_world Hc Ht Hg He Hno).
Defined.

Lemma line_callback_signs_in_witness :
  let t := mkTokens (Some "access") None None None in
  let p := mkLineProfile (Some "U1") (Some "Alice") None in
  Js.truthy "code" = true /\ line_token "code" = inr t /\
  ((Js.truthy_opt (tk_error t) = true ->
    line_callback (Some "code") oauth_world =
    (inr (Json 500 (mkBody None None (Some login_failed) None None
                          (Some (error_message (tk_error_description t)))), []), oauth_world)) /\
   (Js.truthy_opt (tk_error t) = false -> line_profile (access_token t) = inr p ->
    l_userId p = Some "U1" -> users_wf (users oauth_world) -> unique_col line_user_id (users oauth_world) ->
    users oauth_world !! 1%Z = Some (demo_user 1 (Some "U1") true false) ->
    line_user_id (demo_user 1 (Some "U1") true false) = Some "U1" ->
    line_callback (Some "code") oauth_world =
    (inr (Redirect (Js.template_undefined NEXTAUTH_URL), [session_cookie]),
     mkWorld (<[1%Z := line_update p (demo_user 1 (Some "U1") true false)]> (users oauth_world))
             (subs oauth_world) (calls oauth_world)))).
Proof.
  intros t p.
  assert (Hc : Js.truthy "code" = true) by reflexivity.
  assert (Ht : line_token "code" = inr t) by reflexivity.
  split; [exact Hc|]. split; [exact Ht|].
  exact (line_callback_signs_in "code" t p "U1" oauth_world 1%Z _ Hc Ht).
Defined.

End OAuth.
