(* ===== verification/OAuthStart.v ===== *)
(** * The OAuth start routes and the callbacks' query

    [GET /api/auth/google] ([src/src/app/api/auth/google/route.ts]) and
    [GET /api/auth/line] ([src/src/app/api/auth/line/route.ts]) redirect
    the browser to the providers' authorization endpoints with their
    options serialized by [URLSearchParams] (modelled in [Url]).  The
    callbacks of [OAuth] read the [code] the provider sends back with
    [searchParams.get("code")]: [google_callback_GET] and
    [line_callback_GET] are those reads composed with the callbacks. *)

From S2P Require Import Prelude Js Url Directory Server Auth OAuth.

Open Scope string_scope.

Module OAuthStart.
Import Server Auth OAuth.

Section Routes.
Context `{OAuthEnv}.

Definition google_rootUrl : string := "https://accounts.google.com/o/oauth2/v2/auth".

Definition google_scopes : list string :=
  ["https://www.googleapis.com/auth/userinfo.profile";
   "https://www.googleapis.com/auth/userinfo.email";
   "https://www.googleapis.com/auth/gmail.send"].

(** The [options] object, in its key order; [URLSearchParams] turns an
    unset variable into the string ["undefined"]. *)
Definition google_options : list (string * string) :=
  [("redirect_uri", Js.template_undefined GOOGLE_REDIRECT_URI);
   ("client_id", Js.template_undefined GOOGLE_CLIENT_ID);
   ("access_type", "offline");
   ("response_type", "code");
   ("prompt", "consent");
   ("scope", String.concat " " google_scopes)].

(** [GET /api/auth/google]. *)
Definition google_GET : Response :=
  Redirect (google_rootUrl ++ "?" ++ Url.serialize google_options).

Definition line_authorizeUrl : string := "https://access.line.me/oauth2/v2.1/authorize".

Definition line_options : list (string * string) :=
  [("response_type", "code");
   ("client_id", Js.template_undefined LINE_CLIENT_ID);
   ("redirect_uri", Js.template_undefined NEXTAUTH_URL ++ "/api/auth/line/callback");
   ("state", "random_state_string");
   ("scope", "openid profile");
   ("bot_prompt", "normal")].

(** [GET /api/auth/line]. *)
Definition line_GET : Response :=
  Redirect (line_authorizeUrl ++ "?" ++ Url.serialize line_options).

End Routes.

Section Callbacks.
Context `{Env} `{OAuthEnv}.

(** [GET /api/auth/google/callback]: [new URL(req.url).searchParams.get("code")]. *)
Definition google_callback_GET (url : string) : Srv (Response * list CookieOp) :=
  google_callback (Url.searchParams_get url "code").

(** [GET /api/auth/line/callback]: [req.nextUrl.searchParams.get("code")]. *)
Definition line_callback_GET (url : string) : Srv (Response * list CookieOp) :=
  line_callback (Url.searchParams_get url "code").

End Callbacks.

Section Properties.
Context `{Env} `{OAuthEnv}.

(** A provider's redirect to [base?params] runs the callback on the
    [code] parameter the provider sent. *)
Lemma google_callback_GET_code (base : string) (ps : list (string * string)) :
  ~ In "?"%char (list_ascii_of_string base) ->
  google_callback_GET (base ++ "?" ++ Url.serialize ps) = google_callback (Url.get "code" ps).
Proof. intros Hb. unfold google_callback_GET. rewrite Url.searchParams_get_serialize by exact Hb. reflexivity. Qed.

Lemma line_callback_GET_code (base : string) (ps : list (string * string)) :
  ~ In "?"%char (list_ascii_of_string base) ->
  line_callback_GET (base ++ "?" ++ Url.serialize ps) = line_callback (Url.get "code" ps).
Proof. intros Hb. unfold line_callback_GET. rewrite Url.searchParams_get_serialize by exact Hb. reflexivity. Qed.

(** C38: the sign-in flows' parameters: [GET /api/auth/google] sends
    the browser to Google asking for a [code] for the deployment's client
    and redirect URI, with offline access and forced consent (so that
    Google returns the refresh token the e-mail route needs) and the
    profile, e-mail and [gmail.send] scopes; [GET /api/auth/line] asks
    LINE for a [code] for the LINE client, back to the callback under
    [NEXTAUTH_URL], with the constant state [random_state_string].  The
    Google callback exchanges the [code] it is sent, and the LINE
    callback does not read [state]: a redirect with a forged state runs
    exactly as one with the state the start route sent. *)
Theorem oauth_start_flow c s1 s2 base :
  ~ In "?"%char (list_ascii_of_string base) ->
  (exists u, google_GET = Redirect u /\
     Url.searchParams_get u "response_type" = Some "code" /\
     Url.searchParams_get u "client_id" = Some (Js.template_undefined GOOGLE_CLIENT_ID) /\
     Url.searchParams_get u "redirect_uri" = Some (Js.template_undefined GOOGLE_REDIRECT_URI) /\
     Url.searchParams_get u "access_type" = Some "offline" /\
     Url.searchParams_get u "prompt" = Some "consent" /\
     Url.searchParams_get u "scope" =
       Some "https://www.googleapis.com/auth/userinfo.profile https://www.googleapis.com/auth/userinfo.email https://www.googleapis.com/auth/gmail.send") /\
  (exists u, line_GET = Redirect u /\
     Url.searchParams_get u "response_type" = Some "code" /\
     Url.searchParams_get u "client_id" = Some (Js.template_undefined LINE_CLIENT_ID) /\
     Url.searchParams_get u "redirect_uri" = Some (Js.template_undefined NEXTAUTH_URL ++ "/api/auth/line/callback") /\
     Url.searchParams_get u "state" = Some "random_state_string") /\
  google_callback_GET (base ++ "?" ++ Url.serialize [("code", c)]) = google_callback (Some c) /\
  line_callback_GET (base ++ "?" ++ Url.serialize [("code", c); ("state", s1)]) =
  line_callback_GET (base ++ "?" ++ Url.serialize [("code", c); ("state", s2)]).
Proof.
  intros Hb. assert (Hg : ~ In "?"%char (list_ascii_of_string google_rootUrl)) by (vm_compute; intuition discriminate).
  assert (Hl : ~ In "?"%char (list_ascii_of_string line_authorizeUrl)) by (vm_compute; intuition discriminate).
  split; [eexists; split; [reflexivity|]; rewrite !Url.searchParams_get_serialize by exact Hg; done|].
  split; [eexists; split; [reflexivity|]; rewrite !Url.searchParams_get_serialize by exact Hl; done|].
  by rewrite google_callback_GET_code, !line_callback_GET_code by exact Hb.
Qed.

End Properties.

(** A forged state on the LINE callback of the demonstration deployment. *)
Lemma oauth_start_flow_witness :
  ~ In "?"%char (list_ascii_of_string "https://notify.example/api/auth/line/callback") /\
  @line_callback_GET demo_env demo_oauth
    ("https://notify.example/api/auth/line/callback" ++ "?" ++ Url.serialize [("code", "abc"); ("state", "forged")]) =
  @line_callback_GET demo_env demo_oauth
    ("https://notify.example/api/auth/line/callback" ++ "?" ++ Url.serialize [("code", "abc"); ("state", "random_state_string")]).
Proof.
  assert (Hb : ~ In "?"%char (list_ascii_of_string "https://notify.example/api/auth/line/callback"))
    by (vm_compute; intuition discriminate).
  split; [exact Hb|].
  exact (proj2 (proj2 (proj2 (@oauth_start_flow demo_env demo_oauth "abc" "forged" "random_state_string" _ Hb)))).
Defined.

(** With [LINE_CLIENT_ID] unset, the LINE start route sends
    [client_id=undefined]. *)
Example line_GET_demo :
  @line_GET demo_oauth = Redirect "https://access.line.me/oauth2/v2.1/authorize?response_type=code&client_id=undefined&redirect_uri=https%3A%2F%2Fnotify.example%2Fapi%2Fauth%2Fline%2Fcallback&state=random_state_string&scope=openid+profile&bot_prompt=normal".
Proof. vm_compute. reflexivity. Qed.

End OAuthStart.
