(* ===== verification/Api.v ===== *)
(** * The API surface: the schema of the routes' answers

    Every route of [src/src/app/api] answers JSON that the clients read
    the same way: the dashboard logs [errorData.error] of a failed e-mail
    request, the login page shows [result.error] and the registration
    page [data.error], each with a default when the field is missing.
    This file shows that no route answers an [ok] status with an [error]
    field or a failure status without one ([Server.body_typed]), on every
    branch, errors included, for every deployment. *)

From S2P Require Import Prelude Js Directory Server PushSender LineSender EmailSender Auth OAuth.

Open Scope string_scope.
Open Scope js_scope.

Module Api.
Import Directory Server Auth OAuth.

(** The answers of a route that also sets cookies. *)
Definition answers_typed {A} (m : Srv (Response * A)) : Prop := post (fun r => body_typed (fst r)) m.

(** Close a leaf of a [post] proof: a concrete answer, or the provider's
    status passed through under the branch condition that chose it. *)
Ltac typed_leaf :=
  cbn [fst body_typed b_error error_body success_body];
  first [ reflexivity | eexists; reflexivity
        | match goal with H : ((200 <=? ?st)%Z && (?st <? 300)%Z) = _ |- _ => rewrite H; eexists; reflexivity end ].

Ltac typed_route := repeat (post_step || typed_leaf).

Section Routes.
Context `{Env} `{Hasher} `{OAuthEnv}.

Lemma line_typed req : post body_typed (LineSender.POST req).
Proof. unfold LineSender.POST. typed_route. Qed.

Lemma google_typed req : post body_typed (EmailSender.POST req).
Proof. unfold EmailSender.POST, EmailSender.send_mail. typed_route. Qed.

Lemma push_typed req : post body_typed (PushSender.POST req).
Proof. unfold PushSender.POST. typed_route. Qed.

Lemma login_typed req : answers_typed (login_POST req).
Proof. unfold answers_typed, login_POST. typed_route. Qed.

Lemma register_typed now req : post body_typed (register_POST now req).
Proof. unfold register_POST. typed_route. Qed.

Lemma google_callback_typed code : answers_typed (google_callback code).
Proof. unfold answers_typed, google_callback. typed_route. Qed.

Lemma line_callback_typed code : answers_typed (line_callback code).
Proof. unfold answers_typed, line_callback. typed_route. Qed.

End Routes.

(** C24: type: the answers of the API have the schema their clients read
    them with, on every branch and for every deployment: the LINE, Gmail
    and push senders, the login and register routes and both OAuth
    callbacks never answer an [ok] status with an [error] field, nor a
    failure status (a provider's status passed through, 400, 401, 404,
    500) without one. *)
Theorem api_answers_typed `{Env} `{Hasher} `{OAuthEnv} :
  (forall req, post body_typed (LineSender.POST req)) /\
  (forall req, post body_typed (EmailSender.POST req)) /\
  (forall req, post body_typed (PushSender.POST req)) /\
  (forall req, answers_typed (login_POST req)) /\
  (forall now req, post body_typed (register_POST now req)) /\
  (forall code, answers_typed (google_callback code)) /\
  (forall code, answers_typed (line_callback code)).
Proof.
  repeat split; intros; first [ apply line_typed | apply google_typed | apply push_typed | apply login_typed
                              | apply register_typed | apply google_callback_typed | apply line_callback_typed ].
Qed.

End Api.
