(* ===== verification/Site.v ===== *)
(** * The whole site: the sign-in pages and every way the state changes

    [src/src/app/register/page.tsx] ([handleSubmit]: validation, the
    register route, the wait for the service worker and the push
    subscription request, the client-side session cookie) and [src/src/app/login/page.tsx]
    ([handleLoginSubmit]), and the step relation [site_step] of the whole
    site: the two pages, the server actions, the OAuth callbacks, a
    dispatch from the dashboard (behind the session gate), direct
    requests to the notification routes (outside the gate), and a
    cookie the browser sets itself.  A registration, from the page or
    sent directly, takes two steps, split at the register route's
    [await] between its check and its create, so that concurrent
    registrations interleave.  The invariants of the database over every reachable state
    are proved by rule induction. *)

From S2P Require Import Prelude Js JsNumber Directory Server PushSender LineSender EmailSender Dispatch System Auth OAuth.

Open Scope string_scope.
Open Scope js_scope.
Open Scope list_scope.

Module Site.
Import Directory Server Dispatch System Auth OAuth.

(** ** The registration page *)

Record RegisterForm := mkRegisterForm {
  rf_username : string; rf_password : string; rf_confirmPassword : string }.

Definition err_username : string := "กรุณากรอก Username".
Definition err_short_password : string := "รหัสผ่านต้องมีอย่างน้อย 6 ตัวอักษร".
Definition err_password_mismatch : string := "รหัสผ่านไม่ตรงกัน".
Definition err_register : string := "เกิดข้อผิดพลาดในการสมัครสมาชิก".

(** The three client-side checks. *)
Definition register_validate (f : RegisterForm) : option string :=
  if negb (Js.truthy (Js.trim (rf_username f))) then Some err_username
  else if Nat.ltb (Js.utf16_length (rf_password f)) 6 then Some err_short_password
  else if negb (String.eqb (rf_password f) (rf_confirmPassword f)) then Some err_password_mismatch
  else None.

(** The page's outcome: the error it shows, or success. *)
Inductive RegOutcome := RegFailed (error : string) | RegSucceeded.

(** The browser's service worker as [handleSubmit] finds it after the
    page's [useEffect] called [navigator.serviceWorker.register("/sw.js")]:
    no [serviceWorker] in [navigator]; an active registration, with
    whether [pushManager.subscribe] resolves (its rejection, or a throw
    of [urlBase64ToUint8Array], is caught by the inner [try]); or no
    registration that ever becomes active (the script failed to load or
    to install), on which [navigator.serviceWorker.ready] never
    resolves. *)
Inductive ServiceWorker := SwUnsupported | SwActive (subscribed : bool) | SwNeverActive.

(** [JSON.stringify({ userId: data.userId, subscription })] as the push
    route destructures it: [userId] is a number, and [title], [message]
    and [url] are absent; the [subscription] object is not read. *)
Definition subscription_request (data : Body) : PushRequest :=
  mkPushRequest (match b_userId data with Some i => IdNumber i | None => IdUndefined end)
                None None None.

Section Pages.
Context `{Env} `{Hasher}.

(** The body [{ username, password }] of the page's request. *)
Definition register_credentials (f : RegisterForm) : Credentials :=
  mkCredentials (Some (rf_username f)) (Some (rf_password f)).

(** What the page does with the register route's response: steps 2 to 4
    of [handleSubmit], after [await fetch]; [None] when the handler
    is suspended for ever on [await navigator.serviceWorker.ready].  On
    success the page sets [session=true] itself. *)
Definition register_after (sw : ServiceWorker) (res : Response)
    : Srv (option (RegOutcome * list CookieOp)) :=
  data ← response_json res;
  if ok res then
    match sw with
    | SwUnsupported => mret (Some (RegSucceeded, [session_cookie]))
    | SwActive subscribed =>
        (if subscribed
         then (_ ← fetch_route FetchSubscribe PushSender.POST (subscription_request data); mret tt)
         else mret tt) ;;
        mret (Some (RegSucceeded, [session_cookie]))
    | SwNeverActive => mret None
    end
  else throw (Js.or_default (b_error data) err_register).

(** The page's [catch] block. *)
Definition register_failed (e : string) : Srv (option (RegOutcome * list CookieOp)) :=
  mret (Some (RegFailed e, [])).

(** [handleSubmit] of the registration page, at time [now]. *)
Definition register_submit (now : Z) (sw : ServiceWorker) (f : RegisterForm)
    : Srv (option (RegOutcome * list CookieOp)) :=
  try (
    match register_validate f with
    | Some e => throw e
    | None => res ← register_POST now (register_credentials f); register_after sw res
    end)
  catch register_failed.

Definition err_unreachable : string := "ไม่สามารถเชื่อมต่อกับเซิร์ฟเวอร์ได้".

(** [handleLoginSubmit] of the login page: [None] when it navigates to
    the dashboard, else the error it shows; with the cookies the login
    route's response set. *)
Definition login_submit (username password : string) : Srv (option string * list CookieOp) :=
  try (
    r ← login_POST (mkCredentials (Some username) (Some password));
    result ← response_json (fst r);
    if ok (fst r) && bool_decide (b_success result = Some true)
    then mret (None, snd r)
    else mret (Some (Js.or_default (b_error result) bad_login), snd r))
  catch (fun _ => mret (Some err_unreachable, [])).

End Pages.

(** ** The site *)

(** A request to the register route waiting between its check and its
    create: sent directly, or by the registration page (which goes on
    with [register_after] once answered). *)
Inductive Waiting := FromApi (stage : RegStage) | FromPage (sw : ServiceWorker) (stage : RegStage).

(** The database, the outbound calls, the browser's [session] cookie,
    and the requests to the register route that have passed its
    [findUnique] check and not yet created their row. *)
Record Site := mkSite {
  site_world : World; site_cookie : option string; site_pending : list Waiting }.

(** A request whose response may set or delete the cookie. *)
Definition with_cookies {A} (m : Srv (A * list CookieOp)) (st : Site) : Site :=
  match m (site_world st) with
  | (inr (_, ops), w') => mkSite w' (apply_cookies (site_cookie st) ops) (site_pending st)
  | (inl _, w') => mkSite w' (site_cookie st) (site_pending st)
  end.

(** The cookies a page's handler sets: none while it is suspended. *)
Definition page_cookies {A} (m : Srv (option (A * list CookieOp))) : Srv (unit * list CookieOp) :=
  r ← m; mret (tt, match r with Some (_, ops) => ops | None => [] end).

(** A request that leaves the cookie alone. *)
Definition without_cookies {A} (m : Srv A) (st : Site) : Site :=
  mkSite (snd (m (site_world st))) (site_cookie st) (site_pending st).

Section Steps.
Context `{Env} `{Hasher} `{OAuthEnv}.

(** A request to [POST /api/auth/register] runs up to its check and
    waits there. *)
Definition register_begin (from : RegStage -> Waiting) (req : Credentials) (st : Site) : Site :=
  match check_stage req (site_world st) with
  | (inr stage, w') => mkSite w' (site_cookie st) (site_pending st ++ [from stage])
  | (inl _, w') => mkSite w' (site_cookie st) (site_pending st)
  end.

(** The [i]-th waiting request resumes at time [now] and completes; the
    page then handles the response. *)
Definition register_end (i : nat) (wt : Waiting) (now : Z) (st : Site) : Site :=
  let st' := mkSite (site_world st) (site_cookie st) (delete i (site_pending st)) in
  match wt with
  | FromApi stage => without_cookies (st_catch (register_finish now stage) register_error) st'
  | FromPage sw stage =>
      with_cookies (page_cookies (try (res ← st_catch (register_finish now stage) register_error;
                                       register_after sw res)
                                  catch register_failed)) st'
  end.

Inductive site_step : Site -> Site -> Prop :=
| step_register_page st sw f :
    register_validate f = None -> site_step st (register_begin (FromPage sw) (register_credentials f) st)
| step_login st u p : site_step st (with_cookies (login_submit u p) st)
| step_login_action st u p :
    site_step st (mkSite (site_world st) (apply_cookies (site_cookie st) (snd (loginAction u p)))
                         (site_pending st))
| step_logout st :
    site_step st (mkSite (site_world st) (apply_cookies (site_cookie st) (snd logoutAction))
                         (site_pending st))
| step_google st code : site_step st (with_cookies (google_callback code) st)
| step_line st code : site_step st (with_cookies (line_callback code) st)
| step_dispatch st s :
    gate (site_cookie st) "/" = MwNext -> site_step st (without_cookies (@handleSubmit routes s) st)
| step_line_api st req : site_step st (without_cookies (LineSender.POST req) st)
| step_google_api st req : site_step st (without_cookies (EmailSender.POST req) st)
| step_push_api st req : site_step st (without_cookies (PushSender.POST req) st)
| step_register_api st req : site_step st (register_begin FromApi req st)
| step_register_end st i wt now :
    site_pending st !! i = Some wt -> site_step st (register_end i wt now st)
| step_set_cookie st v : site_step st (mkSite (site_world st) (Some v) (site_pending st)).

End Steps.

(** ** The database invariant *)

(** How the database may evolve from [w] to [w']: from a well-keyed
    table with unique usernames, it stays so, no row is deleted, no row's
    e-mail flag is switched on (a new row has it off), and no
    subscription is created. *)
Definition db_evolves (w w' : World) : Prop :=
  users_wf (users w) -> unique_col username (users w) ->
  users_wf (users w') /\ unique_col username (users w') /\
  (forall k, users w !! k <> None -> users w' !! k <> None) /\
  (forall k r', users w' !! k = Some r' -> can_receive_email r' = true ->
     exists r, users w !! k = Some r /\ can_receive_email r = true) /\
  (forall k s, subs w' !! k = Some s -> subs w !! k = Some s).

#[export] Instance db_evolves_preorder : PreOrder db_evolves.
Proof.
  split.
  - intros w Hwf Hu. repeat split; [done|done|done| |done]. intros k r' Hk He. by exists r'.
  - intros w1 w2 w3 H12 H23 Hwf Hu.
    destruct (H12 Hwf Hu) as (Hwf2 & Hu2 & K12 & E12 & S12).
    destruct (H23 Hwf2 Hu2) as (Hwf3 & Hu3 & K23 & E23 & S23).
    repeat split; [done|done|..].
    + intros k Hk. by apply K23, K12.
    + intros k r3 Hk3 He3. destruct (E23 _ _ Hk3 He3) as (r2 & Hk2 & He2). exact (E12 _ _ Hk2 He2).
    + intros k s Hs. by apply S12, S23.
Qed.

(** A step that keeps the users table and only removes subscriptions. *)
Lemma db_subs_shrink w w' :
  users w' = users w -> (forall k s, subs w' !! k = Some s -> subs w !! k = Some s) -> db_evolves w w'.
Proof.
  intros Hu Hs Hwf Hun. rewrite Hu. repeat split; [done|done|done| |done].
  intros k r' Hk He. by exists r'.
Qed.

Lemma db_same_tables w w' : users w' = users w -> subs w' = subs w -> db_evolves w w'.
Proof. intros Hu Hs. apply db_subs_shrink; [done|]. intros k s. by rewrite Hs. Qed.

(** An OAuth sign-in evolves the database within the invariant. *)
Lemma links_only_evolves w w' : links_only w w' -> db_evolves w w'.
Proof.
  intros Hl Hwf Hu. destruct (Hl Hwf) as (Hwf' & Hs & _ & Hdom & Hrows). repeat split; [done| | | |].
  - intros k1 k2 r1 r2 v Hk1 Hk2 Hv1 Hv2.
    destruct (Hrows _ _ Hk1) as (q1 & Hq1 & (_ & U1 & _)). destruct (Hrows _ _ Hk2) as (q2 & Hq2 & (_ & U2 & _)).
    apply (Hu _ _ _ _ v Hq1 Hq2); congruence.
  - intros k Hk Hk'. by apply Hk, Hdom.
  - intros k r' Hk He. destruct (Hrows _ _ Hk) as (r & Hr & (_ & _ & _ & _ & _ & Ee & _)).
    exists r. split; [done|congruence].
  - intros k s. by rewrite Hs.
Qed.

Section Components.
Context `{Env} `{Hasher} `{OAuthEnv}.

Lemma log_call_evolves c : preserves db_evolves (log_call c).
Proof. intros w. by apply db_same_tables. Qed.
#[local] Hint Resolve log_call_evolves : frame.

Lemma find_unique_evolves field v : preserves db_evolves (find_unique field v).
Proof. destruct v; unfold find_unique; preserves_auto. Qed.
#[local] Hint Resolve find_unique_evolves : frame.

Lemma line_route_evolves req : preserves db_evolves (LineSender.POST req).
Proof. intros w. rewrite LineSender.POST_line_run. by apply db_same_tables. Qed.
#[local] Hint Resolve line_route_evolves : frame.

Lemma google_route_evolves req : preserves db_evolves (EmailSender.POST req).
Proof.
  intros w. rewrite EmailSender.POST_google_run.
  destruct (EmailSender.user_key _); [|reflexivity]. destruct (EmailSender.refresh_token _); [|reflexivity].
  destruct (Js.truthy _); [|reflexivity]. by apply db_same_tables.
Qed.
#[local] Hint Resolve google_route_evolves : frame.

Lemma push_route_evolves req : preserves db_evolves (PushSender.POST req).
Proof.
  intros w. apply db_subs_shrink.
  - by destruct (PushSender.POST_cases req w) as [[_ ->]|[(? & _ & _ & ->)|(? & _ & _ & ->)]].
  - intros k s. apply (PushSender.POST_subs_shrink req w (fst (PushSender.POST req w))).
    apply surjective_pairing.
Qed.
#[local] Hint Resolve push_route_evolves : frame.

Lemma dispatch_evolves s : preserves db_evolves (@handleSubmit routes s).
Proof.
  apply handleSubmit_preserves; [exact _|apply log_call_evolves|apply line_route_evolves
                                 |apply google_route_evolves|apply push_route_evolves].
Qed.

Lemma callbacks_evolve code :
  preserves db_evolves (google_callback code) /\ preserves db_evolves (line_callback code).
Proof.
  destruct (callbacks_preserve_links code) as [Hg Hl]. split; intros w; apply links_only_evolves; [apply Hg|apply Hl].
Qed.

(** A create adds one row, under a fresh id, with a username no other
    row has and the e-mail flag off; or it is refused and changes
    nothing. *)
Lemma create_user_evolves now u h : preserves db_evolves (create_user now u h).
Proof.
  intros w. destruct (username_taken u (users w)) eqn:Ht.
  - rewrite create_user_taken by exact Ht. reflexivity.
  - rewrite create_user_fresh by exact Ht. intros Hwf Hu. cbn [snd users subs].
    split; [by apply map_Forall_insert_2|]. split; [by apply new_user_unique, username_free|].
    split; [|split; [|done]].
    + intros k Hk. destruct (decide (k = next_id (users w))) as [->|Hne].
      * by rewrite lookup_insert_eq.
      * by rewrite lookup_insert_ne by congruence.
    + intros k r' Hk He. destruct (decide (k = next_id (users w))) as [->|Hne].
      * rewrite lookup_insert_eq in Hk. by injection Hk as <-.
      * rewrite lookup_insert_ne in Hk by congruence. by exists r'.
Qed.
#[local] Hint Resolve create_user_evolves : frame.

Lemma register_check_evolves req : preserves db_evolves (register_check req).
Proof. unfold register_check. preserves_auto. Qed.
#[local] Hint Resolve register_check_evolves : frame.

Lemma register_finish_evolves now stage : preserves db_evolves (register_finish now stage).
Proof. unfold register_finish. preserves_auto. Qed.
#[local] Hint Resolve register_finish_evolves : frame.

Lemma register_route_evolves now req : preserves db_evolves (register_POST now req).
Proof.
  intros w. rewrite register_POST_stages. revert w.
  preserves_auto.
Qed.
#[local] Hint Resolve register_route_evolves : frame.

Lemma login_route_evolves req : preserves db_evolves (login_POST req).
Proof.
  unfold login_POST. preserves_auto.
Qed.
#[local] Hint Resolve login_route_evolves : frame.

Lemma check_stage_evolves req : preserves db_evolves (check_stage req).
Proof. unfold check_stage. preserves_auto. Qed.
#[local] Hint Resolve check_stage_evolves : frame.

(** What the page does after the route's answer: at most the push
    sender's request. *)
Lemma register_after_evolves sw res : preserves db_evolves (register_after sw res).
Proof. unfold register_after, fetch_route, response_json. destruct sw; preserves_auto. Qed.
#[local] Hint Resolve register_after_evolves : frame.

Lemma register_page_evolves now sw f : preserves db_evolves (page_cookies (register_submit now sw f)).
Proof. unfold page_cookies, register_submit. preserves_auto. Qed.

Lemma login_page_evolves u p : preserves db_evolves (login_submit u p).
Proof.
  unfold login_submit, response_json. preserves_auto.
Qed.

End Components.

#[export] Hint Resolve log_call_evolves find_unique_evolves create_user_evolves register_finish_evolves
  register_after_evolves : frame.

(** Every step of the site respects the invariant. *)
Lemma site_step_evolves `{Env} `{Hasher} `{OAuthEnv} st st' :
  site_step st st' -> db_evolves (site_world st) (site_world st').
Proof.
  assert (Hc : forall A (m : Srv (A * list CookieOp)) st,
             preserves db_evolves m -> db_evolves (site_world st) (site_world (with_cookies m st))).
  { intros A m st0 Hm. specialize (Hm (site_world st0)). unfold with_cookies.
    destruct (m (site_world st0)) as [[e|[x ops]] w']; exact Hm. }
  destruct 1; cbn [site_world without_cookies]; try reflexivity.
  - unfold register_begin. pose proof (check_stage_evolves (register_credentials f) (site_world st)) as Hm.
    destruct (check_stage _ (site_world st)) as [[e|stage] w']; exact Hm.
  - apply Hc, login_page_evolves.
  - apply Hc, (callbacks_evolve code).
  - apply Hc, (callbacks_evolve code).
  - apply dispatch_evolves.
  - apply line_route_evolves.
  - apply google_route_evolves.
  - apply push_route_evolves.
  - unfold register_begin. pose proof (check_stage_evolves req (site_world st)) as Hm.
    destruct (check_stage req (site_world st)) as [[e|stage] w']; exact Hm.
  - unfold register_end. destruct wt as [stage|sw stage].
    + cbn [site_world without_cookies]. generalize (site_world st). preserves_auto.
    + refine (Hc _ _ (mkSite (site_world st) (site_cookie st) (delete i (site_pending st))) _).
      unfold page_cookies. preserves_auto.
Qed.

(** ** Properties *)

Lemma register_validate_fields f :
  register_validate f = None -> Js.truthy (rf_username f) = true /\ Js.truthy (rf_password f) = true.
Proof.
  unfold register_validate. destruct (rf_username f) as [|a u], (rf_password f) as [|b p];
    cbn [Js.utf16_length Nat.ltb Nat.leb]; try (by destruct (Js.truthy (Js.trim _))); done.
Qed.

(** A registration from the page that no other request overtakes: its
    two steps compose to the page's [handleSubmit]. *)
Lemma register_page_steps `{Env} `{Hasher} `{OAuthEnv} st now sw f :
  register_validate f = None -> rtc site_step st (with_cookies (page_cookies (register_submit now sw f)) st).
Proof.
  intros Hv. set (req := register_credentials f).
  assert (E : exists stage w1, check_stage req (site_world st) = (inr stage, w1)).
  { unfold check_stage, st_catch. destruct (register_check req (site_world st)) as [[e|stage] w1]; eauto. }
  destruct E as (stage & w1 & E).
  assert (Hrun : forall m : Response -> Srv (option (RegOutcome * list CookieOp)),
            (res ← register_POST now req; m res) (site_world st) =
            (res ← st_catch (register_finish now stage) register_error; m res) w1).
  { intros m. rewrite !st_bind_run, register_POST_staged, !st_bind_run, E. reflexivity. }
  eapply rtc_l; [apply (step_register_page st sw f Hv)|]. apply rtc_once.
  replace (with_cookies (page_cookies (register_submit now sw f)) st)
    with (register_end (List.length (site_pending st)) (FromPage sw stage) now
            (register_begin (FromPage sw) req st)).
  - apply step_register_end. unfold register_begin. rewrite E. by apply list_lookup_middle.
  - unfold register_end, register_begin. rewrite E. cbn [site_world site_cookie site_pending].
    rewrite delete_middle, app_nil_r. unfold with_cookies, page_cookies. rewrite !st_bind_run.
    unfold register_submit, st_catch. cbn [site_world site_cookie site_pending]. rewrite Hv, Hrun. reflexivity.
Qed.

(** On a browser whose service worker never becomes active, a valid
    registration of a free username creates the row and the handler
    then waits for ever, before any further request. *)
Lemma register_submit_suspends `{Env} `{Hasher} now f w :
  register_validate f = None ->
  (forall k r, users w !! k = Some r -> username r <> Some (rf_username f)) ->
  register_submit now SwNeverActive f w =
    (inr None, mkWorld (registered now (rf_username f) (rf_password f) (users w)) (subs w) (calls w)).
Proof.
  intros Hv Hfresh. destruct (register_validate_fields f Hv) as [Hu Hp].
  unfold register_submit, st_catch. rewrite Hv.
  rewrite (st_bind_ok _ _ _ _ _ (register_POST_fresh now _ _ w Hu Hp Hfresh)). reflexivity.
Qed.

(** A valid registration of a username some row holds is refused with
    the route's message and changes nothing. *)
Lemma register_submit_taken `{Env} `{Hasher} now sw f w k r :
  register_validate f = None -> users w !! k = Some r -> username r = Some (rf_username f) ->
  register_submit now sw f w = (inr (Some (RegFailed register_taken, [])), w).
Proof.
  intros Hv Hk Hr. destruct (register_validate_fields f Hv) as [Hu Hp].
  unfold register_submit, st_catch. rewrite Hv, st_bind_run.
  rewrite (proj2 (register_POST_rejects now (register_credentials f) w) k r); [reflexivity|..];
    cbn [register_credentials cr_username cr_password Js.truthy_opt]; rewrite ?Hr; done.
Qed.

Lemma site_reachable_evolves `{Env} `{Hasher} `{OAuthEnv} st st' :
  rtc site_step st st' -> db_evolves (site_world st) (site_world st').
Proof.
  induction 1 as [st|st1 st2 st3 H12 _ IH]; [reflexivity|].
  etrans; [apply site_step_evolves, H12|exact IH].
Qed.

Section Claims.
Context `{Env} `{Hasher} `{OAuthEnv}.

(** C16: the database invariant of the whole site: from a well-keyed
    table with unique usernames, in every state the site reaches
    (registrations, also interleaved ones, sign-ins, OAuth callbacks,
    dispatches, direct API requests, forged cookies) the users table
    stays well keyed with unique usernames and loses no row; a row with
    [can_receive_email] set is a starting row that already had it
    (registration creates rows with it off, and neither OAuth callback
    touches it, although the Google callback stores the refresh token
    the e-mail route needs); and every subscription row was already
    there at the start: no code path stores one, although spec section 3
    says a subscription is created when a browser registers for push. *)
Theorem site_db_invariant w0 c0 st :
  users_wf (users w0) -> unique_col username (users w0) ->
  rtc site_step (mkSite w0 c0 []) st ->
  users_wf (users (site_world st)) /\ unique_col username (users (site_world st)) /\
  (forall k, users w0 !! k <> None -> users (site_world st) !! k <> None) /\
  (forall k r, users (site_world st) !! k = Some r -> can_receive_email r = true ->
     exists r0, users w0 !! k = Some r0 /\ can_receive_email r0 = true) /\
  (forall k s, subs (site_world st) !! k = Some s -> subs w0 !! k = Some s).
Proof. intros Hwf Hu Hr. exact (site_reachable_evolves _ _ Hr Hwf Hu). Qed.

(** C11: the registration page loses the browser's push subscription: a
    valid registration on a browser whose push subscription succeeds
    reports success and sets the session cookie, but it posts the
    subscription to the push sender route, which finds no subscription
    for the new user (whose id, an [Int], the route's filter takes),
    answers 404 and stores nothing; the new user, who is push-eligible,
    has no subscription afterwards. *)
Theorem register_page_drops_subscription now f w :
  users_wf (users w) -> (forall k s, subs w !! k = Some s -> users w !! user_id s <> None) ->
  register_validate f = None ->
  (forall k r, users w !! k = Some r -> username r <> Some (rf_username f)) ->
  JsNumber.int32 (next_id (users w)) = true ->
  exists w', register_submit now (SwActive true) f w = (inr (Some (RegSucceeded, [session_cookie])), w') /\
    users w' = registered now (rf_username f) (rf_password f) (users w) /\ subs w' = subs w /\
    calls w' = calls w ++ [FetchSubscribe (mkPushRequest (IdNumber (next_id (users w))) None None None)] /\
    PushSender.findMany_active (next_id (users w)) (subs w') = [].
Proof.
  intros Hwf Href Hv Hfresh Hint. destruct (register_validate_fields f Hv) as [Hu Hp].
  assert (Hnone : PushSender.findMany_active (next_id (users w)) (subs w) = []).
  { destruct (PushSender.findMany_active _ _) as [|s0 l] eqn:E; [done|exfalso].
    assert (Hin : In s0 (PushSender.findMany_active (next_id (users w)) (subs w))) by (rewrite E; by left).
    apply PushSender.in_findMany in Hin as ([k Hk] & Hid & _).
    apply (Href _ _ Hk). rewrite Hid. apply next_id_fresh. }
  set (req := mkPushRequest (IdNumber (next_id (users w))) None None None).
  set (w1 := mkWorld (registered now (rf_username f) (rf_password f) (users w)) (subs w) (calls w)).
  set (w2 := mkWorld (users w1) (subs w1) (calls w1 ++ [FetchSubscribe req])).
  assert (Ef : (_ ← fetch_route FetchSubscribe PushSender.POST req; mret tt) w1 = (inr tt, w2)).
  { unfold fetch_route. rewrite st_bind_assoc, (st_bind_ok (log_call _) _ w1 tt w2) by reflexivity.
    destruct (PushSender.POST_cases req w2) as [[Hn _]|[(u & Hn & _ & E)|(u & Hn & Hl & _)]];
      cbn [req userId] in Hn; rewrite Number_of_int in Hn by exact Hint; try discriminate;
      injection Hn as <-; [|exfalso; apply Hl; exact Hnone].
    unfold st_catch. rewrite st_bind_run, E. reflexivity. }
  exists w2. split; [|done].
  unfold register_submit, st_catch. rewrite Hv.
  rewrite (st_bind_ok _ _ _ _ _ (register_POST_fresh now _ _ w Hu Hp Hfresh)).
  unfold register_after. cbn [response_json ok mbind]. rewrite st_bind_ret_l.
  cbn [andb Z.leb Z.ltb Z.compare Pos.compare Pos.compare_cont].
  change (subscription_request _) with req. fold w1. rewrite (st_bind_ok _ _ _ _ _ Ef). reflexivity.
Qed.

End Claims.

(** ** Witnesses, in the demonstration deployment *)

#[local] Existing Instance demo_env.
#[local] Existing Instance demo_hasher.
#[local] Existing Instance demo_oauth.

Definition demo_form : RegisterForm := mkRegisterForm "alice" "secret123" "secret123".

(** The site after [alice] registers on a browser whose service worker is active and grants the subscription. *)
Definition demo_registered : Site := with_cookies (page_cookies (register_submit 100 (SwActive true) demo_form)) (mkSite demo_world None []).

(** No row of the demonstration database has a username. *)
Lemma demo_world_no_usernames : map_Forall (fun _ r => username r = None) (users demo_world).
Proof. apply (bool_decide_unpack _). vm_compute. exact I. Qed.

Lemma demo_world_fresh u : forall k r, users demo_world !! k = Some r -> username r <> Some u.
Proof. intros k r Hk. rewrite (map_Forall_lookup_1 _ _ _ _ demo_world_no_usernames Hk). discriminate. Qed.

Lemma demo_world_usernames : unique_col username (users demo_world).
Proof.
  intros k1 k2 r1 r2 v Hk1 _ Hv1 _.
  rewrite (map_Forall_lookup_1 _ _ _ _ demo_world_no_usernames Hk1) in Hv1. discriminate.
Qed.

Lemma demo_world_wf : users_wf (users demo_world).
Proof. apply (bool_decide_unpack (users_wf (users demo_world))). vm_compute. exact I. Qed.

Lemma demo_registered_reachable : rtc site_step (mkSite demo_world None []) demo_registered.
Proof. by apply register_page_steps. Qed.

(** Two browsers register [alice] at once: both pages' requests pass
    the check before either creates its row. *)
Definition race_form (p : string) : RegisterForm := mkRegisterForm "alice" p p.

Definition race_final : Site :=
  register_end 0 (FromPage (SwActive true) (RegCreate "alice" "secret456")) 200
    (register_end 0 (FromPage (SwActive true) (RegCreate "alice" "secret123")) 100
       (register_begin (FromPage (SwActive true)) (register_credentials (race_form "secret456"))
          (register_begin (FromPage (SwActive true)) (register_credentials (race_form "secret123"))
             (mkSite demo_world None [])))).

Lemma race_reachable : rtc site_step (mkSite demo_world None []) race_final.
Proof.
  eapply rtc_l; [apply (step_register_page _ (SwActive true) (race_form "secret123")); reflexivity|].
  eapply rtc_l; [apply (step_register_page _ (SwActive true) (race_form "secret456")); reflexivity|].
  eapply rtc_l;
    [apply (step_register_end _ 0 (FromPage (SwActive true) (RegCreate "alice" "secret123")) 100); vm_compute; reflexivity|].
  apply rtc_once, (step_register_end _ 0 (FromPage (SwActive true) (RegCreate "alice" "secret456")) 200).
  vm_compute. reflexivity.
Qed.

(** The run ends with one row for [alice], the session cookie of the
    page that won, and nothing waiting. *)
Example race_final_one_alice :
  List.length (List.filter (fun r => bool_decide (username r = Some "alice"))
                 (map snd (map_to_list (users (site_world race_final))))) = 1 /\
  site_cookie race_final = Some "true" /\ site_pending race_final = [].
Proof. vm_compute. repeat split. Qed.

Lemma site_db_invariant_witness :
  users_wf (users demo_world) /\ unique_col username (users demo_world) /\
  rtc site_step (mkSite demo_world None []) race_final /\
  unique_col username (users (site_world race_final)) /\
  (forall k s, subs (site_world race_final) !! k = Some s -> subs demo_world !! k = Some s).
Proof.
  pose proof demo_world_wf as Hwf. pose proof demo_world_usernames as Hu. pose proof race_reachable as Hr.
  split; [exact Hwf|]. split; [exact Hu|]. split; [exact Hr|].
  destruct (site_db_invariant demo_world None race_final Hwf Hu Hr) as (_ & Hu' & _ & _ & Hs).
  split; [exact Hu'|exact Hs].
Defined.

Lemma register_page_drops_subscription_witness :
  users_wf (users demo_world) /\
  (forall k s, subs demo_world !! k = Some s -> users demo_world !! user_id s <> None) /\
  register_validate demo_form = None /\
  (forall k r, users demo_world !! k = Some r -> username r <> Some (rf_username demo_form)) /\
  JsNumber.int32 (next_id (users demo_world)) = true /\
  exists w', register_submit 100 (SwActive true) demo_form demo_world = (inr (Some (RegSucceeded, [session_cookie])), w') /\
    users w' = registered 100 (rf_username demo_form) (rf_password demo_form) (users demo_world) /\
    subs w' = subs demo_world /\
    calls w' = calls demo_world ++
                 [FetchSubscribe (mkPushRequest (IdNumber (next_id (users demo_world))) None None None)] /\
    PushSender.findMany_active (next_id (users demo_world)) (subs w') = [].
Proof.
  pose proof demo_world_wf as Hwf.
  assert (Href : forall k s, subs demo_world !! k = Some s -> users demo_world !! user_id s <> None).
  { assert (H : map_Forall (fun _ s => is_Some (users demo_world !! user_id s)) (subs demo_world))
      by (apply (bool_decide_unpack _); vm_compute; exact I).
    intros k s Hk. apply not_eq_None_Some. exact (map_Forall_lookup_1 _ _ _ _ H Hk). }
  assert (Hv : register_validate demo_form = None) by reflexivity.
  pose proof (demo_world_fresh (rf_username demo_form)) as Hfresh.
  assert (Hint : JsNumber.int32 (next_id (users demo_world)) = true) by (vm_compute; reflexivity).
  split; [exact Hwf|]. split; [exact Href|]. split; [exact Hv|]. split; [exact Hfresh|]. split; [exact Hint|].
  exact (register_page_drops_subscription 100 demo_form demo_world Hwf Href Hv Hfresh Hint).
Defined.

End Site.
