(* ===== verification/Pages.v ===== *)
(** * The sign-in pages as React components

    The client state of [src/src/app/register/page.tsx] ([RegisterPage]:
    [formData], [loading], [error], [success], and where the page sends
    the browser) and of [src/src/app/login/page.tsx] ([LoginPage]:
    [loading], [error]), their handlers, what they render, and the
    pages as event machines in which a user can only use the controls
    the page leaves enabled.  The requests the handlers make are
    [Site.register_submit] and [Site.login_submit]; each handler here
    is the request composed with the state updates around it. *)

From S2P Require Import Prelude Js Directory Server Dispatch Auth Site.

Open Scope string_scope.
Open Scope js_scope.
Open Scope list_scope.

Module Pages.
Import Directory Server Dispatch Auth Site.

(** Where a handler sends the browser: nowhere, [window.location.href = url],
    the same after [setTimeout(..., ms)], or [router.push(url)]. *)
Inductive Nav := Stay | Href (url : string) | HrefAfter (ms : Z) (url : string) | RouterPush (url : string).

(** ** The registration page *)
Module RegisterPage.

Record RegisterPage := mkRegisterPage {
  formData : RegisterForm; loading : bool; error : string; success : bool; nav : Nav }.

Definition empty_form : RegisterForm := mkRegisterForm EmptyString EmptyString EmptyString.

(** The [useState] initial values. *)
Definition initial : RegisterPage := mkRegisterPage empty_form false EmptyString false Stay.

(** The [name] attributes of the three inputs. *)
Inductive Field := username | password | confirmPassword.

(** [setFormData({ ...formData, [e.target.name]: e.target.value })]. *)
Definition set_field (x : Field) (v : string) (f : RegisterForm) : RegisterForm :=
  match x with
  | username => mkRegisterForm v (rf_password f) (rf_confirmPassword f)
  | password => mkRegisterForm (rf_username f) v (rf_confirmPassword f)
  | confirmPassword => mkRegisterForm (rf_username f) (rf_password f) v
  end.

Definition handleChange (x : Field) (v : string) (st : RegisterPage) : RegisterPage :=
  mkRegisterPage (set_field x v (formData st)) (loading st) (error st) (success st) (nav st).

(** The state updates of [handleSubmit] before its [try]. *)
Definition submit_begin (st : RegisterPage) : RegisterPage :=
  mkRegisterPage (formData st) true EmptyString false (nav st).

(** The state updates after the request: step 4 on success (the banner,
    the cleared form, the redirect to [/] after 1.5 s), [setError] in the
    [catch], and [setLoading(false)] in the [finally]. *)
Definition submit_settle (o : RegOutcome) (st : RegisterPage) : RegisterPage :=
  match o with
  | RegSucceeded => mkRegisterPage empty_form false (error st) true (HrefAfter 1500 "/")
  | RegFailed e => mkRegisterPage (formData st) false e (success st) (nav st)
  end.

Section Handlers.
Context `{Env} `{Hasher}.

(** [handleSubmit] at time [now] with the browser's service worker
    [sw]: the page once its request settles and the cookies it set, or
    [None] while it waits for ever on [navigator.serviceWorker.ready],
    the page then staying as [submit_begin] left it. *)
Definition handleSubmit (now : Z) (sw : ServiceWorker) (st : RegisterPage)
    : Srv (option (RegisterPage * list CookieOp)) :=
  let st1 := submit_begin st in
  r ← register_submit now sw (formData st1);
  mret (option_map (fun r => (submit_settle (fst r) st1, snd r)) r).

End Handlers.

Definition handleLineLogin (st : RegisterPage) : RegisterPage :=
  mkRegisterPage (formData st) true (error st) (success st) (Href "/api/auth/line").

Definition handleGoogleLogin (st : RegisterPage) : RegisterPage :=
  mkRegisterPage (formData st) true (error st) (success st) (Href "/api/auth/google").

(** The footer's [router.push("/login")]. *)
Definition goto_login (st : RegisterPage) : RegisterPage :=
  mkRegisterPage (formData st) (loading st) (error st) (success st) (RouterPush "/login").

(** *** What the page renders *)

Definition success_text : string := "สมัครสมาชิกเรียบร้อยแล้ว! กำลังไปหน้าเข้าสู่ระบบ...".
Definition button_busy : string := "กำลังบันทึกข้อมูล...".
Definition button_idle : string := "สมัครสมาชิก".

(** The banners ([error && ...], [success && ...]), the [disabled]
    flag of the inputs and of the submit button, the button's label and
    the inputs' values. *)
Record RegisterView := mkRegisterView {
  rv_error : option string; rv_success : option string; rv_disabled : bool;
  rv_button : string; rv_values : RegisterForm }.

Definition view (st : RegisterPage) : RegisterView :=
  mkRegisterView (if Js.truthy (error st) then Some (error st) else None)
                 (if success st then Some success_text else None)
                 (loading st)
                 (if loading st then button_busy else button_idle)
                 (formData st).

(** *** The page as an event machine

    The user types into an input or submits the form only while they
    are enabled; the social buttons and the footer link have no
    [disabled] attribute.  A submission is split at its request: the
    page's state records whether one is in flight, and [Settle o] is its
    answer. *)
Inductive Event :=
| Change (x : Field) (v : string) | Submit | Settle (o : RegOutcome)
| LineLogin | GoogleLogin | LoginLink.

Definition event (ev : Event) (p : RegisterPage * bool) : option (RegisterPage * bool) :=
  let '(st, busy) := p in
  match ev with
  | Change x v => if rv_disabled (view st) then None else Some (handleChange x v st, busy)
  | Submit => if rv_disabled (view st) then None else Some (submit_begin st, true)
  | Settle o => if busy then Some (submit_settle o st, false) else None
  | LineLogin => Some (handleLineLogin st, busy)
  | GoogleLogin => Some (handleGoogleLogin st, busy)
  | LoginLink => Some (goto_login st, busy)
  end.

Fixpoint run (evs : list Event) (p : RegisterPage * bool) : option (RegisterPage * bool) :=
  match evs with
  | [] => Some p
  | ev :: evs => event ev p ≫= run evs
  end.

(** The page's invariant: a submission in flight shows the busy, disabled
    form without banners, and the success banner is never shown with an
    error. *)
Definition page_inv (p : RegisterPage * bool) : Prop :=
  (snd p = true -> loading (fst p) = true /\ error (fst p) = EmptyString /\ success (fst p) = false) /\
  (success (fst p) = true -> error (fst p) = EmptyString).

End RegisterPage.

(** ** The login page *)
Module LoginPage.

Record LoginPage := mkLoginPage { loading : bool; error : string; nav : Nav }.

Definition initial : LoginPage := mkLoginPage false EmptyString Stay.

Definition submit_begin (st : LoginPage) : LoginPage := mkLoginPage true EmptyString (nav st).

(** On success the page navigates and stays busy; on an error it shows
    the message and clears [loading]. *)
Definition submit_settle (o : option string) (st : LoginPage) : LoginPage :=
  match o with
  | None => mkLoginPage (loading st) (error st) (Href "/")
  | Some e => mkLoginPage false e (nav st)
  end.

Section Handlers.
Context `{Env} `{Hasher}.

(** [handleLoginSubmit(formData)], the form's [action]. *)
Definition handleLoginSubmit (username password : string) (st : LoginPage)
    : Srv (LoginPage * list CookieOp) :=
  let st1 := submit_begin st in
  r ← login_submit username password;
  mret (submit_settle (fst r) st1, snd r).

End Handlers.

Definition google_button (st : LoginPage) : LoginPage := mkLoginPage (loading st) (error st) (Href "/api/auth/google").
Definition line_button (st : LoginPage) : LoginPage := mkLoginPage (loading st) (error st) (Href "/api/auth/line").
Definition register_link (st : LoginPage) : LoginPage := mkLoginPage (loading st) (error st) (Href "/register").

Definition button_busy : string := "กำลังเข้าสู่ระบบ...".
Definition button_idle : string := "เข้าสู่ระบบ".

Record LoginView := mkLoginView { lv_error : option string; lv_disabled : bool; lv_button : string }.

Definition view (st : LoginPage) : LoginView :=
  mkLoginView (if Js.truthy (error st) then Some (error st) else None) (loading st)
              (if loading st then button_busy else button_idle).

End LoginPage.

(** ** Properties *)

Section Requests.
Context `{Env} `{Hasher}.

(** [await fetch(route)] always settles: an exception in the handler is
    Next.js's error page. *)
Lemma fetch_route_returns {Req} (mk : Req -> Call) route req :
  returns (fun _ => True) (fetch_route mk route req).
Proof.
  unfold fetch_route. apply (returns_bind (fun _ => True)); [|intros ? _].
  - intros w. eexists _, _. split; [reflexivity|done].
  - apply returns_catch; [apply post_true|intros e; by apply returns_ret].
Qed.

Lemma register_POST_returns now req : returns (fun _ => True) (register_POST now req).
Proof. apply returns_catch; [apply post_true|intros e; by apply returns_ret]. Qed.

Lemma register_validate_truthy f e : register_validate f = Some e -> Js.truthy e = true.
Proof. unfold register_validate. repeat case_match; intros [= <-]; reflexivity. Qed.

(** What the registration page's request leaves for the page: success
    with the session cookie, or a non-empty error and no cookie. *)
Definition reg_result (r : RegOutcome * list CookieOp) : Prop :=
  match fst r with
  | RegSucceeded => snd r = [session_cookie]
  | RegFailed e => Js.truthy e = true /\ snd r = []
  end.

(** The same, or the handler suspended on a service worker that never
    becomes active. *)
Definition reg_settled (sw : ServiceWorker) (r : option (RegOutcome * list CookieOp)) : Prop :=
  match r with Some r => reg_result r | None => sw = SwNeverActive end.

Lemma register_after_outcome sw res :
  outcome (fun e => Js.truthy e = true) (reg_settled sw) (register_after sw res).
Proof.
  unfold register_after, response_json. destruct res as [st b| |];
    [|apply outcome_raise; reflexivity..].
  apply (outcome_bind _ (fun _ => True)); [by apply outcome_ret|intros data _].
  destruct (ok _); [|apply outcome_raise, Js.or_default_truthy; reflexivity].
  destruct sw as [|subscribed|]; [by apply outcome_ret| |by apply outcome_ret].
  apply (outcome_bind _ (fun _ => True)); [|intros _ _; by apply outcome_ret].
  destruct subscribed; [|by apply outcome_ret].
  apply returns_outcome, (returns_bind (fun _ => True)); [apply fetch_route_returns|intros ? _; by apply returns_ret].
Qed.

Lemma register_submit_returns now sw f : returns (reg_settled sw) (register_submit now sw f).
Proof.
  unfold register_submit. apply (returns_catch_outcome (fun e => Js.truthy e = true)).
  - destruct (register_validate f) as [e|] eqn:Hv; [by apply outcome_raise, (register_validate_truthy f)|].
    apply (outcome_bind _ (fun _ => True)); [apply returns_outcome, register_POST_returns|].
    intros res _. apply register_after_outcome.
  - intros e He. by apply returns_ret.
Qed.

(** The login route's answer: 200 with [{ success: true }] and the
    session cookie, or a non-2xx answer with an error and no cookie. *)
Definition login_answer (r : Response * list CookieOp) : Prop :=
  if ok (fst r) then r = (Json 200 success_body, [session_cookie])
  else snd r = [] /\ exists st msg, fst r = Json st (error_body msg).

Lemma login_POST_answer req : post login_answer (login_POST req).
Proof.
  unfold login_POST, find_unique.
  repeat (post_step || (cbn [login_answer fst snd ok]; first [reflexivity | split; [reflexivity|eexists _, _; reflexivity]])).
Qed.

(** The login page's request reads the database and changes nothing. *)
Lemma login_submit_reads u p : preserves eq (login_submit u p).
Proof. unfold login_submit, login_POST, find_unique, response_json. repeat preserves_step. Qed.

(** What the login page's request leaves for the page: navigation with
    the session cookie, or a non-empty error and no cookie. *)
Definition login_result (r : option string * list CookieOp) : Prop :=
  match fst r with
  | None => snd r = [session_cookie]
  | Some e => Js.truthy e = true /\ snd r = []
  end.

Lemma login_submit_returns u p : returns login_result (login_submit u p).
Proof.
  unfold login_submit. apply returns_catch; [|intros e; by apply returns_ret].
  apply (post_bind_with login_answer); [apply login_POST_answer|intros [r ops] Hr].
  unfold login_answer in Hr. cbn [fst snd] in *. destruct (ok r) eqn:Hok.
  - injection Hr as -> ->. by apply post_ret.
  - destruct Hr as (-> & st & msg & ->). apply post_ret. cbn in Hok |- *.
    split; [apply (Js.or_default_truthy (Some msg)); reflexivity|reflexivity].
Qed.

End Requests.

(** *** The registration page's event machine *)

Lemma event_inv ev p p' :
  RegisterPage.page_inv p -> RegisterPage.event ev p = Some p' -> RegisterPage.page_inv p'.
Proof.
  destruct p as [st busy]. unfold RegisterPage.page_inv. cbn. intros [Hb Hs] E.
  destruct ev as [x v| |[e|]| | |], busy; cbn in E; repeat case_match; simplify_eq/=;
    try specialize (Hb eq_refl); intuition congruence.
Qed.

Lemma run_inv evs p p' :
  RegisterPage.page_inv p -> RegisterPage.run evs p = Some p' -> RegisterPage.page_inv p'.
Proof.
  revert p. induction evs as [|ev evs IH]; intros p Hp E; cbn in E; [by simplify_eq|].
  destruct (RegisterPage.event ev p) as [p1|] eqn:E1; [|done]. eauto using event_inv.
Qed.

(** [handleSubmit] on an enabled form is the machine's [Submit] followed
    by the [Settle] of its request's outcome. *)
Lemma handleSubmit_events `{Env} `{Hasher} now sw st w st' ops w' :
  RegisterPage.loading st = false ->
  RegisterPage.handleSubmit now sw st w = (inr (Some (st', ops)), w') ->
  exists o, RegisterPage.run [RegisterPage.Submit; RegisterPage.Settle o] (st, false) = Some (st', false).
Proof.
  intros Hl. unfold RegisterPage.handleSubmit. rewrite st_bind_run.
  destruct (register_submit _ _ _ w) as [[e|[[o ops0]|]] w1]; [done| |done]. intros [= <- _ _].
  exists o. cbn. by rewrite ?Hl.
Qed.

(** While a submission is in flight and never settles, no control of the
    page re-enables the form: the inputs and the submit button are
    disabled, and the social buttons set [loading] themselves. *)
Lemma run_unsettled evs st p :
  RegisterPage.loading st = true -> RegisterPage.run evs (st, true) = Some p ->
  Forall (fun ev => forall o, ev <> RegisterPage.Settle o) evs ->
  RegisterPage.loading (fst p) = true /\ snd p = true.
Proof.
  revert st. induction evs as [|ev evs IH]; intros st Hl E Hs; cbn in E; [by simplify_eq|].
  inversion Hs as [|? ? Hev Hs']; subst.
  destruct ev as [x v| |o| | |]; cbn in E; rewrite ?Hl in E; try done;
    [by destruct (Hev o)|..]; (eapply IH; [|exact E|exact Hs']); done.
Qed.

Section Claims.
Context `{Env} `{Hasher}.

(** C12: the registration page's [handleSubmit] settles on every browser
    whose service worker, if it has one, becomes active: whatever the
    register and push routes answer, the form is enabled again and
    the page shows exactly one banner; on success the success banner
    (which announces the login page), an empty form, the session cookie
    and a redirect to [/] after 1.5 s; on failure a non-empty error, the
    form as typed, and no cookie. *)
Theorem register_handleSubmit_settles now sw st w :
  sw <> SwNeverActive ->
  exists st' ops w', RegisterPage.handleSubmit now sw st w = (inr (Some (st', ops)), w') /\
    let v := RegisterPage.view st' in
    RegisterPage.rv_disabled v = false /\ RegisterPage.rv_button v = RegisterPage.button_idle /\
    ((RegisterPage.rv_success v = Some RegisterPage.success_text /\ RegisterPage.rv_error v = None /\
      RegisterPage.rv_values v = RegisterPage.empty_form /\ RegisterPage.nav st' = HrefAfter 1500 "/" /\
      ops = [session_cookie]) \/
     (RegisterPage.rv_success v = None /\ RegisterPage.rv_error v = Some (RegisterPage.error st') /\
      RegisterPage.rv_values v = RegisterPage.formData st /\ RegisterPage.nav st' = RegisterPage.nav st /\
      ops = [])).
Proof.
  intros Hsw. destruct (register_submit_returns now sw (RegisterPage.formData st) w) as ([[o ops]|] & w' & E & Hr);
    [|by destruct (Hsw Hr)].
  unfold RegisterPage.handleSubmit. setoid_rewrite st_bind_run. cbn [RegisterPage.formData RegisterPage.submit_begin].
  rewrite E. eexists _, ops, w'. split; [reflexivity|].
  unfold reg_result in Hr. destruct o as [e|]; cbn in Hr |- *; (split; [done|split; [done|]]); [right|left].
  - destruct Hr as [He ->]. by rewrite He.
  - by subst ops.
Qed.

(** C13: the registration page hangs on a browser whose service worker
    never becomes active: a valid registration of a free username
    creates the user and then waits for ever on
    [navigator.serviceWorker.ready], without the subscription request or
    the session cookie; whatever the user then does on the page, no
    answer comes and the form stays disabled; and registering again
    (after a reload) is refused, the username being taken. *)
Theorem register_page_hangs now now' sw' st w :
  register_validate (RegisterPage.formData st) = None ->
  (forall k r, users w !! k = Some r -> username r <> Some (rf_username (RegisterPage.formData st))) ->
  exists w', RegisterPage.handleSubmit now SwNeverActive st w = (inr None, w') /\
    users w' = registered now (rf_username (RegisterPage.formData st)) (rf_password (RegisterPage.formData st)) (users w) /\
    subs w' = subs w /\ calls w' = calls w /\
    (forall evs p, RegisterPage.run evs (RegisterPage.submit_begin st, true) = Some p ->
       Forall (fun ev => forall o, ev <> RegisterPage.Settle o) evs ->
       RegisterPage.rv_disabled (RegisterPage.view (fst p)) = true /\ snd p = true) /\
    register_submit now' sw' (RegisterPage.formData st) w' = (inr (Some (RegFailed register_taken, [])), w').
Proof.
  intros Hv Hfresh. eexists. split.
  { unfold RegisterPage.handleSubmit. rewrite st_bind_run. cbn [RegisterPage.formData RegisterPage.submit_begin].
    rewrite (register_submit_suspends now _ w Hv Hfresh). reflexivity. }
  do 3 (split; [reflexivity|]). split.
  - intros evs p E Hs. exact (run_unsettled evs (RegisterPage.submit_begin st) p eq_refl E Hs).
  - eapply register_submit_taken; [exact Hv|apply lookup_insert_eq|reflexivity].
Qed.

(** C10: the login page's [handleLoginSubmit] always settles: on success
    it navigates to [/] with the session cookie the login route set,
    keeping the busy, disabled form; otherwise it shows a non-empty
    error, enables the form again and sets no cookie.  The database is
    not changed. *)
Theorem handleLoginSubmit_settles u p st w :
  exists st' ops, LoginPage.handleLoginSubmit u p st w = (inr (st', ops), w) /\
    let v := LoginPage.view st' in
    ((LoginPage.nav st' = Href "/" /\ LoginPage.lv_error v = None /\ LoginPage.lv_disabled v = true /\
      ops = [session_cookie]) \/
     (LoginPage.lv_error v = Some (LoginPage.error st') /\ LoginPage.lv_disabled v = false /\
      LoginPage.nav st' = LoginPage.nav st /\ ops = [])).
Proof.
  destruct (login_submit_returns u p w) as ([o ops] & w' & E & Hr).
  pose proof (login_submit_reads u p w) as Hw. rewrite E in Hw. cbn in Hw. subst w'.
  unfold LoginPage.handleLoginSubmit. setoid_rewrite st_bind_run. rewrite E.
  eexists _, ops. split; [reflexivity|].
  unfold login_result in Hr. destruct o as [e|]; cbn in Hr |- *; [right|left].
  - destruct Hr as [He ->]. by rewrite He.
  - by subst ops.
Qed.

(** C23: in every state the registration page reaches through the
    controls it leaves enabled, a submission in flight shows the busy
    form without banners, the error and success banners are never shown
    together, and the form can only be submitted when no submission is
    in flight. *)
Theorem register_page_safe evs p :
  RegisterPage.run evs (RegisterPage.initial, false) = Some p ->
  RegisterPage.page_inv p /\
  (RegisterPage.rv_error (RegisterPage.view (fst p)) = None \/ RegisterPage.rv_success (RegisterPage.view (fst p)) = None) /\
  (RegisterPage.event RegisterPage.Submit p <> None -> snd p = false).
Proof.
  intros E. assert (Hi : RegisterPage.page_inv p) by (apply (run_inv evs (RegisterPage.initial, false) p); [split; discriminate|exact E]).
  destruct p as [st busy]. split; [done|]. destruct Hi as [Hb Hs]; cbn in *. split.
  - destruct (RegisterPage.success st); [left; by rewrite Hs|by right].
  - destruct busy; [|done]. destruct (Hb eq_refl) as (-> & _). done.
Qed.

End Claims.

(** ** Witnesses *)

#[local] Existing Instance demo_env.
#[local] Existing Instance demo_hasher.

Definition demo_page : RegisterPage.RegisterPage :=
  RegisterPage.mkRegisterPage demo_form false EmptyString false Stay.

Lemma register_handleSubmit_settles_witness :
  SwActive true <> SwNeverActive /\
  exists st' ops w', RegisterPage.handleSubmit 100 (SwActive true) demo_page demo_world = (inr (Some (st', ops)), w') /\
    RegisterPage.rv_disabled (RegisterPage.view st') = false.
Proof.
  assert (Hsw : SwActive true <> SwNeverActive) by discriminate. split; [exact Hsw|].
  destruct (register_handleSubmit_settles 100 (SwActive true) demo_page demo_world Hsw) as (st' & ops & w' & E & Hd & _).
  exists st', ops, w'. split; [exact E|exact Hd].
Defined.

Lemma register_page_hangs_witness :
  register_validate demo_form = None /\
  (forall k r, users demo_world !! k = Some r -> username r <> Some (rf_username demo_form)) /\
  exists w', RegisterPage.handleSubmit 100 SwNeverActive demo_page demo_world = (inr None, w') /\
    register_submit 200 (SwActive true) demo_form w' = (inr (Some (RegFailed register_taken, [])), w').
Proof.
  assert (Hv : register_validate demo_form = None) by reflexivity.
  pose proof (demo_world_fresh (rf_username demo_form)) as Hfresh.
  split; [exact Hv|]. split; [exact Hfresh|].
  destruct (register_page_hangs 100 200 (SwActive true) demo_page demo_world Hv Hfresh) as (w' & E & _ & _ & _ & _ & Ht).
  exists w'. split; [exact E|exact Ht].
Defined.

(** A user fills in the form, submits it, the registration succeeds and
    the user follows the footer link. *)
Definition demo_events : list RegisterPage.Event :=
  [RegisterPage.Change RegisterPage.username "alice"; RegisterPage.Change RegisterPage.password "secret1";
   RegisterPage.Change RegisterPage.confirmPassword "secret1"; RegisterPage.Submit;
   RegisterPage.Settle RegSucceeded; RegisterPage.LoginLink].

Lemma register_page_safe_witness :
  exists p, RegisterPage.run demo_events (RegisterPage.initial, false) = Some p /\
    RegisterPage.success (fst p) = true /\ RegisterPage.page_inv p.
Proof.
  eexists. split; [reflexivity|]. split; [reflexivity|].
  exact (proj1 (register_page_safe demo_events _ eq_refl)).
Defined.

End Pages.
