(* ===== verification/View.v ===== *)
(** * What the dashboard renders

    The JSX of [src/src/components/DashboardClient.tsx] (lines 160-671)
    as a function [render] of the component's state [Dispatch.DashState]:
    the notification banner, the three channel checkboxes with their
    [disabled] flags and count badges, the schedule input, the submit
    button, the select-all button and the "selected n / m" counter, one
    row per listed user (checkbox, avatar, name, address, channel
    badges), and the logout modal with its texts and its three click
    targets.  The theorems relate what the page
    shows to what a submission sends and to the selection the handlers
    keep. *)

From S2P Require Import Prelude Js Directory Server Dispatch System Auth.

Open Scope string_scope.
Open Scope js_scope.
Open Scope list_scope.

Module View.
Import Directory Server Dispatch Auth.

(** ** The rendered page *)

(** A channel checkbox: [checked={channels.x}], [disabled={xCount === 0}],
    and the badge [{xCount > 0 && <span>(xCount คน)</span>}]. *)
Record ChannelView := mkChannelView { cv_checked : bool; cv_disabled : bool; cv_count : option nat }.

Definition count_badge (n : nat) : option nat := if Nat.ltb 0 n then Some n else None.

Definition channel_view (checked : bool) (count : nat) : ChannelView :=
  mkChannelView checked (Nat.eqb count 0) (count_badge count).

(** The badges of a user row, in the order of the JSX. *)
Inductive Badge := BadgeEmail | BadgeLine | BadgePush | BadgeNoChannel.

Definition badges (u : User) : list Badge :=
  (if u_canReceiveEmail u then [BadgeEmail] else []) ++
  (if u_canReceiveLine u then [BadgeLine] else []) ++
  (if u_canReceivePush u then [BadgePush] else []) ++
  (if negb (u_canReceiveEmail u) && negb (u_canReceiveLine u) && negb (u_canReceivePush u)
   then [BadgeNoChannel] else []).

(** [a || b] of two nullable strings. *)
Definition or_opt (a b : option string) : option string := if Js.truthy_opt a then a else b.

(** [user.name || user.email || "?"], the avatar's [alt] text and the
    string whose first letter the placeholder shows. *)
Definition avatar_label (u : User) : string := Js.or_default (or_opt (u_name u) (u_email u)) "?".

(** [user.image ? <Image src alt/> : <span>{label.charAt(0).toUpperCase()}</span>];
    the placeholder is given by its label (the case mapping of its first
    character is not modelled). *)
Inductive Avatar := AvatarImage (src alt : string) | AvatarInitial (label : string).

Definition avatar (u : User) : Avatar :=
  match u_image u with
  | Some src => if Js.truthy src then AvatarImage src (avatar_label u) else AvatarInitial (avatar_label u)
  | None => AvatarInitial (avatar_label u)
  end.

(** A row of the recipient list: [key], [checked], the avatar,
    [{user.name || user.email}], [{user.email && <p>{user.email}</p>}]
    and the badges. *)
Record UserRow := mkUserRow {
  ur_key : string; ur_checked : bool; ur_avatar : Avatar; ur_name : option string;
  ur_email : option string; ur_badges : list Badge }.

Definition user_row (sel : list string) (u : User) : UserRow :=
  mkUserRow (u_id u) (Js.includes sel (u_id u)) (avatar u) (or_opt (u_name u) (u_email u))
            (if Js.truthy_opt (u_email u) then u_email u else None) (badges u).

Definition label_sending : string := "กำลังส่ง...".
Definition label_schedule : string := "จัดเวลาการแจ้งเตือน".
Definition label_send_now : string := "ส่งการแจ้งเตือนทันที".
Definition label_deselect_all : string := "ยกเลิกทั้งหมด".
Definition label_select_all : string := "เลือกทั้งหมด".

(** [{isScheduled && <input type="datetime-local" value={sendAt}/>}]. *)
Definition sendAt_input (s : DashState) : option string :=
  if d_isScheduled s then Some (d_sendAt s) else None.

(** The submit button: [disabled={loading}] and its label. *)
Definition submit_button (s : DashState) : bool * string :=
  (d_loading s,
   if d_loading s then label_sending else if d_isScheduled s then label_schedule else label_send_now).

(** The select-all button's label. *)
Definition selectAll_label (s : DashState) : string :=
  if Nat.eqb (List.length (d_selectedUsers s)) (List.length (d_users s))
  then label_deselect_all else label_select_all.

(** [เลือกแล้ว: {selectedUsers.length} / {users.length} คน]. *)
Definition counter (s : DashState) : nat * nat :=
  (List.length (d_selectedUsers s), List.length (d_users s)).

(** The logout modal's texts: title, question, hint and the two buttons. *)
Record ModalView := mkModalView {
  mv_title : string; mv_question : string; mv_hint : string;
  mv_confirm_label : string; mv_cancel_label : string }.

Definition logout_modal : ModalView := mkModalView
  "ยืนยันการออกจากระบบ" "คุณต้องการออกจากระบบใช่หรือไม่?"
  "ระบบจะนำคุณกลับไปยังหน้าเข้าสู่ระบบ" "ยืนยันออกจากระบบ" "ยกเลิก".

(** [{showLogoutModal && <div>...</div>}]. *)
Definition modal_view (s : DashState) : option ModalView :=
  if d_showLogoutModal s then Some logout_modal else None.

Record DashView := mkDashView {
  dv_banner : option Notification;
  dv_email : ChannelView; dv_line : ChannelView; dv_push : ChannelView;
  dv_sendAt_input : option string;
  dv_submit_disabled : bool; dv_submit_label : string;
  dv_selectAll_label : string;
  dv_counter : nat * nat;
  dv_rows : list UserRow;
  dv_logout_modal : option ModalView }.

Definition render (s : DashState) : DashView :=
  let users := d_users s in
  let sel := d_selectedUsers s in
  let c := d_channels s in
  mkDashView
    (d_notification s)
    (channel_view (ch_email c) (emailCount users sel))
    (channel_view (ch_line c) (lineCount users sel))
    (channel_view (ch_push c) (pushCount users sel))
    (sendAt_input s)
    (fst (submit_button s)) (snd (submit_button s))
    (selectAll_label s)
    (counter s)
    (map (user_row sel) users)
    (modal_view s).

(** The modal's confirm button: [setShowLogoutModal(false)], then the
    server action [logoutAction()] (its redirect and cookie operations). *)
Definition confirm_logout (s : DashState) : DashState * (ActionResult * list CookieOp) :=
  (ui_step CloseLogoutModal s, logoutAction).

(** The modal's three click targets: the backdrop, the confirm and the
    cancel button; the server action a click runs, if any. *)
Inductive ModalClick := ClickBackdrop | ClickConfirm | ClickCancel.

Definition modal_click (b : ModalClick) (s : DashState) :
    DashState * option (ActionResult * list CookieOp) :=
  match b with
  | ClickBackdrop | ClickCancel => (ui_step CloseLogoutModal s, None)
  | ClickConfirm => let '(s', a) := confirm_logout s in (s', Some a)
  end.

(** ** Lemmas *)

(** A click in the modal closes it and changes nothing else of the page;
    only the confirm button runs [logoutAction], which deletes the session
    cookie whatever it held, after which the gate sends the dashboard to
    [/login]. *)
Lemma modal_click_spec b s c :
  render (fst (modal_click b s)) =
    (let v := render s in
     mkDashView (dv_banner v) (dv_email v) (dv_line v) (dv_push v) (dv_sendAt_input v)
       (dv_submit_disabled v) (dv_submit_label v) (dv_selectAll_label v) (dv_counter v)
       (dv_rows v) None) /\
  match snd (modal_click b s) with
  | None => b <> ClickConfirm
  | Some (r, ops) =>
      b = ClickConfirm /\ r = ActRedirect "/login" /\ apply_cookies c ops = None /\
      gate (apply_cookies c ops) "/" = MwRedirect "/login"
  end.
Proof. by destruct b. Qed.

(** The page's projection flags a user for LINE exactly when the LINE id
    is truthy. *)
Definition line_flag_ok (u : User) : Prop := u_canReceiveLine u = Js.truthy_opt (u_lineUserId u).

Lemma formatUser_line_flag r : line_flag_ok (formatUser r).
Proof. reflexivity. Qed.

Lemma Home_line_flags rows : Forall line_flag_ok (Home rows).
Proof. unfold Home. apply Forall_map, Forall_forall. intros r _. apply formatUser_line_flag. Qed.

Lemma truthy_id_flag u : line_flag_ok u -> u_canReceiveLine u = true -> is_Some (truthy_id (u_lineUserId u)).
Proof.
  unfold line_flag_ok. intros ->. destruct (u_lineUserId u) as [l|]; [|done]. cbn.
  intros ->. by eexists.
Qed.

Lemma lineCount_targets users sel :
  Forall line_flag_ok users -> lineCount users sel = List.length (targetLineIds users sel).
Proof.
  intros Hf. unfold lineCount, selectedUsersList, targetLineIds. rewrite filter_filter_bool.
  induction users as [|u us IH]; [done|]. inversion Hf as [|? ? Hu Hus]; subst.
  cbn. destruct (selected sel u && u_canReceiveLine u) eqn:E; cbn; [|by apply IH].
  apply andb_prop in E as [_ E]. destruct (truthy_id_flag u Hu E) as [l ->]. cbn. by rewrite IH.
Qed.

Lemma filter_map_length {A B} (f : A -> B) (p : B -> bool) (l : list A) :
  List.length (List.filter p (map f l)) = List.length (List.filter (fun x => p (f x)) l).
Proof. induction l as [|x l IH]; cbn; [done|]. destruct (p (f x)); cbn; by rewrite IH. Qed.

(** With the selection invariant, the rows that are checked are as many
    as the selected ids. *)
Lemma checked_rows_length s :
  ids_distinct s -> sel_wf s ->
  List.length (List.filter ur_checked (map (user_row (d_selectedUsers s)) (d_users s))) =
  List.length (d_selectedUsers s).
Proof.
  intros Hd [Hnd Hinc]. rewrite filter_map_length. cbn [ur_checked user_row].
  rewrite <- (filter_map_length u_id (Js.includes (d_selectedUsers s))).
  apply Permutation_length, Permutation.NoDup_Permutation; [by apply List.NoDup_filter|done|].
  intros x. rewrite filter_In, includes_In. split; [tauto|]. intros Hx. split; [by apply Hinc|done].
Qed.

(** ** Event sequences *)

Lemma ui_run_reachable users evs s :
  reachable users s -> events_ok evs s -> reachable users (ui_run evs s).
Proof.
  revert s. induction evs as [|e es IH]; intros s Hr Hok; [done|].
  destruct Hok as [He Hes]. apply IH; [by apply reach_event|done].
Qed.

(** The rows are checked exactly when every listed id is selected. *)
Lemma rows_all_checked sel users :
  Forall (fun r => ur_checked r = true) (map (user_row sel) users) <-> incl (map u_id users) sel.
Proof.
  rewrite Forall_map, List.Forall_forall. cbn [ur_checked user_row]. split.
  - intros H x (u & <- & Hu)%in_map_iff. apply includes_In, H, Hu.
  - intros H u Hu. apply includes_In, H, in_map, Hu.
Qed.

(** ** Properties *)

(** C35: what the channel checkboxes show is what a submission sends: on
    the page's own listing, each channel's badge counts the recipients a
    submission addresses on it (the e-mail requests, the ids of the LINE
    multicast, the push requests), and a checkbox is disabled exactly
    when its list is empty. *)
Theorem render_counts_sent rows s :
  d_users s = Home rows ->
  let v := render s in
  let email := targetGoogleUsers (d_users s) (d_selectedUsers s) in
  let push := targetPushUsers (d_users s) (d_selectedUsers s) in
  cv_count (dv_email v) = count_badge (List.length email) /\
  cv_count (dv_line v) = count_badge (List.length (lineIds s)) /\
  cv_count (dv_push v) = count_badge (List.length push) /\
  (cv_disabled (dv_email v) = true <-> email = []) /\
  (cv_disabled (dv_line v) = true <-> lineIds s = []) /\
  (cv_disabled (dv_push v) = true <-> push = []).
Proof.
  intros Hu. cbn zeta. unfold render, channel_view, lineIds. cbn [cv_count cv_disabled dv_email dv_line dv_push].
  rewrite emailCount_targets, pushCount_targets, lineCount_targets by (rewrite Hu; apply Home_line_flags).
  rewrite !Nat.eqb_eq, !length_zero_iff_nil. done.
Qed.

(** C32: in every state the dashboard reaches from the page's listing of
    a well-keyed table, the select-all button offers "deselect all"
    exactly when every row is checked, and the counter "selected n / m"
    shows the number of checked rows out of the number of rows. *)
Theorem render_selection_consistent m s :
  users_wf m -> reachable (Home (map snd (map_to_list m))) s ->
  let v := render s in
  (dv_selectAll_label v = label_deselect_all <-> Forall (fun r => ur_checked r = true) (dv_rows v)) /\
  fst (dv_counter v) = List.length (List.filter ur_checked (dv_rows v)) /\
  snd (dv_counter v) = List.length (dv_rows v) /\
  fst (dv_counter v) <= snd (dv_counter v).
Proof.
  intros Hwf Hr. destruct (reachable_sel_wf _ _ (System.Home_ids_distinct m Hwf) Hr) as [Hu Hw].
  assert (Hd : ids_distinct s) by (unfold ids_distinct; rewrite Hu; apply System.Home_ids_distinct, Hwf).
  cbn zeta. unfold render, selectAll_label, counter. cbn [dv_selectAll_label dv_rows dv_counter fst snd].
  rewrite rows_all_checked, <- (all_selected_length s Hd Hw), checked_rows_length, length_map by done.
  split; [|split; [done|split; [done|]]].
  - destruct (Nat.eqb_spec (List.length (d_selectedUsers s)) (List.length (d_users s))); [done|].
    split; [discriminate|done].
  - destruct Hw as [Hnd Hinc]. rewrite <- (length_map u_id (d_users s)). by apply NoDup_incl_length.
Qed.

(** C15: a checked channel outlives its recipients: the channel
    checkboxes are disabled when no selected user can receive on them but
    keep their [checked] value, and [handleSubmit] checks only that some
    channel is checked.  With e-mail the only checked channel and its
    checkbox disabled, a valid submission makes no request at all and
    reports that the notification was sent. *)
Theorem stale_channel_reports_sent `{Routes} s w :
  validate s = None -> ch_line (d_channels s) = false -> ch_push (d_channels s) = false ->
  cv_disabled (dv_email (render s)) = true ->
  handleSubmit s w = (inr (succeeded s), w) /\
  d_notification (succeeded s) = Some (mkNotification NoticeSuccess (if d_isScheduled s then ok_scheduled else ok_sent)).
Proof.
  intros Hv Hl Hp Hd. split; [|done].
  cbn [render dv_email channel_view cv_disabled] in Hd. apply Nat.eqb_eq in Hd.
  rewrite emailCount_targets in Hd.
  unfold handleSubmit, st_catch, submit_try, send_line, send_email, send_push.
  rewrite Hv, Hl, Hp, Hd. by destruct (ch_email (d_channels s)).
Qed.

(** ** Witnesses, on the demonstration table *)

Definition demo_listing : list User := Home (map snd (map_to_list (users demo_world))).

(** The operator selects users 1 and 2. *)
Definition demo_selected : DashState :=
  ui_run [ToggleUser "1"; ToggleUser "2"] (initial demo_listing).

(** The operator types a message, selects user 1 (who can receive
    e-mail), checks E-mail, then moves the selection to user 2 (who
    cannot). *)
Definition stale_dash : DashState :=
  ui_run [TypeMessage "hello"; ToggleUser "1"; CheckEmail true; ToggleUser "1"; ToggleUser "2"]
         (initial demo_listing).

Lemma demo_selected_reachable : reachable demo_listing demo_selected.
Proof. apply ui_run_reachable; [constructor|]. vm_compute. intuition. Qed.

Lemma render_counts_sent_witness :
  d_users demo_selected = Home (map snd (map_to_list (users demo_world))) /\
  cv_count (dv_email (render demo_selected)) = Some 1.
Proof.
  assert (Hu : d_users demo_selected = Home (map snd (map_to_list (users demo_world)))) by reflexivity.
  split; [exact Hu|]. rewrite (proj1 (render_counts_sent _ demo_selected Hu)). reflexivity.
Defined.

Lemma render_selection_consistent_witness :
  users_wf (users demo_world) /\ reachable demo_listing demo_selected /\
  dv_counter (render demo_selected) = (2, 3) /\
  List.length (List.filter ur_checked (dv_rows (render demo_selected))) = 2.
Proof.
  assert (Hwf : users_wf (users demo_world))
    by (apply (bool_decide_unpack (users_wf (users demo_world))); vm_compute; exact I).
  split; [exact Hwf|]. split; [exact demo_selected_reachable|]. split; [reflexivity|].
  rewrite <- (proj1 (proj2 (render_selection_consistent _ demo_selected Hwf demo_selected_reachable))).
  reflexivity.
Defined.

Lemma stale_channel_reports_sent_witness :
  reachable demo_listing stale_dash /\
  cv_checked (dv_email (render stale_dash)) = true /\
  @handleSubmit (stub_routes 200) stale_dash demo_world = (inr (succeeded stale_dash), demo_world) /\
  d_notification (succeeded stale_dash) = Some (mkNotification NoticeSuccess ok_sent).
Proof.
  split; [apply ui_run_reachable; [constructor|]; vm_compute; intuition|].
  split; [reflexivity|].
  exact (@stale_channel_reports_sent (stub_routes 200) stale_dash demo_world
           eq_refl eq_refl eq_refl eq_refl).
Defined.

End View.
