(* ===== verification/Supabase.v ===== *)
(** * The Supabase client module

    [src/src/lib/supabase.ts]: at its top level the module reads three
    environment variables and builds two clients with supabase-js's
    [createClient]: [supabase] with the public anon key and
    [supabaseAdmin] with the service-role key.  No file of the
    repository imports it.  [createClient] is a library the module only
    calls; it is the typeclass [SupabaseJs], and its documented refusal
    of a missing key is a hypothesis of the theorems that use it.  Where
    the module is evaluated decides what [process.env] holds: on the
    server every variable, in a browser bundle only the [NEXT_PUBLIC_]
    ones, which Next.js inlines at build time. *)

From S2P Require Import Prelude Js.

Open Scope string_scope.

Module Supabase.

(** supabase-js's [createClient(url, key)]: a client, or the message of
    the error it throws. *)
Class SupabaseJs := {
  Client : Type;
  createClient : option string -> option string -> string + Client;
}.

Definition NEXT_PUBLIC_SUPABASE_URL : string := "NEXT_PUBLIC_SUPABASE_URL".
Definition NEXT_PUBLIC_SUPABASE_ANON_KEY : string := "NEXT_PUBLIC_SUPABASE_ANON_KEY".
Definition SUPABASE_SERVICE_ROLE_KEY : string := "SUPABASE_SERVICE_ROLE_KEY".

(** The module's top level, in order; a throw aborts the import.  The
    non-null assertions [!] check nothing at run time, so an unset
    variable reaches [createClient] as [undefined]. *)
Definition module_eval `{SupabaseJs} (env : Js.ProcessEnv) : string + (Client * Client) :=
  let supabaseUrl := env NEXT_PUBLIC_SUPABASE_URL in
  let supabaseAnonKey := env NEXT_PUBLIC_SUPABASE_ANON_KEY in
  match createClient supabaseUrl supabaseAnonKey with
  | inl e => inl e
  | inr supabase =>
      let supabaseServiceKey := env SUPABASE_SERVICE_ROLE_KEY in
      match createClient supabaseUrl supabaseServiceKey with
      | inl e => inl e
      | inr supabaseAdmin => inr (supabase, supabaseAdmin)
      end
  end.

(** Next.js's build: in a browser bundle [process.env.X] is the value of
    [X] when [X] starts with [NEXT_PUBLIC_], and [undefined] otherwise. *)
Definition is_public (name : string) : bool := String.prefix "NEXT_PUBLIC_" name.

Definition browser_env (env : Js.ProcessEnv) : Js.ProcessEnv :=
  fun name => if is_public name then env name else None.

(** [env] with one variable set to [v]. *)
Definition env_set (env : Js.ProcessEnv) (name : string) (v : option string) : Js.ProcessEnv :=
  fun n => if String.eqb n name then v else env n.

(** ** Properties *)

Lemma service_key_private : is_public SUPABASE_SERVICE_ROLE_KEY = false.
Proof. reflexivity. Qed.

(** The module reads [process.env] only through the values it holds. *)
Lemma module_eval_ext `{SupabaseJs} env1 env2 :
  (forall n, env1 n = env2 n) -> module_eval env1 = module_eval env2.
Proof. intros E. unfold module_eval. by rewrite !E. Qed.

Section Claims.
Context `{SupabaseJs}.

(** C27: the service-role key never reaches a browser: what the module
    evaluates to in a browser bundle does not depend on the value of
    [SUPABASE_SERVICE_ROLE_KEY]: the admin client is built there with
    an [undefined] key.  When supabase-js refuses a missing
    key, importing the module in a browser always throws, so the public
    client cannot be used from client code either. *)
Theorem supabase_key_isolation env v :
  module_eval (browser_env (env_set env SUPABASE_SERVICE_ROLE_KEY v)) = module_eval (browser_env env) /\
  module_eval (browser_env env) =
    match createClient (env NEXT_PUBLIC_SUPABASE_URL) (env NEXT_PUBLIC_SUPABASE_ANON_KEY) with
    | inl e => inl e
    | inr c => match createClient (env NEXT_PUBLIC_SUPABASE_URL) None with
               | inl e => inl e | inr a => inr (c, a) end
    end /\
  ((forall url, exists e, createClient url None = inl e) ->
   exists e, module_eval (browser_env env) = inl e).
Proof.
  split.
  { apply module_eval_ext. intros n. unfold browser_env, env_set.
    destruct (String.eqb_spec n SUPABASE_SERVICE_ROLE_KEY) as [->|]; [by rewrite service_key_private|done]. }
  assert (E : module_eval (browser_env env) =
    match createClient (env NEXT_PUBLIC_SUPABASE_URL) (env NEXT_PUBLIC_SUPABASE_ANON_KEY) with
    | inl e => inl e
    | inr c => match createClient (env NEXT_PUBLIC_SUPABASE_URL) None with
               | inl e => inl e | inr a => inr (c, a) end
    end) by reflexivity.
  split; [exact E|]. intros Hreq. rewrite E.
  destruct (createClient _ _) as [e|c]; [by exists e|].
  destruct (Hreq (env NEXT_PUBLIC_SUPABASE_URL)) as [e ->]. by exists e.
Qed.

End Claims.

(** ** Witness: a library that refuses a missing key, as supabase-js does *)

Definition demo_supabase : SupabaseJs := {|
  Client := string * string;
  createClient url key :=
    match url, key with
    | Some u, Some k => if Nat.eqb (String.length k) 0 then inl "supabaseKey is required." else inr (u, k)
    | None, _ => inl "supabaseUrl is required."
    | _, None => inl "supabaseKey is required."
    end;
|}.

Definition demo_process_env : Js.ProcessEnv := fun n =>
  if String.eqb n NEXT_PUBLIC_SUPABASE_URL then Some "https://x.supabase.co"
  else if String.eqb n NEXT_PUBLIC_SUPABASE_ANON_KEY then Some "anon"
  else if String.eqb n SUPABASE_SERVICE_ROLE_KEY then Some "service"
  else None.

Lemma supabase_key_isolation_witness :
  (forall url, exists e, @createClient demo_supabase url None = inl e) /\
  @module_eval demo_supabase demo_process_env =
    inr (("https://x.supabase.co", "anon"), ("https://x.supabase.co", "service")) /\
  exists e, @module_eval demo_supabase (browser_env demo_process_env) = inl e.
Proof.
  assert (Hreq : forall url, exists e, @createClient demo_supabase url None = inl e).
  { intros [u|]; eexists; reflexivity. }
  split; [exact Hreq|]. split; [reflexivity|].
  exact (proj2 (proj2 (@supabase_key_isolation demo_supabase demo_process_env None)) Hreq).
Defined.

End Supabase.
